(** * THE64 gamepad mapping tool: a shallow embedding of its core

    Sources embedded here: [gamepad_guid.c] (the stand-alone identity
    tool) and [gamepad_map.c] (the mapping wizard).  C [int]s are
    integers of [Z]; raw evdev codes, which the kernel declares as
    unsigned 16-bit values and which the sources use as array indices,
    are [nat]; fixed-size C arrays are lists read with [!!] and written
    with [<[i:=v]>]; character buffers are [string]s.  An access outside
    an array or a write past the end of a character buffer has no defined
    behaviour in C: the functions that can perform one return [option]
    and answer [None] there. *)

From Stdlib Require Import ZArith Lia Ascii String List Bool.
From stdpp Require Import base option list strings gmap.

Local Open Scope string_scope.
Local Open Scope Z_scope.

(** ** linux/input.h and input-event-codes.h *)

Definition EV_KEY : nat := 1.
Definition EV_ABS : nat := 3.
Definition EV_MAX : nat := 31.

Definition KEY_MAX : nat := 767.        (* 0x2ff *)
Definition BTN_MISC : nat := 256.       (* 0x100 *)
Definition BTN_JOYSTICK : nat := 288.   (* 0x120 *)
Definition BTN_GAMEPAD : nat := 304.    (* 0x130 *)

Definition ABS_X : nat := 0.
Definition ABS_Y : nat := 1.
Definition ABS_HAT0X : nat := 16.       (* 0x10 *)
Definition ABS_HAT3Y : nat := 23.       (* 0x17 *)
Definition ABS_MAX : nat := 63.         (* 0x3f *)

(** [struct input_id]: four [__u16] fields. *)
Record input_id := mk_input_id {
  bustype : Z;
  vendor : Z;
  product : Z;
  version : Z
}.

(** ** GUID construction ([build_guid], identical in both sources) *)

(** [s[i]] on a character array. *)
Definition char_at (s : string) (i : Z) : ascii :=
  match String.get (Z.to_nat i) s with
  | Some c => c
  | None => Ascii.zero
  end.

Definition hex : string := "0123456789abcdef".

(** The sixteen assignments to [guid[0..15]]. *)
Definition guid_bytes (id : input_id) : list Z :=
  [ Z.land (bustype id) 255; Z.land (Z.shiftr (bustype id) 8) 255; 0; 0;
    Z.land (vendor id) 255;  Z.land (Z.shiftr (vendor id) 8) 255;  0; 0;
    Z.land (product id) 255; Z.land (Z.shiftr (product id) 8) 255; 0; 0;
    Z.land (version id) 255; Z.land (Z.shiftr (version id) 8) 255; 0; 0 ].

(** The loop [for (i = 0; i < 16; i++)] writing [guid_str[2i]] and
    [guid_str[2i+1]], then the terminating NUL. *)
Fixpoint guid_loop (guid : list Z) : string :=
  match guid with
  | [] => EmptyString
  | g :: rest =>
      String (char_at hex (Z.shiftr g 4))
        (String (char_at hex (Z.land g 15)) (guid_loop rest))
  end.

Definition build_guid (id : input_id) : string :=
  guid_loop (guid_bytes id).

(** *** The layout as the specification words it *)

Definition is_u16 (v : Z) : Prop := 0 <= v < 65536.

Definition is_byte (g : Z) : Prop := 0 <= g < 256.

Definition le16 (v : Z) : list Z := [v mod 256; v / 256].

Definition guid_layout (b v p r : Z) : list Z :=
  le16 b ++ [0; 0] ++ le16 v ++ [0; 0] ++ le16 p ++ [0; 0] ++ le16 r ++ [0; 0].

(** A digit value 0..15 as a lowercase hexadecimal character. *)
Definition lower_hex_digit (d : Z) : ascii :=
  if d <? 10 then ascii_of_nat (Z.to_nat (48 + d))
  else ascii_of_nat (Z.to_nat (87 + d)).

Fixpoint render_hex (bytes : list Z) : string :=
  match bytes with
  | [] => EmptyString
  | b :: rest =>
      String (lower_hex_digit (b / 16))
        (String (lower_hex_digit (b mod 16)) (render_hex rest))
  end.

Definition is_lower_hex (c : ascii) : bool :=
  let n := Z.of_nat (nat_of_ascii c) in
  ((48 <=? n) && (n <=? 57)) || ((97 <=? n) && (n <=? 102)).

Fixpoint string_forall (p : ascii -> bool) (s : string) : bool :=
  match s with
  | EmptyString => true
  | String c r => p c && string_forall p r
  end.

(** ** Capability bit-fields *)

(** [sizeof(long) * 8] on the documented target, [arm-linux-gnueabihf]. *)
Definition BITS_PER_LONG : nat := 32.

Definition NBITS (x : nat) : nat := ((x - 1) / BITS_PER_LONG + 1)%nat.

(** [TEST_BIT(bit, array)]: the array is a list of [unsigned long] words.
    Every buffer is zeroed with [memset] before the ioctl fills it, so a
    word the kernel did not write reads as 0. *)
Definition TEST_BIT (bit : nat) (a : list Z) : bool :=
  negb (Z.land (Z.shiftr (nth (bit / BITS_PER_LONG)%nat a 0)
                         (Z.of_nat (bit mod BITS_PER_LONG))) 1 =? 0).

(** [struct input_absinfo], the two fields the sources read. *)
Record input_absinfo := mk_absinfo {
  minimum : Z;
  maximum : Z
}.

(** What the evdev ioctls of one open device node answer; [None] is an
    ioctl that returns a negative value. *)
Record Device := mk_device {
  dev_evbits : option (list Z);            (* EVIOCGBIT(0, ...) *)
  dev_absbits : option (list Z);           (* EVIOCGBIT(EV_ABS, ...) *)
  dev_keybits : option (list Z);           (* EVIOCGBIT(EV_KEY, ...) *)
  dev_id : option input_id;                (* EVIOCGID *)
  dev_name : option string;                (* EVIOCGNAME *)
  dev_absinfo : nat -> option input_absinfo (* EVIOCGABS(i) *)
}.

(** The buffer after [memset(buf, 0, ...); ioctl(fd, EVIOCGBIT(...), buf)]
    when the result of the ioctl is not looked at. *)
Definition bits_or_zero (r : option (list Z)) : list Z :=
  match r with Some w => w | None => [] end.

(** [for (i = from; i < from + len; i++) if (TEST_BIT(i, bits)) return 1;] *)
Definition any_bit (from len : nat) (bits : list Z) : bool :=
  existsb (fun i => TEST_BIT i bits) (seq from len).

(** [is_gamepad], the same in both sources. *)
Definition is_gamepad (d : Device) : bool :=
  match dev_evbits d with
  | None => false
  | Some evbits =>
      if TEST_BIT EV_ABS evbits
         && match dev_absbits d with
            | Some absbits => TEST_BIT ABS_X absbits && TEST_BIT ABS_Y absbits
            | None => false
            end
      then true
      else if TEST_BIT EV_KEY evbits then
        match dev_keybits d with
        | Some keybits =>
            if any_bit BTN_JOYSTICK 16 keybits then true
            else if any_bit BTN_GAMEPAD 16 keybits then true
            else false
        | None => false
        end
      else false
  end.

(** *** The classification as the specification words it *)

Definition reports_abs (d : Device) (code : nat) : Prop :=
  exists evbits absbits,
    dev_evbits d = Some evbits /\ TEST_BIT EV_ABS evbits = true /\
    dev_absbits d = Some absbits /\ TEST_BIT code absbits = true.

Definition reports_key (d : Device) (code : nat) : Prop :=
  exists evbits keybits,
    dev_evbits d = Some evbits /\ TEST_BIT EV_KEY evbits = true /\
    dev_keybits d = Some keybits /\ TEST_BIT code keybits = true.

Definition in_joystick_range (code : nat) : Prop :=
  (BTN_JOYSTICK <= code < BTN_JOYSTICK + 16)%nat.

Definition in_gamepad_range (code : nat) : Prop :=
  (BTN_GAMEPAD <= code < BTN_GAMEPAD + 16)%nat.

(** ** Machine integers *)

(** Device-supplied values ([input_absinfo] bounds, event values) are
    [__s32]; sums, differences and products of them are taken with
    two's-complement wrap-around.  In C an overflow of these signed
    operations is undefined, and an optimising build may compute
    something else; the embedding is exact wherever no operation
    overflows, which for the threshold [range * 2 / 5] means every range
    up to 1073741823.  Counters and table indices never leave the array
    sizes and are plain integers. *)
Definition wrap_int (z : Z) : Z := (z + 2147483648) mod 4294967296 - 2147483648.

Definition int_add (a b : Z) : Z := wrap_int (a + b).
Definition int_sub (a b : Z) : Z := wrap_int (a - b).
Definition int_mul (a b : Z) : Z := wrap_int (a * b).

(** C division truncates toward zero. *)
Definition int_div (a b : Z) : Z := Z.quot a b.

(** ** Controllers *)

Definition MAX_CONTROLLERS : Z := 8.
Definition MAX_PATH_LEN : nat := 512.
Definition MAX_NAME_LEN : nat := 256.
Definition MAX_DIR_ENTRIES : Z := 256.
Definition NUM_MAPPINGS : Z := 10.

(** [typedef struct { ... } Controller]. *)
Record Controller := mk_controller {
  c_fd : Z;
  c_path : string;
  c_name : string;
  c_guid : string;
  c_id : input_id;
  num_buttons : Z;
  num_axes : Z;
  num_hats : Z;
  btn_map : list Z;        (* int btn_map[KEY_MAX] *)
  abs_map : list Z;        (* int abs_map[ABS_MAX] *)
  hat_map : list Z;        (* int hat_map[ABS_MAX] *)
  axis_initial : list Z;   (* int axis_initial[ABS_MAX] *)
  axis_min : list Z;       (* int axis_min[ABS_MAX] *)
  axis_max : list Z        (* int axis_max[ABS_MAX] *)
}.

(** [memset(c, 0, sizeof *c)]: every field zero. *)
Definition zero_controller : Controller :=
  {| c_fd := 0; c_path := EmptyString; c_name := EmptyString; c_guid := EmptyString;
     c_id := mk_input_id 0 0 0 0;
     num_buttons := 0; num_axes := 0; num_hats := 0;
     btn_map := replicate KEY_MAX 0;
     abs_map := replicate ABS_MAX 0;
     hat_map := replicate ABS_MAX 0;
     axis_initial := replicate ABS_MAX 0;
     axis_min := replicate ABS_MAX 0;
     axis_max := replicate ABS_MAX 0 |}.

(** One iteration of either button loop:
    [if (TEST_BIT(i, keybits)) c->btn_map[i] = c->num_buttons++;]
    on the pair (table, counter). *)
Definition scan_button (keybits : list Z) (st : list Z * Z) (i : nat)
  : list Z * Z :=
  if TEST_BIT i keybits then (<[i := snd st]> (fst st), snd st + 1) else st.

(** [i >= ABS_HAT0X && i <= ABS_HAT3Y]. *)
Definition is_hat_code (i : nat) : bool :=
  (ABS_HAT0X <=? i)%nat && (i <=? ABS_HAT3Y)%nat.

(** The part of a controller the axis loop works on. *)
Record AxisTables := mk_axis_tables {
  t_num_axes : Z;
  t_num_hats : Z;
  t_abs_map : list Z;
  t_hat_map : list Z;
  t_axis_initial : list Z;
  t_axis_min : list Z;
  t_axis_max : list Z
}.

(** [memset(&absinfo, 0, ...); ioctl(c->fd, EVIOCGABS(i), &absinfo);] with
    the ioctl's result not looked at. *)
Definition read_absinfo (d : Device) (i : nat) : input_absinfo :=
  match dev_absinfo d i with
  | Some a => a
  | None => mk_absinfo 0 0
  end.

(** One iteration of the axis loop. *)
Definition scan_axis (d : Device) (absbits : list Z) (t : AxisTables) (i : nat)
  : AxisTables :=
  if negb (TEST_BIT i absbits) then t
  else
    let absinfo := read_absinfo d i in
    let amin := <[i := minimum absinfo]> (t_axis_min t) in
    let amax := <[i := maximum absinfo]> (t_axis_max t) in
    let ainit :=
      <[i := int_div (int_add (minimum absinfo) (maximum absinfo)) 2]>
        (t_axis_initial t) in
    if is_hat_code i then
      let h := Z.of_nat ((i - ABS_HAT0X) / 2) in
      {| t_num_axes := t_num_axes t;
         t_num_hats := if t_num_hats t <=? h then h + 1 else t_num_hats t;
         t_abs_map := t_abs_map t;
         t_hat_map := <[i := h]> (t_hat_map t);
         t_axis_initial := ainit; t_axis_min := amin; t_axis_max := amax |}
    else
      {| t_num_axes := t_num_axes t + 1;
         t_num_hats := t_num_hats t;
         t_abs_map := <[i := t_num_axes t]> (t_abs_map t);
         t_hat_map := t_hat_map t;
         t_axis_initial := ainit; t_axis_min := amin; t_axis_max := amax |}.

(** The two scan orders of the button loops:
    [BTN_JOYSTICK .. KEY_MAX-1], then [BTN_MISC .. BTN_JOYSTICK-1]. *)
Definition primary_button_codes : list nat :=
  seq BTN_JOYSTICK (KEY_MAX - BTN_JOYSTICK).

Definition misc_button_codes : list nat :=
  seq BTN_MISC (BTN_JOYSTICK - BTN_MISC).

Definition axis_codes : list nat := seq 0 ABS_MAX.

(** The two button loops, after [memset(c->btn_map, 0xFF, ...)] (every
    entry -1) and [c->num_buttons = 0]. *)
Definition enumerate_buttons (keybits : list Z) : list Z * Z :=
  fold_left (scan_button keybits) misc_button_codes
    (fold_left (scan_button keybits) primary_button_codes
       (replicate KEY_MAX (-1), 0)).

(** The tables before the axis loop: the counters and [axis_initial] are
    zeroed, [abs_map] and [hat_map] are filled with -1, [axis_min] and
    [axis_max] keep what the controller held. *)
Definition axis_tables_init (c : Controller) : AxisTables :=
  {| t_num_axes := 0; t_num_hats := 0;
     t_abs_map := replicate ABS_MAX (-1);
     t_hat_map := replicate ABS_MAX (-1);
     t_axis_initial := replicate ABS_MAX 0;
     t_axis_min := axis_min c;
     t_axis_max := axis_max c |}.

Definition enumerate_axes (d : Device) (c : Controller) : AxisTables :=
  fold_left (scan_axis d (bits_or_zero (dev_absbits d))) axis_codes
    (axis_tables_init c).

(** [enumerate_buttons_axes(c)], with [d] the device behind [c->fd]. *)
Definition enumerate_buttons_axes (d : Device) (c : Controller) : Controller :=
  let b := enumerate_buttons (bits_or_zero (dev_keybits d)) in
  let t := enumerate_axes d c in
  {| c_fd := c_fd c; c_path := c_path c; c_name := c_name c;
     c_guid := c_guid c; c_id := c_id c;
     num_buttons := snd b; num_axes := t_num_axes t;
     num_hats := t_num_hats t;
     btn_map := fst b; abs_map := t_abs_map t; hat_map := t_hat_map t;
     axis_initial := t_axis_initial t;
     axis_min := t_axis_min t; axis_max := t_axis_max t |}.

(** *** The numbering as the specification words it *)

(** The advertised button codes in scan order, and the advertised axis
    codes outside the hat sub-range in scan order. *)
Definition button_order (keybits : list Z) : list nat :=
  List.filter (fun i => TEST_BIT i keybits)
    (primary_button_codes ++ misc_button_codes)%list.

Definition axis_order (absbits : list Z) : list nat :=
  List.filter (fun i => TEST_BIT i absbits && negb (is_hat_code i)) axis_codes.

(** The index assignment of a controller. *)
Definition index_assignment (c : Controller)
  : Z * Z * Z * list Z * list Z * list Z :=
  (num_buttons c, num_axes c, num_hats c, btn_map c, abs_map c, hat_map c).

(** Numbering the codes that satisfy [p] in scan order: the common shape
    of the button loops and of the axis loop's [abs_map] part. *)
Definition number_code (p : nat -> bool) (st : list Z * Z) (i : nat)
  : list Z * Z :=
  if p i then (<[i := snd st]> (fst st), snd st + 1) else st.

Definition hat_of_code (code : nat) : Z := Z.of_nat ((code - ABS_HAT0X) / 2).

(** The numbering stated code by code, without the scan lists.
    [advertised_in bits lo hi] is the number of advertised codes from
    [lo] up to [hi - 1]. *)
Definition advertised_in (bits : list Z) (lo hi : nat) : nat :=
  length (List.filter (fun i => TEST_BIT i bits) (seq lo (hi - lo))).

(** The index of a button code: an advertised code of the
    joystick/gamepad range [BTN_JOYSTICK .. KEY_MAX - 1] is preceded by
    the advertised codes below it in that range; an advertised code of
    the misc range [BTN_MISC .. BTN_JOYSTICK - 1] by all advertised codes
    of the first range and by those below it in the misc range; any
    other code has none. *)
Definition button_index (keybits : list Z) (code : nat) : Z :=
  if negb (TEST_BIT code keybits) then -1
  else if (BTN_JOYSTICK <=? code)%nat && (code <? KEY_MAX)%nat then
    Z.of_nat (advertised_in keybits BTN_JOYSTICK code)
  else if (BTN_MISC <=? code)%nat && (code <? BTN_JOYSTICK)%nat then
    Z.of_nat (advertised_in keybits BTN_JOYSTICK KEY_MAX
              + advertised_in keybits BTN_MISC code)
  else -1.

(** The hat sub-range: four hats of two raw codes each, from
    [ABS_HAT0X]. *)
Definition in_hat_sub_range (code : nat) : bool :=
  (ABS_HAT0X <=? code)%nat && (code <? ABS_HAT0X + 2 * 4)%nat.

(** The number of advertised axis codes below [code] outside the hat
    sub-range. *)
Definition axes_below (absbits : list Z) (code : nat) : nat :=
  length (List.filter
            (fun i => TEST_BIT i absbits && negb (in_hat_sub_range i))
            (seq 0 code)).

Definition axis_index (absbits : list Z) (code : nat) : Z :=
  if TEST_BIT code absbits && negb (in_hat_sub_range code)
  then Z.of_nat (axes_below absbits code) else -1.

(** The hat of a code is its position in the hat sub-range, halved. *)
Definition hat_index (absbits : list Z) (code : nat) : Z :=
  if TEST_BIT code absbits && in_hat_sub_range code
  then Z.of_nat ((code - ABS_HAT0X) / 2) else -1.

(** ** The device namespace *)

(** What [snprintf(buf, sz, "%s", s)] leaves in a buffer of [sz] bytes:
    the first [sz - 1] characters of [s]. *)
Fixpoint take_str (n : nat) (s : string) : string :=
  match n, s with
  | S n', String c r => String c (take_str n' r)
  | _, _ => EmptyString
  end.

(** One [readdir] entry of [/dev/input]: its name, and what
    [open(path, O_RDONLY | O_NONBLOCK)] answers for it, a descriptor
    together with the device behind it or a failure. *)
Record dirent := mk_dirent {
  d_name : string;
  d_open : option (Z * Device)
}.

(** [snprintf(path, sizeof(path), "/dev/input/%s", entry->d_name)]. *)
Definition device_path (nm : string) : string :=
  take_str (MAX_PATH_LEN - 1) ("/dev/input/" ++ nm).

(** [strncmp(entry->d_name, "event", 5) != 0], evaluated on names of more
    than five characters only. *)
Definition not_event_name (nm : string) : bool :=
  negb (String.prefix "event" nm).

(** ** The wizard's data *)

Inductive MapType := MAP_NONE | MAP_BUTTON | MAP_AXIS | MAP_HAT.

Record MappingEntry := mk_entry {
  the64_label : string;
  gcdb_name : string;
  is_axis : Z;
  prompt : string;
  mapped_type : MapType;
  mapped_index : Z;
  hat_mask : Z
}.

Record DirEntry := mk_dir_entry {
  e_name : string;
  e_is_dir : Z
}.

(** [DirBrowser]; [b_entries] holds the first [b_count] slots of the
    array, the only ones the sources read. *)
Record DirBrowser := mk_browser {
  b_path : string;
  b_entries : list DirEntry;
  b_count : Z;
  b_selected : Z;
  b_scroll : Z
}.

Inductive AppState :=
  STATE_DETECT | STATE_MAPPING | STATE_REVIEW | STATE_BROWSE | STATE_DONE
| STATE_EXIT.

(** [App], without the frame buffer, the blink and key-repeat timers and
    the keyboard descriptors. *)
Record App := mk_app {
  state : AppState;
  controllers : list Controller;     (* Controller controllers[MAX_CONTROLLERS] *)
  num_controllers : Z;
  sel_ctrl : Z;
  mappings : list MappingEntry;      (* MappingEntry mappings[NUM_MAPPINGS] *)
  cur_map : Z;
  redo_single : Z;
  browser : DirBrowser;
  review_sel : Z;
  save_path : string;
  mapping_str : string;
  thec64_nav_idx : Z
}.

Definition set_registry (app : App) (cs : list Controller) (n : Z) : App :=
  {| state := state app; controllers := cs; num_controllers := n;
     sel_ctrl := sel_ctrl app; mappings := mappings app;
     cur_map := cur_map app; redo_single := redo_single app;
     browser := browser app; review_sel := review_sel app;
     save_path := save_path app; mapping_str := mapping_str app;
     thec64_nav_idx := thec64_nav_idx app |}.

(** ** Device registry ([scan_controllers]) *)

(** The slot after [memset(c, 0, ...); c->fd = fd; snprintf(c->path, ...)]. *)
Definition opened_controller (fd : Z) (path : string) : Controller :=
  {| c_fd := fd; c_path := take_str (MAX_PATH_LEN - 1) path;
     c_name := EmptyString; c_guid := EmptyString; c_id := mk_input_id 0 0 0 0;
     num_buttons := 0; num_axes := 0; num_hats := 0;
     btn_map := replicate KEY_MAX 0;
     abs_map := replicate ABS_MAX 0;
     hat_map := replicate ABS_MAX 0;
     axis_initial := replicate ABS_MAX 0;
     axis_min := replicate ABS_MAX 0;
     axis_max := replicate ABS_MAX 0 |}.

(** [EVIOCGNAME(sizeof(c->name) - 1)] into the zeroed [name], with the
    fall-back copied by [strcpy]. *)
Definition controller_name (d : Device) (fallback : string) : string :=
  match dev_name d with
  | Some s => take_str (MAX_NAME_LEN - 1) s
  | None => fallback
  end.

(** The slot once the identity is known: name, GUID and capability
    model filled in. *)
Definition registered_controller (fd : Z) (path : string) (d : Device)
           (id : input_id) : Controller :=
  let c := opened_controller fd path in
  enumerate_buttons_axes d
    {| c_fd := c_fd c; c_path := c_path c;
       c_name := controller_name d "Unknown Controller";
       c_guid := build_guid id; c_id := id;
       num_buttons := num_buttons c; num_axes := num_axes c;
       num_hats := num_hats c;
       btn_map := btn_map c; abs_map := abs_map c; hat_map := hat_map c;
       axis_initial := axis_initial c;
       axis_min := axis_min c; axis_max := axis_max c |}.

(** The [while ((entry = readdir(dir)) != NULL)] loop on the slots and
    [num_controllers]. *)
Fixpoint scan_loop (entries : list dirent) (cs : list Controller) (n : Z)
  : list Controller * Z :=
  match entries with
  | [] => (cs, n)
  | entry :: rest =>
      if MAX_CONTROLLERS <=? n then (cs, n)                        (* break *)
      else if (String.length (d_name entry) <=? 5)%nat then scan_loop rest cs n
      else if not_event_name (d_name entry) then scan_loop rest cs n
      else
        let path := device_path (d_name entry) in
        match d_open entry with
        | None => scan_loop rest cs n
        | Some (fd, d) =>
            if negb (is_gamepad d) then scan_loop rest cs n
            else
              let cs1 := <[Z.to_nat n := opened_controller fd path]> cs in
              match dev_id d with
              | None => scan_loop rest cs1 n
              | Some id =>
                  scan_loop rest
                    (<[Z.to_nat n := registered_controller fd path d id]> cs1)
                    (n + 1)
              end
        end
  end.

(** [scan_controllers(app)]; [dir] is the listing [opendir("/dev/input")]
    gives, [None] when it fails. *)
Definition scan_controllers (dir : option (list dirent)) (app : App) : App :=
  match dir with
  | None => set_registry app (controllers app) 0
  | Some entries =>
      let r := scan_loop entries (controllers app) 0 in
      set_registry app (fst r) (snd r)
  end.

(** ** The stand-alone identity tool ([gamepad_guid.c]) *)

Definition newline : string := String (ascii_of_nat 10) EmptyString.

(** [printf("%s,%s,%s\n", guid_str, name, path)]. *)
Definition printf_line (guid_str name path : string) : string :=
  guid_str ++ "," ++ name ++ "," ++ path ++ newline.

(** [printf("No game controllers found.\n")]. *)
Definition no_controllers_message : string :=
  "No game controllers found." ++ newline.

Module gamepad_guid.

(** The directory loop of [main] on (what was printed, [found]). *)
Fixpoint main_loop (entries : list dirent) (out : list string) (found : Z)
  : list string * Z :=
  match entries with
  | [] => (out, found)
  | entry :: rest =>
      if (String.length (d_name entry) <=? 5)%nat then main_loop rest out found
      else if not_event_name (d_name entry) then main_loop rest out found
      else
        let path := device_path (d_name entry) in
        match d_open entry with
        | None => main_loop rest out found
        | Some (fd, d) =>
            if negb (is_gamepad d) then main_loop rest out found
            else
              match dev_id d with
              | None => main_loop rest out found
              | Some id =>
                  let name := controller_name d "Unknown" in
                  let guid_str := build_guid id in
                  let line := printf_line guid_str name path in
                  main_loop rest (out ++ [line])%list (found + 1)
              end
        end
  end.

(** [main]: what is written to standard output, one string for each
    [printf], and the exit status. *)
Definition main (dir : option (list dirent)) : list string * Z :=
  match dir with
  | None => ([], 1)                      (* perror, on standard error *)
  | Some entries =>
      let r := main_loop entries [] 0 in
      (if snd r =? 0 then (fst r ++ [no_controllers_message])%list
       else fst r, 0)
  end.

End gamepad_guid.

(** *** Detection as the specification words it *)

(** A detected gamepad: an event node that opens, is classified as a
    gamepad and answers the identity query. *)
Definition detect (entry : dirent) : option (Z * string * Device * input_id) :=
  if (5 <? String.length (d_name entry))%nat
     && String.prefix "event" (d_name entry) then
    match d_open entry with
    | Some (fd, d) =>
        if is_gamepad d then
          match dev_id d with
          | Some id => Some (fd, device_path (d_name entry), d, id)
          | None => None
          end
        else None
    | None => None
    end
  else None.

Definition detected (entries : list dirent)
  : list (Z * string * Device * input_id) :=
  omap detect entries.

Definition controller_of (g : Z * string * Device * input_id) : Controller :=
  let '(fd, path, d, id) := g in registered_controller fd path d id.

Definition guid_line (g : Z * string * Device * input_id) : string :=
  let '(fd, path, d, id) := g in
  build_guid id ++ "," ++ controller_name d "Unknown" ++ "," ++ path ++ newline.

(** *** The output of the identity tool as the specification words it *)

(** A gamepad node of the listing: an entry named [event...] (more than
    five characters) that opens, is classified as a gamepad and answers
    the identity query; with its name, device and identity. *)
Definition gamepad_node (entry : dirent)
  : option (string * Device * input_id) :=
  if (5 <? String.length (d_name entry))%nat
     && String.prefix "event" (d_name entry) then
    match d_open entry with
    | Some (_, d) =>
        if is_gamepad d then
          match dev_id d with
          | Some id => Some (d_name entry, d, id)
          | None => None
          end
        else None
    | None => None
    end
  else None.

(** The gamepads detected in a scan; none when [/dev/input] does not
    open. *)
Definition scanned_gamepads (dir : option (list dirent))
  : list (string * Device * input_id) :=
  match dir with
  | Some entries => omap gamepad_node entries
  | None => []
  end.

(** The line [GUID,Name,Path]: the name is what the device reports (at
    most 255 characters) or [Unknown]; the path is the node under
    [/dev/input], held in 512 bytes. *)
Definition tool_line (g : string * Device * input_id) : string :=
  let '(nm, d, id) := g in
  build_guid id ++ ","
  ++ match dev_name d with Some s => take_str 255 s | None => "Unknown" end
  ++ "," ++ take_str 511 ("/dev/input/" ++ nm) ++ newline.

(** ** Field updates of [App] and [MappingEntry] *)

Definition set_state (v : AppState) (app : App) : App :=
  {| state := v; controllers := controllers app;
     num_controllers := num_controllers app; sel_ctrl := sel_ctrl app;
     mappings := mappings app; cur_map := cur_map app;
     redo_single := redo_single app; browser := browser app;
     review_sel := review_sel app; save_path := save_path app;
     mapping_str := mapping_str app; thec64_nav_idx := thec64_nav_idx app |}.

Definition set_sel_ctrl (v : Z) (app : App) : App :=
  {| state := state app; controllers := controllers app;
     num_controllers := num_controllers app; sel_ctrl := v;
     mappings := mappings app; cur_map := cur_map app;
     redo_single := redo_single app; browser := browser app;
     review_sel := review_sel app; save_path := save_path app;
     mapping_str := mapping_str app; thec64_nav_idx := thec64_nav_idx app |}.

Definition set_mappings (v : list MappingEntry) (app : App) : App :=
  {| state := state app; controllers := controllers app;
     num_controllers := num_controllers app; sel_ctrl := sel_ctrl app;
     mappings := v; cur_map := cur_map app; redo_single := redo_single app;
     browser := browser app; review_sel := review_sel app;
     save_path := save_path app; mapping_str := mapping_str app;
     thec64_nav_idx := thec64_nav_idx app |}.

Definition set_cur_map (v : Z) (app : App) : App :=
  {| state := state app; controllers := controllers app;
     num_controllers := num_controllers app; sel_ctrl := sel_ctrl app;
     mappings := mappings app; cur_map := v;
     redo_single := redo_single app; browser := browser app;
     review_sel := review_sel app; save_path := save_path app;
     mapping_str := mapping_str app; thec64_nav_idx := thec64_nav_idx app |}.

Definition set_redo_single (v : Z) (app : App) : App :=
  {| state := state app; controllers := controllers app;
     num_controllers := num_controllers app; sel_ctrl := sel_ctrl app;
     mappings := mappings app; cur_map := cur_map app; redo_single := v;
     browser := browser app; review_sel := review_sel app;
     save_path := save_path app; mapping_str := mapping_str app;
     thec64_nav_idx := thec64_nav_idx app |}.

Definition set_browser (v : DirBrowser) (app : App) : App :=
  {| state := state app; controllers := controllers app;
     num_controllers := num_controllers app; sel_ctrl := sel_ctrl app;
     mappings := mappings app; cur_map := cur_map app;
     redo_single := redo_single app; browser := v;
     review_sel := review_sel app; save_path := save_path app;
     mapping_str := mapping_str app; thec64_nav_idx := thec64_nav_idx app |}.

Definition set_review_sel (v : Z) (app : App) : App :=
  {| state := state app; controllers := controllers app;
     num_controllers := num_controllers app; sel_ctrl := sel_ctrl app;
     mappings := mappings app; cur_map := cur_map app;
     redo_single := redo_single app; browser := browser app;
     review_sel := v; save_path := save_path app;
     mapping_str := mapping_str app; thec64_nav_idx := thec64_nav_idx app |}.

Definition set_save_path (v : string) (app : App) : App :=
  {| state := state app; controllers := controllers app;
     num_controllers := num_controllers app; sel_ctrl := sel_ctrl app;
     mappings := mappings app; cur_map := cur_map app;
     redo_single := redo_single app; browser := browser app;
     review_sel := review_sel app; save_path := v;
     mapping_str := mapping_str app; thec64_nav_idx := thec64_nav_idx app |}.

Definition set_mapping_str (v : string) (app : App) : App :=
  {| state := state app; controllers := controllers app;
     num_controllers := num_controllers app; sel_ctrl := sel_ctrl app;
     mappings := mappings app; cur_map := cur_map app;
     redo_single := redo_single app; browser := browser app;
     review_sel := review_sel app; save_path := save_path app;
     mapping_str := v; thec64_nav_idx := thec64_nav_idx app |}.

Definition set_thec64_nav_idx (v : Z) (app : App) : App :=
  {| state := state app; controllers := controllers app;
     num_controllers := num_controllers app; sel_ctrl := sel_ctrl app;
     mappings := mappings app; cur_map := cur_map app;
     redo_single := redo_single app; browser := browser app;
     review_sel := review_sel app; save_path := save_path app;
     mapping_str := mapping_str app; thec64_nav_idx := v |}.

(** [entry->mapped_type = t; entry->mapped_index = i;] *)
Definition set_binding (t : MapType) (i : Z) (m : MappingEntry) : MappingEntry :=
  {| the64_label := the64_label m; gcdb_name := gcdb_name m;
     is_axis := is_axis m; prompt := prompt m;
     mapped_type := t; mapped_index := i; hat_mask := hat_mask m |}.

(** [entry->mapped_type = MAP_HAT; entry->mapped_index = i;
    entry->hat_mask = k;] *)
Definition set_hat_binding (i k : Z) (m : MappingEntry) : MappingEntry :=
  {| the64_label := the64_label m; gcdb_name := gcdb_name m;
     is_axis := is_axis m; prompt := prompt m;
     mapped_type := MAP_HAT; mapped_index := i; hat_mask := k |}.

(** [m->mapped_type = t;] *)
Definition set_mapped_type (t : MapType) (m : MappingEntry) : MappingEntry :=
  {| the64_label := the64_label m; gcdb_name := gcdb_name m;
     is_axis := is_axis m; prompt := prompt m;
     mapped_type := t; mapped_index := mapped_index m;
     hat_mask := hat_mask m |}.

(** [a[i]] for an [int] index: outside the array there is no value. *)
Definition arr_get {A : Type} (a : list A) (i : Z) : option A :=
  if i <? 0 then None else a !! Z.to_nat i.

(** [a[i] = v] for an [int] index held inside the array by its caller. *)
Definition arr_set {A : Type} (a : list A) (i : Z) (v : A) : list A :=
  <[Z.to_nat i := v]> a.

(** ** Mapping definitions ([init_mappings]) *)

Definition init_mappings : list MappingEntry :=
  [ mk_entry "Left Fire" "lefttrigger" 0 "Press LEFT FIRE button" MAP_NONE 0 0;
    mk_entry "Right Fire" "righttrigger" 0 "Press RIGHT FIRE button" MAP_NONE 0 0;
    mk_entry "Left Triangle" "x" 0 "Press LEFT TRIANGLE button" MAP_NONE 0 0;
    mk_entry "Right Triangle" "y" 0 "Press RIGHT TRIANGLE button" MAP_NONE 0 0;
    mk_entry "Menu 1" "a" 0 "Press MENU 1 button" MAP_NONE 0 0;
    mk_entry "Menu 2" "b" 0 "Press MENU 2 button" MAP_NONE 0 0;
    mk_entry "Menu 3" "back" 0 "Press MENU 3 button" MAP_NONE 0 0;
    mk_entry "Menu 4" "start" 0 "Press MENU 4 button" MAP_NONE 0 0;
    mk_entry "Left/Right" "leftx" 1 "Move stick LEFT or RIGHT" MAP_NONE 0 0;
    mk_entry "Up/Down" "lefty" 1 "Move stick UP or DOWN" MAP_NONE 0 0 ].

(** ** Input events *)

(** [struct input_event] without its time stamp: [type] and [code] are
    [__u16], [value] is [__s32]. *)
Record input_event := mk_event {
  ev_type : nat;
  ev_code : nat;
  ev_value : Z
}.

(** The threshold expression [range > 0 ? range * 2 / 5 : 1], which
    [poll_mapping_input] and [read_nav_input] (twice) evaluate on
    [range = c->axis_max[code] - c->axis_min[code]]. *)
Definition axis_threshold (range : Z) : Z :=
  if 0 <? range then int_div (int_mul range 2) 5 else 1.

(** The hat branch of [poll_mapping_input]: the mask of a hat event. *)
Definition hat_event_mask (code : nat) (value : Z) : Z :=
  if ((code - ABS_HAT0X) mod 2 =? 0)%nat
  then (if value <? 0 then 8 else 2)      (* L=8, R=2 *)
  else (if value <? 0 then 1 else 4).     (* U=1, D=4 *)

(** [poll_mapping_input(app, entry)] on the selected controller [c] and
    the events pending on its descriptor (what successive [read] calls
    deliver).  The result is the events still pending, the entry, and the
    returned flag. *)
Fixpoint poll_mapping_input (c : Controller) (queue : list input_event)
         (entry : MappingEntry)
  : option (list input_event * MappingEntry * bool) :=
  match queue with
  | [] => Some ([], entry, false)
  | ev :: rest =>
      if (ev_type ev =? EV_KEY)%nat && (ev_value ev =? 1) then
        idx ← btn_map c !! ev_code ev;
        if 0 <=? idx then Some (rest, set_binding MAP_BUTTON idx entry, true)
        else poll_mapping_input c rest entry
      else if (ev_type ev =? EV_ABS)%nat then
        if (ABS_HAT0X <=? ev_code ev)%nat && (ev_code ev <=? ABS_HAT3Y)%nat
           && negb (ev_value ev =? 0)
        then
          let hat := Z.of_nat ((ev_code ev - ABS_HAT0X) / 2) in
          let mask := hat_event_mask (ev_code ev) (ev_value ev) in
          Some (rest, set_hat_binding hat mask entry, true)
        else
          aidx ← abs_map c !! ev_code ev;
          if 0 <=? aidx then
            amax ← axis_max c !! ev_code ev;
            amin ← axis_min c !! ev_code ev;
            ainit ← axis_initial c !! ev_code ev;
            let range := int_sub amax amin in
            let thresh := axis_threshold range in
            let delta := int_sub (ev_value ev) ainit in
            if (thresh <? delta) || (delta <? - thresh)
            then Some (rest, set_binding MAP_AXIS aidx entry, true)
            else poll_mapping_input c rest entry
          else poll_mapping_input c rest entry
      else poll_mapping_input c rest entry
  end.

(** *** The calibration rule as the specification words it *)

(** "[|sample - initial_sample|] exceeds 40% of the half-range
    [(maximum - minimum) / 2]", compared exactly: 0.4 * (max - min) / 2 is
    (max - min) / 5. *)
Definition beyond_forty_percent_of_half_range
           (minimum maximum initial sample : Z) : Prop :=
  5 * Z.abs (sample - initial) > maximum - minimum.

(** Hat direction bits and the hat position codes of
    [input-event-codes.h]. *)
Definition HAT_UP : Z := 1.
Definition HAT_RIGHT : Z := 2.
Definition HAT_DOWN : Z := 4.
Definition HAT_LEFT : Z := 8.

Definition hat_x_codes : list nat := [16; 18; 20; 22]%nat.  (* ABS_HAT0X..3X *)
Definition hat_y_codes : list nat := [17; 19; 21; 23]%nat.  (* ABS_HAT0Y..3Y *)

(** ** Serializer ([build_mapping_string]) *)

Definition digit_char (d : Z) : ascii := ascii_of_nat (Z.to_nat (48 + d)).

(** The decimal digits of a non-negative number, most significant first;
    [fuel] bounds their number. *)
Fixpoint fmt_digits (fuel : nat) (n : Z) (acc : string) : string :=
  match fuel with
  | O => acc
  | S fuel' =>
      let acc' := String (digit_char (n mod 10)) acc in
      if n / 10 =? 0 then acc' else fmt_digits fuel' (n / 10) acc'
  end.

(** The conversion [%d] of an [int]; an [int] has at most ten digits. *)
Definition fmt_d (z : Z) : string :=
  if z <? 0 then String "-" (fmt_digits 10 (- z) EmptyString)
  else fmt_digits 10 z EmptyString.

(** Reading a run of decimal digits back, most significant first. *)
Fixpoint digits_value (s : string) (acc : Z) : Z :=
  match s with
  | EmptyString => acc
  | String c r => digits_value r (10 * acc + (Z.of_nat (nat_of_ascii c) - 48))
  end.

(** [pos += snprintf(out + pos, sz - pos, ...)] where the text to print
    is [s].  The state is the text the buffer holds and [pos].  While
    [pos <= sz] the call keeps the buffer's first [sz - 1] characters at
    most; beyond, [sz - pos] wraps around as a [size_t] and the write is
    no longer confined to the buffer. *)
Definition snprintf_at (sz : Z) (st : string * Z) (s : string)
  : option (string * Z) :=
  if sz <? snd st then None
  else Some (take_str (Z.to_nat (sz - 1)) (fst st ++ s),
             snd st + Z.of_nat (String.length s)).

(** The body of the [for] loop for one entry. *)
Definition emit_mapping (sz : Z) (m : MappingEntry) (st : string * Z)
  : option (string * Z) :=
  st1 ← snprintf_at sz st (gcdb_name m ++ ":");
  st2 ← match mapped_type m with
        | MAP_BUTTON => snprintf_at sz st1 ("b" ++ fmt_d (mapped_index m))
        | MAP_AXIS => snprintf_at sz st1 ("a" ++ fmt_d (mapped_index m))
        | MAP_HAT =>
            snprintf_at sz st1
              ("h" ++ fmt_d (mapped_index m) ++ "." ++ fmt_d (hat_mask m))
        | MAP_NONE => Some st1
        end;
  snprintf_at sz st2 ",".

(** [for (int i = 0; i < NUM_MAPPINGS; i++)] over [app->mappings[i]]. *)
Fixpoint emit_mappings (sz : Z) (ms : list MappingEntry) (indices : list nat)
         (st : string * Z) : option (string * Z) :=
  match indices with
  | [] => Some st
  | i :: rest =>
      m ← ms !! i;
      st' ← emit_mapping sz m st;
      emit_mappings sz ms rest st'
  end.

(** [build_mapping_string(app, out, sz)]: the text left in [out]. *)
Definition build_mapping_string (app : App) (sz : Z) : option string :=
  c ← arr_get (controllers app) (sel_ctrl app);
  st0 ← snprintf_at sz (EmptyString, 0) (c_guid c ++ "," ++ c_name c ++ ",");
  st1 ← emit_mappings sz (mappings app) (seq 0 (Z.to_nat NUM_MAPPINGS)) st0;
  st2 ← snprintf_at sz st1 "platform:Linux,";
  Some (fst st2).

(** [sizeof(app->mapping_str)]. *)
Definition MAPPING_STR_SIZE : Z := 1024.

(** *** The line as the specification words it *)

Definition binding_code (m : MappingEntry) : string :=
  match mapped_type m with
  | MAP_BUTTON => "b" ++ fmt_d (mapped_index m)
  | MAP_AXIS => "a" ++ fmt_d (mapped_index m)
  | MAP_HAT => "h" ++ fmt_d (mapped_index m) ++ "." ++ fmt_d (hat_mask m)
  | MAP_NONE => EmptyString
  end.

Fixpoint channel_fields (ms : list MappingEntry) : string :=
  match ms with
  | [] => EmptyString
  | m :: rest => gcdb_name m ++ ":" ++ binding_code m ++ "," ++ channel_fields rest
  end.

Definition mapping_line (c : Controller) (ms : list MappingEntry) : string :=
  c_guid c ++ "," ++ c_name c ++ "," ++ channel_fields ms ++ "platform:Linux,".

(** The channel names of the ten slots, in order. *)
Definition channel_names : list string := map gcdb_name init_mappings.

(** ** Wizard: redoing one channel and capturing *)

(** [review_redo_selected(app)]; draining the pending events leaves the
    session data alone. *)
Definition review_redo_selected (app : App) : App :=
  if (0 <=? review_sel app) && (review_sel app <? NUM_MAPPINGS) then
    let app1 := set_redo_single (review_sel app) app in
    let app2 := set_cur_map (review_sel app1) app1 in
    let app3 :=
      set_mappings
        (alter (set_mapped_type MAP_NONE) (Z.to_nat (cur_map app2))
               (mappings app2)) app2 in
    set_state STATE_MAPPING app3
  else app.

(** [update_mapping(app)] on the events pending on the selected
    controller.  After a capture the descriptor is drained, before and
    after the settle delay, and nothing is left pending. *)
Definition update_mapping (app : App) (queue : list input_event)
  : option (App * list input_event) :=
  c ← arr_get (controllers app) (sel_ctrl app);
  m ← arr_get (mappings app) (cur_map app);
  '(pending, m', got) ← poll_mapping_input c queue m;
  if got : bool then
    let app1 := set_mappings (arr_set (mappings app) (cur_map app) m') app in
    if 0 <=? redo_single app1 then
      (* was redoing a single mapping, go back to review *)
      Some (set_state STATE_REVIEW (set_redo_single (-1) app1), [])
    else
      let app2 := set_cur_map (cur_map app1 + 1) app1 in
      if NUM_MAPPINGS <=? cur_map app2 then
        let app3 := set_review_sel 0 (set_state STATE_REVIEW app2) in
        str ← build_mapping_string app3 MAPPING_STR_SIZE;
        Some (set_mapping_str str app3, [])
      else Some (app2, [])
  else Some (app, pending).

(** ** Navigation input *)

Definition KEY_ESC : nat := 1.
Definition KEY_BACKSPACE : nat := 14.
Definition KEY_Q : nat := 16.
Definition KEY_ENTER : nat := 28.
Definition KEY_UP : nat := 103.
Definition KEY_LEFT : nat := 105.
Definition KEY_DOWN : nat := 108.

Definition BTN_TRIGGER : nat := 288.   (* 0x120 *)
Definition BTN_TOP2 : nat := 292.      (* 0x124 *)
Definition BTN_PINKIE : nat := 293.    (* 0x125 *)
Definition BTN_BASE2 : nat := 295.     (* 0x127 *)

(** The five outputs [*dy, *dx, *btn_a, *btn_b, *btn_start]. *)
Record Nav := mk_nav {
  n_dy : Z;
  n_dx : Z;
  n_btn_a : Z;
  n_btn_b : Z;
  n_btn_start : Z
}.

(** The two [if]s of [read_nav_input] that turn an [EV_ABS] event into a
    direction for the channel [m] ([lefty] for [*dy], [leftx] for [*dx]);
    [cur] is the direction so far. *)
Definition nav_direction (c : Controller) (m : MappingEntry) (ev : input_event)
           (cur : Z) : option Z :=
  cur1 ← match mapped_type m with
         | MAP_AXIS =>
             a ← abs_map c !! ev_code ev;
             if a =? mapped_index m then
               amax ← axis_max c !! ev_code ev;
               amin ← axis_min c !! ev_code ev;
               ainit ← axis_initial c !! ev_code ev;
               let range := int_sub amax amin in
               let thresh := axis_threshold range in
               let delta := int_sub (ev_value ev) ainit in
               if delta <? - thresh then Some (-1)
               else if thresh <? delta then Some 1
               else Some cur
             else Some cur
         | _ => Some cur
         end;
  match mapped_type m with
  | MAP_HAT =>
      h ← hat_map c !! ev_code ev;
      if h =? mapped_index m then
        if ev_value ev <? 0 then Some (-1)
        else if 0 <? ev_value ev then Some 1
        else Some cur1
      else Some cur1
  | _ => Some cur1
  end.

(** [mappings[i].mapped_type == MAP_BUTTON && idx == mappings[i].mapped_index]. *)
Definition bound_to_button (m : MappingEntry) (idx : Z) : bool :=
  match mapped_type m with
  | MAP_BUTTON => idx =? mapped_index m
  | _ => false
  end.

(** The loop of [read_nav_input] over the selected controller's events. *)
Fixpoint nav_loop (c : Controller) (ms : list MappingEntry)
         (queue : list input_event) (nav : Nav) : option Nav :=
  match queue with
  | [] => Some nav
  | ev :: rest =>
      if (ev_type ev =? EV_KEY)%nat && (ev_value ev =? 1) then
        idx ← btn_map c !! ev_code ev;
        if idx <? 0 then nav_loop c ms rest nav
        else
          m0 ← ms !! 0%nat; m4 ← ms !! 4%nat;
          m5 ← ms !! 5%nat; m7 ← ms !! 7%nat;
          let a := if bound_to_button m0 idx || bound_to_button m4 idx
                   then 1 else n_btn_a nav in
          let b := if bound_to_button m5 idx then 1 else n_btn_b nav in
          let st := if bound_to_button m7 idx then 1 else n_btn_start nav in
          nav_loop c ms rest (mk_nav (n_dy nav) (n_dx nav) a b st)
      else if (ev_type ev =? EV_ABS)%nat then
        my ← ms !! 9%nat;
        dy ← nav_direction c my ev (n_dy nav);
        mx ← ms !! 8%nat;
        dx ← nav_direction c mx ev (n_dx nav);
        nav_loop c ms rest
          (mk_nav dy dx (n_btn_a nav) (n_btn_b nav) (n_btn_start nav))
      else nav_loop c ms rest nav
  end.

(** The loop of [read_thec64_nav] over THEJOYSTICK's events; the flag is
    [got]. *)
Fixpoint thec64_loop (queue : list input_event) (st : Nav * bool)
  : Nav * bool :=
  match queue with
  | [] => st
  | ev :: rest =>
      let nav := fst st in
      if (ev_type ev =? EV_KEY)%nat && (ev_value ev =? 1) then
        if (ev_code ev =? BTN_TRIGGER)%nat || (ev_code ev =? BTN_TOP2)%nat then
          thec64_loop rest
            (mk_nav (n_dy nav) (n_dx nav) 1 (n_btn_b nav) (n_btn_start nav),
             true)
        else if (ev_code ev =? BTN_PINKIE)%nat then
          thec64_loop rest
            (mk_nav (n_dy nav) (n_dx nav) (n_btn_a nav) 1 (n_btn_start nav),
             true)
        else if (ev_code ev =? BTN_BASE2)%nat then
          thec64_loop rest
            (mk_nav (n_dy nav) (n_dx nav) (n_btn_a nav) (n_btn_b nav) 1, true)
        else thec64_loop rest st
      else if (ev_type ev =? EV_ABS)%nat then
        let delta := int_sub (ev_value ev) 127 in
        let thresh := 50 in
        let st1 :=
          if (ev_code ev =? ABS_Y)%nat then
            if delta <? - thresh then
              (mk_nav (-1) (n_dx nav) (n_btn_a nav) (n_btn_b nav)
                 (n_btn_start nav), true)
            else if thresh <? delta then
              (mk_nav 1 (n_dx nav) (n_btn_a nav) (n_btn_b nav)
                 (n_btn_start nav), true)
            else st
          else st in
        let nav1 := fst st1 in
        let st2 :=
          if (ev_code ev =? ABS_X)%nat then
            if delta <? - thresh then
              (mk_nav (n_dy nav1) (-1) (n_btn_a nav1) (n_btn_b nav1)
                 (n_btn_start nav1), true)
            else if thresh <? delta then
              (mk_nav (n_dy nav1) 1 (n_btn_a nav1) (n_btn_b nav1)
                 (n_btn_start nav1), true)
            else st1
          else st1 in
        thec64_loop rest st2
      else thec64_loop rest st
  end.

(** [read_thec64_nav]: nothing is read when no THEJOYSTICK is known. *)
Definition read_thec64_nav (app : App) (nav_queue : list input_event)
           (nav : Nav) : option (Nav * bool) :=
  if thec64_nav_idx app <? 0 then Some (nav, false)
  else
    _ ← arr_get (controllers app) (thec64_nav_idx app);
    Some (thec64_loop nav_queue (nav, false)).

(** [read_nav_input]: the fused outputs and the returned flag. *)
Definition read_nav_input (app : App) (queue nav_queue : list input_event)
  : option (Nav * bool) :=
  c ← arr_get (controllers app) (sel_ctrl app);
  nav ← nav_loop c (mappings app) queue (mk_nav 0 0 0 0 0);
  '(nav', _) ← read_thec64_nav app nav_queue nav;
  Some (nav',
        negb ((n_dy nav' =? 0) && (n_dx nav' =? 0) && (n_btn_a nav' =? 0)
              && (n_btn_b nav' =? 0) && (n_btn_start nav' =? 0))).

(** [read_keyboard] over the pending events of each keyboard: the code of
    the first key press, 0 when there is none. *)
Fixpoint first_press (queue : list input_event) : option nat :=
  match queue with
  | [] => None
  | ev :: rest =>
      if (ev_type ev =? EV_KEY)%nat && (ev_value ev =? 1)
      then Some (ev_code ev) else first_press rest
  end.

Fixpoint read_keyboard (keyboards : list (list input_event)) : nat :=
  match keyboards with
  | [] => 0%nat
  | queue :: rest =>
      match first_press queue with
      | Some code => code
      | None => read_keyboard rest
      end
  end.

(** ** Directory browser and export ([browser_load], [update_browse]) *)

(** The file system as the browser meets it. *)
Record World := mk_world {
  (* opendir/readdir: the names in a directory, [None] when it does not open *)
  w_readdir : string -> option (list string);
  (* stat succeeds on the path and S_ISDIR holds *)
  w_is_dir : string -> bool;
  (* qsort with dir_entry_cmp *)
  w_qsort : list DirEntry -> list DirEntry;
  (* fopen(path, "w") succeeds *)
  w_fopen_w : string -> bool;
  (* the contents of the files written *)
  w_files : gmap string string
}.

Definition write_file (path contents : string) (w : World) : World :=
  {| w_readdir := w_readdir w; w_is_dir := w_is_dir w; w_qsort := w_qsort w;
     w_fopen_w := w_fopen_w w; w_files := <[path := contents]> (w_files w) |}.

Definition starts_with_dot (nm : string) : bool :=
  match nm with
  | String c _ => Ascii.eqb c "."
  | EmptyString => false
  end.

(** The [readdir] loop of [browser_load]. *)
Fixpoint load_loop (w : World) (path : string) (names : list string)
         (entries : list DirEntry) : list DirEntry :=
  match names with
  | [] => entries
  | nm :: rest =>
      if MAX_DIR_ENTRIES <=? Z.of_nat (length entries) then entries
      else if starts_with_dot nm then load_loop w path rest entries
      else
        let fullpath := take_str (MAX_PATH_LEN - 1) (path ++ "/" ++ nm) in
        if negb (w_is_dir w fullpath) then load_loop w path rest entries
        else
          load_loop w path rest
            (entries ++ [mk_dir_entry (take_str (MAX_NAME_LEN - 1) nm) 1])%list
  end.

Definition export_entry : DirEntry := mk_dir_entry ">> Export here <<" 0.

(** [browser_load(b, path)]. *)
Definition browser_load (w : World) (path : string) : DirBrowser :=
  let bpath := take_str (MAX_PATH_LEN - 1) path in
  let base := if (bpath =? "/")%string then [] else [mk_dir_entry ".." 1] in
  match w_readdir w path with
  | None => mk_browser bpath base (Z.of_nat (length base)) 0 0
  | Some names =>
      let entries := load_loop w path names base in
      let start :=
        match entries with
        | e :: _ => if (e_name e =? "..")%string then 1%nat else 0%nat
        | [] => 0%nat
        end in
      let sorted :=
        if (1 <? length entries - start)%nat
        then (take start entries ++ w_qsort w (drop start entries))%list
        else entries in
      let final :=
        if Z.of_nat (length sorted) <? MAX_DIR_ENTRIES
        then (sorted ++ [export_entry])%list else sorted in
      mk_browser bpath final (Z.of_nat (length final)) 0 0
  end.

(** [strrchr(path, '/')]: the index of the last slash. *)
Fixpoint last_slash (s : string) : option nat :=
  match s with
  | EmptyString => None
  | String c r =>
      match last_slash r with
      | Some i => Some (S i)
      | None => if Ascii.eqb c "/" then Some 0%nat else None
      end
  end.

(** The "go up" edit of the browser's path. *)
Definition parent_path (path : string) : string :=
  match last_slash path with
  | Some (S i) => take_str (S i) path
  | _ => "/"
  end.

(** The name of the export file:
    ["/%.32s.txt"] in the root, ["%.470s/%.32s.txt"] elsewhere. *)
Definition export_path (dir guid : string) : string :=
  take_str (MAX_PATH_LEN - 1)
    (if (dir =? "/")%string then "/" ++ take_str 32 guid ++ ".txt"
     else take_str 470 dir ++ "/" ++ take_str 32 guid ++ ".txt").

(** The cursor move of [update_browse]. *)
Definition browse_move (dy : Z) (b : DirBrowser) : DirBrowser :=
  if dy =? 0 then b
  else
    let sel := b_selected b + dy in
    let sel := if sel <? 0 then 0 else sel in
    let sel := if b_count b <=? sel then b_count b - 1 else sel in
    let visible := 18 in
    let scroll := if sel <? b_scroll b then sel else b_scroll b in
    let scroll := if scroll + visible <=? sel then sel - visible + 1
                  else scroll in
    mk_browser (b_path b) (b_entries b) (b_count b) sel scroll.

(** The signals [update_browse] acts on: the controller and THEJOYSTICK
    fused by [read_nav_input], overridden by the keyboard.  The last
    component is [got_ctrl || key]. *)
Definition browse_signals (app : App) (queue nav_queue : list input_event)
           (keyboards : list (list input_event))
  : option (Z * Z * Z * Z * bool) :=
  '(nav, got_ctrl) ← read_nav_input app queue nav_queue;
  let key := read_keyboard keyboards in
  let dy := if (key =? KEY_UP)%nat then -1 else n_dy nav in
  let dy := if (key =? KEY_DOWN)%nat then 1 else dy in
  let btn_a := if (key =? KEY_ENTER)%nat then 1 else n_btn_a nav in
  let btn_b := if (key =? KEY_LEFT)%nat || (key =? KEY_BACKSPACE)%nat
               then 1 else n_btn_b nav in
  let btn_start := if (key =? KEY_Q)%nat || (key =? KEY_ESC)%nat
                   then 1 else n_btn_start nav in
  Some (dy, btn_a, btn_b, btn_start, got_ctrl || negb (key =? 0)%nat).

(** The [btn_a] branch of [update_browse]. *)
Definition browse_confirm (w : World) (app : App) : option (App * World) :=
  let b := browser app in
  e ← arr_get (b_entries b) (b_selected b);
  if (e_name e =? "..")%string then
    Some (set_browser (browser_load w (parent_path (b_path b))) app, w)
  else if negb (e_is_dir e =? 0) then
    let newpath :=
      take_str (MAX_PATH_LEN - 1)
        (if (b_path b =? "/")%string then "/" ++ take_str 250 (e_name e)
         else take_str 250 (b_path b) ++ "/" ++ take_str 250 (e_name e)) in
    Some (set_browser (browser_load w newpath) app, w)
  else
    (* save to current directory *)
    c ← arr_get (controllers app) (sel_ctrl app);
    str ← build_mapping_string app MAPPING_STR_SIZE;
    let app1 := set_mapping_str str app in
    let filepath := export_path (b_path b) (c_guid c) in
    if w_fopen_w w filepath then
      Some (set_state STATE_REVIEW
              (set_save_path (take_str (MAX_PATH_LEN - 1) filepath) app1),
            write_file filepath (str ++ newline) w)
    else Some (app1, w).

(** The part of [update_browse] after the early return. *)
Definition browse_act (w : World) (app : App) (dy btn_a btn_b btn_start : Z)
  : option (App * World) :=
  let app1 := set_browser (browse_move dy (browser app)) app in
  '(app2, w2) ← (if negb (btn_a =? 0) && (0 <? b_count (browser app1))
                 then browse_confirm w app1 else Some (app1, w));
  let app3 :=
    if negb (btn_b =? 0)
    then set_browser
           (browser_load w2 (parent_path (b_path (browser app2)))) app2
    else app2 in
  let app4 := if negb (btn_start =? 0) then set_state STATE_REVIEW app3
              else app3 in
  Some (app4, w2).

(** [update_browse(app)]. *)
Definition update_browse (w : World) (app : App)
           (queue nav_queue : list input_event)
           (keyboards : list (list input_event)) : option (App * World) :=
  '(dy, btn_a, btn_b, btn_start, active) ←
    browse_signals app queue nav_queue keyboards;
  if active : bool then browse_act w app dy btn_a btn_b btn_start
  else Some (app, w).

(** ** Review screen ([update_review]) *)

Definition KEY_1 : nat := 2.
Definition KEY_2 : nat := 3.
Definition KEY_3 : nat := 4.
Definition KEY_4 : nat := 5.
Definition KEY_SPACE : nat := 57.
Definition KEY_RIGHT : nat := 106.

Definition REVIEW_ACTION_SAVE : Z := NUM_MAPPINGS.
Definition REVIEW_ACTION_RESTART : Z := NUM_MAPPINGS + 1.
Definition REVIEW_ACTION_ANOTHER : Z := NUM_MAPPINGS + 2.
Definition REVIEW_ACTION_QUIT : Z := NUM_MAPPINGS + 3.
Definition REVIEW_TOTAL_ITEMS : Z := NUM_MAPPINGS + 4.

(** [review_restart(app)]. *)
Definition review_restart (app : App) : App :=
  set_state STATE_MAPPING
    (set_redo_single (-1) (set_cur_map 0 (set_mappings init_mappings app))).

(** [review_save(app)]. *)
Definition review_save (w : World) (app : App) : App :=
  set_state STATE_BROWSE (set_browser (browser_load w "/mnt") app).

(** The "map another controller" action, written out twice in
    [update_review]. *)
Definition review_another (app : App) : App :=
  set_save_path EmptyString
    (set_state STATE_DETECT
       (set_thec64_nav_idx (-1)
          (set_sel_ctrl (-1) (set_mappings init_mappings app)))).

(** [app->review_sel >= 0 && app->review_sel < NUM_MAPPINGS]. *)
Definition on_mapping_row (app : App) : bool :=
  (0 <=? review_sel app) && (review_sel app <? NUM_MAPPINGS).

(** The vertical move of the review cursor. *)
Definition review_move (dy : Z) (app : App) : App :=
  if dy =? 0 then app
  else
    let sel := review_sel app + dy in
    let sel := if sel <? 0 then 0 else sel in
    let sel := if REVIEW_TOTAL_ITEMS <=? sel then REVIEW_TOTAL_ITEMS - 1
               else sel in
    set_review_sel sel app.

(** The tail of [update_review]: the shortcut buttons. *)
Definition review_shortcuts (w : World) (app : App) (btn_b btn_start : Z)
  : App :=
  if negb (btn_b =? 0) && on_mapping_row app then review_redo_selected app
  else if negb (btn_start =? 0) then review_save w app
  else app.

(** [update_review(app)]. *)
Definition update_review (w : World) (app : App)
           (queue nav_queue : list input_event)
           (keyboards : list (list input_event)) : option App :=
  '(nav, got_ctrl) ← read_nav_input app queue nav_queue;
  let key := read_keyboard keyboards in
  let dy := if (key =? KEY_UP)%nat then -1 else n_dy nav in
  let dy := if (key =? KEY_DOWN)%nat then 1 else dy in
  let dx := if (key =? KEY_RIGHT)%nat then 1 else n_dx nav in
  if (key =? KEY_1)%nat then Some (review_redo_selected app)
  else if (key =? KEY_2)%nat then Some (review_save w app)
  else if (key =? KEY_3)%nat then Some (review_restart app)
  else if (key =? KEY_4)%nat then Some (review_another app)
  else if (key =? KEY_Q)%nat || (key =? KEY_ESC)%nat
  then Some (set_state STATE_EXIT app)
  else if negb got_ctrl && (key =? 0)%nat then Some app
  else
    let app1 := review_move dy app in
    if (0 <? dx) && on_mapping_row app1 then Some (review_redo_selected app1)
    else if negb (n_btn_a nav =? 0) || (key =? KEY_ENTER)%nat
            || (key =? KEY_SPACE)%nat then
      if on_mapping_row app1 then Some (review_redo_selected app1)
      else if review_sel app1 =? REVIEW_ACTION_SAVE
      then Some (review_save w app1)
      else if review_sel app1 =? REVIEW_ACTION_RESTART
      then Some (review_restart app1)
      else if review_sel app1 =? REVIEW_ACTION_ANOTHER
      then Some (review_another app1)
      else if review_sel app1 =? REVIEW_ACTION_QUIT
      then Some (set_state STATE_EXIT app1)
      else Some (review_shortcuts w app1 (n_btn_b nav) (n_btn_start nav))
    else Some (review_shortcuts w app1 (n_btn_b nav) (n_btn_start nav)).

(** *** The review signals as the specification words them *)

(** The keys [update_review] serves before anything else. *)
Definition shortcut_key (key : nat) : Prop :=
  In key [KEY_1; KEY_2; KEY_3; KEY_4; KEY_Q; KEY_ESC].

(** A "right" or "confirm" signal of one poll: from the pad or
    THEJOYSTICK through [read_nav_input], or from the keyboard. *)
Definition right_or_confirm (key : nat) (nav : Nav) : Prop :=
  0 < n_dx nav \/ key = KEY_RIGHT
  \/ n_btn_a nav <> 0 \/ key = KEY_ENTER \/ key = KEY_SPACE.

(** The vertical step of the same poll. *)
Definition review_step (key : nat) (nav : Nav) : Z :=
  if (key =? KEY_DOWN)%nat then 1
  else if (key =? KEY_UP)%nat then -1
  else n_dy nav.

(** The row the cursor is on once the step is taken: the 14 rows do not
    wrap around. *)
Definition row_after (sel dy : Z) : Z :=
  if dy =? 0 then sel
  else Z.max 0 (Z.min (REVIEW_TOTAL_ITEMS - 1) (sel + dy)).

(** ** A sample pad *)

(** The bit-field words in which exactly the bits [codes] are set. *)
Definition bit_words (codes : list nat) (nwords : nat) : list Z :=
  map (fun w =>
         fold_right
           (fun code acc =>
              if (code / BITS_PER_LONG =? w)%nat
              then Z.lor acc (Z.shiftl 1 (Z.of_nat (code mod BITS_PER_LONG)))
              else acc)
           0 codes)
      (seq 0 nwords).

(** A USB pad with four buttons, a stick on [ABS_X]/[ABS_Y] ranging over
    0..255 and one hat. *)
Definition sample_id : input_id := mk_input_id 3 121 17 272.

Definition sample_pad : Device :=
  {| dev_evbits := Some (bit_words [EV_KEY; EV_ABS] (NBITS EV_MAX));
     dev_absbits :=
       Some (bit_words [ABS_X; ABS_Y; ABS_HAT0X; 17%nat] (NBITS ABS_MAX));
     dev_keybits :=
       Some (bit_words [288; 289; 290; 291]%nat (NBITS KEY_MAX));
     dev_id := Some sample_id;
     dev_name := Some "USB Gamepad";
     dev_absinfo := fun i => if (i <? 2)%nat then Some (mk_absinfo 0 255)
                             else Some (mk_absinfo (-1) 1) |}.

Definition sample_controller : Controller :=
  Eval vm_compute in
    registered_controller 5 (device_path "event3") sample_pad sample_id.

(** A pad that advertises a misc button (256) besides two buttons of the
    joystick/gamepad range (288, 704), two sticks and one hat. *)
Definition misc_pad : Device :=
  {| dev_evbits := dev_evbits sample_pad;
     dev_absbits :=
       Some (bit_words [ABS_X; ABS_Y; ABS_HAT0X; 17; 40]%nat (NBITS ABS_MAX));
     dev_keybits := Some (bit_words [256; 288; 704]%nat (NBITS KEY_MAX));
     dev_id := Some sample_id;
     dev_name := dev_name sample_pad;
     dev_absinfo := dev_absinfo sample_pad |}.

Definition sample_dir : list dirent :=
  [ mk_dirent "mice" None;
    mk_dirent "event0" None;
    mk_dirent "event3" (Some (5, sample_pad)) ].

Definition sample_lefty : MappingEntry :=
  mk_entry "Up/Down" "lefty" 1 "Move stick UP or DOWN" MAP_NONE 0 0.

(** A session in review on the sample pad with all ten channels bound. *)
Definition sample_mappings : list MappingEntry :=
  zip_with (fun f m => f m)
    [ set_binding MAP_BUTTON 0; set_binding MAP_BUTTON 1;
      set_binding MAP_BUTTON 2; set_binding MAP_BUTTON 3;
      set_hat_binding 0 1; set_hat_binding 0 2;
      set_hat_binding 0 4; set_hat_binding 0 8;
      set_binding MAP_AXIS 0; set_binding MAP_AXIS 1 ]
    init_mappings.

Definition sample_browser : DirBrowser :=
  mk_browser "/mnt"
    [ mk_dir_entry ".." 1; mk_dir_entry "usb" 1;
      mk_dir_entry ">> Export here <<" 0 ] 3 2 0.

Definition sample_app : App :=
  {| state := STATE_REVIEW;
     controllers := sample_controller :: replicate 7 zero_controller;
     num_controllers := 1; sel_ctrl := 0;
     mappings := sample_mappings; cur_map := 10; redo_single := -1;
     browser := sample_browser; review_sel := 0;
     save_path := EmptyString; mapping_str := EmptyString;
     thec64_nav_idx := -1 |}.

(** *** The export as the specification words it *)

(** "A file named [<GUID>.txt] under the chosen directory". *)
Definition file_under (dir guid : string) : string :=
  if (dir =? "/")%string then "/" ++ guid ++ ".txt"
  else dir ++ "/" ++ guid ++ ".txt".

(** A world with one directory whose path has 482 characters, in which
    every file opens for writing. *)
Fixpoint letters (n : nat) : string :=
  match n with
  | O => EmptyString
  | S n' => String "d" (letters n')
  end.

Definition long_dir : string := "/mnt/" ++ letters 236 ++ "/" ++ letters 240.

Definition long_world : World :=
  {| w_readdir := fun path => if (path =? long_dir)%string then Some []
                              else None;
     w_is_dir := fun _ => true;
     w_qsort := fun entries => entries;
     w_fopen_w := fun _ => true;
     w_files := ∅ |}.

(** The sample session, browsing [long_dir] as [browser_load] shows
    it. *)
Definition long_app : App :=
  set_state STATE_BROWSE
    (set_browser (browser_load long_world long_dir) sample_app).

(** A world in which every file opens for writing, one in which none
    does, and the sample session browsing [/mnt] with the cursor on the
    export row. *)
Definition open_world : World :=
  {| w_readdir := fun _ => None; w_is_dir := fun _ => true;
     w_qsort := fun entries => entries; w_fopen_w := fun _ => true;
     w_files := ∅ |}.

Definition closed_world : World :=
  {| w_readdir := fun _ => None; w_is_dir := fun _ => true;
     w_qsort := fun entries => entries; w_fopen_w := fun _ => false;
     w_files := ∅ |}.

Definition browsing_app : App := set_state STATE_BROWSE sample_app.

Definition press (code : nat) : input_event := mk_event EV_KEY code 1.

(** Moving the cursor down to the export row of [long_dir], then
    confirming. *)
Definition long_run : option (App * World) :=
  '(app1, w1) ← update_browse long_world long_app [] [] [[press KEY_DOWN]];
  update_browse w1 app1 [] [] [[press KEY_ENTER]].

(** ** Events the tables can answer *)

(** [poll_mapping_input] indexes [btn_map] (of [KEY_MAX] entries) with the
    code of a key event and the axis tables (of [ABS_MAX] entries) with
    the code of an absolute event; an event whose code lies inside the
    table it is looked up in. *)
Definition event_in_tables (ev : input_event) : bool :=
  if (ev_type ev =? EV_KEY)%nat then (ev_code ev <? KEY_MAX)%nat
  else if (ev_type ev =? EV_ABS)%nat then (ev_code ev <? ABS_MAX)%nat
  else true.

(** An event the capture loop has no use for on the controller of device
    [d]: a key event that is not a press (release 0, auto-repeat 2) or the
    press of a key below [BTN_MISC] or of one the device does not
    advertise; a hat returning to its centre; a move on an axis the device
    does not advertise; and every event of another type ([EV_SYN],
    [EV_MSC], ...). *)
Definition quiet_event (d : Device) (ev : input_event) : bool :=
  if (ev_type ev =? EV_KEY)%nat then
    negb (ev_value ev =? 1)
    || ((ev_code ev <? KEY_MAX)%nat
        && ((ev_code ev <? BTN_MISC)%nat
            || negb (TEST_BIT (ev_code ev) (bits_or_zero (dev_keybits d)))))
  else if (ev_type ev =? EV_ABS)%nat then
    (is_hat_code (ev_code ev) && (ev_value ev =? 0))
    || (negb (is_hat_code (ev_code ev)) && (ev_code ev <? ABS_MAX)%nat
        && negb (TEST_BIT (ev_code ev) (bits_or_zero (dev_absbits d))))
  else true.

(** The state of the serializer once the text [t] has gone through
    [snprintf_at]: the buffer holds the first [sz - 1] characters of [t]
    and [pos] is the length of [t]. *)
Definition printed (sz : Z) (t : string) : string * Z :=
  (take_str (Z.to_nat (sz - 1)) t, Z.of_nat (String.length t)).

(** ** Duplicate assignments ([render_review]) *)

Definition map_type_eqb (a b : MapType) : bool :=
  match a, b with
  | MAP_NONE, MAP_NONE | MAP_BUTTON, MAP_BUTTON
  | MAP_AXIS, MAP_AXIS | MAP_HAT, MAP_HAT => true
  | _, _ => false
  end.

(** The test of the inner loop on [mappings[i]] and [mappings[j]]. *)
Definition same_binding (mi mj : MappingEntry) : bool :=
  map_type_eqb (mapped_type mj) (mapped_type mi)
  && (mapped_index mj =? mapped_index mi)
  && (negb (map_type_eqb (mapped_type mi) MAP_HAT)
      || (hat_mask mj =? hat_mask mi)).

(** [for (int j = i + 1; j < NUM_MAPPINGS; j++)]: whether the loop sets
    [has_dupes]. *)
Fixpoint dup_inner (ms : list MappingEntry) (mi : MappingEntry)
         (js : list nat) : option bool :=
  match js with
  | [] => Some false
  | j :: rest =>
      mj ← ms !! j;
      if same_binding mi mj then Some true                         (* break *)
      else dup_inner ms mi rest
  end.

(** [for (int i = 0; i < NUM_MAPPINGS && !has_dupes; i++)]. *)
Fixpoint dup_outer (ms : list MappingEntry) (indices : list nat)
  : option bool :=
  match indices with
  | [] => Some false
  | i :: rest =>
      mi ← ms !! i;
      if map_type_eqb (mapped_type mi) MAP_NONE then dup_outer ms rest
      else
        found ← dup_inner ms mi
                  (seq (S i) (Z.to_nat NUM_MAPPINGS - S i));
        if found : bool then Some true else dup_outer ms rest
  end.

(** The flag [has_dupes] of [render_review]. *)
Definition has_dupes (ms : list MappingEntry) : option bool :=
  dup_outer ms (seq 0 (Z.to_nat NUM_MAPPINGS)).

(** A binding as an [int] holds it: a button or axis index that is not
    negative, or a hat binding as the capture loop records it. *)
Definition int_binding (m : MappingEntry) : Prop :=
  match mapped_type m with
  | MAP_NONE => True
  | MAP_BUTTON | MAP_AXIS => 0 <= mapped_index m <= 2147483647
  | MAP_HAT => 0 <= mapped_index m <= 3 /\ In (hat_mask m) [1; 2; 4; 8]
  end.

(** No comma among the characters of [s]. *)
Definition no_comma (s : string) : bool :=
  string_forall (fun c => negb (Ascii.eqb c ",")) s.

(** Two entries carry the same binding. *)
Definition binding_eq (m m' : MappingEntry) : Prop :=
  mapped_type m = mapped_type m'
  /\ (mapped_type m <> MAP_NONE -> mapped_index m = mapped_index m')
  /\ (mapped_type m = MAP_HAT -> hat_mask m = hat_mask m').

(** ** What a pass of the review screen can do *)


(** ** Keyboards ([is_keyboard], [scan_keyboards]) *)






(** ** THEJOYSTICK detection ([is_thec64_joystick], [find_thec64_nav]) *)

(** [strstr(hay, needle) != NULL]. *)
Fixpoint strstr (hay needle : string) : bool :=
  String.prefix needle hay
  || match hay with
     | EmptyString => false
     | String _ r => strstr r needle
     end.

Definition is_thec64_joystick (c : Controller) : bool :=
  if strstr (c_name c) "THEC64 Joystick" then true
  else if (c_guid c =? "03000000591c00002300000010010000")%string then true
  else if (c_guid c =? "03000000591c00002400000010010000")%string then true
  else false.

(** The loop of [find_thec64_nav] over the slot numbers; the result is
    the value left in [thec64_nav_idx]. *)
Fixpoint find_loop (cs : list Controller) (sel : Z) (indices : list nat)
  : option Z :=
  match indices with
  | [] => Some (-1)
  | i :: rest =>
      if Z.of_nat i =? sel then find_loop cs sel rest          (* continue *)
      else
        c ← cs !! i;
        if is_thec64_joystick c then Some (Z.of_nat i)
        else find_loop cs sel rest
  end.

Definition find_thec64_nav (app : App) : option App :=
  idx ← find_loop (controllers app) (sel_ctrl app)
                  (seq 0 (Z.to_nat (num_controllers app)));
  Some (set_thec64_nav_idx idx app).

(** ** Controller selection ([update_detect]) *)

Definition RESCAN_MS : Z := 2000.

(** [now - app->last_scan] on [uint64_t]. *)
Definition elapsed (now last : Z) : Z := (now - last) mod 2 ^ 64.

(** The [for] loop of [update_detect] over the slot numbers; [pads] holds
    for each slot the events pending on its descriptor.  The result is
    the first slot with a key press. *)
Fixpoint detect_loop (pads : list (list input_event)) (indices : list nat)
  : option nat :=
  match indices with
  | [] => None
  | i :: rest =>
      match first_press (default [] (pads !! i)) with
      | Some _ => Some i
      | None => detect_loop pads rest
      end
  end.

(** [update_detect(app)] at time [now], with [dir] the listing of
    [/dev/input] at that time and [pads] the events pending on the slots
    once the registry is up to date.  The result is the session and
    [last_scan]; draining the descriptors leaves the session alone. *)
Definition update_detect (dir : option (list dirent)) (now : Z)
           (pads : list (list input_event)) (app : App) (last_scan : Z)
  : option (App * Z) :=
  let rescan := RESCAN_MS <? elapsed now last_scan in
  let app1 := if rescan then scan_controllers dir app else app in
  let last1 := if rescan then now else last_scan in
  match detect_loop pads (seq 0 (Z.to_nat (num_controllers app1))) with
  | None => Some (app1, last1)
  | Some i =>
      app2 ← find_thec64_nav (set_sel_ctrl (Z.of_nat i) app1);
      Some (set_redo_single (-1)
              (set_cur_map 0 (set_state STATE_MAPPING app2)), last1)
  end.

(** ** The closing screen ([update_done]) *)

Definition update_done (app : App) (queue nav_queue : list input_event)
  : option App :=
  _ ← arr_get (controllers app) (sel_ctrl app);
  match first_press queue with
  | Some _ => Some (set_state STATE_EXIT app)
  | None =>
      if 0 <=? thec64_nav_idx app then
        _ ← arr_get (controllers app) (thec64_nav_idx app);
        match first_press nav_queue with
        | Some _ => Some (set_state STATE_EXIT app)
        | None => Some app
        end
      else Some app
  end.

(** ** The main loop ([main]) *)

(** What one pass of the main loop meets outside the program: the clock,
    the listing of [/dev/input], and the events pending on the
    descriptors it reads (each slot of the registry for the selection
    screen, the selected controller, THEJOYSTICK, the keyboards). *)
Record Frame := mk_frame {
  f_now : Z;
  f_dir : option (list dirent);
  f_pads : list (list input_event);
  f_queue : list input_event;
  f_nav_queue : list input_event;
  f_keyboards : list (list input_event)
}.

(** The session together with [last_scan]. *)
Record Session := mk_session {
  s_app : App;
  s_last_scan : Z
}.

(** The first [switch (app.state)] of the loop body. *)
Definition update (w : World) (s : Session) (f : Frame)
  : option (Session * World) :=
  let app := s_app s in
  match state app with
  | STATE_DETECT =>
      '(app', last') ← update_detect (f_dir f) (f_now f) (f_pads f) app
                                     (s_last_scan s);
      Some (mk_session app' last', w)
  | STATE_MAPPING =>
      '(app', _) ← update_mapping app (f_queue f);
      Some (mk_session app' (s_last_scan s), w)
  | STATE_REVIEW =>
      app' ← update_review w app (f_queue f) (f_nav_queue f) (f_keyboards f);
      Some (mk_session app' (s_last_scan s), w)
  | STATE_BROWSE =>
      '(app', w') ← update_browse w app (f_queue f) (f_nav_queue f)
                                  (f_keyboards f);
      Some (mk_session app' (s_last_scan s), w')
  | STATE_DONE =>
      app' ← update_done app (f_queue f) (f_nav_queue f);
      Some (mk_session app' (s_last_scan s), w)
  | STATE_EXIT => Some (s, w)
  end.

(** The second [switch (app.state)], as far as the session goes: the
    render functions read the session and draw, and [render_review]
    alone writes to it, rebuilding [mapping_str].  The drawing is left
    out. *)
Definition render (app : App) : option App :=
  match state app with
  | STATE_REVIEW =>
      str ← build_mapping_string app MAPPING_STR_SIZE;
      Some (set_mapping_str str app)
  | _ => Some app
  end.

(** [while (app.state != STATE_EXIT && !g_quit)], one [Frame] for each
    pass; the list ends where [g_quit] is found set. *)
Fixpoint run_frames (w : World) (s : Session) (frames : list Frame)
  : option (Session * World) :=
  match frames with
  | [] => Some (s, w)
  | f :: rest =>
      match state (s_app s) with
      | STATE_EXIT => Some (s, w)
      | _ =>
          '(s1, w1) ← update w s f;
          app2 ← render (s_app s1);
          run_frames w1 (mk_session app2 (s_last_scan s1)) rest
      end
  end.

(** The session [main] enters its loop with: [memset(&app, 0, ...)], the
    assignments that follow, [scan_controllers] on the listing [dir],
    and [last_scan = time_ms()]. *)
Definition zeroed_app : App :=
  {| state := STATE_DETECT;
     controllers := replicate (Z.to_nat MAX_CONTROLLERS) zero_controller;
     num_controllers := 0; sel_ctrl := 0;
     mappings := replicate (Z.to_nat NUM_MAPPINGS)
                   (mk_entry EmptyString EmptyString 0 EmptyString MAP_NONE 0 0);
     cur_map := 0; redo_single := 0;
     browser := mk_browser EmptyString [] 0 0 0; review_sel := 0;
     save_path := EmptyString; mapping_str := EmptyString;
     thec64_nav_idx := 0 |}.

Definition main_start (dir : option (list dirent)) (now : Z) : Session :=
  let app :=
    set_review_sel 0
      (set_redo_single (-1)
         (set_thec64_nav_idx (-1)
            (set_sel_ctrl (-1)
               (set_mappings init_mappings
                  (set_state STATE_DETECT zeroed_app))))) in
  mk_session (scan_controllers dir app) now.

(** ** Consistency of a session *)

(** The slot was filled by [scan_controllers] from some device. *)
Definition registered (c : Controller) : Prop :=
  exists fd path d id, c = registered_controller fd path d id.

(** The bounds the update and render functions rely on without checking
    them: the registry holds [num_controllers <= 8] registered records;
    the ten entries carry the channel names; the review cursor is on one
    of the 14 rows; THEJOYSTICK, when known, is a registered slot other
    than the selected one; outside the selection screen the selected
    controller is a registered slot; while mapping, [cur_map] is one of
    the ten entries and [redo_single] is -1 or [cur_map]; while browsing,
    the cursor is on a loaded entry. *)
Definition consistent (app : App) : Prop :=
  length (controllers app) = Z.to_nat MAX_CONTROLLERS
  /\ 0 <= num_controllers app <= MAX_CONTROLLERS
  /\ (forall i c, Z.of_nat i < num_controllers app ->
        controllers app !! i = Some c -> registered c)
  /\ map gcdb_name (mappings app) = channel_names
  /\ 0 <= review_sel app < REVIEW_TOTAL_ITEMS
  /\ (thec64_nav_idx app = -1
      \/ (0 <= thec64_nav_idx app < num_controllers app
          /\ thec64_nav_idx app <> sel_ctrl app))
  /\ b_count (browser app) = Z.of_nat (length (b_entries (browser app)))
  /\ match state app with
     | STATE_DETECT => thec64_nav_idx app = -1 /\ redo_single app = -1
     | STATE_MAPPING =>
         0 <= sel_ctrl app < num_controllers app
         /\ 0 <= cur_map app < NUM_MAPPINGS
         /\ (redo_single app = -1 \/ redo_single app = cur_map app)
     | STATE_REVIEW =>
         0 <= sel_ctrl app < num_controllers app /\ redo_single app = -1
     | STATE_BROWSE =>
         0 <= sel_ctrl app < num_controllers app /\ redo_single app = -1
         /\ (0 < b_count (browser app) ->
             0 <= b_selected (browser app) < b_count (browser app))
     | STATE_DONE => False
     | STATE_EXIT => True
     end.

(** The events of a frame have codes inside the tables. *)
Definition frame_in_tables (f : Frame) : Prop :=
  Forall (fun ev => event_in_tables ev = true) (f_queue f).

(** [qsort] rearranges the entries it is given. *)
Definition sorts (w : World) : Prop :=
  forall l, Permutation (w_qsort w l) l.

(** ** Complete bindings *)

(** The entry carries a binding: a button index below the button count
    of the controller [c], an axis index below its axis count, or one
    direction (a mask of one bit) of a hat numbered 0..3.  The capture
    loop takes a hat event without looking at [hat_map] or [num_hats], so
    the hat of a binding need not be one the controller advertises. *)
Definition valid_binding (c : Controller) (m : MappingEntry) : Prop :=
  match mapped_type m with
  | MAP_BUTTON => 0 <= mapped_index m < num_buttons c
  | MAP_AXIS => 0 <= mapped_index m < num_axes c
  | MAP_HAT => 0 <= mapped_index m <= 3 /\ In (hat_mask m) [1; 2; 4; 8]
  | MAP_NONE => False
  end.

(** How far the bindings have got: on the review and browser screens all
    ten entries carry a binding in the sense of [valid_binding] for the
    selected controller; while the wizard walks through the entries,
    those before [cur_map] do; while one entry is redone, all the others
    do. *)
Definition bindings_progress (app : App) : Prop :=
  match state app with
  | STATE_MAPPING =>
      exists c, arr_get (controllers app) (sel_ctrl app) = Some c
        /\ forall i m, mappings app !! i = Some m ->
             (redo_single app = -1 /\ Z.of_nat i < cur_map app)
             \/ (redo_single app <> -1 /\ Z.of_nat i <> cur_map app) ->
             valid_binding c m
  | STATE_REVIEW | STATE_BROWSE =>
      exists c, arr_get (controllers app) (sel_ctrl app) = Some c
        /\ Forall (valid_binding c) (mappings app)
  | _ => True
  end.

(** The text of an export file: the line of a registered controller with
    all ten channels carrying a binding in the sense of [valid_binding],
    and a newline. *)
Definition complete_export (content : string) : Prop :=
  exists c ms,
    registered c /\ map gcdb_name ms = channel_names
    /\ Forall (valid_binding c) ms
    /\ content = (mapping_line c ms ++ newline)%string.

(** Every file of [w] was there in [w0] already, or is a complete
    export. *)
Definition exports_complete (w0 w : World) : Prop :=
  forall path content,
    w_files w !! path = Some content ->
    w_files w0 !! path = Some content \/ complete_export content.

(** ** A sample session *)

(** A world with a directory [/mnt/usb] under [/mnt]. *)
Definition usb_world : World :=
  {| w_readdir := fun path =>
       if (path =? "/mnt")%string then Some ["usb"; ".Trash"]
       else if (path =? "/mnt/usb")%string then Some []
       else None;
     w_is_dir := fun _ => true;
     w_qsort := fun entries => entries;
     w_fopen_w := fun _ => true;
     w_files := ∅ |}.

Definition pad_frame (queue : list input_event) : Frame :=
  mk_frame 0 None [] queue [] [].

Definition key_frame (code : nat) : Frame :=
  mk_frame 0 None [] [] [] [[press code]].

(** Selecting the sample pad, binding the ten channels, opening the
    browser, entering [usb], exporting there, and quitting. *)
Definition sample_frames : list Frame :=
  [ mk_frame 0 None [[press 288]] [] [] [];
    pad_frame [mk_event EV_KEY 288 0; press 288];
    pad_frame [];
    pad_frame [press 289];
    pad_frame [press 290; press 291];
    pad_frame [press 291];
    pad_frame [mk_event EV_ABS ABS_HAT0X (-1)];
    pad_frame [mk_event EV_ABS ABS_HAT0X 0; mk_event EV_ABS ABS_HAT0X 1];
    pad_frame [mk_event EV_ABS 17 (-1)];
    pad_frame [mk_event EV_ABS 17 1];
    pad_frame [mk_event EV_ABS ABS_X 140; mk_event EV_ABS ABS_X 250];
    pad_frame [mk_event EV_ABS ABS_Y 0];
    key_frame KEY_2;
    key_frame KEY_DOWN;
    key_frame KEY_ENTER;
    key_frame KEY_DOWN;
    key_frame KEY_ENTER;
    key_frame KEY_Q;
    key_frame KEY_Q ].

(** A THEC64 stick next to two sample pads. *)
Definition stick_id : input_id := mk_input_id 3 7257 35 272.

Definition stick_pad : Device :=
  {| dev_evbits := dev_evbits sample_pad;
     dev_absbits := dev_absbits sample_pad;
     dev_keybits := dev_keybits sample_pad;
     dev_id := Some stick_id;
     dev_name := Some "Retro Games LTD THEC64 Joystick";
     dev_absinfo := dev_absinfo sample_pad |}.

Definition stick_controller : Controller :=
  Eval vm_compute in
    registered_controller 6 (device_path "event4") stick_pad stick_id.

Definition stick_app : App :=
  set_registry sample_app
    (sample_controller :: sample_controller :: stick_controller
       :: replicate 5 zero_controller) 3.

(** The sample pad selected, at the first entry of the wizard, and ten
    inputs that bind the entries as in [sample_mappings]. *)
Definition wizard_app : App :=
  set_redo_single (-1)
    (set_cur_map 0
       (set_mappings init_mappings (set_state STATE_MAPPING sample_app))).

Definition sample_queues : list (list input_event) :=
  [ [press 288]; [press 289]; [mk_event EV_KEY 290 0; press 290];
    [press 291];
    [mk_event EV_ABS 17 (-1)]; [mk_event EV_ABS ABS_HAT0X 1];
    [mk_event EV_ABS 17 1]; [mk_event EV_ABS ABS_HAT0X (-1)];
    [mk_event EV_ABS ABS_X 250]; [mk_event EV_ABS ABS_Y 0] ].

(** ** Navigating with what was bound *)

(** A hat event whose code has its hat number in the controller's table,
    as the enumeration leaves it for a code the device advertises; events
    that are no hat events pass. *)
Definition hat_known (c : Controller) (ev : input_event) : bool :=
  negb ((ev_type ev =? EV_ABS)%nat && is_hat_code (ev_code ev))
  || match hat_map c !! ev_code ev with
     | Some h => h =? hat_of_code (ev_code ev)
     | None => false
     end.

(** The signal [read_nav_input] derives from entry [k] of the mapping
    table when that entry is [m]: confirm from entries 0 and 4, back from
    entry 5 and start from entry 7 when they are bound to a button; a
    vertical step from entry 9 and a horizontal one from entry 8 when they
    are bound to an axis or a hat. *)
Definition raises (k : nat) (m : MappingEntry) (nav : Nav) : Prop :=
  match mapped_type m with
  | MAP_BUTTON =>
      ((k = 0 \/ k = 4)%nat -> n_btn_a nav = 1)
      /\ (k = 5%nat -> n_btn_b nav = 1)
      /\ (k = 7%nat -> n_btn_start nav = 1)
  | MAP_AXIS | MAP_HAT =>
      (k = 9%nat -> n_dy nav <> 0) /\ (k = 8%nat -> n_dx nav <> 0)
  | MAP_NONE => True
  end.

(** * Theorems *)

(** ** Identity builder *)

Lemma hex_index (d : Z) : 0 <= d < 16 -> char_at hex d = lower_hex_digit d.
Proof.
  intros Hd.
  assert (Hcases : d = 0 \/ d = 1 \/ d = 2 \/ d = 3 \/ d = 4 \/ d = 5 \/
                   d = 6 \/ d = 7 \/ d = 8 \/ d = 9 \/ d = 10 \/ d = 11 \/
                   d = 12 \/ d = 13 \/ d = 14 \/ d = 15) by lia.
  repeat (destruct Hcases as [-> | Hcases]; [reflexivity |]).
  subst d. reflexivity.
Qed.

Lemma lower_hex_digit_ok (d : Z) :
  0 <= d < 16 -> is_lower_hex (lower_hex_digit d) = true.
Proof.
  intros Hd.
  assert (Hcases : d = 0 \/ d = 1 \/ d = 2 \/ d = 3 \/ d = 4 \/ d = 5 \/
                   d = 6 \/ d = 7 \/ d = 8 \/ d = 9 \/ d = 10 \/ d = 11 \/
                   d = 12 \/ d = 13 \/ d = 14 \/ d = 15) by lia.
  repeat (destruct Hcases as [-> | Hcases]; [reflexivity |]).
  subst d. reflexivity.
Qed.

Lemma low_byte (v : Z) : Z.land v 255 = v mod 256.
Proof. change 255 with (Z.ones 8). rewrite Z.land_ones by lia. reflexivity. Qed.

Lemma high_byte (v : Z) : is_u16 v -> Z.land (Z.shiftr v 8) 255 = v / 256.
Proof.
  intros Hv. rewrite low_byte, Z.shiftr_div_pow2 by lia.
  change (2 ^ 8) with 256. unfold is_u16 in Hv.
  apply Z.mod_small. split.
  - apply Z.div_pos; lia.
  - apply Z.div_lt_upper_bound; lia.
Qed.

Lemma guid_bytes_layout (id : input_id) :
  is_u16 (bustype id) -> is_u16 (vendor id) ->
  is_u16 (product id) -> is_u16 (version id) ->
  guid_bytes id =
  guid_layout (bustype id) (vendor id) (product id) (version id).
Proof.
  intros Hb Hv Hp Hr. unfold guid_bytes, guid_layout, le16. simpl.
  rewrite !high_byte by assumption. rewrite !low_byte. reflexivity.
Qed.

Lemma guid_layout_bytes (b v p r : Z) :
  is_u16 b -> is_u16 v -> is_u16 p -> is_u16 r ->
  Forall is_byte (guid_layout b v p r).
Proof.
  unfold is_u16, is_byte, guid_layout, le16. intros Hb Hv Hp Hr. simpl.
  repeat constructor; try lia;
    try (apply Z.mod_pos_bound; lia);
    try (apply Z.div_pos; lia);
    try (apply Z.div_lt_upper_bound; lia).
Qed.

Lemma guid_loop_render (l : list Z) :
  Forall is_byte l -> guid_loop l = render_hex l.
Proof.
  induction 1 as [| g rest Hg _ IH]; simpl; [reflexivity |].
  unfold is_byte in Hg.
  rewrite IH, Z.shiftr_div_pow2 by lia. change (2 ^ 4) with 16.
  change 15 with (Z.ones 4). rewrite Z.land_ones by lia. change (2 ^ 4) with 16.
  rewrite !hex_index; [reflexivity | |].
  - apply Z.mod_pos_bound; lia.
  - split; [apply Z.div_pos; lia | apply Z.div_lt_upper_bound; lia].
Qed.

Lemma render_hex_length (l : list Z) :
  String.length (render_hex l) = (2 * List.length l)%nat.
Proof. induction l as [| b r IH]; simpl; [reflexivity | rewrite IH; lia]. Qed.

Lemma render_hex_lower (l : list Z) :
  Forall is_byte l -> string_forall is_lower_hex (render_hex l) = true.
Proof.
  induction 1 as [| g rest Hg _ IH]; simpl; [reflexivity |].
  unfold is_byte in Hg.
  rewrite IH, !lower_hex_digit_ok; [reflexivity | |].
  - apply Z.mod_pos_bound; lia.
  - split; [apply Z.div_pos; lia | apply Z.div_lt_upper_bound; lia].
Qed.

(** C1.  For every quadruple of 16-bit identification fields,
    [build_guid] returns the lowercase hexadecimal rendering of the
    16-byte layout: little-endian bustype, two zero bytes, little-endian
    vendor, two zero bytes, little-endian product, two zero bytes,
    little-endian version, two zero bytes.  The result has 32 characters,
    all of them in [0-9a-f], and depends on the quadruple only. *)
Theorem build_guid_layout (id : input_id) :
  is_u16 (bustype id) -> is_u16 (vendor id) ->
  is_u16 (product id) -> is_u16 (version id) ->
  build_guid id =
    render_hex (guid_layout (bustype id) (vendor id) (product id) (version id))
  /\ String.length (build_guid id) = 32%nat
  /\ string_forall is_lower_hex (build_guid id) = true
  /\ (forall id' : input_id,
        bustype id' = bustype id -> vendor id' = vendor id ->
        product id' = product id -> version id' = version id ->
        build_guid id' = build_guid id).
Proof.
  intros Hb Hv Hp Hr.
  assert (Heq : build_guid id =
    render_hex (guid_layout (bustype id) (vendor id) (product id) (version id))).
  { unfold build_guid. rewrite guid_bytes_layout by assumption.
    apply guid_loop_render, guid_layout_bytes; assumption. }
  split; [exact Heq |]. split; [| split].
  - rewrite Heq, render_hex_length. reflexivity.
  - rewrite Heq. apply render_hex_lower, guid_layout_bytes; assumption.
  - intros [b' v' p' r']; destruct id as [b v p r]; simpl.
    intros -> -> -> ->. reflexivity.
Qed.

Lemma build_guid_layout_witness :
  build_guid (mk_input_id 3 4660 22136 256) =
    "03000000341200007856000000010000"
  /\ String.length (build_guid (mk_input_id 3 4660 22136 256)) = 32%nat.
Proof.
  destruct (build_guid_layout (mk_input_id 3 4660 22136 256))
    as (H1 & H2 & _); try (unfold is_u16; simpl; lia).
  split; [rewrite H1; reflexivity | exact H2].
Defined.

(** ** Capability prober *)

Lemma any_bit_true (from len : nat) (bits : list Z) :
  any_bit from len bits = true <->
  exists code, (from <= code < from + len)%nat /\ TEST_BIT code bits = true.
Proof.
  unfold any_bit. rewrite existsb_exists. split.
  - intros (code & Hin & Hbit). exists code. split; [| exact Hbit].
    apply in_seq in Hin. lia.
  - intros (code & Hrange & Hbit). exists code. split; [| exact Hbit].
    apply in_seq. lia.
Qed.

Lemma reports_xy_iff (d : Device) (evbits : list Z) :
  dev_evbits d = Some evbits ->
  TEST_BIT EV_ABS evbits
    && match dev_absbits d with
       | Some absbits => TEST_BIT ABS_X absbits && TEST_BIT ABS_Y absbits
       | None => false
       end = true
  <-> reports_abs d ABS_X /\ reports_abs d ABS_Y.
Proof.
  intros Hev. unfold reports_abs. rewrite andb_true_iff. split.
  - intros [Habs Hxy]. destruct (dev_absbits d) as [absbits |]; [| discriminate].
    apply andb_true_iff in Hxy as [Hx Hy].
    split; exists evbits, absbits; auto.
  - intros [(e & a & He & Habs & Ha & Hx) (e' & a' & _ & _ & Ha' & Hy)].
    assert (e = evbits) by congruence. subst e.
    rewrite Ha in Ha'. injection Ha' as <-. rewrite Ha, Hx, Hy. auto.
Qed.

Lemma reports_button_iff (d : Device) (evbits : list Z) :
  dev_evbits d = Some evbits ->
  (if TEST_BIT EV_KEY evbits then
     match dev_keybits d with
     | Some keybits =>
         if any_bit BTN_JOYSTICK 16 keybits then true
         else if any_bit BTN_GAMEPAD 16 keybits then true
         else false
     | None => false
     end
   else false) = true
  <-> exists code, (in_joystick_range code \/ in_gamepad_range code)
                   /\ reports_key d code.
Proof.
  intros Hev. unfold reports_key, in_joystick_range, in_gamepad_range. split.
  - destruct (TEST_BIT EV_KEY evbits) eqn:Hkey; [| discriminate].
    destruct (dev_keybits d) as [keybits |] eqn:Hkb; [| discriminate].
    destruct (any_bit BTN_JOYSTICK 16 keybits) eqn:Hj.
    + intros _. apply any_bit_true in Hj as (code & Hr & Hb).
      exists code. split; [left; exact Hr |]. exists evbits, keybits. auto.
    + destruct (any_bit BTN_GAMEPAD 16 keybits) eqn:Hg; [| discriminate].
      intros _. apply any_bit_true in Hg as (code & Hr & Hb).
      exists code. split; [right; exact Hr |]. exists evbits, keybits. auto.
  - intros (code & Hr & e & k & He & Hkey & Hk & Hb).
    assert (e = evbits) by congruence. subst e. rewrite Hkey, Hk.
    destruct Hr as [Hr | Hr].
    + assert (Hj : any_bit BTN_JOYSTICK 16 k = true)
        by (apply any_bit_true; eauto).
      rewrite Hj. reflexivity.
    + assert (Hg : any_bit BTN_GAMEPAD 16 k = true)
        by (apply any_bit_true; eauto).
      rewrite Hg. destruct (any_bit BTN_JOYSTICK 16 k); reflexivity.
Qed.

(** C8.  [is_gamepad] answers true exactly when the device reports both
    the analog X and the analog Y absolute axis, or reports at least one
    button code inside one of the two 16-code ranges starting at
    [BTN_JOYSTICK] and at [BTN_GAMEPAD]. *)
Theorem is_gamepad_iff (d : Device) :
  is_gamepad d = true <->
  (reports_abs d ABS_X /\ reports_abs d ABS_Y)
  \/ (exists code, (in_joystick_range code \/ in_gamepad_range code)
                   /\ reports_key d code).
Proof.
  unfold is_gamepad.
  destruct (dev_evbits d) as [evbits |] eqn:Hev.
  - rewrite <- (reports_xy_iff d evbits Hev).
    rewrite <- (reports_button_iff d evbits Hev).
    match goal with
    | |- (if ?a then true else ?b) = true <-> _ =>
        destruct a; [split; auto | split; [auto | intros [H | H]; congruence]]
    end.
  - split; [discriminate |].
    unfold reports_abs, reports_key.
    intros [[(e & a & He & _) _] | (code & _ & e & k & He & _)]; congruence.
Qed.

(** ** Capability enumeration *)

Section Numbering.
Variable p : nat -> bool.

Lemma number_code_hit (m : list Z) (n : Z) (a : nat) :
  p a = true -> number_code p (m, n) a = (<[a := n]> m, n + 1).
Proof. intros H. unfold number_code. rewrite H. reflexivity. Qed.

Lemma number_code_miss (st : list Z * Z) (a : nat) :
  p a = false -> number_code p st a = st.
Proof. intros H. unfold number_code. rewrite H. reflexivity. Qed.

Lemma number_codes_spec (codes : list nat) :
  forall (m : list Z) (n : Z),
    NoDup codes ->
    (forall c, In c codes -> (c < length m)%nat) ->
    let r := fold_left (number_code p) codes (m, n) in
    snd r = n + Z.of_nat (length (List.filter p codes))
    /\ length (fst r) = length m
    /\ (forall k c, List.filter p codes !! k = Some c ->
                    fst r !! c = Some (n + Z.of_nat k))
    /\ (forall c, ~ In c (List.filter p codes) -> fst r !! c = m !! c).
Proof.
  induction codes as [| a rest IH]; intros m n Hnd Hlen.
  - simpl. repeat split; try lia.
    intros k c Hk. rewrite lookup_nil in Hk. discriminate.
  - apply NoDup_cons in Hnd as [Ha Hnd].
    cbn [fold_left List.filter].
    destruct (p a) eqn:Hpa.
    + rewrite number_code_hit by exact Hpa.
      specialize (IH (<[a := n]> m) (n + 1) Hnd).
      rewrite length_insert in IH.
      destruct IH as (Hn & Hl & Hidx & Hrest).
      { intros c Hc. apply Hlen. right. exact Hc. }
      cbn zeta. repeat split.
      * rewrite Hn. cbn [length]. lia.
      * exact Hl.
      * intros [| k] c Hk.
        -- cbn in Hk. injection Hk as <-.
           rewrite Hrest.
           ++ rewrite list_lookup_insert_eq; [f_equal; lia |].
              apply Hlen. left. reflexivity.
           ++ intros Hin. apply filter_In in Hin as [Hin _].
              apply Ha. apply list_elem_of_In. exact Hin.
        -- cbn in Hk. rewrite (Hidx k c Hk). f_equal. lia.
      * intros c Hc. rewrite Hrest.
        -- apply list_lookup_insert_ne. intros ->. apply Hc. left. reflexivity.
        -- intros Hin. apply Hc. right. exact Hin.
    + rewrite number_code_miss by exact Hpa.
      apply IH; [exact Hnd |].
      intros c Hc. apply Hlen. right. exact Hc.
Qed.
End Numbering.

Lemma scan_button_number (keybits : list Z) :
  scan_button keybits = number_code (fun i => TEST_BIT i keybits).
Proof. reflexivity. Qed.

(** The axis loop numbers the advertised codes outside the hat
    sub-range. *)
Lemma scan_axis_numbering (d : Device) (absbits : list Z) (codes : list nat) :
  forall (t : AxisTables) (st : list Z * Z),
    t_abs_map t = fst st -> t_num_axes t = snd st ->
    let r := fold_left (scan_axis d absbits) codes t in
    let q := fold_left
               (number_code (fun i => TEST_BIT i absbits && negb (is_hat_code i)))
               codes st in
    t_abs_map r = fst q /\ t_num_axes r = snd q.
Proof.
  induction codes as [| a rest IH]; intros t st Hm Hn.
  - cbn. auto.
  - cbn [fold_left]. apply IH.
    + unfold scan_axis, number_code.
      destruct (TEST_BIT a absbits), (is_hat_code a);
        cbn [negb andb t_abs_map fst]; rewrite ?Hm, ?Hn; reflexivity.
    + unfold scan_axis, number_code.
      destruct (TEST_BIT a absbits), (is_hat_code a);
        cbn [negb andb t_num_axes snd]; rewrite ?Hm, ?Hn; reflexivity.
Qed.

Lemma scan_axis_hat_length (d : Device) (absbits : list Z) (t : AxisTables)
      (a : nat) :
  length (t_hat_map (scan_axis d absbits t a)) = length (t_hat_map t).
Proof.
  unfold scan_axis.
  destruct (TEST_BIT a absbits), (is_hat_code a); cbn;
    rewrite ?length_insert; reflexivity.
Qed.

(** The axis loop leaves [hat_map] alone at a code it does not visit or
    that is not an advertised hat code. *)
Lemma scan_axis_hat_other (d : Device) (absbits : list Z) (codes : list nat)
      (c : nat) :
  ~ In c codes \/ TEST_BIT c absbits && is_hat_code c = false ->
  forall t : AxisTables,
    t_hat_map (fold_left (scan_axis d absbits) codes t) !! c
    = t_hat_map t !! c.
Proof.
  intros Hc. induction codes as [| a rest IH]; intros t; [reflexivity |].
  cbn [fold_left]. rewrite IH.
  - unfold scan_axis.
    destruct (TEST_BIT a absbits) eqn:Hb, (is_hat_code a) eqn:Hh; cbn;
      try reflexivity.
    apply list_lookup_insert_ne. intros ->.
    destruct Hc as [Hc | Hc].
    + apply Hc. left. reflexivity.
    + rewrite Hb, Hh in Hc. discriminate.
  - destruct Hc as [Hc | Hc]; [left | right; exact Hc].
    intros H. apply Hc. right. exact H.
Qed.

(** ... and writes the hat number at an advertised hat code it visits. *)
Lemma scan_axis_hat_set (d : Device) (absbits : list Z) (codes : list nat)
      (c : nat) :
  TEST_BIT c absbits = true -> is_hat_code c = true ->
  forall t : AxisTables,
    In c codes -> (c < length (t_hat_map t))%nat ->
    t_hat_map (fold_left (scan_axis d absbits) codes t) !! c
    = Some (hat_of_code c).
Proof.
  intros Hb Hh. induction codes as [| a rest IH]; intros t Hin Hlen.
  - destruct Hin.
  - cbn [fold_left].
    destruct (in_dec Nat.eq_dec c rest) as [Hrest | Hrest].
    + apply IH; [exact Hrest |]. rewrite scan_axis_hat_length. exact Hlen.
    + destruct Hin as [-> | Hin]; [| contradiction].
      rewrite scan_axis_hat_other by (left; exact Hrest).
      unfold scan_axis. rewrite Hb, Hh. cbn.
      apply list_lookup_insert_eq. exact Hlen.
Qed.

Lemma button_codes_NoDup : NoDup (primary_button_codes ++ misc_button_codes)%list.
Proof.
  apply NoDup_app. split; [apply NoDup_seq |]. split; [| apply NoDup_seq].
  intros c H1 H2.
  apply list_elem_of_In, in_seq in H1. apply list_elem_of_In, in_seq in H2.
  unfold BTN_JOYSTICK, BTN_MISC in *. lia.
Qed.

Lemma button_codes_range (c : nat) :
  In c (primary_button_codes ++ misc_button_codes)%list -> (c < KEY_MAX)%nat.
Proof.
  intros H. apply in_app_or in H as [H | H]; apply in_seq in H;
    unfold KEY_MAX, BTN_JOYSTICK, BTN_MISC in *; lia.
Qed.

(** The index part of the axis tables after the loop does not depend on
    the rest of the tables before it. *)
Lemma scan_axis_view (d : Device) (ab : list Z) (codes : list nat) :
  forall t1 t2 : AxisTables,
    t_num_axes t1 = t_num_axes t2 -> t_num_hats t1 = t_num_hats t2 ->
    t_abs_map t1 = t_abs_map t2 -> t_hat_map t1 = t_hat_map t2 ->
    let r1 := fold_left (scan_axis d ab) codes t1 in
    let r2 := fold_left (scan_axis d ab) codes t2 in
    t_num_axes r1 = t_num_axes r2 /\ t_num_hats r1 = t_num_hats r2 /\
    t_abs_map r1 = t_abs_map r2 /\ t_hat_map r1 = t_hat_map r2.
Proof.
  induction codes as [| a rest IH]; intros t1 t2 E1 E2 E3 E4.
  - cbn. auto.
  - cbn [fold_left]. apply IH; unfold scan_axis;
      destruct (TEST_BIT a ab), (is_hat_code a);
      cbn [negb t_num_axes t_num_hats t_abs_map t_hat_map];
      rewrite ?E1, ?E2, ?E3, ?E4; reflexivity.
Qed.

(** The index assignment is a function of the device's bit-fields. *)
Lemma enumerate_index_independent (d : Device) (c1 c2 : Controller) :
  index_assignment (enumerate_buttons_axes d c1)
  = index_assignment (enumerate_buttons_axes d c2).
Proof.
  unfold index_assignment, enumerate_buttons_axes.
  cbn [num_buttons num_axes num_hats btn_map abs_map hat_map].
  destruct (scan_axis_view d (bits_or_zero (dev_absbits d)) axis_codes
              (axis_tables_init c1) (axis_tables_init c2)
              eq_refl eq_refl eq_refl eq_refl)
    as (E1 & E2 & E3 & E4).
  unfold enumerate_axes. rewrite E1, E2, E3, E4. reflexivity.
Qed.

Lemma enumerate_buttons_fold (kb : list Z) :
  enumerate_buttons kb =
  fold_left (number_code (fun i => TEST_BIT i kb))
    (primary_button_codes ++ misc_button_codes)%list
    (replicate KEY_MAX (-1), 0).
Proof. rewrite fold_left_app. reflexivity. Qed.

Lemma enumerate_buttons_spec (kb : list Z) :
  snd (enumerate_buttons kb) = Z.of_nat (length (button_order kb))
  /\ (forall k code, button_order kb !! k = Some code ->
                     fst (enumerate_buttons kb) !! code = Some (Z.of_nat k))
  /\ (forall code, (code < KEY_MAX)%nat -> ~ In code (button_order kb) ->
                   fst (enumerate_buttons kb) !! code = Some (-1)).
Proof.
  rewrite enumerate_buttons_fold. unfold button_order.
  destruct (number_codes_spec (fun i => TEST_BIT i kb)
              (primary_button_codes ++ misc_button_codes)%list
              (replicate KEY_MAX (-1)) 0 button_codes_NoDup)
    as (Bn & _ & Bidx & Brest).
  { intros code Hc. rewrite length_replicate. apply button_codes_range, Hc. }
  split; [| split].
  - rewrite Bn. apply Z.add_0_l.
  - intros k code Hk. rewrite (Bidx k code Hk), Z.add_0_l. reflexivity.
  - intros code Hlt Hnot. rewrite (Brest code Hnot).
    apply lookup_replicate_2. exact Hlt.
Qed.

Lemma enumerate_axes_spec (d : Device) (c : Controller) :
  let ab := bits_or_zero (dev_absbits d) in
  t_num_axes (enumerate_axes d c) = Z.of_nat (length (axis_order ab))
  /\ (forall k code, axis_order ab !! k = Some code ->
                     t_abs_map (enumerate_axes d c) !! code = Some (Z.of_nat k))
  /\ (forall code, (code < ABS_MAX)%nat -> ~ In code (axis_order ab) ->
                   t_abs_map (enumerate_axes d c) !! code = Some (-1)).
Proof.
  intros ab. unfold enumerate_axes, axis_order. fold ab.
  destruct (scan_axis_numbering d ab axis_codes (axis_tables_init c)
              (replicate ABS_MAX (-1), 0) eq_refl eq_refl) as [Hfst Hsnd].
  rewrite Hfst, Hsnd. clear Hfst Hsnd.
  destruct (number_codes_spec
              (fun i => TEST_BIT i ab && negb (is_hat_code i)) axis_codes
              (replicate ABS_MAX (-1)) 0 (NoDup_seq 0 ABS_MAX))
    as (An & _ & Aidx & Arest).
  { intros code Hc. rewrite length_replicate. apply in_seq in Hc. lia. }
  split; [| split].
  - rewrite An. apply Z.add_0_l.
  - intros k code Hk. rewrite (Aidx k code Hk), Z.add_0_l. reflexivity.
  - intros code Hlt Hnot. rewrite (Arest code Hnot).
    apply lookup_replicate_2. exact Hlt.
Qed.

Lemma enumerate_hats_spec (d : Device) (c : Controller) (code : nat) :
  (code < ABS_MAX)%nat ->
  t_hat_map (enumerate_axes d c) !! code =
  Some (if TEST_BIT code (bits_or_zero (dev_absbits d)) && is_hat_code code
        then hat_of_code code else -1).
Proof.
  intros Hlt. unfold enumerate_axes.
  destruct (TEST_BIT code (bits_or_zero (dev_absbits d)) && is_hat_code code)
    eqn:Hc.
  - apply andb_true_iff in Hc as [Hbit Hhat].
    apply scan_axis_hat_set; [exact Hbit | exact Hhat | |].
    + unfold axis_codes. apply in_seq. lia.
    + unfold axis_tables_init. cbn [t_hat_map].
      rewrite length_replicate. exact Hlt.
  - rewrite scan_axis_hat_other by (right; exact Hc).
    unfold axis_tables_init. cbn [t_hat_map].
    apply lookup_replicate_2. exact Hlt.
Qed.

(** Where a code stands among the codes of a range that satisfy [p]. *)
Lemma filter_seq_lookup (p : nat -> bool) (lo n code : nat) :
  (lo <= code < lo + n)%nat -> p code = true ->
  List.filter p (seq lo n) !! length (List.filter p (seq lo (code - lo)))
  = Some code.
Proof.
  intros Hr Hp.
  replace n with ((code - lo) + S (n - S (code - lo)))%nat by lia.
  rewrite seq_app, List.filter_app. cbn [seq].
  replace (lo + (code - lo))%nat with code by lia.
  cbn [List.filter]. rewrite Hp.
  rewrite lookup_app_r by lia. rewrite Nat.sub_diag. reflexivity.
Qed.

Lemma in_hat_sub_range_code (code : nat) :
  in_hat_sub_range code = is_hat_code code.
Proof.
  unfold in_hat_sub_range, is_hat_code, ABS_HAT0X, ABS_HAT3Y.
  destruct (Nat.leb_spec 16 code); cbn [andb]; [| reflexivity].
  destruct (Nat.ltb_spec code (16 + 2 * 4)), (Nat.leb_spec code 23);
    (reflexivity || lia).
Qed.

Lemma button_order_split (kb : list Z) :
  button_order kb
  = (List.filter (fun i => TEST_BIT i kb)
       (seq BTN_JOYSTICK (KEY_MAX - BTN_JOYSTICK))
     ++ List.filter (fun i => TEST_BIT i kb)
          (seq BTN_MISC (BTN_JOYSTICK - BTN_MISC)))%list.
Proof. unfold button_order. apply List.filter_app. Qed.

(** The tables of the button loops, code by code. *)
Lemma enumerate_buttons_index (kb : list Z) :
  snd (enumerate_buttons kb)
  = Z.of_nat (advertised_in kb BTN_JOYSTICK KEY_MAX
              + advertised_in kb BTN_MISC BTN_JOYSTICK)
  /\ (forall code, (code < KEY_MAX)%nat ->
        fst (enumerate_buttons kb) !! code = Some (button_index kb code)).
Proof.
  destruct (enumerate_buttons_spec kb) as (B1 & B2 & B3).
  assert (Hjoy : (BTN_JOYSTICK + (KEY_MAX - BTN_JOYSTICK) = KEY_MAX)%nat)
    by (unfold BTN_JOYSTICK, KEY_MAX; lia).
  assert (Hmisc : (BTN_MISC + (BTN_JOYSTICK - BTN_MISC) = BTN_JOYSTICK)%nat)
    by (unfold BTN_JOYSTICK, BTN_MISC; lia).
  assert (Hlt : (BTN_MISC < BTN_JOYSTICK < KEY_MAX)%nat)
    by (unfold BTN_JOYSTICK, BTN_MISC, KEY_MAX; lia).
  split.
  - rewrite B1, button_order_split, length_app. unfold advertised_in.
    reflexivity.
  - intros code Hcode. unfold button_index.
    destruct (TEST_BIT code kb) eqn:Hbit; cbn [negb].
    2:{ apply B3; [exact Hcode |]. unfold button_order.
        rewrite filter_In. intros [_ H]. congruence. }
    destruct (Nat.leb_spec BTN_JOYSTICK code) as [Hlo | Hlo]; cbn [andb].
    + replace (code <? KEY_MAX)%nat with true
        by (symmetry; apply Nat.ltb_lt; exact Hcode).
      apply B2. rewrite button_order_split.
      rewrite lookup_app_l.
      * unfold advertised_in.
        apply (filter_seq_lookup (fun i => TEST_BIT i kb));
          [lia | exact Hbit].
      * unfold advertised_in.
        apply (lookup_lt_Some _ _ code).
        apply (filter_seq_lookup (fun i => TEST_BIT i kb));
          [lia | exact Hbit].
    + destruct (Nat.leb_spec BTN_MISC code) as [Hm | Hm]; cbn [andb].
      * replace (code <? BTN_JOYSTICK)%nat with true
          by (symmetry; apply Nat.ltb_lt; exact Hlo).
        rewrite Nat2Z.inj_add, <- Nat2Z.inj_add.
        apply B2. rewrite button_order_split.
        rewrite lookup_app_r by (unfold advertised_in; lia).
        unfold advertised_in at 1.
        replace (length
                   (List.filter (fun i => TEST_BIT i kb)
                      (seq BTN_JOYSTICK (KEY_MAX - BTN_JOYSTICK)))
                 + advertised_in kb BTN_MISC code
                 - length
                     (List.filter (fun i => TEST_BIT i kb)
                        (seq BTN_JOYSTICK (KEY_MAX - BTN_JOYSTICK))))%nat
          with (advertised_in kb BTN_MISC code) by lia.
        unfold advertised_in.
        apply (filter_seq_lookup (fun i => TEST_BIT i kb));
          [lia | exact Hbit].
      * apply B3; [exact Hcode |]. unfold button_order.
        rewrite filter_In, in_app_iff.
        unfold primary_button_codes, misc_button_codes.
        rewrite !in_seq. lia.
Qed.

(** The tables of the axis loop, code by code. *)
Lemma enumerate_axes_index (d : Device) (c : Controller) :
  let ab := bits_or_zero (dev_absbits d) in
  t_num_axes (enumerate_axes d c) = Z.of_nat (axes_below ab ABS_MAX)
  /\ (forall code, (code < ABS_MAX)%nat ->
        t_abs_map (enumerate_axes d c) !! code = Some (axis_index ab code))
  /\ (forall code, (code < ABS_MAX)%nat ->
        t_hat_map (enumerate_axes d c) !! code = Some (hat_index ab code)).
Proof.
  intros ab. destruct (enumerate_axes_spec d c) as (A1 & A2 & A3).
  fold ab in A1, A2, A3.
  assert (Hfilter : forall n,
            List.filter (fun i => TEST_BIT i ab && negb (in_hat_sub_range i))
              (seq 0 n)
            = List.filter (fun i => TEST_BIT i ab && negb (is_hat_code i))
                (seq 0 n)).
  { intros n. apply List.filter_ext. intros i.
    rewrite in_hat_sub_range_code. reflexivity. }
  refine (conj _ (conj _ _)).
  - rewrite A1. unfold axes_below, axis_order, axis_codes.
    reflexivity.
  - intros code Hcode. unfold axis_index. rewrite in_hat_sub_range_code.
    destruct (TEST_BIT code ab && negb (is_hat_code code)) eqn:Hp.
    + apply A2. unfold axes_below, axis_order, axis_codes.
      rewrite (Hfilter code).
      assert (Hr : (0 <= code < 0 + ABS_MAX)%nat) by lia.
      pose proof (filter_seq_lookup
                    (fun i => TEST_BIT i ab && negb (is_hat_code i))
                    0 ABS_MAX code Hr Hp) as H.
      rewrite Nat.sub_0_r in H. exact H.
    + apply A3; [exact Hcode |]. unfold axis_order.
      rewrite filter_In. intros [_ H]. congruence.
  - intros code Hcode. unfold hat_index. rewrite in_hat_sub_range_code.
    exact (enumerate_hats_spec d c code Hcode).
Qed.

(** C4.  With [kb] and [ab] the key and axis bit-fields of the device,
    and for every code of the tables: an advertised button code of the
    joystick/gamepad range [BTN_JOYSTICK .. KEY_MAX - 1] has as index the
    number of advertised codes below it in that range; an advertised code
    of the misc range [BTN_MISC .. BTN_JOYSTICK - 1] has the number of all
    advertised codes of the first range plus the number of advertised
    codes below it in the misc range; [num_buttons] is the number of
    advertised codes of both ranges, so that the indices are 0, 1, 2, ...
    without a gap.  An advertised axis code outside the hat sub-range has
    as index the number of such codes below it and [num_axes] is their
    number.  An advertised code of the hat sub-range has the hat number
    (code - ABS_HAT0X) / 2.  Every other table entry is -1.  Running the
    enumeration a second time gives the same index assignment. *)
Theorem enumerate_index_assignment (d : Device) (c : Controller) :
  let c' := enumerate_buttons_axes d c in
  let kb := bits_or_zero (dev_keybits d) in
  let ab := bits_or_zero (dev_absbits d) in
  num_buttons c'
  = Z.of_nat (advertised_in kb BTN_JOYSTICK KEY_MAX
              + advertised_in kb BTN_MISC BTN_JOYSTICK)
  /\ (forall code, (code < KEY_MAX)%nat ->
        btn_map c' !! code = Some (button_index kb code))
  /\ num_axes c' = Z.of_nat (axes_below ab ABS_MAX)
  /\ (forall code, (code < ABS_MAX)%nat ->
        abs_map c' !! code = Some (axis_index ab code))
  /\ (forall code, (code < ABS_MAX)%nat ->
        hat_map c' !! code = Some (hat_index ab code))
  /\ index_assignment (enumerate_buttons_axes d c') = index_assignment c'.
Proof.
  intros c' kb ab.
  destruct (enumerate_buttons_index kb) as (B1 & B2).
  destruct (enumerate_axes_index d c) as (A1 & A2 & A3).
  refine (conj B1 (conj B2 (conj A1 (conj A2 (conj A3 _))))).
  apply enumerate_index_independent.
Qed.

(** On a pad with a misc button: the two buttons of the first range are
    numbered 0 and 1 and the misc button, the lowest code, 2; the axis
    above the hat sub-range follows the two stick axes. *)
Lemma enumerate_index_assignment_witness :
  let c' := enumerate_buttons_axes misc_pad zero_controller in
  num_buttons c' = 3
  /\ btn_map c' !! 288%nat = Some 0
  /\ btn_map c' !! 704%nat = Some 1
  /\ btn_map c' !! 256%nat = Some 2
  /\ btn_map c' !! 300%nat = Some (-1)
  /\ num_axes c' = 3
  /\ abs_map c' !! ABS_Y = Some 1
  /\ abs_map c' !! 40%nat = Some 2
  /\ abs_map c' !! ABS_HAT0X = Some (-1)
  /\ hat_map c' !! 17%nat = Some 0
  /\ hat_map c' !! ABS_Y = Some (-1).
Proof.
  intros c'.
  destruct (enumerate_index_assignment misc_pad zero_controller)
    as (Hn & Hb & Ha & Hx & Hh & _).
  fold c' in Hn, Hb, Ha, Hx, Hh.
  assert (K : forall code, (code <? KEY_MAX)%nat = true -> (code < KEY_MAX)%nat)
    by (intros code; apply Nat.ltb_lt).
  assert (A : forall code, (code <? ABS_MAX)%nat = true -> (code < ABS_MAX)%nat)
    by (intros code; apply Nat.ltb_lt).
  refine (conj _ (conj _ (conj _ (conj _ (conj _ (conj _ (conj _ (conj _
            (conj _ (conj _ _)))))))))).
  - rewrite Hn. vm_compute. reflexivity.
  - rewrite (Hb 288%nat (K 288%nat eq_refl)). vm_compute. reflexivity.
  - rewrite (Hb 704%nat (K 704%nat eq_refl)). vm_compute. reflexivity.
  - rewrite (Hb 256%nat (K 256%nat eq_refl)). vm_compute. reflexivity.
  - rewrite (Hb 300%nat (K 300%nat eq_refl)). vm_compute. reflexivity.
  - rewrite Ha. vm_compute. reflexivity.
  - rewrite (Hx ABS_Y (A ABS_Y eq_refl)). vm_compute. reflexivity.
  - rewrite (Hx 40%nat (A 40%nat eq_refl)). vm_compute. reflexivity.
  - rewrite (Hx ABS_HAT0X (A ABS_HAT0X eq_refl)). vm_compute. reflexivity.
  - rewrite (Hh 17%nat (A 17%nat eq_refl)). vm_compute. reflexivity.
  - rewrite (Hh ABS_Y (A ABS_Y eq_refl)). vm_compute. reflexivity.
Defined.

(** On the sample pad: four buttons numbered in code order, the stick
    axes numbered 0 and 1, one hat. *)
Example enumerate_sample_pad :
  (num_buttons sample_controller, num_axes sample_controller,
   num_hats sample_controller) = (4, 2, 1)
  /\ btn_map sample_controller !! 288%nat = Some 0
  /\ btn_map sample_controller !! 291%nat = Some 3
  /\ btn_map sample_controller !! 292%nat = Some (-1)
  /\ abs_map sample_controller !! ABS_Y = Some 1
  /\ abs_map sample_controller !! ABS_HAT0X = Some (-1)
  /\ hat_map sample_controller !! 17%nat = Some 0
  /\ axis_initial sample_controller !! ABS_X = Some 127.
Proof. repeat split. Qed.

(** A code of the misc range is numbered after every code of the primary
    range, whatever their numeric order. *)
Example misc_buttons_last :
  let kb := bit_words [256; 288; 704]%nat (NBITS KEY_MAX) in
  button_order kb = [288; 704; 256]%nat
  /\ fst (enumerate_buttons kb) !! 288%nat = Some 0
  /\ fst (enumerate_buttons kb) !! 704%nat = Some 1
  /\ fst (enumerate_buttons kb) !! 256%nat = Some 2
  /\ snd (enumerate_buttons kb) = 3.
Proof. vm_compute. repeat split. Qed.

(** ** Device registry *)

(** The checks of the directory loops, in the order the sources make
    them, decide detection. *)
Lemma detect_short (entry : dirent) :
  (String.length (d_name entry) <=? 5)%nat = true -> detect entry = None.
Proof.
  intros H. unfold detect. apply Nat.leb_le in H.
  destruct (5 <? String.length (d_name entry))%nat eqn:E; [| reflexivity].
  apply Nat.ltb_lt in E. lia.
Qed.

Lemma detect_not_event (entry : dirent) :
  not_event_name (d_name entry) = true -> detect entry = None.
Proof.
  unfold not_event_name, detect. intros H. apply negb_true_iff in H.
  rewrite H, andb_false_r. reflexivity.
Qed.

Lemma detect_event (entry : dirent) :
  (String.length (d_name entry) <=? 5)%nat = false ->
  not_event_name (d_name entry) = false ->
  detect entry =
  match d_open entry with
  | Some (fd, d) =>
      if is_gamepad d then
        match dev_id d with
        | Some id => Some (fd, device_path (d_name entry), d, id)
        | None => None
        end
      else None
  | None => None
  end.
Proof.
  unfold not_event_name, detect. intros H1 H2.
  apply negb_false_iff in H2. apply Nat.leb_gt in H1.
  apply Nat.ltb_lt in H1. rewrite H1, H2. reflexivity.
Qed.

Lemma detected_cons (entry : dirent) (rest : list dirent) :
  detected (entry :: rest) =
  match detect entry with
  | Some g => g :: detected rest
  | None => detected rest
  end.
Proof. reflexivity. Qed.

Lemma scan_loop_spec (entries : list dirent) :
  forall (cs : list Controller) (n : Z),
    0 <= n <= MAX_CONTROLLERS ->
    length cs = Z.to_nat MAX_CONTROLLERS ->
    let r := scan_loop entries cs n in
    snd r = Z.min MAX_CONTROLLERS (n + Z.of_nat (length (detected entries)))
    /\ length (fst r) = Z.to_nat MAX_CONTROLLERS
    /\ (forall j, (j < Z.to_nat n)%nat -> fst r !! j = cs !! j)
    /\ (forall k g, n + Z.of_nat k < MAX_CONTROLLERS ->
                    detected entries !! k = Some g ->
                    fst r !! (Z.to_nat n + k)%nat = Some (controller_of g)).
Proof.
  unfold MAX_CONTROLLERS.
  induction entries as [| entry rest IH]; intros cs n Hn Hlen.
  - cbn. repeat split; try lia. intros k g _ Hk. discriminate.
  - cbn [scan_loop]. unfold MAX_CONTROLLERS.
    destruct (8 <=? n) eqn:Hfull.
    { apply Z.leb_le in Hfull. cbn [fst snd].
      split; [lia |]. split; [exact Hlen |]. split; [reflexivity |].
      intros k g Hk. lia. }
    apply Z.leb_gt in Hfull.
    assert (Hskip : forall cs',
      length cs' = Z.to_nat 8 ->
      (forall j, (j < Z.to_nat n)%nat -> cs' !! j = cs !! j) ->
      detect entry = None ->
      let r := scan_loop rest cs' n in
      snd r = Z.min 8 (n + Z.of_nat (length (detected (entry :: rest))))
      /\ length (fst r) = Z.to_nat 8
      /\ (forall j, (j < Z.to_nat n)%nat -> fst r !! j = cs !! j)
      /\ (forall k g, n + Z.of_nat k < 8 ->
                      detected (entry :: rest) !! k = Some g ->
                      fst r !! (Z.to_nat n + k)%nat = Some (controller_of g))).
    { intros cs' Hlen' Hsame Hnone. rewrite detected_cons, Hnone.
      destruct (IH cs' n) as (I1 & I2 & I3 & I4); [lia | exact Hlen' |].
      cbn zeta. repeat split; try assumption.
      intros j Hj. rewrite I3 by exact Hj. apply Hsame, Hj. }
    destruct (String.length (d_name entry) <=? 5)%nat eqn:Hshort.
    { apply Hskip; auto using detect_short. }
    destruct (not_event_name (d_name entry)) eqn:Hev.
    { apply Hskip; auto using detect_not_event. }
    pose proof (detect_event entry Hshort Hev) as Hdet.
    destruct (d_open entry) as [[fd d] |].
    2:{ apply Hskip; auto. }
    destruct (is_gamepad d) eqn:Hpad; cbn [negb].
    2:{ apply Hskip; auto. }
    destruct (dev_id d) as [id |].
    2:{ apply Hskip; auto.
        - rewrite length_insert. exact Hlen.
        - intros j Hj. apply list_lookup_insert_ne. lia. }
    rewrite detected_cons, Hdet.
    set (cs2 := <[Z.to_nat n := registered_controller fd
                    (device_path (d_name entry)) d id]>
                  (<[Z.to_nat n := opened_controller fd
                       (device_path (d_name entry))]> cs)).
    assert (Hlen2 : length cs2 = Z.to_nat 8).
    { unfold cs2. rewrite !length_insert. exact Hlen. }
    destruct (IH cs2 (n + 1)) as (I1 & I2 & I3 & I4); [lia | exact Hlen2 |].
    cbn zeta. repeat split.
    + rewrite I1. cbn [length]. lia.
    + exact I2.
    + intros j Hj. rewrite I3 by lia. unfold cs2.
      rewrite !list_lookup_insert_ne by lia. reflexivity.
    + intros [| k] g Hk Hg.
      * cbn in Hg. injection Hg as <-.
        rewrite Nat.add_0_r, I3 by lia. unfold cs2.
        rewrite list_lookup_insert_eq; [reflexivity |].
        rewrite length_insert. lia.
      * cbn in Hg.
        replace (Z.to_nat n + S k)%nat with (Z.to_nat (n + 1) + k)%nat by lia.
        apply I4; [lia | exact Hg].
Qed.

Lemma detected_origin (entries : list dirent) (k : nat) (fd : Z)
      (path : string) (d : Device) (id : input_id) :
  detected entries !! k = Some (fd, path, d, id) ->
  exists entry,
    In entry entries /\ d_open entry = Some (fd, d) /\
    path = device_path (d_name entry) /\
    is_gamepad d = true /\ dev_id d = Some id.
Proof.
  intros Hk. apply list_elem_of_lookup_2 in Hk.
  apply list_elem_of_omap in Hk as (entry & Hin & Hdet).
  exists entry. split; [apply list_elem_of_In; exact Hin |].
  unfold detect in Hdet.
  destruct ((5 <? String.length (d_name entry))%nat
            && String.prefix "event" (d_name entry)); [| discriminate].
  destruct (d_open entry) as [[fd' d'] |] eqn:Hopen; [| discriminate].
  destruct (is_gamepad d') eqn:Hpad; [| discriminate].
  destruct (dev_id d') as [id' |] eqn:Hid; [| discriminate].
  injection Hdet as E1 E2 E3 E4. subst fd' path d' id'.
  split; [reflexivity |]. split; [reflexivity |]. split; [exact Hpad |].
  exact Hid.
Qed.

(** C10.  After [scan_controllers] the registry holds between 0 and 8
    records; it holds the detected gamepads in directory order, those
    after the eighth left out; and every registered record was built from
    a directory entry whose device satisfied [is_gamepad] in this scan. *)
Theorem scan_controllers_registry (dir : option (list dirent)) (app : App) :
  length (controllers app) = Z.to_nat MAX_CONTROLLERS ->
  let app' := scan_controllers dir app in
  0 <= num_controllers app' <= MAX_CONTROLLERS
  /\ (forall entries, dir = Some entries ->
        num_controllers app'
        = Z.min MAX_CONTROLLERS (Z.of_nat (length (detected entries)))
        /\ forall k g, Z.of_nat k < MAX_CONTROLLERS ->
                       detected entries !! k = Some g ->
                       controllers app' !! k = Some (controller_of g))
  /\ (forall i, (Z.of_nat i < num_controllers app') ->
        exists entries entry fd d id,
          dir = Some entries /\ In entry entries /\
          d_open entry = Some (fd, d) /\ is_gamepad d = true /\
          dev_id d = Some id /\
          controllers app' !! i =
          Some (registered_controller fd (device_path (d_name entry)) d id)).
Proof.
  intros Hlen. destruct dir as [entries |].
  - destruct (scan_loop_spec entries (controllers app) 0) as (S1 & S2 & S3 & S4);
      [unfold MAX_CONTROLLERS; lia | exact Hlen |].
    cbn zeta. unfold scan_controllers. cbn [num_controllers controllers set_registry].
    rewrite Z.add_0_l in S1. split; [| split].
    + rewrite S1. unfold MAX_CONTROLLERS. lia.
    + intros entries' Heq. injection Heq as <-. split; [exact S1 |].
      intros k g Hk Hg. apply (S4 k g); [lia | exact Hg].
    + intros i Hi. rewrite S1 in Hi.
      destruct (detected entries !! i) as [[[[fd path] d] id] |] eqn:Hg.
      * destruct (detected_origin entries i fd path d id Hg)
          as (entry & Hin & Hopen & -> & Hpad & Hid).
        exists entries, entry, fd, d, id. repeat split; try assumption.
        apply (S4 i _ ltac:(lia) Hg).
      * apply lookup_ge_None in Hg. lia.
  - cbn zeta. unfold scan_controllers. cbn [num_controllers controllers set_registry].
    unfold MAX_CONTROLLERS. split; [lia |]. split; [discriminate |].
    intros i Hi. lia.
Qed.

Lemma scan_controllers_registry_witness :
  length (controllers sample_app) = Z.to_nat MAX_CONTROLLERS
  /\ num_controllers (scan_controllers (Some sample_dir) sample_app) = 1
  /\ c_guid <$> controllers (scan_controllers (Some sample_dir) sample_app) !! 0%nat
     = Some "03000000790000001100000010010000".
Proof.
  split; [reflexivity |].
  pose proof (scan_controllers_registry (Some sample_dir) sample_app eq_refl)
    as H.
  cbn zeta in H. destruct H as (_ & H & _).
  destruct (H sample_dir eq_refl) as [Hn Hk]. split.
  - rewrite Hn. reflexivity.
  - rewrite (Hk 0%nat (5, device_path "event3", sample_pad, sample_id));
      [reflexivity | reflexivity | reflexivity].
Defined.

(** ** The stand-alone identity tool *)

Lemma main_loop_spec (entries : list dirent) :
  forall (out : list string) (found : Z),
    gamepad_guid.main_loop entries out found =
    ((out ++ map guid_line (detected entries))%list,
     found + Z.of_nat (length (detected entries))).
Proof.
  induction entries as [| entry rest IH]; intros out found.
  - cbn. rewrite app_nil_r, Z.add_0_r. reflexivity.
  - cbn [gamepad_guid.main_loop]. rewrite detected_cons.
    destruct (String.length (d_name entry) <=? 5)%nat eqn:Hshort.
    { rewrite detect_short by exact Hshort. apply IH. }
    destruct (not_event_name (d_name entry)) eqn:Hev.
    { rewrite detect_not_event by exact Hev. apply IH. }
    rewrite (detect_event entry Hshort Hev).
    destruct (d_open entry) as [[fd d] |]; [| apply IH].
    destruct (is_gamepad d); cbn [negb]; [| apply IH].
    destruct (dev_id d) as [id |]; [| apply IH].
    rewrite IH. cbn [map length guid_line]. unfold printf_line.
    rewrite <- app_assoc. cbn [app]. f_equal. lia.
Qed.

(** A GUID line starts with a hexadecimal digit, so it is never the
    "none found" message. *)
Lemma build_guid_head (id : input_id) :
  exists c rest, build_guid id = String c rest /\ is_lower_hex c = true.
Proof.
  unfold build_guid, guid_bytes. cbn [guid_loop].
  eexists _, _. split; [reflexivity |].
  rewrite Z.shiftr_div_pow2 by lia. rewrite low_byte. change (2 ^ 4) with 16.
  assert (Hb : 0 <= bustype id mod 256 < 256) by (apply Z.mod_pos_bound; lia).
  rewrite hex_index.
  - apply lower_hex_digit_ok. split.
    + apply Z.div_pos; lia.
    + apply Z.div_lt_upper_bound; lia.
  - split; [apply Z.div_pos; lia | apply Z.div_lt_upper_bound; lia].
Qed.

Lemma guid_line_not_message (g : Z * string * Device * input_id) :
  guid_line g <> no_controllers_message.
Proof.
  destruct g as [[[fd path] d] id]. unfold guid_line.
  destruct (build_guid_head id) as (c & rest & -> & Hc).
  unfold no_controllers_message. cbn. intros H. injection H as -> _.
  discriminate Hc.
Qed.

(** The lines of the detected gamepads, once through the registry's
    view of detection and once through the nodes of the listing. *)
Lemma tool_lines_detected (entries : list dirent) :
  map tool_line (omap gamepad_node entries)
  = map guid_line (detected entries).
Proof.
  unfold detected.
  induction entries as [| entry rest IH]; [reflexivity |].
  cbn [omap list_omap]. unfold gamepad_node at 1, detect at 1.
  destruct ((5 <? String.length (d_name entry))%nat
            && String.prefix "event" (d_name entry)); [| exact IH].
  destruct (d_open entry) as [[fd d] |]; [| exact IH].
  destruct (is_gamepad d); [| exact IH].
  destruct (dev_id d) as [id |]; [| exact IH].
  cbn [map]. rewrite IH. reflexivity.
Qed.

(** C9.  When [/dev/input] opens, the tool prints exactly one line
    [GUID,Name,/dev/input/<node>] for each gamepad node of the listing,
    in directory order, then the message [No game controllers found.]
    when there is no such node, and exits with status 0; the message is
    printed exactly when no gamepad is detected.  When [/dev/input] does
    not open, nothing is written to standard output and the exit status
    is 1. *)
Theorem guid_tool_output (dir : option (list dirent)) :
  match dir with
  | Some entries =>
      let gs := scanned_gamepads dir in
      gamepad_guid.main dir
      = ((map tool_line gs
          ++ match gs with
             | [] => [no_controllers_message]
             | _ :: _ => []
             end)%list, 0)
      /\ (In no_controllers_message (fst (gamepad_guid.main dir))
          <-> length gs = 0%nat)
  | None => gamepad_guid.main dir = ([], 1)
  end.
Proof.
  destruct dir as [entries |]; [| reflexivity].
  cbn zeta. cbn [scanned_gamepads].
  assert (Hlen : length (omap gamepad_node entries)
                 = length (detected entries)).
  { rewrite <- (length_map tool_line), tool_lines_detected.
    apply length_map. }
  assert (Hmain : gamepad_guid.main (Some entries) =
    ((map tool_line (omap gamepad_node entries)
      ++ match omap gamepad_node entries with
         | [] => [no_controllers_message]
         | _ :: _ => []
         end)%list, 0)).
  { unfold gamepad_guid.main. rewrite main_loop_spec. cbn [fst snd List.app].
    rewrite tool_lines_detected.
    destruct (omap gamepad_node entries) as [| n ns];
      destruct (detected entries) as [| g gs]; try discriminate Hlen.
    - reflexivity.
    - cbn [length].
      replace (0 + Z.of_nat (S (length gs)) =? 0) with false
        by (symmetry; apply Z.eqb_neq; lia).
      rewrite app_nil_r. reflexivity. }
  split; [exact Hmain |]. rewrite Hmain. cbn [fst].
  rewrite tool_lines_detected.
  destruct (omap gamepad_node entries) as [| n ns];
    destruct (detected entries) as [| g gs]; try discriminate Hlen.
  - cbn. split; auto.
  - rewrite app_nil_r. split; [| discriminate].
    intros Hin. apply in_map_iff in Hin as (g' & Heq & _).
    exfalso. exact (guid_line_not_message g' Heq).
Qed.

(** C9 as worded, where it fails: when [/dev/input] does not open no
    gamepad is detected, and yet the message is not printed. *)
Lemma guid_tool_unopened_counterexample :
  ~ (In no_controllers_message (fst (gamepad_guid.main None))
     <-> length (scanned_gamepads None) = 0%nat).
Proof. cbn. intros [_ H]. exact (H eq_refl). Qed.

(** When the directory cannot be opened nothing is written to standard
    output and the exit status is 1. *)
Lemma guid_tool_no_directory : gamepad_guid.main None = ([], 1).
Proof. reflexivity. Qed.

(** ** Calibration model *)

(** Without wrap-around the threshold of a non-empty range is two fifths
    of the whole range, that is four fifths of the half-range. *)
Lemma axis_threshold_value (range : Z) :
  0 < range <= 1073741823 -> axis_threshold range = 2 * range / 5.
Proof.
  intros Hr. unfold axis_threshold, int_div, int_mul, wrap_int.
  destruct (0 <? range) eqn:E; [| apply Z.ltb_ge in E; lia].
  replace ((range * 2 + 2147483648) mod 4294967296 - 2147483648)
    with (2 * range).
  - apply Z.quot_div_nonneg; lia.
  - rewrite Z.mod_small by lia. lia.
Qed.

Lemma axis_threshold_collapsed (range : Z) :
  range <= 0 -> axis_threshold range = 1.
Proof.
  intros Hr. unfold axis_threshold.
  destruct (0 <? range) eqn:E; [apply Z.ltb_lt in E; lia | reflexivity].
Qed.

(** C2.  On the sample pad, whose stick axes range over 0..255 with
    centre 127, the threshold of the capture rule is 102, two fifths of
    the whole range.  The sample 200 lies 73 away from the centre, beyond
    40% of the half-range (51): it is taken as a deflection neither by
    the capture poll nor by the navigation read of the mapped stick,
    while the hardcoded THEJOYSTICK read, whose threshold for the same
    range is 50, takes it as one. *)
Theorem axis_threshold_uses_whole_range :
  axis_threshold (int_sub 255 0) = 102
  /\ beyond_forty_percent_of_half_range 0 255 127 200
  /\ (forall entry : MappingEntry,
        poll_mapping_input sample_controller [mk_event EV_ABS ABS_X 200] entry
        = Some ([], entry, false))
  /\ nav_loop sample_controller sample_mappings [mk_event EV_ABS ABS_Y 200]
       (mk_nav 0 0 0 0 0) = Some (mk_nav 0 0 0 0 0)
  /\ thec64_loop [mk_event EV_ABS ABS_Y 200] (mk_nav 0 0 0 0 0, false)
     = (mk_nav 1 0 0 0 0, true).
Proof.
  split; [reflexivity |]. split.
  - unfold beyond_forty_percent_of_half_range. simpl. lia.
  - split; [intros entry; reflexivity |].
    split; [vm_compute; reflexivity | reflexivity].
Qed.

(** With the threshold the code computes, the capture rule is the strict
    comparison of the distance from the centre with the threshold; the
    navigation rule tells the two directions apart by the sign. *)
Lemma deflection_rule (thresh delta : Z) :
  0 <= thresh ->
  (thresh <? delta) || (delta <? - thresh) = true <-> thresh < Z.abs delta.
Proof.
  intros Ht. rewrite orb_true_iff, Z.ltb_lt, Z.ltb_lt. lia.
Qed.

(** Every distance from the centre between 40% of the half-range and the
    threshold the code computes goes unnoticed. *)
Lemma deflection_below_code_threshold (range delta : Z) :
  0 < range <= 1073741823 ->
  5 * Z.abs delta <= 2 * range ->
  (axis_threshold range <? delta) || (delta <? - axis_threshold range) = false.
Proof.
  intros Hr Hd. rewrite axis_threshold_value by exact Hr.
  assert (Hq : Z.abs delta <= 2 * range / 5)
    by (apply Z.div_le_lower_bound; lia).
  apply orb_false_iff. split; [apply Z.ltb_ge | apply Z.ltb_ge]; lia.
Qed.

Example deflection_below_code_threshold_sample :
  (axis_threshold 255 <? 73) || (73 <? - axis_threshold 255) = false.
Proof. apply deflection_below_code_threshold; lia. Qed.

(** ** Capture of hat events *)

Lemma hat_code_cases (code : nat) :
  is_hat_code code = true ->
  code = 16%nat \/ code = 17%nat \/ code = 18%nat \/ code = 19%nat \/
  code = 20%nat \/ code = 21%nat \/ code = 22%nat \/ code = 23%nat.
Proof.
  unfold is_hat_code, ABS_HAT0X, ABS_HAT3Y. intros H.
  apply andb_true_iff in H as [H1 H2].
  apply Nat.leb_le in H1. apply Nat.leb_le in H2. lia.
Qed.

Lemma hat_event_mask_direction (code : nat) (value : Z) :
  is_hat_code code = true -> value <> 0 ->
  (In code hat_x_codes -> value < 0 -> hat_event_mask code value = HAT_LEFT)
  /\ (In code hat_x_codes -> 0 < value -> hat_event_mask code value = HAT_RIGHT)
  /\ (In code hat_y_codes -> value < 0 -> hat_event_mask code value = HAT_UP)
  /\ (In code hat_y_codes -> 0 < value -> hat_event_mask code value = HAT_DOWN)
  /\ (In code hat_x_codes \/ In code hat_y_codes)
  /\ In (hat_event_mask code value) [HAT_UP; HAT_RIGHT; HAT_DOWN; HAT_LEFT].
Proof.
  intros Hhat Hv. unfold hat_event_mask, hat_x_codes, hat_y_codes.
  destruct (value <? 0) eqn:Hneg;
    [apply Z.ltb_lt in Hneg | apply Z.ltb_ge in Hneg];
    apply hat_code_cases in Hhat;
    repeat (destruct Hhat as [-> | Hhat]); try subst code;
    cbn; repeat split; intros; try lia; try tauto;
    repeat match goal with
           | H : _ \/ _ |- _ => destruct H
           end; try lia; try discriminate; try contradiction; try reflexivity.
Qed.

(** The hat branch: a hat event with a non-zero value that the loop
    reaches is captured at once. *)
Lemma poll_hat_event (c : Controller) (ev : input_event)
      (rest : list input_event) (entry : MappingEntry) :
  ev_type ev = EV_ABS -> is_hat_code (ev_code ev) = true -> ev_value ev <> 0 ->
  poll_mapping_input c (ev :: rest) entry =
  Some (rest,
        set_hat_binding (hat_of_code (ev_code ev))
          (hat_event_mask (ev_code ev) (ev_value ev)) entry,
        true).
Proof.
  intros Ht Hc Hv. cbn [poll_mapping_input]. rewrite Ht.
  change (EV_ABS =? EV_KEY)%nat with false. cbn [andb].
  change (EV_ABS =? EV_ABS)%nat with true. cbn iota.
  unfold is_hat_code in Hc. rewrite Hc.
  apply Z.eqb_neq in Hv. rewrite Hv. reflexivity.
Qed.

(** A capture that leaves a hat binding comes from a hat event with a
    non-zero value. *)
Lemma poll_hat_origin (c : Controller) (queue : list input_event) :
  forall (entry entry' : MappingEntry) (rest : list input_event),
    poll_mapping_input c queue entry = Some (rest, entry', true) ->
    mapped_type entry' = MAP_HAT ->
    exists ev,
      In ev queue /\ ev_type ev = EV_ABS /\ is_hat_code (ev_code ev) = true /\
      ev_value ev <> 0 /\
      mapped_index entry' = hat_of_code (ev_code ev) /\
      hat_mask entry' = hat_event_mask (ev_code ev) (ev_value ev).
Proof.
  induction queue as [| ev q IH]; intros entry entry' rest Hpoll Hty.
  - cbn in Hpoll. discriminate.
  - assert (Hnext : poll_mapping_input c q entry = Some (rest, entry', true) ->
                    exists ev0, In ev0 (ev :: q) /\ ev_type ev0 = EV_ABS /\
                      is_hat_code (ev_code ev0) = true /\ ev_value ev0 <> 0 /\
                      mapped_index entry' = hat_of_code (ev_code ev0) /\
                      hat_mask entry' =
                        hat_event_mask (ev_code ev0) (ev_value ev0)).
    { intros H. destruct (IH _ _ _ H Hty) as (ev0 & Hin & Hrest).
      exists ev0. split; [right; exact Hin | exact Hrest]. }
    cbn [poll_mapping_input] in Hpoll.
    destruct ((ev_type ev =? EV_KEY)%nat && (ev_value ev =? 1)).
    { destruct (btn_map c !! ev_code ev) as [idx |]; [| discriminate].
      cbn in Hpoll. destruct (0 <=? idx); [| auto].
      injection Hpoll as _ <-. discriminate Hty. }
    destruct (ev_type ev =? EV_ABS)%nat eqn:Habs; [| auto].
    apply Nat.eqb_eq in Habs.
    destruct ((ABS_HAT0X <=? ev_code ev)%nat && (ev_code ev <=? ABS_HAT3Y)%nat)
      eqn:Hhat; cbn [andb] in Hpoll.
    2:{ destruct (abs_map c !! ev_code ev) as [aidx |]; [| discriminate].
        cbn in Hpoll. destruct (0 <=? aidx); [| auto].
        destruct (axis_max c !! ev_code ev); [| discriminate].
        destruct (axis_min c !! ev_code ev); [| discriminate].
        destruct (axis_initial c !! ev_code ev); [| discriminate].
        cbn in Hpoll.
        match type of Hpoll with
        | (if ?b then _ else _) = _ => destruct b; [| auto]
        end.
        injection Hpoll as _ <-. discriminate Hty. }
    destruct (ev_value ev =? 0) eqn:Hzero; cbn [negb] in Hpoll.
    { destruct (abs_map c !! ev_code ev) as [aidx |]; [| discriminate].
      cbn in Hpoll. destruct (0 <=? aidx); [| auto].
      destruct (axis_max c !! ev_code ev); [| discriminate].
      destruct (axis_min c !! ev_code ev); [| discriminate].
      destruct (axis_initial c !! ev_code ev); [| discriminate].
      cbn in Hpoll.
      match type of Hpoll with
      | (if ?b then _ else _) = _ => destruct b; [| auto]
      end.
      injection Hpoll as _ <-. discriminate Hty. }
    injection Hpoll as _ <-. exists ev.
    split; [left; reflexivity |]. split; [exact Habs |].
    split; [exact Hhat |]. split; [apply Z.eqb_neq; exact Hzero |].
    split; reflexivity.
Qed.

(** C5.  A capture that records a hat binding was caused by a hat
    position event with a non-zero value, and the recorded mask is the
    one bit of that event's direction: on an X position code, Left (8)
    for a negative value and Right (2) for a positive one; on a Y
    position code, Up (1) for a negative value and Down (4) for a
    positive one. *)
Theorem hat_capture_mask (c : Controller) (queue rest : list input_event)
        (entry entry' : MappingEntry) :
  poll_mapping_input c queue entry = Some (rest, entry', true) ->
  mapped_type entry' = MAP_HAT ->
  exists ev,
    In ev queue /\ ev_type ev = EV_ABS /\ ev_value ev <> 0 /\
    (In (ev_code ev) hat_x_codes \/ In (ev_code ev) hat_y_codes) /\
    mapped_index entry' = hat_of_code (ev_code ev) /\
    (In (ev_code ev) hat_x_codes -> ev_value ev < 0 ->
       hat_mask entry' = HAT_LEFT) /\
    (In (ev_code ev) hat_x_codes -> 0 < ev_value ev ->
       hat_mask entry' = HAT_RIGHT) /\
    (In (ev_code ev) hat_y_codes -> ev_value ev < 0 ->
       hat_mask entry' = HAT_UP) /\
    (In (ev_code ev) hat_y_codes -> 0 < ev_value ev ->
       hat_mask entry' = HAT_DOWN) /\
    In (hat_mask entry') [HAT_UP; HAT_RIGHT; HAT_DOWN; HAT_LEFT].
Proof.
  intros Hpoll Hty.
  destruct (poll_hat_origin c queue entry entry' rest Hpoll Hty)
    as (ev & Hin & Habs & Hhat & Hv & Hidx & Hmask).
  destruct (hat_event_mask_direction (ev_code ev) (ev_value ev) Hhat Hv)
    as (HL & HR & HU & HD & Hxy & Hone).
  exists ev. rewrite Hmask. tauto.
Qed.

Lemma hat_capture_mask_witness :
  poll_mapping_input sample_controller
    [mk_event EV_KEY 300 1; mk_event EV_ABS 17 (-1)] sample_lefty
  = Some ([], set_hat_binding 0 1 sample_lefty, true)
  /\ mapped_type (set_hat_binding 0 1 sample_lefty) = MAP_HAT
  /\ exists ev,
       In ev [mk_event EV_KEY 300 1; mk_event EV_ABS 17 (-1)] /\
       ev_type ev = EV_ABS /\ ev_value ev <> 0 /\
       (In (ev_code ev) hat_x_codes \/ In (ev_code ev) hat_y_codes) /\
       mapped_index (set_hat_binding 0 1 sample_lefty)
         = hat_of_code (ev_code ev) /\
       (In (ev_code ev) hat_x_codes -> ev_value ev < 0 ->
          hat_mask (set_hat_binding 0 1 sample_lefty) = HAT_LEFT) /\
       (In (ev_code ev) hat_x_codes -> 0 < ev_value ev ->
          hat_mask (set_hat_binding 0 1 sample_lefty) = HAT_RIGHT) /\
       (In (ev_code ev) hat_y_codes -> ev_value ev < 0 ->
          hat_mask (set_hat_binding 0 1 sample_lefty) = HAT_UP) /\
       (In (ev_code ev) hat_y_codes -> 0 < ev_value ev ->
          hat_mask (set_hat_binding 0 1 sample_lefty) = HAT_DOWN) /\
       In (hat_mask (set_hat_binding 0 1 sample_lefty))
          [HAT_UP; HAT_RIGHT; HAT_DOWN; HAT_LEFT].
Proof.
  split; [vm_compute; reflexivity |]. split; [reflexivity |].
  apply (hat_capture_mask sample_controller
           [mk_event EV_KEY 300 1; mk_event EV_ABS 17 (-1)] []
           sample_lefty (set_hat_binding 0 1 sample_lefty)).
  - vm_compute. reflexivity.
  - reflexivity.
Defined.

(** ** Serializer *)

Lemma str_app_assoc (a b c : string) : ((a ++ b) ++ c = a ++ (b ++ c))%string.
Proof.
  induction a as [| x a IH]; [reflexivity |].
  change (String x ((a ++ b) ++ c) = String x (a ++ (b ++ c)))%string.
  f_equal. exact IH.
Qed.

Lemma str_app_nil_r (a : string) : (a ++ EmptyString)%string = a.
Proof.
  induction a as [| x a IH]; [reflexivity |].
  change (String x (a ++ EmptyString) = String x a)%string.
  f_equal. exact IH.
Qed.

Lemma str_length_app (a b : string) :
  String.length (a ++ b) = (String.length a + String.length b)%nat.
Proof.
  induction a as [| x a IH]; [reflexivity |].
  change (S (String.length (a ++ b)) = S (String.length a + String.length b)).
  f_equal. exact IH.
Qed.

Lemma take_str_all (n : nat) (s : string) :
  (String.length s <= n)%nat -> take_str n s = s.
Proof.
  revert n. induction s as [| x s IH]; intros [| n] H; cbn in *;
    try reflexivity; try lia.
  rewrite IH by lia. reflexivity.
Qed.

(** The path column is the node's full name whenever it fits the 512
    bytes of [path]. *)
Lemma tool_line_path (nm : string) (d : Device) (id : input_id) :
  (String.length nm <= 500)%nat ->
  tool_line (nm, d, id)
  = build_guid id ++ ","
    ++ match dev_name d with Some s => take_str 255 s | None => "Unknown" end
    ++ "," ++ "/dev/input/" ++ nm ++ newline.
Proof.
  intros H. unfold tool_line. rewrite take_str_all; [reflexivity |].
  rewrite str_length_app. cbn [String.length]. lia.
Qed.

(** [fmt_d] writes the decimal digits of an [int], with a minus sign in
    front of a negative one. *)
Lemma digit_char_value (d : Z) :
  0 <= d < 10 -> Z.of_nat (nat_of_ascii (digit_char d)) - 48 = d.
Proof.
  intros Hd. unfold digit_char. rewrite nat_ascii_embedding by lia. lia.
Qed.

Lemma fmt_digits_value (fuel : nat) :
  forall (n : Z) (acc : string),
    0 <= n < 10 ^ Z.of_nat fuel ->
    digits_value (fmt_digits fuel n acc) 0 = digits_value acc n.
Proof.
  induction fuel as [| fuel IH]; intros n acc Hn.
  - cbn in Hn. cbn. f_equal. lia.
  - cbn [fmt_digits].
    assert (Hmod : 0 <= n mod 10 < 10) by (apply Z.mod_pos_bound; lia).
    assert (Hdiv : 0 <= n / 10 < 10 ^ Z.of_nat fuel).
    { split; [apply Z.div_pos; lia |].
      apply Z.div_lt_upper_bound; [lia |].
      replace (Z.of_nat (S fuel)) with (Z.of_nat fuel + 1) in Hn by lia.
      rewrite Z.pow_add_r in Hn by lia. lia. }
    destruct (n / 10 =? 0) eqn:Hq.
    + apply Z.eqb_eq in Hq. cbn [digits_value].
      rewrite digit_char_value by exact Hmod. f_equal.
      pose proof (Z.div_mod n 10 ltac:(lia)). lia.
    + rewrite IH by exact Hdiv. cbn [digits_value].
      rewrite digit_char_value by exact Hmod. f_equal.
      pose proof (Z.div_mod n 10 ltac:(lia)). lia.
Qed.

Lemma fmt_d_nonneg (z : Z) :
  0 <= z <= 2147483647 -> digits_value (fmt_d z) 0 = z.
Proof.
  intros Hz. unfold fmt_d.
  destruct (z <? 0) eqn:E; [apply Z.ltb_lt in E; lia |].
  rewrite fmt_digits_value; [reflexivity |].
  change (10 ^ Z.of_nat 10) with 10000000000. lia.
Qed.

Lemma fmt_d_neg (z : Z) :
  -2147483648 <= z < 0 ->
  exists digits, fmt_d z = String "-" digits /\ digits_value digits 0 = - z.
Proof.
  intros Hz. unfold fmt_d.
  destruct (z <? 0) eqn:E; [| apply Z.ltb_ge in E; lia].
  eexists. split; [reflexivity |].
  rewrite fmt_digits_value; [reflexivity |].
  change (10 ^ Z.of_nat 10) with 10000000000. lia.
Qed.

Example fmt_d_samples :
  fmt_d 0 = "0" /\ fmt_d 510 = "510" /\ fmt_d (-7) = "-7"
  /\ fmt_d 2147483647 = "2147483647" /\ fmt_d (-2147483648) = "-2147483648".
Proof. repeat split. Qed.

Lemma fmt_digits_length (fuel : nat) :
  forall (n : Z) (acc : string),
    (String.length (fmt_digits fuel n acc) <= fuel + String.length acc)%nat.
Proof.
  induction fuel as [| fuel IH]; intros n acc; cbn [fmt_digits]; [lia |].
  destruct (n / 10 =? 0).
  - cbn. lia.
  - etransitivity; [apply IH |]. cbn. lia.
Qed.

Lemma fmt_d_length (z : Z) : (String.length (fmt_d z) <= 11)%nat.
Proof.
  unfold fmt_d. destruct (z <? 0).
  - cbn [String.length].
    pose proof (fmt_digits_length 10 (- z) EmptyString) as H.
    change (String.length EmptyString) with 0%nat in H. lia.
  - pose proof (fmt_digits_length 10 z EmptyString) as H.
    change (String.length EmptyString) with 0%nat in H. lia.
Qed.

Lemma binding_code_length (m : MappingEntry) :
  (String.length (binding_code m) <= 24)%nat.
Proof.
  pose proof (fmt_d_length (mapped_index m)).
  pose proof (fmt_d_length (hat_mask m)).
  unfold binding_code. destruct (mapped_type m);
    rewrite ?str_length_app; cbn [String.length]; lia.
Qed.

(** A write that fits is a plain append. *)
Lemma snprintf_at_fits (sz : Z) (out s : string) :
  Z.of_nat (String.length out) + Z.of_nat (String.length s) <= sz - 1 ->
  snprintf_at sz (out, Z.of_nat (String.length out)) s =
  Some ((out ++ s)%string, Z.of_nat (String.length (out ++ s)%string)).
Proof.
  intros Hfit. unfold snprintf_at. cbn [fst snd].
  destruct (sz <? Z.of_nat (String.length out)) eqn:E;
    [apply Z.ltb_lt in E; lia |].
  rewrite take_str_all by (rewrite str_length_app; lia).
  rewrite str_length_app. do 2 f_equal. lia.
Qed.

Lemma emit_mapping_fits (sz : Z) (m : MappingEntry) (out : string) :
  Z.of_nat (String.length out) + Z.of_nat (String.length (gcdb_name m)) + 26
    <= sz - 1 ->
  emit_mapping sz m (out, Z.of_nat (String.length out)) =
  let out' := (out ++ gcdb_name m ++ ":" ++ binding_code m ++ ",")%string in
  Some (out', Z.of_nat (String.length out')).
Proof.
  intros Hfit. pose proof (binding_code_length m) as Hcode.
  assert (Hname : String.length (gcdb_name m ++ ":")
                  = (String.length (gcdb_name m) + 1)%nat)
    by (rewrite str_length_app; reflexivity).
  unfold emit_mapping. rewrite snprintf_at_fits by (rewrite Hname; lia).
  cbn [mbind option_bind].
  assert (Hlen1 : String.length (out ++ gcdb_name m ++ ":")
                  = (String.length out + String.length (gcdb_name m) + 1)%nat)
    by (rewrite str_length_app, Hname; lia).
  assert (Hmid :
    match mapped_type m with
    | MAP_BUTTON =>
        snprintf_at sz
          ((out ++ gcdb_name m ++ ":")%string,
           Z.of_nat (String.length (out ++ gcdb_name m ++ ":")))
          ("b" ++ fmt_d (mapped_index m))
    | MAP_AXIS =>
        snprintf_at sz
          ((out ++ gcdb_name m ++ ":")%string,
           Z.of_nat (String.length (out ++ gcdb_name m ++ ":")))
          ("a" ++ fmt_d (mapped_index m))
    | MAP_HAT =>
        snprintf_at sz
          ((out ++ gcdb_name m ++ ":")%string,
           Z.of_nat (String.length (out ++ gcdb_name m ++ ":")))
          ("h" ++ fmt_d (mapped_index m) ++ "." ++ fmt_d (hat_mask m))
    | MAP_NONE =>
        Some ((out ++ gcdb_name m ++ ":")%string,
              Z.of_nat (String.length (out ++ gcdb_name m ++ ":")))
    end =
    Some (((out ++ gcdb_name m ++ ":") ++ binding_code m)%string,
          Z.of_nat (String.length
                      ((out ++ gcdb_name m ++ ":") ++ binding_code m)))).
  { unfold binding_code in *.
    destruct (mapped_type m).
    - rewrite str_app_nil_r. reflexivity.
    - apply snprintf_at_fits. rewrite Hlen1. lia.
    - apply snprintf_at_fits. rewrite Hlen1. lia.
    - apply snprintf_at_fits. rewrite Hlen1. lia. }
  rewrite Hmid. cbn [mbind option_bind].
  rewrite snprintf_at_fits.
  - cbn zeta. rewrite !str_app_assoc. reflexivity.
  - rewrite str_length_app, Hlen1. cbn [String.length]. lia.
Qed.

Lemma emit_mappings_fits (sz : Z) (ms : list MappingEntry) :
  Forall (fun m => (String.length (gcdb_name m) <= 12)%nat) ms ->
  forall (n k : nat) (out : string),
    (k + n = length ms)%nat ->
    Z.of_nat (String.length out) + 38 * Z.of_nat n <= sz - 1 ->
    emit_mappings sz ms (seq k n) (out, Z.of_nat (String.length out)) =
    let out' := (out ++ channel_fields (drop k ms))%string in
    Some (out', Z.of_nat (String.length out')).
Proof.
  intros Hshort. induction n as [| n IH]; intros k out Hk Hfit.
  - cbn [seq emit_mappings]. rewrite drop_ge by lia. cbn.
    rewrite str_app_nil_r. reflexivity.
  - cbn [seq emit_mappings].
    destruct (ms !! k) as [m |] eqn:Hm.
    2:{ apply lookup_ge_None in Hm. lia. }
    cbn [mbind option_bind].
    assert (Hmshort : (String.length (gcdb_name m) <= 12)%nat).
    { rewrite Forall_forall in Hshort. apply Hshort.
      eapply list_elem_of_lookup_2. exact Hm. }
    rewrite emit_mapping_fits by lia. cbn zeta. cbn [mbind option_bind].
    pose proof (binding_code_length m) as Hcode.
    rewrite IH.
    + cbn zeta. rewrite (drop_S ms m k Hm). cbn [channel_fields].
      rewrite !str_app_assoc. reflexivity.
    + lia.
    + rewrite !str_length_app. cbn [String.length]. lia.
Qed.

Lemma channel_names_short (ms : list MappingEntry) :
  map gcdb_name ms = channel_names ->
  length ms = 10%nat
  /\ Forall (fun m => (String.length (gcdb_name m) <= 12)%nat) ms.
Proof.
  intros Hnames. split.
  - rewrite <- (length_map gcdb_name), Hnames. reflexivity.
  - assert (H : Forall (fun s => (String.length s <= 12)%nat) (map gcdb_name ms)).
    { rewrite Hnames. unfold channel_names, init_mappings. cbn.
      repeat constructor; lia. }
    rewrite Forall_forall. intros m Hin. rewrite Forall_forall in H.
    apply H. apply list_elem_of_In, in_map, list_elem_of_In, Hin.
Qed.

(** The text fits the 1024-byte buffer, so no write is cut short. *)
Lemma build_mapping_string_value (app : App) (c : Controller) :
  arr_get (controllers app) (sel_ctrl app) = Some c ->
  (String.length (c_guid c) <= 32)%nat ->
  (String.length (c_name c) <= 255)%nat ->
  map gcdb_name (mappings app) = channel_names ->
  build_mapping_string app MAPPING_STR_SIZE
    = Some (mapping_line c (mappings app)).
Proof.
  intros Hc Hguid Hname Hnames.
  destruct (channel_names_short _ Hnames) as [Hlen Hshort].
  unfold build_mapping_string, MAPPING_STR_SIZE. rewrite Hc.
  cbn [mbind option_bind].
  pose proof (snprintf_at_fits 1024 EmptyString
                (c_guid c ++ "," ++ c_name c ++ ",")) as H0.
  cbn [String.length append] in H0.
  change (Z.of_nat 0) with 0 in H0.
  assert (Hhead : String.length (c_guid c ++ "," ++ c_name c ++ ",")
                  = (String.length (c_guid c) + String.length (c_name c) + 2)%nat).
  { rewrite !str_length_app. cbn [String.length]. lia. }
  rewrite H0 by (rewrite Hhead; lia). clear H0.
  cbn [mbind option_bind].
  change (EmptyString ++ (c_guid c ++ "," ++ c_name c ++ ","))%string
    with (c_guid c ++ "," ++ c_name c ++ ",")%string.
  rewrite (emit_mappings_fits 1024 (mappings app) Hshort 10 0);
    [| rewrite Hlen; reflexivity | rewrite Hhead; lia].
  cbn zeta. cbn [mbind option_bind]. rewrite drop_0.
  assert (Hfields : forall ms : list MappingEntry,
            Forall (fun m => (String.length (gcdb_name m) <= 12)%nat) ms ->
            (String.length (channel_fields ms) <= 38 * length ms)%nat).
  { induction 1 as [| m ms Hm _ IH]; cbn [channel_fields length]; [cbn; lia |].
    pose proof (binding_code_length m).
    rewrite !str_length_app. cbn [String.length]. lia. }
  specialize (Hfields _ Hshort). rewrite Hlen in Hfields.
  rewrite snprintf_at_fits.
  - cbn [mbind option_bind fst]. unfold mapping_line.
    rewrite !str_app_assoc. reflexivity.
  - rewrite str_length_app, Hhead. cbn [String.length]. lia.
Qed.


(** C3.  For the selected controller and any bindings of the ten
    channels, [build_mapping_string] leaves in the 1024-byte buffer
    exactly [GUID,Name,] followed, for each channel in order, by the
    channel name, a colon, the code of its binding ([b<index>],
    [a<index>], [h<index>.<mask>], or nothing when unbound) and a comma,
    followed by [platform:Linux,].  The text is computed from the
    bindings alone: whatever an earlier call stored in [mapping_str], a
    further call yields the same text. *)
Theorem build_mapping_string_line (app : App) (c : Controller) :
  arr_get (controllers app) (sel_ctrl app) = Some c ->
  (String.length (c_guid c) <= 32)%nat ->
  (String.length (c_name c) <= 255)%nat ->
  map gcdb_name (mappings app) = channel_names ->
  build_mapping_string app MAPPING_STR_SIZE
    = Some (mapping_line c (mappings app))
  /\ forall s : string,
       build_mapping_string (set_mapping_str s app) MAPPING_STR_SIZE
       = build_mapping_string app MAPPING_STR_SIZE.
Proof.
  intros Hc Hguid Hname Hnames. split; [| intros s; reflexivity].
  apply build_mapping_string_value; assumption.
Qed.

Lemma build_mapping_string_line_witness :
  arr_get (controllers sample_app) (sel_ctrl sample_app) = Some sample_controller
  /\ build_mapping_string sample_app MAPPING_STR_SIZE =
     Some ("03000000790000001100000010010000,USB Gamepad,"
           ++ "lefttrigger:b0,righttrigger:b1,x:b2,y:b3,"
           ++ "a:h0.1,b:h0.2,back:h0.4,start:h0.8,leftx:a0,lefty:a1,"
           ++ "platform:Linux,").
Proof.
  split; [reflexivity |].
  destruct (build_mapping_string_line sample_app sample_controller)
    as [Hline _].
  - reflexivity.
  - vm_compute. lia.
  - vm_compute. lia.
  - reflexivity.
  - rewrite Hline. reflexivity.
Defined.

(** ** Wizard: redoing one channel *)

(** A poll without a capture leaves the session as it was. *)
Lemma update_mapping_idle (app : App) (c : Controller) (m : MappingEntry)
      (queue rest : list input_event) :
  arr_get (controllers app) (sel_ctrl app) = Some c ->
  arr_get (mappings app) (cur_map app) = Some m ->
  poll_mapping_input c queue m = Some (rest, m, false) ->
  update_mapping app queue = Some (app, rest).
Proof.
  intros Hc Hm Hpoll. unfold update_mapping.
  rewrite Hc. cbn [mbind option_bind]. rewrite Hm. cbn [mbind option_bind].
  rewrite Hpoll. reflexivity.
Qed.

(** What [review_redo_selected] does on a channel row. *)
Lemma review_redo_selected_row (app : App) (k : nat) :
  review_sel app = Z.of_nat k -> (k < Z.to_nat NUM_MAPPINGS)%nat ->
  review_redo_selected app =
  set_state STATE_MAPPING
    (set_mappings (alter (set_mapped_type MAP_NONE) k (mappings app))
       (set_cur_map (Z.of_nat k) (set_redo_single (Z.of_nat k) app))).
Proof.
  unfold NUM_MAPPINGS. intros Hsel Hk.
  unfold review_redo_selected, NUM_MAPPINGS. rewrite Hsel.
  replace (0 <=? Z.of_nat k) with true by (symmetry; apply Z.leb_le; lia).
  replace (Z.of_nat k <? 10) with true by (symmetry; apply Z.ltb_lt; lia).
  cbn [andb]. cbn [review_sel set_redo_single cur_map set_cur_map mappings].
  rewrite !Hsel, Nat2Z.id. reflexivity.
Qed.

(** The capture loop never touches the fixed columns of an entry. *)
Lemma poll_keeps_labels (c : Controller) (queue : list input_event) :
  forall (entry entry' : MappingEntry) (rest : list input_event) (got : bool),
    poll_mapping_input c queue entry = Some (rest, entry', got) ->
    the64_label entry' = the64_label entry
    /\ gcdb_name entry' = gcdb_name entry
    /\ is_axis entry' = is_axis entry
    /\ prompt entry' = prompt entry.
Proof.
  induction queue as [| ev q IH]; intros entry entry' rest got Hp.
  - cbn in Hp. injection Hp as _ <- _. auto.
  - cbn [poll_mapping_input] in Hp.
    destruct ((ev_type ev =? EV_KEY)%nat && (ev_value ev =? 1)).
    { destruct (btn_map c !! ev_code ev) as [idx |]; [| discriminate].
      cbn [mbind option_bind] in Hp.
      destruct (0 <=? idx); [| eapply IH; exact Hp].
      injection Hp as _ <- _. cbn. auto. }
    destruct (ev_type ev =? EV_ABS)%nat; [| eapply IH; exact Hp].
    destruct ((ABS_HAT0X <=? ev_code ev)%nat && (ev_code ev <=? ABS_HAT3Y)%nat
              && negb (ev_value ev =? 0)).
    { injection Hp as _ <- _. cbn. auto. }
    destruct (abs_map c !! ev_code ev) as [aidx |]; [| discriminate].
    cbn [mbind option_bind] in Hp.
    destruct (0 <=? aidx); [| eapply IH; exact Hp].
    destruct (axis_max c !! ev_code ev); [| discriminate].
    destruct (axis_min c !! ev_code ev); [| discriminate].
    destruct (axis_initial c !! ev_code ev); [| discriminate].
    cbn [mbind option_bind] in Hp. cbn zeta in Hp.
    match type of Hp with
    | (if ?b then _ else _) = _ => destruct b; [| eapply IH; exact Hp]
    end.
    injection Hp as _ <- _. cbn. auto.
Qed.

(** The flag [read_nav_input] returns says whether an output is set. *)
Lemma read_nav_input_flag (app : App) (queue nav_queue : list input_event)
      (nav : Nav) (got : bool) :
  read_nav_input app queue nav_queue = Some (nav, got) ->
  got = negb ((n_dy nav =? 0) && (n_dx nav =? 0) && (n_btn_a nav =? 0)
              && (n_btn_b nav =? 0) && (n_btn_start nav =? 0)).
Proof.
  unfold read_nav_input. intros H.
  destruct (arr_get (controllers app) (sel_ctrl app)); [| discriminate].
  cbn [mbind option_bind] in H.
  destruct (nav_loop _ _ queue _); [| discriminate].
  cbn [mbind option_bind] in H.
  destruct (read_thec64_nav app nav_queue _) as [[nav' g] |]; [| discriminate].
  cbn [mbind option_bind] in H. injection H as <- <-. reflexivity.
Qed.

Lemma review_move_row (dy : Z) (app : App) :
  review_sel (review_move dy app) = row_after (review_sel app) dy.
Proof.
  unfold review_move, row_after, REVIEW_TOTAL_ITEMS, NUM_MAPPINGS.
  destruct (dy =? 0); [reflexivity |].
  cbv zeta. cbn [review_sel set_review_sel].
  destruct (Z.ltb_spec (review_sel app + dy) 0).
  - destruct (Z.leb_spec (10 + 4) 0); lia.
  - destruct (Z.leb_spec (10 + 4) (review_sel app + dy)); lia.
Qed.

(** A right or confirm signal, from the pad, THEJOYSTICK or the keyboard,
    with the cursor on a channel row once the step of the same poll is
    taken, is [review_redo_selected] on that row. *)
Lemma update_review_redo (w : World) (app : App) (nav : Nav) (got : bool)
      (queue nav_queue : list input_event)
      (keyboards : list (list input_event)) :
  let key := read_keyboard keyboards in
  read_nav_input app queue nav_queue = Some (nav, got) ->
  ~ shortcut_key key ->
  right_or_confirm key nav ->
  on_mapping_row (review_move (review_step key nav) app) = true ->
  update_review w app queue nav_queue keyboards
  = Some (review_redo_selected (review_move (review_step key nav) app)).
Proof.
  intros key Hnav Hshort Hsig Hrow.
  pose proof (read_nav_input_flag _ _ _ _ _ Hnav) as Hgot.
  unfold update_review. rewrite Hnav. cbn [mbind option_bind]. cbv zeta.
  fold key. clearbody key. unfold shortcut_key in Hshort. cbn [In] in Hshort.
  destruct (Nat.eqb_spec key KEY_1) as [E | _]; [symmetry in E; tauto |].
  destruct (Nat.eqb_spec key KEY_2) as [E | _]; [symmetry in E; tauto |].
  destruct (Nat.eqb_spec key KEY_3) as [E | _]; [symmetry in E; tauto |].
  destruct (Nat.eqb_spec key KEY_4) as [E | _]; [symmetry in E; tauto |].
  destruct (Nat.eqb_spec key KEY_Q) as [E | _]; [symmetry in E; tauto |].
  destruct (Nat.eqb_spec key KEY_ESC) as [E | _]; [symmetry in E; tauto |].
  cbn [orb].
  assert (Hactive : negb got && (key =? 0)%nat = false).
  { destruct (Nat.eqb_spec key 0) as [E0 | _]; [| apply andb_false_r].
    rewrite andb_true_r. unfold right_or_confirm in Hsig. rewrite E0 in Hsig.
    rewrite Hgot, negb_involutive.
    destruct Hsig as [H | [H | [H | [H | H]]]];
      try (unfold KEY_RIGHT, KEY_ENTER, KEY_SPACE in H; discriminate H).
    - replace (n_dx nav =? 0) with false by (symmetry; apply Z.eqb_neq; lia).
      rewrite andb_false_r. reflexivity.
    - replace (n_btn_a nav =? 0) with false
        by (symmetry; apply Z.eqb_neq; exact H).
      rewrite andb_false_r. reflexivity. }
  rewrite Hactive.
  change (if (key =? KEY_DOWN)%nat then 1
          else if (key =? KEY_UP)%nat then -1 else n_dy nav)
    with (review_step key nav).
  rewrite Hrow, andb_true_r.
  destruct (Z.ltb_spec 0 (if (key =? KEY_RIGHT)%nat then 1 else n_dx nav))
    as [| Hdx]; [reflexivity |].
  destruct (Nat.eqb_spec key KEY_RIGHT) as [| Hkr]; [lia |].
  destruct Hsig as [H | [H | [H | [H | H]]]]; [lia | tauto | | |].
  - replace (n_btn_a nav =? 0) with false
      by (symmetry; apply Z.eqb_neq; exact H).
    reflexivity.
  - rewrite H. rewrite orb_true_r. reflexivity.
  - rewrite H. rewrite !orb_true_r. reflexivity.
Qed.

(** After [review_redo_selected] on row [k], a successful capture. *)
Lemma redo_then_capture (app : App) (c : Controller) (k : nat)
      (m m' : MappingEntry) (queue rest : list input_event) :
  length (mappings app) = Z.to_nat NUM_MAPPINGS ->
  review_sel app = Z.of_nat k -> (k < Z.to_nat NUM_MAPPINGS)%nat ->
  arr_get (controllers app) (sel_ctrl app) = Some c ->
  mappings app !! k = Some m ->
  poll_mapping_input c queue (set_mapped_type MAP_NONE m)
    = Some (rest, m', true) ->
  exists app',
    update_mapping (review_redo_selected app) queue = Some (app', [])
    /\ state app' = STATE_REVIEW
    /\ redo_single app' = -1
    /\ mappings app' !! k = Some m'
    /\ length (mappings app') = Z.to_nat NUM_MAPPINGS
    /\ (forall j, j <> k -> mappings app' !! j = mappings app !! j)
    /\ (forall j, j <> k ->
          binding_code <$> mappings app' !! j
          = binding_code <$> mappings app !! j)
    /\ controllers app' = controllers app
    /\ sel_ctrl app' = sel_ctrl app.
Proof.
  unfold NUM_MAPPINGS. intros Hlen Hsel Hk Hc Hm Hpoll.
  unfold review_redo_selected, NUM_MAPPINGS. rewrite Hsel.
  replace (0 <=? Z.of_nat k) with true by (symmetry; apply Z.leb_le; lia).
  replace (Z.of_nat k <? 10) with true by (symmetry; apply Z.ltb_lt; lia).
  cbn [andb]. cbn [review_sel set_redo_single cur_map set_cur_map mappings].
  rewrite !Hsel, Nat2Z.id.
  unfold update_mapping.
  cbn [controllers sel_ctrl set_state set_mappings set_cur_map set_redo_single].
  rewrite Hc. cbn [mbind option_bind].
  cbn [mappings cur_map set_state set_mappings set_cur_map set_redo_single].
  assert (Hcur : arr_get (alter (set_mapped_type MAP_NONE) k (mappings app))
                   (Z.of_nat k) = Some (set_mapped_type MAP_NONE m)).
  { unfold arr_get.
    replace (Z.of_nat k <? 0) with false by (symmetry; apply Z.ltb_ge; lia).
    rewrite Nat2Z.id, list_lookup_alter_eq, Hm. reflexivity. }
  rewrite Hcur. cbn [mbind option_bind]. rewrite Hpoll.
  cbn [mbind option_bind].
  cbn [redo_single set_state set_mappings set_cur_map set_redo_single].
  replace (0 <=? Z.of_nat k) with true by (symmetry; apply Z.leb_le; lia).
  eexists. split; [reflexivity |].
  cbn [state redo_single mappings controllers sel_ctrl
       set_state set_mappings set_cur_map set_redo_single].
  unfold arr_set. rewrite Nat2Z.id.
  split; [reflexivity |]. split; [reflexivity |].
  split.
  { apply list_lookup_insert_eq. rewrite length_alter. lia. }
  split.
  { rewrite length_insert, length_alter. exact Hlen. }
  assert (Hother : forall j, j <> k ->
            <[k := m']> (alter (set_mapped_type MAP_NONE) k (mappings app)) !! j
            = mappings app !! j).
  { intros j Hj. rewrite list_lookup_insert_ne by congruence.
    apply list_lookup_alter_ne. congruence. }
  split; [exact Hother |].
  split; [intros j Hj; rewrite (Hother j Hj); reflexivity |].
  split; reflexivity.
Qed.

(** After [review_redo_selected] on row [k], a poll without a capture
    leaves the session waiting as it is. *)
Lemma redo_then_wait (app : App) (c : Controller) (k : nat)
      (m m0 : MappingEntry) (queue rest : list input_event) :
  review_sel app = Z.of_nat k -> (k < Z.to_nat NUM_MAPPINGS)%nat ->
  arr_get (controllers app) (sel_ctrl app) = Some c ->
  mappings app !! k = Some m ->
  poll_mapping_input c queue (set_mapped_type MAP_NONE m)
    = Some (rest, m0, false) ->
  update_mapping (review_redo_selected app) queue
  = Some (review_redo_selected app, rest).
Proof.
  intros Hsel Hk Hc Hm Hpoll.
  rewrite (review_redo_selected_row app k Hsel Hk).
  unfold update_mapping.
  cbn [controllers sel_ctrl set_state set_mappings set_cur_map set_redo_single].
  rewrite Hc. cbn [mbind option_bind].
  cbn [mappings cur_map set_state set_mappings set_cur_map set_redo_single].
  assert (Hcur : arr_get (alter (set_mapped_type MAP_NONE) k (mappings app))
                   (Z.of_nat k) = Some (set_mapped_type MAP_NONE m)).
  { unfold arr_get.
    replace (Z.of_nat k <? 0) with false by (symmetry; apply Z.ltb_ge; lia).
    rewrite Nat2Z.id, list_lookup_alter_eq, Hm. reflexivity. }
  rewrite Hcur. cbn [mbind option_bind]. rewrite Hpoll. reflexivity.
Qed.

(** C6.  In a session in review, take a poll that carries a right or
    confirm signal (from the pad, THEJOYSTICK or the keyboard), in which
    the keyboard sends none of the shortcut keys 1, 2, 3, 4, Q, Esc that
    [update_review] serves first, and in which the cursor, once the step
    of the same poll is taken, is on channel row [k].  Then [update_review]
    enters MAPPING on channel [k] with the redo flag set to [k]; the
    entry of channel [k] now has the binding type [MAP_NONE], its other
    fields are as before, and the other entries are untouched.  A poll
    of the wizard without a capture leaves the session waiting as it is.
    Any successful capture returns to review with the redo flag cleared:
    the capture result [m'], still the entry of the same channel,
    replaces the entry of channel [k]; every other entry is the one it
    was before the redo, and so is its serialized code; the registry and
    the selected controller are untouched. *)
Theorem redo_single_channel (w : World) (app : App) (c : Controller)
        (k : nat) (m : MappingEntry) (nav : Nav) (got : bool)
        (rqueue rnav_queue : list input_event)
        (rkeyboards : list (list input_event)) :
  let key := read_keyboard rkeyboards in
  state app = STATE_REVIEW ->
  length (mappings app) = Z.to_nat NUM_MAPPINGS ->
  arr_get (controllers app) (sel_ctrl app) = Some c ->
  read_nav_input app rqueue rnav_queue = Some (nav, got) ->
  ~ shortcut_key key ->
  right_or_confirm key nav ->
  row_after (review_sel app) (review_step key nav) = Z.of_nat k ->
  (k < Z.to_nat NUM_MAPPINGS)%nat ->
  mappings app !! k = Some m ->
  exists app1 e1,
    update_review w app rqueue rnav_queue rkeyboards = Some app1
    /\ state app1 = STATE_MAPPING
    /\ redo_single app1 = Z.of_nat k
    /\ cur_map app1 = Z.of_nat k
    /\ mappings app1 !! k = Some e1
    /\ mapped_type e1 = MAP_NONE
    /\ (the64_label e1, gcdb_name e1, is_axis e1, prompt e1)
       = (the64_label m, gcdb_name m, is_axis m, prompt m)
    /\ (mapped_index e1, hat_mask e1) = (mapped_index m, hat_mask m)
    /\ (forall j, j <> k -> mappings app1 !! j = mappings app !! j)
    /\ (forall (queue rest : list input_event) (m0 : MappingEntry),
          poll_mapping_input c queue e1 = Some (rest, m0, false) ->
          update_mapping app1 queue = Some (app1, rest))
    /\ forall (queue rest : list input_event) (m' : MappingEntry),
         poll_mapping_input c queue e1 = Some (rest, m', true) ->
         exists app',
           update_mapping app1 queue = Some (app', [])
           /\ state app' = STATE_REVIEW
           /\ redo_single app' = -1
           /\ mappings app' !! k = Some m'
           /\ gcdb_name m' = gcdb_name m
           /\ length (mappings app') = Z.to_nat NUM_MAPPINGS
           /\ (forall j, j <> k -> mappings app' !! j = mappings app !! j)
           /\ (forall j, j <> k ->
                 binding_code <$> mappings app' !! j
                 = binding_code <$> mappings app !! j)
           /\ controllers app' = controllers app
           /\ sel_ctrl app' = sel_ctrl app.
Proof.
  intros key _ Hlen Hc Hnav Hshort Hsig Hrow Hk Hm.
  set (app0 := review_move (review_step key nav) app).
  assert (Hsel : review_sel app0 = Z.of_nat k).
  { unfold app0. rewrite review_move_row. exact Hrow. }
  assert (Hsame : mappings app0 = mappings app
                  /\ controllers app0 = controllers app
                  /\ sel_ctrl app0 = sel_ctrl app).
  { unfold app0, review_move. destruct (review_step key nav =? 0); auto. }
  destruct Hsame as (Hms & Hcs & Hsc).
  assert (Honrow : on_mapping_row app0 = true).
  { unfold on_mapping_row. rewrite Hsel. unfold NUM_MAPPINGS in *.
    apply andb_true_iff. split; [apply Z.leb_le | apply Z.ltb_lt]; lia. }
  exists (review_redo_selected app0), (set_mapped_type MAP_NONE m).
  split.
  { exact (update_review_redo w app nav got rqueue rnav_queue rkeyboards
             Hnav Hshort Hsig Honrow). }
  pose proof (review_redo_selected_row app0 k Hsel Hk) as H1.
  assert (Hms1 : mappings (review_redo_selected app0)
                 = alter (set_mapped_type MAP_NONE) k (mappings app)).
  { rewrite H1. cbn [mappings set_state set_mappings]. rewrite Hms.
    reflexivity. }
  split; [rewrite H1; reflexivity |]. split; [rewrite H1; reflexivity |].
  split; [rewrite H1; reflexivity |].
  split; [rewrite Hms1, list_lookup_alter_eq, Hm; reflexivity |].
  split; [reflexivity |]. split; [reflexivity |]. split; [reflexivity |].
  split; [intros j Hj; rewrite Hms1; apply list_lookup_alter_ne; congruence |].
  rewrite <- Hms in Hlen, Hm. rewrite <- Hcs, <- Hsc in Hc.
  split.
  { intros queue rest m0 Hpoll.
    exact (redo_then_wait app0 c k m m0 queue rest Hsel Hk Hc Hm Hpoll). }
  intros queue rest m' Hpoll.
  destruct (redo_then_capture app0 c k m m' queue rest Hlen Hsel Hk Hc Hm Hpoll)
    as (app' & Hrun & Hst & Hredo & Hk' & Hlen' & Hother & Hcodes & Hcs' & Hsc').
  exists app'. rewrite Hms in Hother, Hcodes. rewrite Hcs in Hcs'.
  rewrite Hsc in Hsc'.
  destruct (poll_keeps_labels c queue _ _ _ _ Hpoll) as (_ & Hname & _).
  refine (conj Hrun (conj Hst (conj Hredo (conj Hk' (conj Hname
            (conj Hlen' (conj Hother (conj Hcodes (conj Hcs' Hsc'))))))))).
Qed.

(** On the sample session, cursor on row 0: the stick pushed down and
    Enter pressed in the same poll redo row 1, whose binding [b1] is
    cleared; pressing the fourth button then binds row 1 to [b3] and
    leaves the other nine entries alone. *)
Lemma redo_single_channel_witness :
  mapped_type <$> mappings sample_app !! 1%nat = Some MAP_BUTTON
  /\ exists app1 e1 app',
       update_review open_world sample_app [mk_event EV_ABS ABS_Y 255] []
         [[press KEY_ENTER]] = Some app1
       /\ state app1 = STATE_MAPPING
       /\ redo_single app1 = 1
       /\ mappings app1 !! 1%nat = Some e1
       /\ mapped_type e1 = MAP_NONE
       /\ update_mapping app1 [press 291] = Some (app', [])
       /\ state app' = STATE_REVIEW
       /\ binding_code <$> mappings app' !! 1%nat = Some "b3"
       /\ (forall j, j <> 1%nat ->
             mappings app' !! j = mappings sample_app !! j).
Proof.
  split; [vm_compute; reflexivity |].
  destruct (redo_single_channel open_world sample_app sample_controller 1
              (set_binding MAP_BUTTON 1
                 (mk_entry "Right Fire" "righttrigger" 0
                    "Press RIGHT FIRE button" MAP_NONE 0 0))
              (mk_nav 1 0 0 0 0) true
              [mk_event EV_ABS ABS_Y 255] [] [[press KEY_ENTER]])
    as (app1 & e1 & Hrev & Hst1 & Hredo & _ & He1 & Hnone & Hlab & Hidx
        & _ & _ & Hcap).
  - reflexivity.
  - reflexivity.
  - reflexivity.
  - vm_compute. reflexivity.
  - vm_compute. intros H.
    repeat (destruct H as [H | H]; [discriminate H |]). exact H.
  - right. right. right. left. reflexivity.
  - vm_compute. reflexivity.
  - vm_compute. lia.
  - vm_compute. reflexivity.
  - destruct e1 as [l g a p t i h].
    cbn [mapped_type the64_label gcdb_name is_axis prompt mapped_index
         hat_mask set_binding] in Hnone, Hlab, Hidx.
    injection Hlab as -> -> -> ->. injection Hidx as -> ->. subst t.
    destruct (Hcap [press 291] []
                (set_binding MAP_BUTTON 3
                   (mk_entry "Right Fire" "righttrigger" 0
                      "Press RIGHT FIRE button" MAP_NONE 0 0)))
      as (app' & Hrun & Hst & _ & Hk' & _ & _ & Hother & _).
    + vm_compute. reflexivity.
    + exists app1. eexists. exists app'.
      refine (conj Hrev (conj Hst1 (conj Hredo (conj He1 (conj eq_refl
                (conj Hrun (conj Hst (conj _ Hother)))))))).
      rewrite Hk'. vm_compute. reflexivity.
Defined.

(** C6 as worded, where it fails.  The sample session is in review with
    all ten channels bound and the cursor on channel row 0.  The pad
    sends confirm while the keyboard sends the key 3 in the same poll:
    [update_review] serves the key first and starts the wizard over.
    The successful capture that follows does not return to review, and
    the binding of channel 1 is gone. *)
Lemma redo_with_shortcut_counterexample :
  state sample_app = STATE_REVIEW
  /\ Forall (fun m => mapped_type m <> MAP_NONE) (mappings sample_app)
  /\ review_sel sample_app = 0
  /\ read_nav_input sample_app [press 288] [] = Some (mk_nav 0 0 1 0 0, true)
  /\ exists app1 app',
       update_review open_world sample_app [press 288] [] [[press KEY_3]]
       = Some app1
       /\ update_mapping app1 [press 291] = Some (app', [])
       /\ state app' = STATE_MAPPING
       /\ binding_code <$> mappings sample_app !! 1%nat = Some "b1"
       /\ binding_code <$> mappings app' !! 1%nat = Some EmptyString.
Proof.
  split; [reflexivity |].
  split; [vm_compute; repeat constructor; discriminate |].
  split; [reflexivity |].
  split; [vm_compute; reflexivity |].
  eexists _, _.
  split; [vm_compute; reflexivity |].
  split; [vm_compute; reflexivity |].
  split; [reflexivity |].
  split; vm_compute; reflexivity.
Qed.

(** ** Export from the directory browser *)

Lemma export_path_under (dir guid : string) :
  (String.length dir <= 470)%nat -> (String.length guid <= 32)%nat ->
  export_path dir guid = file_under dir guid
  /\ (String.length (file_under dir guid) <= 507)%nat.
Proof.
  intros Hdir Hguid. unfold export_path, file_under.
  rewrite (take_str_all 32 guid), (take_str_all 470 dir) by assumption.
  assert (Hlen : (String.length
                    (if (dir =? "/")%string then "/" ++ guid ++ ".txt"
                     else dir ++ "/" ++ guid ++ ".txt") <= 507)%nat).
  { destruct (dir =? "/")%string; rewrite !str_length_app;
      cbn [String.length]; lia. }
  split; [| exact Hlen].
  apply take_str_all. unfold MAX_PATH_LEN. lia.
Qed.

Lemma set_browser_same (app : App) : set_browser (browser app) app = app.
Proof. destruct app. reflexivity. Qed.

(** The export branch, reached by a confirmation alone with the cursor on
    the export row. *)
Lemma browse_act_export (w : World) (app : App) (c : Controller) (a : Z)
      (str : string) :
  a <> 0 -> 0 < b_count (browser app) ->
  arr_get (b_entries (browser app)) (b_selected (browser app))
    = Some export_entry ->
  arr_get (controllers app) (sel_ctrl app) = Some c ->
  build_mapping_string app MAPPING_STR_SIZE = Some str ->
  browse_act w app 0 a 0 0 =
  let filepath := export_path (b_path (browser app)) (c_guid c) in
  if w_fopen_w w filepath then
    Some (set_state STATE_REVIEW
            (set_save_path (take_str (MAX_PATH_LEN - 1) filepath)
               (set_mapping_str str app)),
          write_file filepath (str ++ newline) w)
  else Some (set_mapping_str str app, w).
Proof.
  intros Ha Hcount He Hc Hstr. unfold browse_act.
  change (browse_move 0 (browser app)) with (browser app).
  rewrite set_browser_same.
  replace (a =? 0) with false by (symmetry; apply Z.eqb_neq; exact Ha).
  replace (0 <? b_count (browser app)) with true
    by (symmetry; apply Z.ltb_lt; exact Hcount).
  cbn [negb andb]. unfold browse_confirm. rewrite He.
  cbn [mbind option_bind]. unfold export_entry at 1 2.
  cbn [e_name e_is_dir].
  change ((">> Export here <<" =? "..")%string) with false.
  change (negb (0 =? 0)) with false. cbn iota.
  rewrite Hc. cbn [mbind option_bind]. rewrite Hstr.
  cbn [mbind option_bind]. cbn zeta.
  destruct (w_fopen_w w (export_path (b_path (browser app)) (c_guid c)));
    reflexivity.
Qed.

(** The export within the bounds of the file-name format.  In BROWSE,
    with the cursor on the export row of a directory whose path has at
    most 470 characters, a poll that carries a confirmation and nothing
    else computes the mapping line and the name [<GUID>.txt] under that
    directory.  When the file opens for writing, the line and a newline
    are written to it, the name is recorded as the save path and the
    state becomes REVIEW.  When it does not, nothing is written, no save
    path is recorded, and state, bindings and browser are as before. *)
Theorem export_confirm (w : World) (app : App) (c : Controller) (a : Z)
        (queue nav_queue : list input_event)
        (keyboards : list (list input_event)) :
  state app = STATE_BROWSE ->
  browse_signals app queue nav_queue keyboards = Some (0, a, 0, 0, true) ->
  a <> 0 ->
  0 < b_count (browser app) ->
  arr_get (b_entries (browser app)) (b_selected (browser app))
    = Some export_entry ->
  arr_get (controllers app) (sel_ctrl app) = Some c ->
  (String.length (c_guid c) <= 32)%nat ->
  (String.length (c_name c) <= 255)%nat ->
  map gcdb_name (mappings app) = channel_names ->
  (String.length (b_path (browser app)) <= 470)%nat ->
  let file := file_under (b_path (browser app)) (c_guid c) in
  let line := mapping_line c (mappings app) in
  exists app' w',
    update_browse w app queue nav_queue keyboards = Some (app', w')
    /\ mappings app' = mappings app
    /\ (w_fopen_w w file = true ->
          state app' = STATE_REVIEW /\ save_path app' = file /\
          w_files w' = <[file := (line ++ newline)%string]> (w_files w))
    /\ (w_fopen_w w file = false ->
          state app' = STATE_BROWSE /\ save_path app' = save_path app /\
          browser app' = browser app /\ w' = w).
Proof.
  intros Hst Hsig Ha Hcount He Hc Hguid Hname Hnames Hdir file line.
  unfold update_browse. rewrite Hsig. cbn [mbind option_bind].
  pose proof (build_mapping_string_value app c Hc Hguid Hname Hnames) as Hstr.
  rewrite (browse_act_export w app c a _ Ha Hcount He Hc Hstr). cbn zeta.
  destruct (export_path_under (b_path (browser app)) (c_guid c) Hdir Hguid)
    as [Hpath Hlen].
  rewrite Hpath. fold file. fold file in Hlen.
  destruct (w_fopen_w w file) eqn:Hopen.
  - eexists _, _. split; [reflexivity |]. split; [reflexivity |].
    split; [| discriminate]. intros _.
    cbn [state save_path set_state set_save_path set_mapping_str].
    split; [reflexivity |]. split; [| reflexivity].
    apply take_str_all. unfold MAX_PATH_LEN. lia.
  - eexists _, _. split; [reflexivity |]. split; [reflexivity |].
    split; [discriminate |]. intros _.
    cbn [state save_path browser set_mapping_str].
    split; [exact Hst |]. split; [reflexivity |]. split; reflexivity.
Qed.

Lemma export_confirm_witness :
  browse_signals browsing_app [] [] [[press KEY_ENTER]]
    = Some (0, 1, 0, 0, true)
  /\ arr_get (b_entries (browser browsing_app))
       (b_selected (browser browsing_app)) = Some export_entry
  /\ let file := file_under (b_path (browser browsing_app))
                   (c_guid sample_controller) in
     let line := mapping_line sample_controller (mappings browsing_app) in
     exists app' w',
       update_browse open_world browsing_app [] [] [[press KEY_ENTER]]
         = Some (app', w')
       /\ mappings app' = mappings browsing_app
       /\ (w_fopen_w open_world file = true ->
             state app' = STATE_REVIEW /\ save_path app' = file /\
             w_files w' = <[file := (line ++ newline)%string]>
                            (w_files open_world))
       /\ (w_fopen_w open_world file = false ->
             state app' = STATE_BROWSE /\
             save_path app' = save_path browsing_app /\
             browser app' = browser browsing_app /\ w' = open_world).
Proof.
  split; [vm_compute; reflexivity |]. split; [reflexivity |].
  apply (export_confirm open_world browsing_app sample_controller 1 [] []
           [[press KEY_ENTER]]).
  - reflexivity.
  - vm_compute. reflexivity.
  - lia.
  - vm_compute. reflexivity.
  - reflexivity.
  - reflexivity.
  - vm_compute. lia.
  - vm_compute. lia.
  - reflexivity.
  - vm_compute. lia.
Defined.

(** When the file does not open, the same confirmation leaves the
    session in BROWSE with nothing recorded. *)
Example export_refused :
  exists app',
    update_browse closed_world browsing_app [] [] [[press KEY_ENTER]]
      = Some (app', closed_world)
    /\ state app' = STATE_BROWSE
    /\ save_path app' = EmptyString
    /\ mappings app' = mappings browsing_app
    /\ browser app' = browser browsing_app.
Proof. eexists. split; [vm_compute; reflexivity |]. repeat split. Qed.

(** When the file does not open and the same poll also carries the quit
    signal (here the pad confirms and the keyboard sends Escape), the
    export branch falls through to the signals that follow it: the
    session leaves the browser although nothing was saved. *)
Example export_refused_with_quit :
  exists app',
    update_browse closed_world browsing_app [press 288] [] [[press KEY_ESC]]
      = Some (app', closed_world)
    /\ state app' = STATE_REVIEW
    /\ save_path app' = EmptyString.
Proof. eexists. split; [vm_compute; reflexivity |]. repeat split. Qed.

(** C7, at a directory whose path has more than 470 characters.  The
    source announces "save to current directory" and [render_browse]
    shows [File will be saved as: <path>/<GUID>.txt]; confirming the
    export in [long_dir], whose path has 482 characters, succeeds,
    records a save path and returns to REVIEW, yet no file named
    [<GUID>.txt] under [long_dir] has been written: the file lies under
    the first 470 characters of the path, another directory. *)
Theorem export_long_path_truncated :
  (fun r : App * World => state (fst r)) <$> long_run = Some STATE_REVIEW
  /\ (fun r : App * World =>
        w_files (snd r) !! file_under long_dir (c_guid sample_controller))
       <$> long_run = Some None
  /\ (fun r : App * World => save_path (fst r)) <$> long_run
     = Some (take_str 470 long_dir ++ "/" ++ c_guid sample_controller
             ++ ".txt")%string
  /\ (fun r : App * World => w_files (snd r) !! save_path (fst r))
       <$> long_run
     = Some (Some (mapping_line sample_controller sample_mappings
                   ++ newline)%string)
  /\ (file_under long_dir (c_guid sample_controller)
      =? take_str 470 long_dir ++ "/" ++ c_guid sample_controller ++ ".txt")%string
     = false.
Proof.
  split; [vm_compute; reflexivity |]. split; [vm_compute; reflexivity |].
  split; [vm_compute; reflexivity |]. split; [vm_compute; reflexivity |].
  vm_compute. reflexivity.
Qed.

(** * Further properties *)

(** ** Identity builder: the GUID determines the quadruple *)

Lemma lower_hex_digit_inj (a b : Z) :
  0 <= a < 16 -> 0 <= b < 16 ->
  lower_hex_digit a = lower_hex_digit b -> a = b.
Proof.
  intros Ha Hb H. apply (f_equal nat_of_ascii) in H.
  unfold lower_hex_digit in H.
  destruct (a <? 10) eqn:Ea, (b <? 10) eqn:Eb;
    rewrite !nat_ascii_embedding in H by lia;
    try apply Z.ltb_lt in Ea; try apply Z.ltb_ge in Ea;
    try apply Z.ltb_lt in Eb; try apply Z.ltb_ge in Eb; lia.
Qed.

Lemma render_hex_inj (l1 : list Z) :
  forall l2 : list Z,
    Forall is_byte l1 -> Forall is_byte l2 ->
    render_hex l1 = render_hex l2 -> l1 = l2.
Proof.
  induction l1 as [| a l1 IH]; intros [| b l2] H1 H2 Heq;
    try reflexivity; try discriminate.
  apply Forall_cons in H1 as [Ha H1]. apply Forall_cons in H2 as [Hb H2].
  cbn [render_hex] in Heq. injection Heq as Hhi Hlo Hrest.
  unfold is_byte in Ha, Hb.
  apply lower_hex_digit_inj in Hhi;
    [| split; [apply Z.div_pos; lia | apply Z.div_lt_upper_bound; lia] ..].
  apply lower_hex_digit_inj in Hlo; [| apply Z.mod_pos_bound; lia ..].
  f_equal.
  - pose proof (Z.div_mod a 16 ltac:(lia)). pose proof (Z.div_mod b 16 ltac:(lia)).
    lia.
  - apply IH; assumption.
Qed.

(** X1.  Two quadruples of 16-bit identification fields with the same
    GUID are the same quadruple: the 32 characters determine bustype,
    vendor, product and version. *)
Theorem build_guid_injective (id id' : input_id) :
  is_u16 (bustype id) -> is_u16 (vendor id) ->
  is_u16 (product id) -> is_u16 (version id) ->
  is_u16 (bustype id') -> is_u16 (vendor id') ->
  is_u16 (product id') -> is_u16 (version id') ->
  build_guid id = build_guid id' -> id = id'.
Proof.
  intros Hb Hv Hp Hr Hb' Hv' Hp' Hr' Heq.
  unfold build_guid in Heq.
  rewrite !guid_bytes_layout in Heq by assumption.
  rewrite !guid_loop_render in Heq by (apply guid_layout_bytes; assumption).
  apply render_hex_inj in Heq; try (apply guid_layout_bytes; assumption).
  unfold guid_layout, le16 in Heq. cbn [app] in Heq.
  injection Heq as B0 B1 V0 V1 P0 P1 R0 R1.
  destruct id as [b v p r], id' as [b' v' p' r']. cbn in *.
  unfold is_u16 in *.
  assert (Hjoin : forall x y, x mod 256 = y mod 256 -> x / 256 = y / 256 -> x = y).
  { intros x y Hm Hd. pose proof (Z.div_mod x 256 ltac:(lia)).
    pose proof (Z.div_mod y 256 ltac:(lia)). lia. }
  f_equal; apply Hjoin; assumption.
Qed.

Lemma build_guid_injective_witness :
  build_guid (mk_input_id 3 121 17 272) = build_guid sample_id
  /\ mk_input_id 3 121 17 272 = sample_id.
Proof.
  split; [reflexivity |].
  apply (build_guid_injective (mk_input_id 3 121 17 272) sample_id);
    try (unfold is_u16; cbn; lia).
  reflexivity.
Defined.

(** ** Capability enumeration: indices are unique and below the counts *)

Lemma number_codes_values (p : nat -> bool) (codes : list nat) (size : nat) :
  NoDup codes ->
  (forall c, In c codes -> (c < size)%nat) ->
  let r := fold_left (number_code p) codes (replicate size (-1), 0) in
  length (fst r) = size
  /\ (forall c v, fst r !! c = Some v ->
        v = -1 \/ (0 <= v < snd r /\ List.filter p codes !! Z.to_nat v = Some c)).
Proof.
  intros Hnd Hsize.
  destruct (number_codes_spec p codes (replicate size (-1)) 0 Hnd)
    as (Hn & Hlen & Hidx & Hrest).
  { intros c Hc. rewrite length_replicate. apply Hsize, Hc. }
  cbn zeta. rewrite length_replicate in Hlen. split; [exact Hlen |].
  intros c v Hv.
  destruct (in_dec Nat.eq_dec c (List.filter p codes)) as [Hin | Hout].
  - apply list_elem_of_In, list_elem_of_lookup in Hin as [k Hk].
    rewrite (Hidx k c Hk) in Hv. injection Hv as <-. right.
    apply lookup_lt_Some in Hk as Hlt. rewrite Hn, Z.add_0_l, Nat2Z.id.
    split; [lia | exact Hk].
  - rewrite (Hrest c Hout) in Hv. apply lookup_replicate in Hv as [-> _].
    left. reflexivity.
Qed.

Lemma enumerate_tables_inv (d : Device) (c0 : Controller) :
  let c := enumerate_buttons_axes d c0 in
  length (btn_map c) = KEY_MAX
  /\ length (abs_map c) = ABS_MAX
  /\ (forall code v, btn_map c !! code = Some v ->
        v = -1 \/
        (0 <= v < num_buttons c
         /\ button_order (bits_or_zero (dev_keybits d)) !! Z.to_nat v
            = Some code))
  /\ (forall code v, abs_map c !! code = Some v ->
        v = -1 \/
        (0 <= v < num_axes c
         /\ axis_order (bits_or_zero (dev_absbits d)) !! Z.to_nat v
            = Some code)).
Proof.
  cbn zeta. unfold button_order, axis_order.
  set (kb := bits_or_zero (dev_keybits d)).
  set (ab := bits_or_zero (dev_absbits d)).
  destruct (number_codes_values (fun i => TEST_BIT i kb)
              (primary_button_codes ++ misc_button_codes)%list KEY_MAX
              button_codes_NoDup button_codes_range) as [Blen Bval].
  destruct (number_codes_values
              (fun i => TEST_BIT i ab && negb (is_hat_code i)) axis_codes
              ABS_MAX (NoDup_seq 0 ABS_MAX)) as [Alen Aval].
  { intros code Hc. apply in_seq in Hc. lia. }
  cbn zeta in Bval, Blen, Aval, Alen.
  rewrite <- (enumerate_buttons_fold kb) in Bval, Blen.
  destruct (scan_axis_numbering d ab axis_codes (axis_tables_init c0)
              (replicate ABS_MAX (-1), 0) eq_refl eq_refl) as [Hfst Hsnd].
  cbn zeta in Hfst, Hsnd. rewrite <- Hfst, <- Hsnd in Aval.
  rewrite <- Hfst in Alen.
  assert (Hbm : btn_map (enumerate_buttons_axes d c0)
                = fst (enumerate_buttons kb)) by reflexivity.
  assert (Hbn : num_buttons (enumerate_buttons_axes d c0)
                = snd (enumerate_buttons kb)) by reflexivity.
  assert (Ham : abs_map (enumerate_buttons_axes d c0)
                = t_abs_map (fold_left (scan_axis d ab) axis_codes
                               (axis_tables_init c0))) by reflexivity.
  assert (Han : num_axes (enumerate_buttons_axes d c0)
                = t_num_axes (fold_left (scan_axis d ab) axis_codes
                                (axis_tables_init c0))) by reflexivity.
  rewrite Hbm, Hbn, Ham, Han.
  exact (conj Blen (conj Alen (conj Bval Aval))).
Qed.

(** X2.  After the enumeration the button table has [KEY_MAX] entries
    and the axis table [ABS_MAX]; an entry is -1 or an index below the
    respective count; and no two codes share an index. *)
Theorem enumerate_indices_unique (d : Device) (c0 : Controller) :
  let c := enumerate_buttons_axes d c0 in
  length (btn_map c) = KEY_MAX
  /\ length (abs_map c) = ABS_MAX
  /\ (forall code v, btn_map c !! code = Some v ->
        v = -1 \/ 0 <= v < num_buttons c)
  /\ (forall code1 code2 v, 0 <= v ->
        btn_map c !! code1 = Some v -> btn_map c !! code2 = Some v ->
        code1 = code2)
  /\ (forall code v, abs_map c !! code = Some v ->
        v = -1 \/ 0 <= v < num_axes c)
  /\ (forall code1 code2 v, 0 <= v ->
        abs_map c !! code1 = Some v -> abs_map c !! code2 = Some v ->
        code1 = code2).
Proof.
  destruct (enumerate_tables_inv d c0) as (Blen & Alen & Bval & Aval).
  cbn zeta in *.
  refine (conj Blen (conj Alen (conj _ (conj _ (conj _ _))))).
  - intros code v Hv. destruct (Bval code v Hv) as [-> | [Hr _]]; auto.
  - intros code1 code2 v Hpos H1 H2.
    destruct (Bval code1 v H1) as [-> | [_ K1]]; [lia |].
    destruct (Bval code2 v H2) as [-> | [_ K2]]; [lia |].
    congruence.
  - intros code v Hv. destruct (Aval code v Hv) as [-> | [Hr _]]; auto.
  - intros code1 code2 v Hpos H1 H2.
    destruct (Aval code1 v H1) as [-> | [_ K1]]; [lia |].
    destruct (Aval code2 v H2) as [-> | [_ K2]]; [lia |].
    congruence.
Qed.

(** ** Capability enumeration: hats *)

Lemma hat_of_code_range (code : nat) :
  is_hat_code code = true -> 0 <= hat_of_code code <= 3.
Proof.
  intros H. apply hat_code_cases in H. unfold hat_of_code.
  repeat (destruct H as [-> | H]); try subst code; cbn; lia.
Qed.

Lemma scan_axis_hats_inv (d : Device) (ab : list Z) (codes : list nat) :
  forall t : AxisTables,
    0 <= t_num_hats t <= 4 ->
    (forall code h, t_hat_map t !! code = Some h -> -1 <= h < t_num_hats t) ->
    let r := fold_left (scan_axis d ab) codes t in
    0 <= t_num_hats r <= 4
    /\ (forall code h, t_hat_map r !! code = Some h -> -1 <= h < t_num_hats r).
Proof.
  induction codes as [| a rest IH]; intros t Hn Hmap; [cbn; auto |].
  cbn [fold_left]. apply IH.
  - unfold scan_axis.
    destruct (TEST_BIT a ab), (is_hat_code a) eqn:Hh; cbn [negb t_num_hats];
      try exact Hn.
    pose proof (hat_of_code_range a Hh) as Hr. unfold hat_of_code in Hr.
    destruct (t_num_hats t <=? Z.of_nat ((a - ABS_HAT0X) / 2)); lia.
  - intros code h. unfold scan_axis.
    destruct (TEST_BIT a ab), (is_hat_code a) eqn:Hh;
      cbn [negb t_num_hats t_hat_map]; try apply Hmap.
    pose proof (hat_of_code_range a Hh) as Hr. unfold hat_of_code in Hr.
    intros Hl. apply list_lookup_insert_Some in Hl as [(_ & <- & _) | (_ & Hl)].
    + destruct (t_num_hats t <=? Z.of_nat ((a - ABS_HAT0X) / 2)) eqn:E;
        [apply Z.leb_le in E | apply Z.leb_gt in E]; lia.
    + apply Hmap in Hl.
      destruct (t_num_hats t <=? Z.of_nat ((a - ABS_HAT0X) / 2)) eqn:E;
        [apply Z.leb_le in E | apply Z.leb_gt in E]; lia.
Qed.

Lemma enumerate_axes_hats (d : Device) (c0 : Controller) :
  0 <= t_num_hats (enumerate_axes d c0) <= 4
  /\ (forall code h, t_hat_map (enumerate_axes d c0) !! code = Some h ->
        -1 <= h < t_num_hats (enumerate_axes d c0)).
Proof.
  unfold enumerate_axes.
  apply (scan_axis_hats_inv d (bits_or_zero (dev_absbits d)) axis_codes
           (axis_tables_init c0)).
  - unfold axis_tables_init. cbn [t_num_hats]. lia.
  - intros code h. unfold axis_tables_init. cbn [t_hat_map t_num_hats].
    intros Hl. apply lookup_replicate in Hl as [-> _]. lia.
Qed.

(** X3.  After the enumeration there are at most four hats; an entry of
    the hat table is -1 or a hat number below [num_hats]; and the hat
    number of every advertised hat code is below [num_hats]. *)
Theorem enumerate_hats_bounded (d : Device) (c0 : Controller) :
  let c := enumerate_buttons_axes d c0 in
  0 <= num_hats c <= 4
  /\ (forall code h, hat_map c !! code = Some h -> h = -1 \/ 0 <= h < num_hats c)
  /\ (forall code, (code < ABS_MAX)%nat ->
        TEST_BIT code (bits_or_zero (dev_absbits d)) = true ->
        is_hat_code code = true ->
        hat_map c !! code = Some (hat_of_code code)
        /\ 0 <= hat_of_code code < num_hats c).
Proof.
  cbn zeta.
  change (hat_map (enumerate_buttons_axes d c0))
    with (t_hat_map (enumerate_axes d c0)).
  change (num_hats (enumerate_buttons_axes d c0))
    with (t_num_hats (enumerate_axes d c0)).
  destruct (enumerate_axes_hats d c0) as [Hn Hmap].
  split; [exact Hn |]. split.
  - intros code h Hl. apply Hmap in Hl. lia.
  - intros code Hlt Hbit Hhat.
    pose proof (enumerate_hats_spec d c0 code Hlt) as Hspec.
    rewrite Hbit, Hhat in Hspec. cbn [andb] in Hspec.
    split; [exact Hspec |].
    apply Hmap in Hspec. pose proof (hat_of_code_range code Hhat). lia.
Qed.

(** ** Capability enumeration: calibration tables *)

Lemma wrap_int_small (z : Z) :
  -2147483648 <= z <= 2147483647 -> wrap_int z = z.
Proof. intros Hz. unfold wrap_int. rewrite Z.mod_small by lia. lia. Qed.

Lemma midpoint_between (lo hi : Z) :
  lo <= hi -> lo <= int_div (lo + hi) 2 <= hi.
Proof.
  intros Hle. unfold int_div.
  pose proof (Z.quot_rem' (lo + hi) 2) as Hqr.
  pose proof (Z.rem_bound_abs (lo + hi) 2 ltac:(lia)) as Hr.
  lia.
Qed.

Lemma scan_axis_calib_length (d : Device) (ab : list Z) (t : AxisTables)
      (a : nat) :
  length (t_axis_min (scan_axis d ab t a)) = length (t_axis_min t)
  /\ length (t_axis_max (scan_axis d ab t a)) = length (t_axis_max t)
  /\ length (t_axis_initial (scan_axis d ab t a)) = length (t_axis_initial t).
Proof.
  unfold scan_axis.
  destruct (TEST_BIT a ab), (is_hat_code a);
    cbn [negb t_axis_min t_axis_max t_axis_initial];
    rewrite ?length_insert; auto.
Qed.

(** The axis loop leaves the calibration of a code alone when it does not
    visit the code or the code is not advertised. *)
Lemma scan_axis_calib_other (d : Device) (ab : list Z) (codes : list nat)
      (i : nat) :
  ~ In i codes \/ TEST_BIT i ab = false ->
  forall t : AxisTables,
    let r := fold_left (scan_axis d ab) codes t in
    t_axis_min r !! i = t_axis_min t !! i
    /\ t_axis_max r !! i = t_axis_max t !! i
    /\ t_axis_initial r !! i = t_axis_initial t !! i.
Proof.
  intros Hi. induction codes as [| a rest IH]; intros t; [cbn; auto |].
  cbn [fold_left]. cbn zeta.
  destruct IH with (t := scan_axis d ab t a) as (I1 & I2 & I3).
  { destruct Hi as [Hi | Hi]; [left | right; exact Hi].
    intros H. apply Hi. right. exact H. }
  rewrite I1, I2, I3. unfold scan_axis.
  destruct (TEST_BIT a ab) eqn:Hb; cbn [negb]; [| auto].
  assert (Hne : a <> i).
  { intros ->. destruct Hi as [Hi | Hi]; [apply Hi; left; reflexivity |].
    congruence. }
  destruct (is_hat_code a); cbn [t_axis_min t_axis_max t_axis_initial];
    rewrite !list_lookup_insert_ne by exact Hne; auto.
Qed.

(** ... and records range and midpoint of an advertised code it visits. *)
Lemma scan_axis_calib_set (d : Device) (ab : list Z) (codes : list nat)
      (i : nat) :
  TEST_BIT i ab = true ->
  forall t : AxisTables,
    In i codes ->
    (i < length (t_axis_min t))%nat -> (i < length (t_axis_max t))%nat ->
    (i < length (t_axis_initial t))%nat ->
    let r := fold_left (scan_axis d ab) codes t in
    t_axis_min r !! i = Some (minimum (read_absinfo d i))
    /\ t_axis_max r !! i = Some (maximum (read_absinfo d i))
    /\ t_axis_initial r !! i
       = Some (int_div (int_add (minimum (read_absinfo d i))
                                (maximum (read_absinfo d i))) 2).
Proof.
  intros Hb. induction codes as [| a rest IH]; intros t Hin L1 L2 L3.
  - destruct Hin.
  - cbn [fold_left]. cbn zeta.
    destruct (scan_axis_calib_length d ab t a) as (E1 & E2 & E3).
    destruct (in_dec Nat.eq_dec i rest) as [Hrest | Hrest].
    + apply IH; [exact Hrest | rewrite E1 | rewrite E2 | rewrite E3];
        assumption.
    + destruct Hin as [-> | Hin]; [| contradiction].
      destruct (scan_axis_calib_other d ab rest i (or_introl Hrest)
                  (scan_axis d ab t i)) as (O1 & O2 & O3).
      rewrite O1, O2, O3. unfold scan_axis. rewrite Hb. cbn [negb].
      destruct (is_hat_code i); cbn [t_axis_min t_axis_max t_axis_initial];
        rewrite !list_lookup_insert_eq by assumption; auto.
Qed.

Lemma registered_axes (fd : Z) (path : string) (d : Device) (id : input_id) :
  axis_min (registered_controller fd path d id)
    = t_axis_min (fold_left (scan_axis d (bits_or_zero (dev_absbits d)))
                    axis_codes
                    (axis_tables_init (opened_controller fd path)))
  /\ axis_max (registered_controller fd path d id)
     = t_axis_max (fold_left (scan_axis d (bits_or_zero (dev_absbits d)))
                     axis_codes
                     (axis_tables_init (opened_controller fd path)))
  /\ axis_initial (registered_controller fd path d id)
     = t_axis_initial (fold_left (scan_axis d (bits_or_zero (dev_absbits d)))
                         axis_codes
                         (axis_tables_init (opened_controller fd path))).
Proof. split; [| split]; reflexivity. Qed.

(** X4.  In a registered controller every advertised axis code carries
    the range the device reports for it and the midpoint of that range as
    its centre; the centre lies between minimum and maximum.  A code that
    is not advertised has range and centre 0. *)
Theorem registered_calibration (fd : Z) (path : string) (d : Device)
        (id : input_id) (code : nat) (lo hi : Z) :
  (code < ABS_MAX)%nat ->
  read_absinfo d code = mk_absinfo lo hi ->
  lo <= hi -> -2147483648 <= lo + hi <= 2147483647 ->
  let c := registered_controller fd path d id in
  (TEST_BIT code (bits_or_zero (dev_absbits d)) = true ->
     axis_min c !! code = Some lo /\ axis_max c !! code = Some hi /\
     exists centre, axis_initial c !! code = Some centre /\
                    lo <= centre <= hi /\ centre = int_div (lo + hi) 2)
  /\ (TEST_BIT code (bits_or_zero (dev_absbits d)) = false ->
        axis_min c !! code = Some 0 /\ axis_max c !! code = Some 0 /\
        axis_initial c !! code = Some 0).
Proof.
  intros Hlt Hinfo Hle Hsum. cbn zeta.
  destruct (registered_axes fd path d id) as (-> & -> & ->).
  split; intros Hbit.
  - destruct (scan_axis_calib_set d (bits_or_zero (dev_absbits d)) axis_codes
                code Hbit (axis_tables_init (opened_controller fd path)))
      as (S1 & S2 & S3).
    + unfold axis_codes. apply in_seq. lia.
    + unfold axis_tables_init, opened_controller.
      cbn [t_axis_min axis_min]. rewrite length_replicate. exact Hlt.
    + unfold axis_tables_init, opened_controller.
      cbn [t_axis_max axis_max]. rewrite length_replicate. exact Hlt.
    + unfold axis_tables_init. cbn [t_axis_initial].
      rewrite length_replicate. exact Hlt.
    + cbn zeta in S1, S2, S3. rewrite S1, S2, S3, Hinfo.
      cbn [minimum maximum]. split; [reflexivity |]. split; [reflexivity |].
      exists (int_div (lo + hi) 2).
      unfold int_add. rewrite wrap_int_small by exact Hsum.
      split; [reflexivity |]. split; [apply midpoint_between; exact Hle |].
      reflexivity.
  - destruct (scan_axis_calib_other d (bits_or_zero (dev_absbits d)) axis_codes
                code (or_intror Hbit)
                (axis_tables_init (opened_controller fd path)))
      as (O1 & O2 & O3).
    cbn zeta in O1, O2, O3. rewrite O1, O2, O3.
    unfold axis_tables_init, opened_controller.
    cbn [t_axis_min t_axis_max t_axis_initial axis_min axis_max].
    rewrite !lookup_replicate_2 by exact Hlt. auto.
Qed.

Lemma registered_calibration_witness :
  read_absinfo sample_pad ABS_X = mk_absinfo 0 255
  /\ axis_min sample_controller !! ABS_X = Some 0
  /\ axis_max sample_controller !! ABS_X = Some 255
  /\ exists centre, axis_initial sample_controller !! ABS_X = Some centre /\
                    0 <= centre <= 255 /\ centre = int_div (0 + 255) 2.
Proof.
  split; [reflexivity |].
  pose proof (registered_calibration 5 (device_path "event3") sample_pad
                sample_id ABS_X 0 255) as H.
  cbn zeta in H.
  apply H; [unfold ABS_X, ABS_MAX; lia | reflexivity | lia | lia |].
  vm_compute. reflexivity.
Defined.

(** ** Capture on a registered controller *)

Lemma scan_axis_calib_lengths (d : Device) (ab : list Z) (codes : list nat) :
  forall t : AxisTables,
    let r := fold_left (scan_axis d ab) codes t in
    length (t_axis_min r) = length (t_axis_min t)
    /\ length (t_axis_max r) = length (t_axis_max t)
    /\ length (t_axis_initial r) = length (t_axis_initial t).
Proof.
  induction codes as [| a rest IH]; intros t; [cbn; auto |].
  cbn [fold_left]. cbn zeta.
  destruct (IH (scan_axis d ab t a)) as (I1 & I2 & I3).
  destruct (scan_axis_calib_length d ab t a) as (E1 & E2 & E3).
  rewrite I1, I2, I3. auto.
Qed.

Lemma registered_calib_lengths (fd : Z) (path : string) (d : Device)
      (id : input_id) :
  length (axis_min (registered_controller fd path d id)) = ABS_MAX
  /\ length (axis_max (registered_controller fd path d id)) = ABS_MAX
  /\ length (axis_initial (registered_controller fd path d id)) = ABS_MAX.
Proof.
  destruct (registered_axes fd path d id) as (-> & -> & ->).
  destruct (scan_axis_calib_lengths d (bits_or_zero (dev_absbits d))
              axis_codes (axis_tables_init (opened_controller fd path)))
    as (L1 & L2 & L3).
  cbn zeta in L1, L2, L3. rewrite L1, L2, L3.
  unfold axis_tables_init, opened_controller.
  cbn [t_axis_min t_axis_max t_axis_initial axis_min axis_max].
  rewrite !length_replicate. auto.
Qed.

(** The capture loop on any controller whose tables are complete and
    whose indices are below the counts. *)
Lemma poll_binding_inv (c : Controller) :
  length (btn_map c) = KEY_MAX -> length (abs_map c) = ABS_MAX ->
  length (axis_min c) = ABS_MAX -> length (axis_max c) = ABS_MAX ->
  length (axis_initial c) = ABS_MAX ->
  (forall code v, btn_map c !! code = Some v -> 0 <= v -> v < num_buttons c) ->
  (forall code v, abs_map c !! code = Some v -> 0 <= v -> v < num_axes c) ->
  forall (queue : list input_event) (entry : MappingEntry),
    Forall (fun ev => event_in_tables ev = true) queue ->
    exists rest entry' got,
      poll_mapping_input c queue entry = Some (rest, entry', got)
      /\ (exists pre, queue = (pre ++ rest)%list)
      /\ (got = false -> entry' = entry /\ rest = [])
      /\ (got = true ->
            (length rest < length queue)%nat
            /\ match mapped_type entry' with
               | MAP_BUTTON => 0 <= mapped_index entry' < num_buttons c
                               /\ hat_mask entry' = hat_mask entry
               | MAP_AXIS => 0 <= mapped_index entry' < num_axes c
                             /\ hat_mask entry' = hat_mask entry
               | MAP_HAT => 0 <= mapped_index entry' <= 3
                            /\ In (hat_mask entry') [1; 2; 4; 8]
               | MAP_NONE => False
               end).
Proof.
  intros Lb La Lmin Lmax Linit Bv Av.
  induction queue as [| ev q IH]; intros entry HF.
  - exists [], entry, false. cbn [poll_mapping_input].
    refine (conj eq_refl (conj _ (conj _ _))).
    + exists []. reflexivity.
    + auto.
    + discriminate.
  - apply Forall_cons in HF as [Hev HF].
    destruct (IH entry HF) as (rest & e' & got & Hp & [pre Hpre] & Hf & Ht).
    remember (poll_mapping_input c (ev :: q) entry) as r eqn:Hr.
    assert (Hskip : r = poll_mapping_input c q entry ->
      exists rest entry' got,
        r = Some (rest, entry', got)
        /\ (exists pre, ev :: q = (pre ++ rest)%list)
        /\ (got = false -> entry' = entry /\ rest = [])
        /\ (got = true ->
              (length rest < length (ev :: q))%nat
              /\ match mapped_type entry' with
                 | MAP_BUTTON => 0 <= mapped_index entry' < num_buttons c
                                 /\ hat_mask entry' = hat_mask entry
                 | MAP_AXIS => 0 <= mapped_index entry' < num_axes c
                               /\ hat_mask entry' = hat_mask entry
                 | MAP_HAT => 0 <= mapped_index entry' <= 3
                              /\ In (hat_mask entry') [1; 2; 4; 8]
                 | MAP_NONE => False
                 end)).
    { intros E. exists rest, e', got. rewrite E.
      refine (conj Hp (conj _ (conj Hf _))).
      - exists (ev :: pre). rewrite Hpre. reflexivity.
      - intros G. destruct (Ht G) as [Hl Hm]. split; [| exact Hm].
        cbn [length]. lia. }
    assert (Hnow : forall e1,
      r = Some (q, e1, true) ->
      match mapped_type e1 with
      | MAP_BUTTON => 0 <= mapped_index e1 < num_buttons c
                      /\ hat_mask e1 = hat_mask entry
      | MAP_AXIS => 0 <= mapped_index e1 < num_axes c
                    /\ hat_mask e1 = hat_mask entry
      | MAP_HAT => 0 <= mapped_index e1 <= 3
                   /\ In (hat_mask e1) [1; 2; 4; 8]
      | MAP_NONE => False
      end ->
      exists rest entry' got,
        r = Some (rest, entry', got)
        /\ (exists pre, ev :: q = (pre ++ rest)%list)
        /\ (got = false -> entry' = entry /\ rest = [])
        /\ (got = true ->
              (length rest < length (ev :: q))%nat
              /\ match mapped_type entry' with
                 | MAP_BUTTON => 0 <= mapped_index entry' < num_buttons c
                                 /\ hat_mask entry' = hat_mask entry
                 | MAP_AXIS => 0 <= mapped_index entry' < num_axes c
                               /\ hat_mask entry' = hat_mask entry
                 | MAP_HAT => 0 <= mapped_index entry' <= 3
                              /\ In (hat_mask entry') [1; 2; 4; 8]
                 | MAP_NONE => False
                 end)).
    { intros e1 E Hm. exists q, e1, true.
      refine (conj E (conj _ (conj _ _))).
      - exists [ev]. reflexivity.
      - discriminate.
      - intros _. split; [cbn [length]; lia | exact Hm]. }
    clear IH Hp Hpre Hf Ht.
    unfold event_in_tables in Hev.
    cbn [poll_mapping_input] in Hr.
    destruct ((ev_type ev =? EV_KEY)%nat && (ev_value ev =? 1)) eqn:Ekv.
    + apply andb_prop in Ekv as [Ek _]. rewrite Ek in Hev.
      apply Nat.ltb_lt in Hev.
      destruct (lookup_lt_is_Some_2 (btn_map c) (ev_code ev)) as [idx Hidx];
        [rewrite Lb; exact Hev |].
      rewrite Hidx in Hr. cbn [mbind option_bind] in Hr.
      destruct (0 <=? idx) eqn:Ei; [| apply Hskip; exact Hr].
      apply (Hnow _ Hr). cbn [set_binding mapped_type mapped_index hat_mask].
      apply Z.leb_le in Ei. pose proof (Bv _ _ Hidx Ei). auto with lia.
    + destruct ((ev_type ev =? EV_ABS)%nat) eqn:Eabs; [| apply Hskip; exact Hr].
      apply Nat.eqb_eq in Eabs. rewrite Eabs in Hev.
      change (EV_ABS =? EV_KEY)%nat with false in Hev.
      change (EV_ABS =? EV_ABS)%nat with true in Hev. cbn iota in Hev.
      apply Nat.ltb_lt in Hev.
      destruct ((ABS_HAT0X <=? ev_code ev)%nat && (ev_code ev <=? ABS_HAT3Y)%nat
                && negb (ev_value ev =? 0)) eqn:Eh.
      * apply andb_prop in Eh as [Eh _].
        apply (Hnow _ Hr).
        cbn [set_hat_binding mapped_type mapped_index hat_mask].
        pose proof (hat_of_code_range (ev_code ev) Eh) as Hrange.
        unfold hat_of_code in Hrange. split; [exact Hrange |].
        unfold hat_event_mask.
        destruct ((ev_code ev - ABS_HAT0X) mod 2 =? 0)%nat,
                 (ev_value ev <? 0); cbn; auto.
      * destruct (lookup_lt_is_Some_2 (abs_map c) (ev_code ev)) as [aidx Haidx];
          [rewrite La; exact Hev |].
        destruct (lookup_lt_is_Some_2 (axis_max c) (ev_code ev)) as [amax Hamax];
          [rewrite Lmax; exact Hev |].
        destruct (lookup_lt_is_Some_2 (axis_min c) (ev_code ev)) as [amin Hamin];
          [rewrite Lmin; exact Hev |].
        destruct (lookup_lt_is_Some_2 (axis_initial c) (ev_code ev))
          as [ainit Hainit]; [rewrite Linit; exact Hev |].
        rewrite Haidx, Hamax, Hamin, Hainit in Hr.
        cbn [mbind option_bind] in Hr.
        destruct (0 <=? aidx) eqn:Ea; [| apply Hskip; exact Hr].
        cbn zeta in Hr.
        destruct ((axis_threshold (int_sub amax amin)
                     <? int_sub (ev_value ev) ainit)
                  || (int_sub (ev_value ev) ainit
                        <? - axis_threshold (int_sub amax amin)));
          [| apply Hskip; exact Hr].
        apply (Hnow _ Hr).
        cbn [set_binding mapped_type mapped_index hat_mask].
        apply Z.leb_le in Ea. pose proof (Av _ _ Haidx Ea). auto with lia.
Qed.

Lemma registered_tables (fd : Z) (path : string) (d : Device) (id : input_id) :
  length (btn_map (registered_controller fd path d id)) = KEY_MAX
  /\ length (abs_map (registered_controller fd path d id)) = ABS_MAX
  /\ (forall code v,
        btn_map (registered_controller fd path d id) !! code = Some v ->
        0 <= v -> v < num_buttons (registered_controller fd path d id))
  /\ (forall code v,
        abs_map (registered_controller fd path d id) !! code = Some v ->
        0 <= v -> v < num_axes (registered_controller fd path d id)).
Proof.
  unfold registered_controller. cbv zeta.
  match goal with
  | |- context [enumerate_buttons_axes d ?c0] =>
      destruct (enumerate_tables_inv d c0) as (Lb & La & Bv & Av)
  end.
  cbv zeta in Lb, La, Bv, Av.
  refine (conj Lb (conj La (conj _ _))).
  - intros code v Hv Hpos. destruct (Bv code v Hv) as [| []]; lia.
  - intros code v Hv Hpos. destruct (Av code v Hv) as [| []]; lia.
Qed.



(** ** Events that bind nothing *)

Lemma registered_maps (fd : Z) (path : string) (d : Device) (id : input_id) :
  btn_map (registered_controller fd path d id)
    = fst (enumerate_buttons (bits_or_zero (dev_keybits d)))
  /\ exists c0, abs_map (registered_controller fd path d id)
                = t_abs_map (enumerate_axes d c0).
Proof.
  unfold registered_controller. cbv zeta.
  split; [reflexivity |].
  match goal with
  | |- context [enumerate_buttons_axes d ?c0] => exists c0
  end.
  reflexivity.
Qed.

Lemma button_codes_lower (c : nat) :
  In c (primary_button_codes ++ misc_button_codes)%list -> (BTN_MISC <= c)%nat.
Proof.
  intros H. apply in_app_or in H as [H | H]; apply in_seq in H;
    unfold KEY_MAX, BTN_JOYSTICK, BTN_MISC in *; lia.
Qed.

(** The code of a quiet key press has no button index. *)
Lemma registered_no_button (fd : Z) (path : string) (d : Device)
      (id : input_id) (code : nat) :
  (code < KEY_MAX)%nat ->
  (code < BTN_MISC)%nat \/ TEST_BIT code (bits_or_zero (dev_keybits d)) = false ->
  btn_map (registered_controller fd path d id) !! code = Some (-1).
Proof.
  intros Hlt Hq. destruct (registered_maps fd path d id) as [-> _].
  destruct (enumerate_buttons_spec (bits_or_zero (dev_keybits d)))
    as (_ & _ & Hrest).
  apply Hrest; [exact Hlt |]. unfold button_order. intros Hin.
  apply filter_In in Hin as [Hin Hbit].
  apply button_codes_lower in Hin. destruct Hq as [Hq | Hq]; [lia | congruence].
Qed.

(** Neither has a hat code, nor an axis code the device does not advertise. *)
Lemma registered_no_axis (fd : Z) (path : string) (d : Device)
      (id : input_id) (code : nat) :
  (code < ABS_MAX)%nat ->
  is_hat_code code = true
  \/ TEST_BIT code (bits_or_zero (dev_absbits d)) = false ->
  abs_map (registered_controller fd path d id) !! code = Some (-1).
Proof.
  intros Hlt Hq. destruct (registered_maps fd path d id) as [_ [c0 ->]].
  destruct (enumerate_axes_spec d c0) as (_ & _ & Hrest).
  apply Hrest; [exact Hlt |]. unfold axis_order. intros Hin.
  apply filter_In in Hin as [_ Hbit]. apply andb_prop in Hbit as [Hb Hh].
  destruct Hq as [Hq | Hq]; [rewrite Hq in Hh; discriminate | congruence].
Qed.

Lemma hat_code_in_tables (code : nat) :
  is_hat_code code = true -> (code < ABS_MAX)%nat.
Proof.
  intros H. apply hat_code_cases in H.
  repeat (destruct H as [-> | H]); try subst code; unfold ABS_MAX; cbn; lia.
Qed.

(** X6.  On a registered controller the capture loop binds nothing on
    quiet events: key releases and auto-repeats, presses of keys below
    [BTN_MISC] or not advertised by the device, hats returning to centre,
    moves of axes the device does not advertise, and events of other
    types.  It consumes them all, returns 0 and leaves the entry as it
    was. *)
Theorem quiet_events_bind_nothing (fd : Z) (path : string) (d : Device)
        (id : input_id) (queue : list input_event) (entry : MappingEntry) :
  Forall (fun ev => quiet_event d ev = true) queue ->
  poll_mapping_input (registered_controller fd path d id) queue entry
  = Some ([], entry, false).
Proof.
  induction queue as [| ev q IH]; intros HF; [reflexivity |].
  apply Forall_cons in HF as [Hev HF]. specialize (IH HF).
  cbn [poll_mapping_input]. unfold quiet_event in Hev.
  destruct ((ev_type ev =? EV_KEY)%nat) eqn:Ek.
  - destruct (ev_value ev =? 1) eqn:Ev; cbn [andb negb orb] in Hev |- *.
    + apply andb_prop in Hev as [Hlt Hq]. apply Nat.ltb_lt in Hlt.
      rewrite (registered_no_button fd path d id (ev_code ev) Hlt).
      * cbn [mbind option_bind]. change (0 <=? -1) with false. cbn iota.
        exact IH.
      * apply orb_prop in Hq as [Hq | Hq];
          [left; apply Nat.ltb_lt; exact Hq
          | right; apply negb_true_iff; exact Hq].
    + apply Nat.eqb_eq in Ek. rewrite Ek.
      change (EV_KEY =? EV_ABS)%nat with false. cbn iota. exact IH.
  - cbn [andb]. destruct ((ev_type ev =? EV_ABS)%nat); [| exact IH].
    assert (Hcase : (is_hat_code (ev_code ev) = true /\ (ev_value ev =? 0) = true)
                    \/ (is_hat_code (ev_code ev) = false
                        /\ (ev_code ev < ABS_MAX)%nat
                        /\ TEST_BIT (ev_code ev)
                             (bits_or_zero (dev_absbits d)) = false)).
    { apply orb_prop in Hev as [Hev | Hev].
      - left. apply andb_prop in Hev. exact Hev.
      - right. apply andb_prop in Hev as [Hev Hb].
        apply andb_prop in Hev as [Hh Hlt].
        apply negb_true_iff in Hh, Hb. apply Nat.ltb_lt in Hlt. auto. }
    clear Hev. unfold is_hat_code in Hcase.
    destruct Hcase as [[Hh Hz] | (Hh & Hlt & Hb)].
    + rewrite Hh, Hz. cbn [andb negb].
      rewrite (registered_no_axis fd path d id (ev_code ev)
                 (hat_code_in_tables _ Hh) (or_introl Hh)).
      cbn [mbind option_bind]. change (0 <=? -1) with false. cbn iota.
      exact IH.
    + rewrite Hh. cbn [andb].
      rewrite (registered_no_axis fd path d id (ev_code ev) Hlt (or_intror Hb)).
      cbn [mbind option_bind]. change (0 <=? -1) with false. cbn iota.
      exact IH.
Qed.

Lemma quiet_events_bind_nothing_witness :
  Forall (fun ev => quiet_event sample_pad ev = true)
         [mk_event EV_KEY BTN_GAMEPAD 0; mk_event EV_ABS ABS_HAT0X 0;
          mk_event 0 0 0; mk_event EV_KEY KEY_ENTER 1]
  /\ poll_mapping_input
       (registered_controller 5 (device_path "event3") sample_pad sample_id)
       [mk_event EV_KEY BTN_GAMEPAD 0; mk_event EV_ABS ABS_HAT0X 0;
        mk_event 0 0 0; mk_event EV_KEY KEY_ENTER 1]
       (mk_entry "Menu 1" "a" 0 "Press MENU 1 button" MAP_NONE 0 0)
     = Some ([], mk_entry "Menu 1" "a" 0 "Press MENU 1 button" MAP_NONE 0 0,
             false).
Proof.
  assert (HF : Forall (fun ev => quiet_event sample_pad ev = true)
                 [mk_event EV_KEY BTN_GAMEPAD 0; mk_event EV_ABS ABS_HAT0X 0;
                  mk_event 0 0 0; mk_event EV_KEY KEY_ENTER 1]).
  { repeat constructor. }
  split; [exact HF |].
  exact (quiet_events_bind_nothing 5 (device_path "event3") sample_pad
           sample_id _ _ HF).
Defined.

(** ** Serializer: any buffer size *)

Lemma take_str_nil (n : nat) : take_str n EmptyString = EmptyString.
Proof. destruct n; reflexivity. Qed.

Lemma take_str_app_take (n : nat) (t s : string) :
  take_str n (take_str n t ++ s) = take_str n (t ++ s).
Proof.
  revert n. induction t as [| x t IH]; intros [| n]; try reflexivity.
  change (String x (take_str n (take_str n t ++ s))
          = String x (take_str n (t ++ s))).
  f_equal. apply IH.
Qed.

Lemma take_str_length (n : nat) (s : string) :
  (String.length (take_str n s) <= n)%nat.
Proof.
  revert s. induction n as [| n IH]; intros [| x s]; cbn; try lia.
  specialize (IH s). lia.
Qed.

Lemma snprintf_at_printed (sz : Z) (t s : string) :
  snprintf_at sz (printed sz t) s =
  if sz <? Z.of_nat (String.length t) then None
  else Some (printed sz (t ++ s)).
Proof.
  unfold snprintf_at, printed. cbn [fst snd].
  destruct (sz <? Z.of_nat (String.length t)); [reflexivity |].
  rewrite take_str_app_take, str_length_app, Nat2Z.inj_add. reflexivity.
Qed.

Lemma emit_mapping_printed (sz : Z) (m : MappingEntry) (t : string) :
  emit_mapping sz m (printed sz t) =
  if sz <? Z.of_nat (String.length (t ++ gcdb_name m ++ ":" ++ binding_code m))
  then None
  else Some (printed sz (t ++ gcdb_name m ++ ":" ++ binding_code m ++ ",")).
Proof.
  unfold emit_mapping, binding_code.
  rewrite snprintf_at_printed.
  destruct (Z.ltb_spec sz (Z.of_nat (String.length t))) as [H1 | H1].
  { cbn [mbind option_bind].
    destruct (Z.ltb_spec sz (Z.of_nat (String.length
               (t ++ gcdb_name m ++ ":" ++
                match mapped_type m with
                | MAP_NONE => EmptyString
                | MAP_BUTTON => "b" ++ fmt_d (mapped_index m)
                | MAP_AXIS => "a" ++ fmt_d (mapped_index m)
                | MAP_HAT => "h" ++ fmt_d (mapped_index m) ++ "." ++
                             fmt_d (hat_mask m)
                end)))) as [H2 | H2]; [reflexivity |].
    rewrite str_length_app in H2. lia. }
  cbn [mbind option_bind].
  destruct (mapped_type m).
  - cbn [mbind option_bind]. rewrite snprintf_at_printed.
    rewrite !str_app_assoc, !str_app_nil_r.
    change (":" ++ ",")%string with ":,".
    change (":" ++ EmptyString)%string with ":".
    reflexivity.
  - rewrite snprintf_at_printed.
    destruct (Z.ltb_spec sz (Z.of_nat (String.length (t ++ gcdb_name m ++ ":"))))
      as [H2 | H2]; cbn [mbind option_bind].
    + destruct (Z.ltb_spec sz (Z.of_nat (String.length
                 (t ++ gcdb_name m ++ ":" ++ "b" ++ fmt_d (mapped_index m)))))
        as [H3 | H3]; [reflexivity |].
      rewrite !str_length_app in H2. rewrite !str_length_app in H3. lia.
    + rewrite snprintf_at_printed, !str_app_assoc. reflexivity.
  - rewrite snprintf_at_printed.
    destruct (Z.ltb_spec sz (Z.of_nat (String.length (t ++ gcdb_name m ++ ":"))))
      as [H2 | H2]; cbn [mbind option_bind].
    + destruct (Z.ltb_spec sz (Z.of_nat (String.length
                 (t ++ gcdb_name m ++ ":" ++ "a" ++ fmt_d (mapped_index m)))))
        as [H3 | H3]; [reflexivity |].
      rewrite !str_length_app in H2. rewrite !str_length_app in H3. lia.
    + rewrite snprintf_at_printed, !str_app_assoc. reflexivity.
  - rewrite snprintf_at_printed.
    destruct (Z.ltb_spec sz (Z.of_nat (String.length (t ++ gcdb_name m ++ ":"))))
      as [H2 | H2]; cbn [mbind option_bind].
    + destruct (Z.ltb_spec sz (Z.of_nat (String.length
                 (t ++ gcdb_name m ++ ":" ++ "h" ++ fmt_d (mapped_index m)
                    ++ "." ++ fmt_d (hat_mask m)))))
        as [H3 | H3]; [reflexivity |].
      rewrite !str_length_app in H2. rewrite !str_length_app in H3. lia.
    + rewrite snprintf_at_printed, !str_app_assoc. reflexivity.
Qed.

Lemma emit_mappings_printed (sz : Z) (ms : list MappingEntry) :
  forall (n k : nat) (t : string),
    (k + n = length ms)%nat ->
    emit_mappings sz ms (seq k n) (printed sz t) =
    match n with
    | O => Some (printed sz t)
    | S _ =>
        if sz <? Z.of_nat (String.length (t ++ channel_fields (drop k ms))) - 1
        then None
        else Some (printed sz (t ++ channel_fields (drop k ms)))
    end.
Proof.
  induction n as [| n IH]; intros k t Hk; [reflexivity |].
  cbn [seq emit_mappings].
  destruct (ms !! k) as [m |] eqn:Hm.
  2:{ apply lookup_ge_None in Hm. lia. }
  cbn [mbind option_bind].
  rewrite (drop_S _ _ _ Hm). cbn [channel_fields].
  rewrite emit_mapping_printed.
  assert (Hlen : Z.of_nat (String.length
                   (t ++ gcdb_name m ++ ":" ++ binding_code m ++ "," ++
                    channel_fields (drop (S k) ms)))
                 = Z.of_nat (String.length
                     (t ++ gcdb_name m ++ ":" ++ binding_code m)) + 1
                   + Z.of_nat (String.length (channel_fields (drop (S k) ms)))).
  { rewrite !str_length_app. cbn [String.length]. lia. }
  destruct (Z.ltb_spec sz (Z.of_nat (String.length
             (t ++ gcdb_name m ++ ":" ++ binding_code m)))) as [H1 | H1];
    cbn [mbind option_bind].
  - destruct (Z.ltb_spec sz (Z.of_nat (String.length
               (t ++ gcdb_name m ++ ":" ++ binding_code m ++ "," ++
                channel_fields (drop (S k) ms))) - 1)) as [H2 | H2];
      [reflexivity | lia].
  - rewrite (IH (S k) _ ltac:(lia)).
    assert (Happ : ((t ++ gcdb_name m ++ ":" ++ binding_code m ++ ",") ++
                    channel_fields (drop (S k) ms))%string
                   = (t ++ gcdb_name m ++ ":" ++ binding_code m ++ "," ++
                      channel_fields (drop (S k) ms))%string).
    { rewrite !str_app_assoc. reflexivity. }
    destruct n as [| n'].
    + rewrite drop_ge by lia. cbn [channel_fields].
      destruct (Z.ltb_spec sz (Z.of_nat (String.length
                 (t ++ gcdb_name m ++ ":" ++ binding_code m ++ "," ++
                  EmptyString)) - 1)) as [H2 | H2].
      * rewrite !str_length_app in H1. rewrite !str_length_app in H2.
        cbn [String.length] in H1, H2. lia.
      * rewrite !str_app_nil_r.
        change ("," ++ EmptyString)%string with ",". reflexivity.
    + rewrite Happ. reflexivity.
Qed.

(** X7.  The serializer for every buffer size [sz]: as long as the line
    without its closing [platform:Linux,] field is at most [sz]
    characters long, the buffer ends up holding the first [sz - 1]
    characters of the full line; beyond that, a write is issued at a
    position past the end of the buffer. *)
Theorem build_mapping_string_any_size (app : App) (c : Controller) (sz : Z) :
  arr_get (controllers app) (sel_ctrl app) = Some c ->
  length (mappings app) = Z.to_nat NUM_MAPPINGS ->
  build_mapping_string app sz =
  if sz <? Z.of_nat (String.length
                       (c_guid c ++ "," ++ c_name c ++ "," ++
                        channel_fields (mappings app)))
  then None
  else Some (take_str (Z.to_nat (sz - 1)) (mapping_line c (mappings app))).
Proof.
  intros Hc Hlen. unfold build_mapping_string. rewrite Hc.
  cbn [mbind option_bind].
  assert (H0 : (EmptyString, 0) = printed sz EmptyString).
  { unfold printed. rewrite take_str_nil. reflexivity. }
  rewrite H0, snprintf_at_printed. clear H0.
  change (EmptyString ++ (c_guid c ++ "," ++ c_name c ++ ","))%string
    with (c_guid c ++ "," ++ c_name c ++ ",")%string.
  assert (Hfull : ((c_guid c ++ "," ++ c_name c ++ ",") ++
                   channel_fields (mappings app))%string
                  = (c_guid c ++ "," ++ c_name c ++ "," ++
                     channel_fields (mappings app))%string).
  { rewrite !str_app_assoc. reflexivity. }
  destruct (Z.ltb_spec sz (Z.of_nat (String.length
             (c_guid c ++ "," ++ c_name c ++ "," ++
              channel_fields (mappings app))))) as [Hbig | Hfit].
  - change (String.length EmptyString) with 0%nat.
    destruct (Z.ltb_spec sz (Z.of_nat 0)) as [| Hpos]; [reflexivity |].
    cbn [mbind option_bind].
    rewrite (emit_mappings_printed sz (mappings app) (Z.to_nat NUM_MAPPINGS) 0)
      by (rewrite Hlen; reflexivity).
    change (Z.to_nat NUM_MAPPINGS) with 10%nat. cbn iota.
    rewrite drop_0, Hfull.
    match goal with
    | |- context [if ?b then _ else _] => destruct b; [reflexivity |]
    end.
    cbn [mbind option_bind]. rewrite snprintf_at_printed.
    destruct (Z.ltb_spec sz (Z.of_nat (String.length
               (c_guid c ++ "," ++ c_name c ++ "," ++
                channel_fields (mappings app))))) as [| Hno];
      [reflexivity | lia].
  - change (String.length EmptyString) with 0%nat.
    destruct (Z.ltb_spec sz (Z.of_nat 0)) as [Hneg | Hpos]; [lia |].
    cbn [mbind option_bind].
    rewrite (emit_mappings_printed sz (mappings app) (Z.to_nat NUM_MAPPINGS) 0)
      by (rewrite Hlen; reflexivity).
    change (Z.to_nat NUM_MAPPINGS) with 10%nat. cbn iota.
    rewrite drop_0, Hfull.
    destruct (Z.ltb_spec sz (Z.of_nat (String.length
               (c_guid c ++ "," ++ c_name c ++ "," ++
                channel_fields (mappings app))) - 1)) as [Hno |]; [lia |].
    cbn [mbind option_bind]. rewrite snprintf_at_printed.
    destruct (Z.ltb_spec sz (Z.of_nat (String.length
               (c_guid c ++ "," ++ c_name c ++ "," ++
                channel_fields (mappings app))))) as [Hno |]; [lia |].
    cbn [mbind option_bind printed fst]. unfold mapping_line.
    rewrite !str_app_assoc. reflexivity.
Qed.

Lemma build_mapping_string_any_size_witness :
  arr_get (controllers sample_app) (sel_ctrl sample_app) = Some sample_controller
  /\ length (mappings sample_app) = Z.to_nat NUM_MAPPINGS
  /\ build_mapping_string sample_app 160
     = Some (take_str 159 (mapping_line sample_controller sample_mappings))
  /\ build_mapping_string sample_app 100 = None.
Proof.
  refine (conj eq_refl (conj eq_refl (conj _ _))).
  - rewrite (build_mapping_string_any_size sample_app sample_controller 160
               eq_refl eq_refl).
    vm_compute. reflexivity.
  - rewrite (build_mapping_string_any_size sample_app sample_controller 100
               eq_refl eq_refl).
    vm_compute. reflexivity.
Defined.

(** ** The main loop keeps the session consistent *)

Lemma guid_loop_length (l : list Z) :
  String.length (guid_loop l) = (2 * length l)%nat.
Proof.
  induction l as [| g rest IH]; [reflexivity |].
  cbn [guid_loop String.length length]. rewrite IH. lia.
Qed.

Lemma scan_axis_hat_lengths (d : Device) (ab : list Z) (codes : list nat) :
  forall t : AxisTables,
    length (t_hat_map (fold_left (scan_axis d ab) codes t))
    = length (t_hat_map t).
Proof.
  induction codes as [| a rest IH]; intros t; [reflexivity |].
  cbn [fold_left]. rewrite IH. apply scan_axis_hat_length.
Qed.

Lemma registered_identity (fd : Z) (path : string) (d : Device)
      (id : input_id) :
  c_guid (registered_controller fd path d id) = build_guid id
  /\ c_name (registered_controller fd path d id)
     = controller_name d "Unknown Controller"
  /\ hat_map (registered_controller fd path d id)
     = t_hat_map (fold_left (scan_axis d (bits_or_zero (dev_absbits d)))
                    axis_codes
                    (axis_tables_init (opened_controller fd path))).
Proof. split; [| split]; reflexivity. Qed.

(** What the update functions use of a registered slot. *)
Lemma registered_facts (c : Controller) :
  registered c ->
  (length (btn_map c) = KEY_MAX /\ length (abs_map c) = ABS_MAX
   /\ length (hat_map c) = ABS_MAX)
  /\ (length (axis_min c) = ABS_MAX /\ length (axis_max c) = ABS_MAX
      /\ length (axis_initial c) = ABS_MAX)
  /\ (forall code v, btn_map c !! code = Some v -> 0 <= v -> v < num_buttons c)
  /\ (forall code v, abs_map c !! code = Some v -> 0 <= v -> v < num_axes c)
  /\ (String.length (c_guid c) <= 32)%nat
  /\ (String.length (c_name c) <= 255)%nat.
Proof.
  intros (fd & path & d & id & ->).
  destruct (registered_tables fd path d id) as (Lb & La & Bv & Av).
  destruct (registered_calib_lengths fd path d id) as (Lmin & Lmax & Linit).
  destruct (registered_identity fd path d id) as (Hg & Hn & Hh).
  refine (conj (conj Lb (conj La _))
            (conj (conj Lmin (conj Lmax Linit)) (conj Bv (conj Av (conj _ _))))).
  - rewrite Hh, scan_axis_hat_lengths. unfold axis_tables_init.
    cbn [t_hat_map]. apply length_replicate.
  - rewrite Hg. unfold build_guid. rewrite guid_loop_length. cbn. lia.
  - rewrite Hn. unfold controller_name. destruct (dev_name d) as [s |].
    + pose proof (take_str_length (MAX_NAME_LEN - 1) s) as H.
      unfold MAX_NAME_LEN in H. cbn in H. exact H.
    + cbn. lia.
Qed.

Ltac app_fields :=
  cbn [state controllers num_controllers sel_ctrl mappings cur_map
       redo_single browser review_sel save_path mapping_str thec64_nav_idx
       set_state set_sel_ctrl set_mappings set_cur_map set_redo_single
       set_browser set_review_sel set_save_path set_mapping_str
       set_thec64_nav_idx set_registry].

Lemma slot_registered (cs : list Controller) (n i : Z) :
  length cs = Z.to_nat MAX_CONTROLLERS ->
  0 <= n <= MAX_CONTROLLERS ->
  (forall j c, Z.of_nat j < n -> cs !! j = Some c -> registered c) ->
  0 <= i < n ->
  exists c, arr_get cs i = Some c /\ registered c.
Proof.
  intros Hlen Hn Hslots Hi. unfold arr_get, MAX_CONTROLLERS in *.
  destruct (Z.ltb_spec i 0) as [| _]; [lia |].
  destruct (lookup_lt_is_Some_2 cs (Z.to_nat i)) as [c Hc]; [lia |].
  exists c. split; [exact Hc |]. apply (Hslots (Z.to_nat i)); [lia | exact Hc].
Qed.

Lemma names_length (ms : list MappingEntry) :
  map gcdb_name ms = channel_names -> length ms = 10%nat.
Proof.
  intros H. rewrite <- (length_map gcdb_name), H. reflexivity.
Qed.

Lemma names_insert (ms : list MappingEntry) (i : nat) (m m' : MappingEntry) :
  ms !! i = Some m -> gcdb_name m' = gcdb_name m ->
  map gcdb_name (<[i := m']> ms) = map gcdb_name ms.
Proof.
  revert i. induction ms as [| x ms IH]; intros [| i] Hm Hn;
    try discriminate.
  - injection Hm as ->. cbn. rewrite Hn. reflexivity.
  - cbn. f_equal. apply IH; assumption.
Qed.

Lemma names_alter (ms : list MappingEntry) (i : nat) (t : MapType) :
  map gcdb_name (alter (set_mapped_type t) i ms) = map gcdb_name ms.
Proof.
  revert i. induction ms as [| x ms IH]; intros [| i]; try reflexivity.
  cbn. f_equal. apply IH.
Qed.

Lemma valid_after_insert (c : Controller) (ms : list MappingEntry) (k : nat)
      (m' : MappingEntry) (P : nat -> Prop) :
  valid_binding c m' ->
  (forall i m, ms !! i = Some m -> i <> k -> P i -> valid_binding c m) ->
  forall i m, <[k := m']> ms !! i = Some m -> i = k \/ P i ->
              valid_binding c m.
Proof.
  intros Hnew Hold i m Hl Hi.
  apply list_lookup_insert_Some in Hl as [(<- & <- & _) | (Hne & Hl)];
    [exact Hnew |].
  destruct Hi as [-> | Hi]; [congruence |].
  apply (Hold i m Hl); auto.
Qed.

(** [update_mapping] on a consistent session. *)
Lemma update_mapping_consistent (app : App) (queue : list input_event) :
  consistent app -> bindings_progress app -> state app = STATE_MAPPING ->
  Forall (fun ev => event_in_tables ev = true) queue ->
  exists app', update_mapping app queue = Some (app', [])
               /\ consistent app' /\ bindings_progress app'.
Proof.
  intros (Hlen & Hnum & Hslots & Hnames & Hrev & Hnav & Hb & Hst) Hp Hstate HF.
  unfold bindings_progress in Hp.
  rewrite Hstate in Hst, Hp. destruct Hst as (Hsel & Hcur & Hredo).
  destruct (slot_registered _ _ _ Hlen Hnum Hslots Hsel) as (c & Hc & Hreg).
  destruct Hp as (c' & Hc' & Hval). rewrite Hc in Hc'. injection Hc' as <-.
  destruct (registered_facts c Hreg)
    as ((Lb & La & _) & (Lmin & Lmax & Linit) & Bv & Av & Hguid & Hname).
  pose proof (names_length _ Hnames) as Hten.
  assert (Hm : exists m, mappings app !! Z.to_nat (cur_map app) = Some m).
  { apply lookup_lt_is_Some_2. unfold NUM_MAPPINGS in Hcur. lia. }
  destruct Hm as [m Hm].
  destruct (poll_binding_inv c Lb La Lmin Lmax Linit Bv Av queue m HF)
    as (rest & m' & got & Hpoll & _ & Hf & Ht).
  destruct (poll_keeps_labels _ _ _ _ _ _ Hpoll) as (_ & Hgn & _).
  unfold update_mapping. rewrite Hc. cbn [mbind option_bind].
  unfold arr_get at 1.
  destruct (Z.ltb_spec (cur_map app) 0) as [| _]; [lia |].
  rewrite Hm. cbn [mbind option_bind]. rewrite Hpoll. cbn [mbind option_bind].
  destruct got.
  2:{ destruct (Hf eq_refl) as [_ ->]. exists app. split; [reflexivity |].
      split.
      - unfold consistent. rewrite Hstate. auto 10.
      - unfold bindings_progress. rewrite Hstate. exists c. auto. }
  assert (Hnames' :
    map gcdb_name (arr_set (mappings app) (cur_map app) m') = channel_names).
  { unfold arr_set. rewrite (names_insert _ _ m m' Hm Hgn). exact Hnames. }
  assert (Hnew : valid_binding c m').
  { destruct (Ht eq_refl) as [_ Hv]. unfold valid_binding.
    destruct (mapped_type m'); tauto. }
  clear Ht Hf.
  cbn zeta. app_fields.
  destruct (Z.leb_spec 0 (redo_single app)) as [Hr | Hr].
  - eexists. split; [reflexivity |]. split.
    + unfold consistent. app_fields.
      refine (conj Hlen (conj Hnum (conj Hslots (conj Hnames'
                (conj Hrev (conj Hnav (conj Hb _))))))).
      split; [exact Hsel | reflexivity].
    + unfold bindings_progress. app_fields. exists c. split; [exact Hc |].
      apply Forall_lookup. intros i x Hx. unfold arr_set in Hx.
      apply (valid_after_insert c (mappings app) (Z.to_nat (cur_map app)) m'
               (fun j => j <> Z.to_nat (cur_map app)) Hnew) with (i := i); [| exact Hx | lia].
      intros j y Hy Hne _. apply (Hval j y Hy). right. lia.
  - destruct (Z.leb_spec NUM_MAPPINGS (cur_map app + 1)) as [Hend | Hmore].
    + rewrite (build_mapping_string_value _ c); app_fields;
        [| exact Hc | exact Hguid | exact Hname | exact Hnames'].
      cbn [mbind option_bind].
      eexists. split; [reflexivity |]. split.
      * unfold consistent. app_fields.
        refine (conj Hlen (conj Hnum (conj Hslots (conj Hnames'
                  (conj _ (conj Hnav (conj Hb _))))))).
        -- unfold REVIEW_TOTAL_ITEMS, NUM_MAPPINGS. lia.
        -- split; [exact Hsel | lia].
      * unfold bindings_progress. app_fields. exists c. split; [exact Hc |].
        apply Forall_lookup. intros i x Hx. unfold arr_set in Hx.
        apply (valid_after_insert c (mappings app) (Z.to_nat (cur_map app)) m'
                 (fun j => (j < Z.to_nat (cur_map app))%nat) Hnew)
          with (i := i); [| exact Hx |].
        -- intros j y Hy Hne Hlt. apply (Hval j y Hy). left. lia.
        -- apply lookup_lt_Some in Hx. rewrite length_insert in Hx.
           unfold NUM_MAPPINGS in Hend. lia.
    + eexists. split; [reflexivity |]. split.
      * unfold consistent. app_fields. rewrite Hstate.
        refine (conj Hlen (conj Hnum (conj Hslots (conj Hnames'
                  (conj Hrev (conj Hnav (conj Hb _))))))).
        split; [exact Hsel |]. split; [lia |]. left. lia.
      * unfold bindings_progress. app_fields. rewrite Hstate.
        exists c. split; [exact Hc |]. intros i x Hx Hi. unfold arr_set in Hx.
        apply (valid_after_insert c (mappings app) (Z.to_nat (cur_map app)) m'
                 (fun j => (j < Z.to_nat (cur_map app))%nat) Hnew)
          with (i := i); [| exact Hx | lia].
        intros j y Hy Hne Hlt. apply (Hval j y Hy). left. lia.
Qed.

Lemma scan_controllers_slots (dir : option (list dirent)) (app : App) :
  length (controllers app) = Z.to_nat MAX_CONTROLLERS ->
  length (controllers (scan_controllers dir app)) = Z.to_nat MAX_CONTROLLERS
  /\ 0 <= num_controllers (scan_controllers dir app) <= MAX_CONTROLLERS
  /\ (forall i c,
        Z.of_nat i < num_controllers (scan_controllers dir app) ->
        controllers (scan_controllers dir app) !! i = Some c -> registered c).
Proof.
  intros Hlen. destruct dir as [entries |]; unfold scan_controllers.
  - destruct (scan_loop_spec entries (controllers app) 0) as (S1 & S2 & _ & S4);
      [unfold MAX_CONTROLLERS; lia | exact Hlen |].
    cbn zeta in S1, S2, S4. app_fields. rewrite Z.add_0_l in S1.
    split; [exact S2 |]. split; [rewrite S1; unfold MAX_CONTROLLERS; lia |].
    intros i c Hi Hc. rewrite S1 in Hi.
    destruct (lookup_lt_is_Some_2 (detected entries) i) as [g Hg]; [lia |].
    specialize (S4 i g ltac:(lia) Hg).
    change (Z.to_nat 0 + i)%nat with i in S4.
    rewrite S4 in Hc. injection Hc as <-.
    destruct g as [[[fd path] d] id]. exists fd, path, d, id. reflexivity.
  - app_fields. split; [exact Hlen |].
    split; [unfold MAX_CONTROLLERS; lia |]. intros i c Hi. lia.
Qed.

Lemma find_loop_range (cs : list Controller) (sel : Z) (n : nat)
      (indices : list nat) :
  (forall i, In i indices -> (i < n)%nat /\ (i < length cs)%nat) ->
  exists idx, find_loop cs sel indices = Some idx
              /\ (idx = -1 \/ (0 <= idx < Z.of_nat n /\ idx <> sel)).
Proof.
  induction indices as [| i rest IH]; intros Hin.
  - exists (-1). split; [reflexivity | left; reflexivity].
  - destruct IH as (idx & Hidx & Hr).
    { intros j Hj. apply Hin. right. exact Hj. }
    cbn [find_loop].
    destruct (Z.eqb_spec (Z.of_nat i) sel) as [| Hne];
      [exists idx; split; assumption |].
    destruct (Hin i (or_introl eq_refl)) as [Hn Hl].
    destruct (lookup_lt_is_Some_2 cs i Hl) as [c Hc]. rewrite Hc.
    cbn [mbind option_bind].
    destruct (is_thec64_joystick c); [| exists idx; split; assumption].
    exists (Z.of_nat i). split; [reflexivity |]. right. lia.
Qed.

Lemma detect_loop_in (pads : list (list input_event)) (indices : list nat)
      (i : nat) :
  detect_loop pads indices = Some i -> In i indices.
Proof.
  induction indices as [| j rest IH]; [discriminate |].
  cbn [detect_loop].
  destruct (first_press (default [] (pads !! j))).
  - intros H. injection H as ->. left. reflexivity.
  - intros H. right. apply IH, H.
Qed.

(** [update_detect] on a consistent session. *)
Lemma update_detect_consistent (dir : option (list dirent)) (now : Z)
      (pads : list (list input_event)) (app : App) (last_scan : Z) :
  consistent app -> state app = STATE_DETECT ->
  exists app' last',
    update_detect dir now pads app last_scan = Some (app', last')
    /\ consistent app' /\ bindings_progress app'.
Proof.
  intros (Hlen & Hnum & Hslots & Hnames & Hrev & Hnav & Hb & Hst) Hstate.
  rewrite Hstate in Hst. destruct Hst as [Hnav1 Hredo].
  unfold update_detect. cbn zeta.
  set (app1 := if RESCAN_MS <? elapsed now last_scan
               then scan_controllers dir app else app).
  assert (H1 : length (controllers app1) = Z.to_nat MAX_CONTROLLERS
               /\ 0 <= num_controllers app1 <= MAX_CONTROLLERS
               /\ (forall i c, Z.of_nat i < num_controllers app1 ->
                     controllers app1 !! i = Some c -> registered c)).
  { unfold app1. destruct (RESCAN_MS <? elapsed now last_scan);
      [apply scan_controllers_slots; exact Hlen | auto]. }
  assert (H2 : state app1 = STATE_DETECT /\ mappings app1 = mappings app
               /\ review_sel app1 = review_sel app
               /\ browser app1 = browser app
               /\ thec64_nav_idx app1 = -1 /\ redo_single app1 = -1).
  { unfold app1. destruct (RESCAN_MS <? elapsed now last_scan);
      [destruct dir; unfold scan_controllers; app_fields |]; auto 10. }
  clearbody app1. destruct H1 as (Hlen1 & Hnum1 & Hslots1).
  destruct H2 as (Hs1 & Hm1 & Hr1 & Hb1 & Hn1 & Hd1).
  rewrite <- Hm1 in Hnames. rewrite <- Hr1 in Hrev. rewrite <- Hb1 in Hb.
  destruct (detect_loop pads (seq 0 (Z.to_nat (num_controllers app1))))
    as [i |] eqn:Hdet.
  2:{ eexists _, _. split; [reflexivity |]. split.
      - unfold consistent. rewrite Hs1.
        refine (conj Hlen1 (conj Hnum1 (conj Hslots1 (conj Hnames
                  (conj Hrev (conj _ (conj Hb (conj Hn1 Hd1)))))))).
        left. exact Hn1.
      - unfold bindings_progress. rewrite Hs1. exact I. }
  apply detect_loop_in, in_seq in Hdet.
  unfold find_thec64_nav. app_fields.
  destruct (find_loop_range (controllers app1) (Z.of_nat i)
              (Z.to_nat (num_controllers app1))
              (seq 0 (Z.to_nat (num_controllers app1)))) as (idx & Hidx & Hr).
  { intros j Hj. apply in_seq in Hj. unfold MAX_CONTROLLERS in *. lia. }
  rewrite Hidx. cbn [mbind option_bind].
  eexists _, _. split; [reflexivity |]. split.
  - unfold consistent. app_fields.
    refine (conj Hlen1 (conj Hnum1 (conj Hslots1 (conj Hnames
              (conj Hrev (conj _ (conj Hb _))))))).
    + destruct Hr as [-> | Hr]; [left; reflexivity | right; lia].
    + split; [lia |]. split; [unfold NUM_MAPPINGS; lia | left; reflexivity].
  - unfold bindings_progress. app_fields.
    destruct (slot_registered (controllers app1) (num_controllers app1)
                (Z.of_nat i) Hlen1 Hnum1 Hslots1 ltac:(lia)) as (c & Hc & _).
    exists c. split; [exact Hc |]. intros j m _ [[_ Hj] | [Hj _]]; lia.
Qed.

Lemma nav_direction_total (c : Controller) (m : MappingEntry)
      (ev : input_event) (cur : Z) :
  length (abs_map c) = ABS_MAX -> length (hat_map c) = ABS_MAX ->
  length (axis_min c) = ABS_MAX -> length (axis_max c) = ABS_MAX ->
  length (axis_initial c) = ABS_MAX ->
  (ev_code ev < ABS_MAX)%nat ->
  exists r, nav_direction c m ev cur = Some r.
Proof.
  intros La Lh Lmin Lmax Linit Hlt.
  destruct (lookup_lt_is_Some_2 (abs_map c) (ev_code ev)) as [a Ha];
    [rewrite La; exact Hlt |].
  destruct (lookup_lt_is_Some_2 (hat_map c) (ev_code ev)) as [h Hh];
    [rewrite Lh; exact Hlt |].
  destruct (lookup_lt_is_Some_2 (axis_max c) (ev_code ev)) as [amax Hamax];
    [rewrite Lmax; exact Hlt |].
  destruct (lookup_lt_is_Some_2 (axis_min c) (ev_code ev)) as [amin Hamin];
    [rewrite Lmin; exact Hlt |].
  destruct (lookup_lt_is_Some_2 (axis_initial c) (ev_code ev))
    as [ainit Hainit]; [rewrite Linit; exact Hlt |].
  unfold nav_direction. rewrite Ha, Hh, Hamax, Hamin, Hainit.
  destruct (mapped_type m); cbn [mbind option_bind]; cbn zeta;
    repeat match goal with
           | |- context [if ?b then _ else _] =>
               destruct b; cbn [mbind option_bind]
           end;
    eexists; reflexivity.
Qed.

Lemma nav_loop_total (c : Controller) (ms : list MappingEntry)
      (queue : list input_event) :
  length (btn_map c) = KEY_MAX ->
  length (abs_map c) = ABS_MAX -> length (hat_map c) = ABS_MAX ->
  length (axis_min c) = ABS_MAX -> length (axis_max c) = ABS_MAX ->
  length (axis_initial c) = ABS_MAX ->
  length ms = 10%nat ->
  Forall (fun ev => event_in_tables ev = true) queue ->
  forall nav, exists nav', nav_loop c ms queue nav = Some nav'.
Proof.
  intros Lb La Lh Lmin Lmax Linit Hten HF.
  induction HF as [| ev q Hev _ IH]; intros nav.
  - exists nav. reflexivity.
  - cbn [nav_loop]. unfold event_in_tables in Hev.
    destruct (lookup_lt_is_Some_2 ms 0) as [m0 H0]; [lia |].
    destruct (lookup_lt_is_Some_2 ms 4) as [m4 H4]; [lia |].
    destruct (lookup_lt_is_Some_2 ms 5) as [m5 H5]; [lia |].
    destruct (lookup_lt_is_Some_2 ms 7) as [m7 H7]; [lia |].
    destruct (lookup_lt_is_Some_2 ms 8) as [m8 H8]; [lia |].
    destruct (lookup_lt_is_Some_2 ms 9) as [m9 H9]; [lia |].
    rewrite H0, H4, H5, H7, H8, H9. cbn [mbind option_bind].
    destruct ((ev_type ev =? EV_KEY)%nat && (ev_value ev =? 1)) eqn:Ekv.
    + apply andb_prop in Ekv as [Ek _]. rewrite Ek in Hev.
      apply Nat.ltb_lt in Hev.
      destruct (lookup_lt_is_Some_2 (btn_map c) (ev_code ev)) as [idx Hidx];
        [rewrite Lb; exact Hev |].
      rewrite Hidx. cbn [mbind option_bind].
      destruct (idx <? 0); apply IH.
    + destruct ((ev_type ev =? EV_ABS)%nat) eqn:Eabs; [| apply IH].
      apply Nat.eqb_eq in Eabs. rewrite Eabs in Hev.
      change (EV_ABS =? EV_KEY)%nat with false in Hev.
      change (EV_ABS =? EV_ABS)%nat with true in Hev. cbn iota in Hev.
      apply Nat.ltb_lt in Hev.
      destruct (nav_direction_total c m9 ev (n_dy nav) La Lh Lmin Lmax Linit Hev)
        as [dy ->].
      destruct (nav_direction_total c m8 ev (n_dx nav) La Lh Lmin Lmax Linit Hev)
        as [dx ->].
      cbn [mbind option_bind]. apply IH.
Qed.

(** [read_nav_input] where the selected controller and THEJOYSTICK are
    registered slots. *)
Lemma read_nav_input_total (app : App) (queue nav_queue : list input_event) :
  length (controllers app) = Z.to_nat MAX_CONTROLLERS ->
  0 <= num_controllers app <= MAX_CONTROLLERS ->
  (forall i c, Z.of_nat i < num_controllers app ->
     controllers app !! i = Some c -> registered c) ->
  map gcdb_name (mappings app) = channel_names ->
  (thec64_nav_idx app = -1
   \/ (0 <= thec64_nav_idx app < num_controllers app
       /\ thec64_nav_idx app <> sel_ctrl app)) ->
  0 <= sel_ctrl app < num_controllers app ->
  Forall (fun ev => event_in_tables ev = true) queue ->
  exists nav got, read_nav_input app queue nav_queue = Some (nav, got).
Proof.
  intros Hlen Hnum Hslots Hnames Hnav Hsel HF.
  destruct (slot_registered _ _ _ Hlen Hnum Hslots Hsel) as (c & Hc & Hreg).
  destruct (registered_facts c Hreg)
    as ((Lb & La & Lh) & (Lmin & Lmax & Linit) & _).
  destruct (nav_loop_total c (mappings app) queue Lb La Lh Lmin Lmax Linit
              (names_length _ Hnames) HF (mk_nav 0 0 0 0 0)) as [nav Hn].
  unfold read_nav_input. rewrite Hc. cbn [mbind option_bind].
  rewrite Hn. cbn [mbind option_bind]. unfold read_thec64_nav.
  destruct Hnav as [Hnone | [Hidx _]].
  - rewrite Hnone. change (-1 <? 0) with true. cbn iota.
    cbn [mbind option_bind]. eexists _, _. reflexivity.
  - destruct (Z.ltb_spec (thec64_nav_idx app) 0) as [| _]; [lia |].
    destruct (slot_registered _ _ _ Hlen Hnum Hslots Hidx) as (t & Ht & _).
    rewrite Ht. cbn [mbind option_bind].
    destruct (thec64_loop nav_queue (nav, false)) as [nav' got'].
    cbn [mbind option_bind]. eexists _, _. reflexivity.
Qed.

Lemma browser_load_cursor (w : World) (path : string) :
  b_count (browser_load w path)
  = Z.of_nat (length (b_entries (browser_load w path)))
  /\ b_selected (browser_load w path) = 0
  /\ b_scroll (browser_load w path) = 0.
Proof.
  unfold browser_load. cbv zeta.
  destruct (w_readdir w path); cbn [b_count b_entries b_selected b_scroll];
    auto.
Qed.

Lemma review_move_state (dy : Z) (app : App) :
  state (review_move dy app) = state app.
Proof. unfold review_move. destruct (dy =? 0); reflexivity. Qed.

Lemma review_move_consistent (dy : Z) (app : App) :
  consistent app -> consistent (review_move dy app).
Proof.
  intros H. unfold review_move. destruct (dy =? 0); [exact H |].
  destruct H as (Hlen & Hnum & Hslots & Hnames & Hrev & Hnav & Hb & Hst).
  unfold consistent. cbv zeta. app_fields.
  refine (conj Hlen (conj Hnum (conj Hslots (conj Hnames
            (conj _ (conj Hnav (conj Hb Hst))))))).
  unfold REVIEW_TOTAL_ITEMS, NUM_MAPPINGS in *.
  destruct (Z.ltb_spec (review_sel app + dy) 0).
  - destruct (Z.leb_spec (10 + 4) 0); lia.
  - destruct (Z.leb_spec (10 + 4) (review_sel app + dy)); lia.
Qed.

Lemma review_redo_selected_consistent (app : App) :
  consistent app -> state app = STATE_REVIEW ->
  consistent (review_redo_selected app).
Proof.
  intros H Hstate. unfold review_redo_selected.
  destruct (Z.leb_spec 0 (review_sel app)) as [Hlo |]; [| exact H].
  destruct (Z.ltb_spec (review_sel app) NUM_MAPPINGS) as [Hhi |]; [| exact H].
  destruct H as (Hlen & Hnum & Hslots & Hnames & Hrev & Hnav & Hb & Hst).
  rewrite Hstate in Hst. destruct Hst as [Hsel Hredo].
  cbn [andb]. cbv zeta. unfold consistent. app_fields.
  refine (conj Hlen (conj Hnum (conj Hslots (conj _
            (conj Hrev (conj Hnav (conj Hb _))))))).
  - rewrite names_alter. exact Hnames.
  - split; [exact Hsel |]. split; [lia | right; reflexivity].
Qed.

Lemma review_save_consistent (w : World) (app : App) :
  consistent app -> state app = STATE_REVIEW ->
  consistent (review_save w app).
Proof.
  intros (Hlen & Hnum & Hslots & Hnames & Hrev & Hnav & Hb & Hst) Hstate.
  rewrite Hstate in Hst. destruct Hst as [Hsel Hredo].
  destruct (browser_load_cursor w "/mnt") as (Hc & Hs & _).
  unfold review_save, consistent. app_fields.
  refine (conj Hlen (conj Hnum (conj Hslots (conj Hnames
            (conj Hrev (conj Hnav (conj Hc _))))))).
  split; [exact Hsel |]. split; [exact Hredo |]. rewrite Hs. lia.
Qed.

Lemma review_restart_consistent (app : App) :
  consistent app -> state app = STATE_REVIEW ->
  consistent (review_restart app).
Proof.
  intros (Hlen & Hnum & Hslots & Hnames & Hrev & Hnav & Hb & Hst) Hstate.
  rewrite Hstate in Hst. destruct Hst as [Hsel Hredo].
  unfold review_restart, consistent. app_fields.
  refine (conj Hlen (conj Hnum (conj Hslots (conj eq_refl
            (conj Hrev (conj Hnav (conj Hb _))))))).
  split; [exact Hsel |]. split; [unfold NUM_MAPPINGS; lia | left; reflexivity].
Qed.

Lemma review_another_consistent (app : App) :
  consistent app -> state app = STATE_REVIEW ->
  consistent (review_another app).
Proof.
  intros (Hlen & Hnum & Hslots & Hnames & Hrev & Hnav & Hb & Hst) Hstate.
  rewrite Hstate in Hst. destruct Hst as [Hsel Hredo].
  unfold review_another, consistent. app_fields.
  refine (conj Hlen (conj Hnum (conj Hslots (conj eq_refl
            (conj Hrev (conj _ (conj Hb _))))))).
  - left. reflexivity.
  - split; [reflexivity | exact Hredo].
Qed.

Lemma exit_consistent (app : App) :
  consistent app -> consistent (set_state STATE_EXIT app).
Proof.
  intros (Hlen & Hnum & Hslots & Hnames & Hrev & Hnav & Hb & Hst).
  unfold consistent. app_fields.
  refine (conj Hlen (conj Hnum (conj Hslots (conj Hnames
            (conj Hrev (conj Hnav (conj Hb I))))))).
Qed.

Lemma review_shortcuts_consistent (w : World) (app : App) (btn_b btn_start : Z) :
  consistent app -> state app = STATE_REVIEW ->
  consistent (review_shortcuts w app btn_b btn_start).
Proof.
  intros H Hstate. unfold review_shortcuts.
  destruct (negb (btn_b =? 0) && on_mapping_row app);
    [apply review_redo_selected_consistent; assumption |].
  destruct (negb (btn_start =? 0));
    [apply review_save_consistent; assumption | exact H].
Qed.

(** Screens that show all ten entries pass their bindings on. *)
Lemma progress_carry (app app' : App) :
  bindings_progress app ->
  state app = STATE_REVIEW \/ state app = STATE_BROWSE ->
  state app' = STATE_REVIEW \/ state app' = STATE_BROWSE ->
  controllers app' = controllers app -> sel_ctrl app' = sel_ctrl app ->
  mappings app' = mappings app ->
  bindings_progress app'.
Proof.
  unfold bindings_progress. intros Hp Hs Hs' -> -> ->.
  destruct Hs as [E | E], Hs' as [E' | E']; rewrite E in Hp; rewrite E';
    exact Hp.
Qed.

Lemma review_move_progress (dy : Z) (app : App) :
  bindings_progress app -> bindings_progress (review_move dy app).
Proof.
  unfold review_move. destruct (dy =? 0); [auto |]. cbv zeta.
  unfold bindings_progress. app_fields. auto.
Qed.

Lemma review_redo_selected_progress (app : App) :
  bindings_progress app -> state app = STATE_REVIEW ->
  bindings_progress (review_redo_selected app).
Proof.
  intros Hp Hstate. unfold review_redo_selected.
  destruct (Z.leb_spec 0 (review_sel app)) as [Hlo |]; [| exact Hp].
  destruct (Z.ltb_spec (review_sel app) NUM_MAPPINGS) as [Hhi |]; [| exact Hp].
  cbn [andb]. cbv zeta. unfold bindings_progress in *. rewrite Hstate in Hp.
  app_fields. destruct Hp as (c & Hc & Hall). exists c. split; [exact Hc |].
  intros i m Hm [[Hr _] | [_ Hi]]; [lia |].
  rewrite list_lookup_alter_ne in Hm by lia.
  rewrite Forall_lookup in Hall. exact (Hall i m Hm).
Qed.

Lemma review_save_progress (w : World) (app : App) :
  bindings_progress app -> state app = STATE_REVIEW ->
  bindings_progress (review_save w app).
Proof.
  intros Hp Hstate.
  apply (progress_carry app); auto; unfold review_save; app_fields; auto.
Qed.

Lemma review_restart_progress (app : App) :
  bindings_progress app -> state app = STATE_REVIEW ->
  bindings_progress (review_restart app).
Proof.
  intros Hp Hstate. unfold bindings_progress in *. rewrite Hstate in Hp.
  unfold review_restart. app_fields. destruct Hp as (c & Hc & _).
  exists c. split; [exact Hc |]. intros i m _ [[_ Hi] | [Hr _]]; lia.
Qed.

Lemma review_shortcuts_progress (w : World) (app : App) (btn_b btn_start : Z) :
  bindings_progress app -> state app = STATE_REVIEW ->
  bindings_progress (review_shortcuts w app btn_b btn_start).
Proof.
  intros H Hstate. unfold review_shortcuts.
  destruct (negb (btn_b =? 0) && on_mapping_row app);
    [apply review_redo_selected_progress; assumption |].
  destruct (negb (btn_start =? 0));
    [apply review_save_progress; assumption | exact H].
Qed.

(** [update_review] on a consistent session. *)
Lemma update_review_consistent (w : World) (app : App)
      (queue nav_queue : list input_event)
      (keyboards : list (list input_event)) :
  consistent app -> bindings_progress app -> state app = STATE_REVIEW ->
  Forall (fun ev => event_in_tables ev = true) queue ->
  exists app', update_review w app queue nav_queue keyboards = Some app'
               /\ consistent app' /\ bindings_progress app'.
Proof.
  intros H Hp Hstate HF.
  pose proof H as (Hlen & Hnum & Hslots & Hnames & Hrev & Hnav & Hb & Hst).
  rewrite Hstate in Hst. destruct Hst as [Hsel Hredo].
  destruct (read_nav_input_total app queue nav_queue Hlen Hnum Hslots Hnames
              Hnav Hsel HF) as (nav & got & Hread).
  unfold update_review. rewrite Hread. cbn [mbind option_bind]. cbv zeta.
  set (dy := if (read_keyboard keyboards =? KEY_DOWN)%nat then 1
             else if (read_keyboard keyboards =? KEY_UP)%nat then -1
                  else n_dy nav).
  pose proof (review_move_consistent dy app H) as H1.
  pose proof (review_move_progress dy app Hp) as Hp1.
  pose proof (review_move_state dy app) as Hs1. rewrite Hstate in Hs1.
  repeat match goal with
         | |- context [if ?b then Some _ else _] => destruct b
         end;
    (eexists; split; [reflexivity |]);
    (split;
     [auto using review_redo_selected_consistent, review_save_consistent,
        review_restart_consistent, review_another_consistent, exit_consistent,
        review_shortcuts_consistent
     | auto using review_redo_selected_progress, review_save_progress,
         review_restart_progress, review_shortcuts_progress;
       exact I]).
Qed.

Lemma browse_move_consistent (dy : Z) (app : App) :
  consistent app -> state app = STATE_BROWSE ->
  consistent (set_browser (browse_move dy (browser app)) app).
Proof.
  intros H Hstate. unfold browse_move.
  destruct H as (Hlen & Hnum & Hslots & Hnames & Hrev & Hnav & Hb & Hst).
  rewrite Hstate in Hst. destruct Hst as (Hsel & Hredo & Hcur).
  unfold consistent. app_fields. rewrite Hstate.
  destruct (dy =? 0).
  - refine (conj Hlen (conj Hnum (conj Hslots (conj Hnames
              (conj Hrev (conj Hnav (conj Hb _))))))). auto.
  - cbv zeta. cbn [b_count b_entries b_selected].
    refine (conj Hlen (conj Hnum (conj Hslots (conj Hnames
              (conj Hrev (conj Hnav (conj Hb _))))))).
    split; [exact Hsel |]. split; [exact Hredo |]. intros Hpos.
    destruct (Z.ltb_spec (b_selected (browser app) + dy) 0).
    + destruct (Z.leb_spec (b_count (browser app)) 0); lia.
    + destruct (Z.leb_spec (b_count (browser app))
                  (b_selected (browser app) + dy)); lia.
Qed.

Lemma browser_reload_consistent (w : World) (path : string) (app : App) :
  consistent app -> state app = STATE_BROWSE \/ state app = STATE_REVIEW ->
  consistent (set_browser (browser_load w path) app).
Proof.
  intros (Hlen & Hnum & Hslots & Hnames & Hrev & Hnav & Hb & Hst) Hstate.
  destruct (browser_load_cursor w path) as (Hc & Hs & _).
  unfold consistent. app_fields.
  refine (conj Hlen (conj Hnum (conj Hslots (conj Hnames
            (conj Hrev (conj Hnav (conj Hc _))))))).
  destruct Hstate as [E | E]; rewrite E in Hst |- *; [| exact Hst].
  destruct Hst as (Hsel & Hredo & _).
  split; [exact Hsel |]. split; [exact Hredo |]. rewrite Hs. lia.
Qed.

Lemma to_review_consistent (app : App) :
  consistent app -> state app = STATE_BROWSE \/ state app = STATE_REVIEW ->
  consistent (set_state STATE_REVIEW app).
Proof.
  intros (Hlen & Hnum & Hslots & Hnames & Hrev & Hnav & Hb & Hst) Hstate.
  unfold consistent. app_fields.
  refine (conj Hlen (conj Hnum (conj Hslots (conj Hnames
            (conj Hrev (conj Hnav (conj Hb _))))))).
  destruct Hstate as [E | E]; rewrite E in Hst; [| exact Hst].
  destruct Hst as (Hsel & Hredo & _). auto.
Qed.

Lemma browse_move_progress (dy : Z) (app : App) :
  bindings_progress app -> state app = STATE_BROWSE ->
  bindings_progress (set_browser (browse_move dy (browser app)) app).
Proof.
  intros Hp Hstate. apply (progress_carry app); auto.
Qed.

Lemma browser_reload_progress (w : World) (path : string) (app : App) :
  bindings_progress app ->
  state app = STATE_BROWSE \/ state app = STATE_REVIEW ->
  bindings_progress (set_browser (browser_load w path) app).
Proof.
  intros Hp Hstate. apply (progress_carry app); tauto.
Qed.

Lemma to_review_progress (app : App) :
  bindings_progress app ->
  state app = STATE_BROWSE \/ state app = STATE_REVIEW ->
  bindings_progress (set_state STATE_REVIEW app).
Proof.
  intros Hp Hstate. apply (progress_carry app); auto; tauto.
Qed.

Lemma write_file_complete (w0 w : World) (path content : string) :
  exports_complete w0 w -> complete_export content ->
  exports_complete w0 (write_file path content w).
Proof.
  intros Hw Hc p x. unfold write_file. cbn [w_files]. intros Hx.
  apply lookup_insert_Some in Hx as [[_ <-] | [_ Hx]];
    [right; exact Hc | apply Hw; exact Hx].
Qed.

Lemma browse_confirm_consistent (w : World) (app : App) :
  consistent app -> bindings_progress app -> state app = STATE_BROWSE ->
  0 < b_count (browser app) ->
  exists app' w',
    browse_confirm w app = Some (app', w')
    /\ consistent app' /\ bindings_progress app'
    /\ (state app' = STATE_BROWSE \/ state app' = STATE_REVIEW)
    /\ (forall w0, exports_complete w0 w -> exports_complete w0 w').
Proof.
  intros H Hp Hstate Hpos.
  pose proof H as (Hlen & Hnum & Hslots & Hnames & Hrev & Hnav & Hb & Hst).
  rewrite Hstate in Hst. destruct Hst as (Hsel & Hredo & Hcur).
  specialize (Hcur Hpos).
  destruct (slot_registered _ _ _ Hlen Hnum Hslots Hsel) as (c & Hc & Hreg).
  destruct (registered_facts c Hreg) as (_ & _ & _ & _ & Hguid & Hname).
  assert (Hall : Forall (valid_binding c) (mappings app)).
  { unfold bindings_progress in Hp. rewrite Hstate in Hp.
    destruct Hp as (c' & Hc' & Hall). rewrite Hc in Hc'.
    injection Hc' as <-. exact Hall. }
  destruct (lookup_lt_is_Some_2 (b_entries (browser app))
              (Z.to_nat (b_selected (browser app)))) as [e He]; [lia |].
  assert (He' : arr_get (b_entries (browser app)) (b_selected (browser app))
                = Some e).
  { unfold arr_get.
    destruct (Z.ltb_spec (b_selected (browser app)) 0) as [| _]; [lia |].
    exact He. }
  unfold browse_confirm. cbv zeta. rewrite He'. cbn [mbind option_bind].
  destruct (e_name e =? "..")%string.
  { eexists _, _. split; [reflexivity |].
    split; [apply browser_reload_consistent; auto |].
    split; [apply browser_reload_progress; auto |].
    split; [left; exact Hstate | auto]. }
  destruct (negb (e_is_dir e =? 0)).
  { eexists _, _. split; [reflexivity |].
    split; [apply browser_reload_consistent; auto |].
    split; [apply browser_reload_progress; auto |].
    split; [left; exact Hstate | auto]. }
  rewrite Hc. cbn [mbind option_bind].
  rewrite (build_mapping_string_value app c Hc Hguid Hname Hnames).
  cbn [mbind option_bind].
  assert (H1 : consistent (set_mapping_str (mapping_line c (mappings app)) app)).
  { unfold consistent. app_fields. rewrite Hstate.
    refine (conj Hlen (conj Hnum (conj Hslots (conj Hnames
              (conj Hrev (conj Hnav (conj Hb _))))))). auto. }
  assert (Hp1 : bindings_progress
                  (set_mapping_str (mapping_line c (mappings app)) app)).
  { apply (progress_carry app); auto. }
  destruct (w_fopen_w w (export_path (b_path (browser app)) (c_guid c))).
  - eexists _, _. split; [reflexivity |]. split; [| split; [| split]].
    + unfold consistent. app_fields.
      refine (conj Hlen (conj Hnum (conj Hslots (conj Hnames
                (conj Hrev (conj Hnav (conj Hb _))))))). auto.
    + apply (progress_carry app); auto.
    + right. reflexivity.
    + intros w0 Hw. apply write_file_complete; [exact Hw |].
      exists c, (mappings app). auto.
  - eexists _, _. split; [reflexivity |].
    split; [exact H1 |]. split; [exact Hp1 |].
    split; [left; exact Hstate | auto].
Qed.

(** [update_browse] on a consistent session. *)
Lemma update_browse_consistent (w : World) (app : App)
      (queue nav_queue : list input_event)
      (keyboards : list (list input_event)) :
  consistent app -> bindings_progress app -> state app = STATE_BROWSE ->
  Forall (fun ev => event_in_tables ev = true) queue ->
  exists app' w', update_browse w app queue nav_queue keyboards
                  = Some (app', w')
                  /\ consistent app' /\ bindings_progress app'
                  /\ (forall w0, exports_complete w0 w ->
                                 exports_complete w0 w').
Proof.
  intros H Hp Hstate HF.
  pose proof H as (Hlen & Hnum & Hslots & Hnames & Hrev & Hnav & Hb & Hst).
  rewrite Hstate in Hst. destruct Hst as (Hsel & Hredo & Hcur).
  destruct (read_nav_input_total app queue nav_queue Hlen Hnum Hslots Hnames
              Hnav Hsel HF) as (nav & got & Hread).
  unfold update_browse, browse_signals. rewrite Hread.
  cbn [mbind option_bind]. cbv zeta.
  match goal with
  | |- context [if ?b then browse_act _ _ ?x1 ?x2 ?x3 ?x4 else _] =>
      generalize x1 x2 x3 x4; destruct b
  end; intros dy btn_a btn_b btn_start.
  2:{ exists app, w. split; [reflexivity |]. auto. }
  unfold browse_act. cbv zeta.
  pose proof (browse_move_consistent dy app H Hstate) as H1.
  pose proof (browse_move_progress dy app Hp Hstate) as Hp1.
  set (app1 := set_browser (browse_move dy (browser app)) app) in *.
  assert (Hs1 : state app1 = STATE_BROWSE) by exact Hstate.
  assert (H2 : exists app2 w2,
    (if negb (btn_a =? 0) && (0 <? b_count (browser app1))
     then browse_confirm w app1 else Some (app1, w)) = Some (app2, w2)
    /\ consistent app2 /\ bindings_progress app2
    /\ (state app2 = STATE_BROWSE \/ state app2 = STATE_REVIEW)
    /\ (forall w0, exports_complete w0 w -> exports_complete w0 w2)).
  { destruct (negb (btn_a =? 0)); cbn [andb].
    - destruct (Z.ltb_spec 0 (b_count (browser app1))) as [Hpos |].
      + apply browse_confirm_consistent; assumption.
      + exists app1, w. auto 10.
    - exists app1, w. auto 10. }
  clearbody app1. destruct H2 as (app2 & w2 & -> & H2 & Hp2 & Hs2 & Hw2).
  cbn [mbind option_bind].
  eexists _, _. split; [reflexivity |].
  destruct (negb (btn_b =? 0)), (negb (btn_start =? 0));
    (split; [| split; [| exact Hw2]]).
  - apply to_review_consistent;
      [apply browser_reload_consistent; assumption | exact Hs2].
  - apply to_review_progress;
      [apply browser_reload_progress; assumption | exact Hs2].
  - apply browser_reload_consistent; assumption.
  - apply browser_reload_progress; assumption.
  - apply to_review_consistent; assumption.
  - apply to_review_progress; assumption.
  - exact H2.
  - exact Hp2.
Qed.

Lemma render_consistent (app : App) :
  consistent app -> bindings_progress app ->
  exists app', render app = Some app' /\ consistent app'
               /\ bindings_progress app'.
Proof.
  intros H Hp.
  pose proof H as (Hlen & Hnum & Hslots & Hnames & Hrev & Hnav & Hb & Hst).
  unfold render. destruct (state app) eqn:Hstate;
    try (exists app; split; [reflexivity | split; assumption]).
  destruct Hst as (Hsel & Hredo).
  destruct (slot_registered _ _ _ Hlen Hnum Hslots Hsel) as (c & Hc & Hreg).
  destruct (registered_facts c Hreg) as (_ & _ & _ & _ & Hguid & Hname).
  rewrite (build_mapping_string_value app c Hc Hguid Hname Hnames).
  cbn [mbind option_bind]. eexists. split; [reflexivity |]. split.
  - unfold consistent. app_fields. rewrite Hstate.
    refine (conj Hlen (conj Hnum (conj Hslots (conj Hnames
              (conj Hrev (conj Hnav (conj Hb _))))))). auto.
  - apply (progress_carry app); auto.
Qed.

Lemma update_consistent (w : World) (s : Session) (f : Frame) :
  consistent (s_app s) -> bindings_progress (s_app s) -> frame_in_tables f ->
  exists s' w', update w s f = Some (s', w')
                /\ consistent (s_app s') /\ bindings_progress (s_app s')
                /\ (forall w0, exports_complete w0 w ->
                               exports_complete w0 w').
Proof.
  intros H Hp HF. unfold frame_in_tables in HF. unfold update. cbv zeta.
  destruct (state (s_app s)) eqn:Hstate.
  - destruct (update_detect_consistent (f_dir f) (f_now f) (f_pads f)
                (s_app s) (s_last_scan s) H Hstate)
      as (app' & last' & -> & H' & Hp').
    cbn [mbind option_bind]. eexists _, _. split; [reflexivity |]. auto.
  - destruct (update_mapping_consistent (s_app s) (f_queue f) H Hp Hstate HF)
      as (app' & -> & H' & Hp').
    cbn [mbind option_bind]. eexists _, _. split; [reflexivity |]. auto.
  - destruct (update_review_consistent w (s_app s) (f_queue f) (f_nav_queue f)
                (f_keyboards f) H Hp Hstate HF) as (app' & -> & H' & Hp').
    cbn [mbind option_bind]. eexists _, _. split; [reflexivity |]. auto.
  - destruct (update_browse_consistent w (s_app s) (f_queue f) (f_nav_queue f)
                (f_keyboards f) H Hp Hstate HF)
      as (app' & w' & -> & H' & Hp' & Hw').
    cbn [mbind option_bind]. eexists _, _. split; [reflexivity |]. auto.
  - destruct H as (_ & _ & _ & _ & _ & _ & _ & Hst). rewrite Hstate in Hst.
    destruct Hst.
  - exists s, w. split; [reflexivity |]. auto.
Qed.

Lemma run_frames_consistent (frames : list Frame) :
  Forall frame_in_tables frames ->
  forall (w : World) (s : Session),
    consistent (s_app s) -> bindings_progress (s_app s) ->
    exists s' w', run_frames w s frames = Some (s', w')
                  /\ consistent (s_app s') /\ bindings_progress (s_app s')
                  /\ (forall w0, exports_complete w0 w ->
                                 exports_complete w0 w').
Proof.
  induction 1 as [| f rest Hf _ IH]; intros w s H Hp.
  - exists s, w. split; [reflexivity |]. auto.
  - destruct (update_consistent w s f H Hp Hf)
      as (s1 & w1 & Hu & H1 & Hp1 & Hw1).
    destruct (render_consistent (s_app s1) H1 Hp1) as (app2 & Hr & H2 & Hp2).
    destruct (IH w1 (mk_session app2 (s_last_scan s1)) H2 Hp2)
      as (s' & w' & Hrun & H' & Hp' & Hw').
    cbn [run_frames]. rewrite Hu. cbn [mbind option_bind]. rewrite Hr.
    cbn [mbind option_bind]. rewrite Hrun.
    destruct (state (s_app s));
      try (exists s', w'; split; [reflexivity |]; auto).
    exists s, w. split; [reflexivity |]. auto.
Qed.

Lemma main_start_consistent (dir : option (list dirent)) (now : Z) :
  consistent (s_app (main_start dir now))
  /\ bindings_progress (s_app (main_start dir now)).
Proof.
  unfold main_start. cbv zeta. cbn [s_app].
  match goal with
  | |- consistent (scan_controllers dir ?a) /\ _ =>
      destruct (scan_controllers_slots dir a) as (Hlen & Hnum & Hslots);
      [apply length_replicate |]
  end.
  split.
  - unfold consistent.
    refine (conj Hlen (conj Hnum (conj Hslots _))).
    destruct dir; unfold scan_controllers; app_fields;
      (split; [reflexivity |]);
      (split; [unfold REVIEW_TOTAL_ITEMS, NUM_MAPPINGS; lia |]);
      (split; [left; reflexivity |]); auto.
  - unfold bindings_progress.
    destruct dir; unfold scan_controllers; app_fields; exact I.
Qed.

(** X8.  From the start of [main], through any number of passes of the
    main loop whose controller events have codes inside the tables,
    every pass returns: the update functions and the rebuild of the
    mapping line stay inside the registry, the entries, the capability
    tables and the browser listing.  The session stays consistent: at
    most 8 registered controllers, ten named entries, the review cursor
    on one of its 14 rows, the selected controller a registered slot
    outside the selection screen, [cur_map] below ten while mapping.
    The closing screen [STATE_DONE] is never entered. *)
Theorem main_loop_keeps_consistent (dir : option (list dirent)) (now : Z)
        (w : World) (frames : list Frame) :
  Forall frame_in_tables frames ->
  exists s' w',
    run_frames w (main_start dir now) frames = Some (s', w')
    /\ consistent (s_app s')
    /\ state (s_app s') <> STATE_DONE.
Proof.
  intros HF.
  destruct (main_start_consistent dir now) as [H0 Hp0].
  destruct (run_frames_consistent frames HF w (main_start dir now) H0 Hp0)
    as (s' & w' & Hrun & H' & _).
  exists s', w'. split; [exact Hrun |]. split; [exact H' |].
  destruct H' as (_ & _ & _ & _ & _ & _ & _ & Hst).
  intros E. rewrite E in Hst. exact Hst.
Qed.

Lemma main_loop_keeps_consistent_witness :
  Forall frame_in_tables sample_frames
  /\ exists s' w',
       run_frames usb_world (main_start (Some sample_dir) 0) sample_frames
       = Some (s', w')
       /\ consistent (s_app s')
       /\ state (s_app s') <> STATE_DONE.
Proof.
  assert (HF : Forall frame_in_tables sample_frames).
  { unfold sample_frames, frame_in_tables. repeat constructor. }
  split; [exact HF |].
  exact (main_loop_keeps_consistent (Some sample_dir) 0 usb_world
           sample_frames HF).
Defined.

(** The sample session ends after the export, with the line of the
    sample pad written under [/mnt/usb]. *)
Example sample_session_run :
  (fun r => (state (s_app (fst r)), save_path (s_app (fst r)),
             w_files (snd r) !! save_path (s_app (fst r))))
    <$> run_frames usb_world (main_start (Some sample_dir) 0) sample_frames
  = Some (STATE_EXIT, "/mnt/usb/03000000790000001100000010010000.txt",
          Some ("03000000790000001100000010010000,USB Gamepad,"
                ++ "lefttrigger:b0,righttrigger:b1,x:b2,y:b3,"
                ++ "a:h0.8,b:h0.2,back:h0.1,start:h0.4,leftx:a0,lefty:a1,"
                ++ "platform:Linux," ++ newline)).
Proof. vm_compute. reflexivity. Qed.

(** X9.  From the start of [main], through any number of passes of the
    main loop whose controller events have codes inside the tables:
    whenever the review or the browser screen is up, none of the ten
    entries is unbound: each holds a button index below the button count
    of the selected controller, an axis index below its axis count, or
    one direction (a one-bit mask) of a hat numbered 0..3, whether or not
    the controller advertises that hat (while mapping, this holds of the
    entries before [cur_map], or of all but the one being redone); and
    every file the run has written holds the line of a registered
    controller with all ten channels bound in this sense, followed by a
    newline. *)
Theorem exports_are_complete (dir : option (list dirent)) (now : Z)
        (w : World) (frames : list Frame) :
  Forall frame_in_tables frames ->
  exists s' w',
    run_frames w (main_start dir now) frames = Some (s', w')
    /\ bindings_progress (s_app s')
    /\ forall path content,
         w_files w' !! path = Some content ->
         w_files w !! path = Some content \/ complete_export content.
Proof.
  intros HF.
  destruct (main_start_consistent dir now) as [H0 Hp0].
  destruct (run_frames_consistent frames HF w (main_start dir now) H0 Hp0)
    as (s' & w' & Hrun & _ & Hp' & Hw').
  exists s', w'. split; [exact Hrun |]. split; [exact Hp' |].
  apply (Hw' w). intros path content Hc. left. exact Hc.
Qed.

Lemma exports_are_complete_witness :
  Forall frame_in_tables sample_frames
  /\ exists s' w',
       run_frames usb_world (main_start (Some sample_dir) 0) sample_frames
       = Some (s', w')
       /\ bindings_progress (s_app s')
       /\ forall path content,
            w_files w' !! path = Some content ->
            w_files usb_world !! path = Some content
            \/ complete_export content.
Proof.
  assert (HF : Forall frame_in_tables sample_frames).
  { unfold sample_frames, frame_in_tables. repeat constructor. }
  split; [exact HF |].
  exact (exports_are_complete (Some sample_dir) 0 usb_world sample_frames HF).
Defined.

(** ** THEJOYSTICK detection *)

Lemma prefix_spec (needle hay : string) :
  String.prefix needle hay = true <-> exists post, hay = (needle ++ post)%string.
Proof.
  revert hay. induction needle as [| a needle IH]; intros hay.
  - split; [intros _; exists hay; reflexivity | destruct hay; reflexivity].
  - destruct hay as [| b hay].
    + split; [discriminate |]. intros [post H]. discriminate H.
    + cbn [String.prefix]. destruct (ascii_dec a b) as [<- | Hne].
      * rewrite IH. split; intros [post H]; exists post.
        -- rewrite H. reflexivity.
        -- change (String a hay = String a (needle ++ post)) in H.
           injection H as ->. reflexivity.
      * split; [discriminate |]. intros [post H].
        change (String b hay = String a (needle ++ post)) in H.
        injection H as -> _. contradiction.
Qed.

Lemma strstr_spec (hay needle : string) :
  strstr hay needle = true
  <-> exists pre post, hay = (pre ++ needle ++ post)%string.
Proof.
  split.
  - induction hay as [| c r IH]; cbn [strstr]; intros H.
    + rewrite orb_false_r in H. apply prefix_spec in H as [post ->].
      exists EmptyString, post. reflexivity.
    + apply orb_prop in H as [H | H].
      * apply prefix_spec in H as [post ->].
        exists EmptyString, post. reflexivity.
      * destruct (IH H) as (pre & post & ->).
        exists (String c pre), post. reflexivity.
  - intros (pre & post & ->). induction pre as [| c pre IH].
    + change (EmptyString ++ needle ++ post)%string
        with (needle ++ post)%string.
      assert (Hp : String.prefix needle (needle ++ post) = true)
        by (apply prefix_spec; exists post; reflexivity).
      destruct (needle ++ post)%string; cbn [strstr]; rewrite Hp; reflexivity.
    + change (String c pre ++ needle ++ post)%string
        with (String c (pre ++ needle ++ post)).
      cbn [strstr]. rewrite IH. apply orb_true_r.
Qed.

(** X10.  [is_thec64_joystick] holds exactly of the controllers whose
    name contains [THEC64 Joystick] or whose GUID is one of the two GUIDs
    of the THEC64 sticks. *)
Theorem is_thec64_joystick_iff (c : Controller) :
  is_thec64_joystick c = true
  <-> (exists pre post, c_name c = (pre ++ "THEC64 Joystick" ++ post)%string)
      \/ c_guid c = "03000000591c00002300000010010000"
      \/ c_guid c = "03000000591c00002400000010010000".
Proof.
  unfold is_thec64_joystick.
  destruct (strstr (c_name c) "THEC64 Joystick") eqn:Hs.
  - split; [| reflexivity]. intros _. left. apply strstr_spec. exact Hs.
  - destruct (String.eqb_spec (c_guid c) "03000000591c00002300000010010000")
      as [H1 | H1]; [tauto |].
    destruct (String.eqb_spec (c_guid c) "03000000591c00002400000010010000")
      as [H2 | H2]; [tauto |].
    split; [discriminate |].
    intros [H | [H | H]]; [| contradiction | contradiction].
    apply strstr_spec in H. congruence.
Qed.

Lemma find_loop_lowest (cs : list Controller) (sel : Z) (n : nat) :
  forall k : nat,
    (k + n <= length cs)%nat ->
    exists idx,
      find_loop cs sel (seq k n) = Some idx
      /\ ((idx = -1
           /\ forall i c, (k <= i < k + n)%nat -> Z.of_nat i <> sel ->
                cs !! i = Some c -> is_thec64_joystick c = false)
          \/ (Z.of_nat k <= idx < Z.of_nat (k + n) /\ idx <> sel
              /\ (exists c, cs !! Z.to_nat idx = Some c
                            /\ is_thec64_joystick c = true)
              /\ forall i c, (k <= i)%nat -> Z.of_nat i < idx ->
                   Z.of_nat i <> sel ->
                   cs !! i = Some c -> is_thec64_joystick c = false)).
Proof.
  induction n as [| n IH]; intros k Hk.
  - exists (-1). split; [reflexivity |]. left. split; [reflexivity |].
    intros i c Hi. lia.
  - destruct (IH (S k) ltac:(lia)) as (idx & Hidx & Hrest).
    cbn [seq find_loop].
    destruct (lookup_lt_is_Some_2 cs k ltac:(lia)) as [ck Hck].
    assert (Hnext :
      (Z.of_nat k = sel \/ is_thec64_joystick ck = false) ->
      (idx = -1
       /\ forall i c, (k <= i < k + S n)%nat -> Z.of_nat i <> sel ->
            cs !! i = Some c -> is_thec64_joystick c = false)
      \/ (Z.of_nat k <= idx < Z.of_nat (k + S n) /\ idx <> sel
          /\ (exists c, cs !! Z.to_nat idx = Some c
                        /\ is_thec64_joystick c = true)
          /\ forall i c, (k <= i)%nat -> Z.of_nat i < idx ->
               Z.of_nat i <> sel ->
               cs !! i = Some c -> is_thec64_joystick c = false)).
    { intros Hhere.
      assert (Hk0 : forall c, Z.of_nat k <> sel -> cs !! k = Some c ->
                              is_thec64_joystick c = false).
      { intros c Hne Hc. destruct Hhere as [| Hf]; [contradiction |].
        rewrite Hck in Hc. injection Hc as <-. exact Hf. }
      destruct Hrest as [[-> Hnone] | (Hr & Hne & Hc & Hlow)].
      - left. split; [reflexivity |]. intros i c Hi Hs Hc.
        destruct (Nat.eq_dec i k) as [-> | Hik]; [apply Hk0; assumption |].
        apply (Hnone i c); [lia | exact Hs | exact Hc].
      - right. split; [lia |]. split; [exact Hne |]. split; [exact Hc |].
        intros i c Hi Hlt Hs Hci.
        destruct (Nat.eq_dec i k) as [-> | Hik]; [apply Hk0; assumption |].
        apply (Hlow i c); [lia | exact Hlt | exact Hs | exact Hci]. }
    destruct (Z.eqb_spec (Z.of_nat k) sel) as [Heq | Hne].
    { exists idx. split; [exact Hidx |]. apply Hnext. left. exact Heq. }
    rewrite Hck. cbn [mbind option_bind].
    destruct (is_thec64_joystick ck) eqn:Hj.
    + exists (Z.of_nat k). split; [reflexivity |]. right.
      split; [lia |]. split; [exact Hne |]. split.
      * exists ck. rewrite Nat2Z.id. auto.
      * intros i c Hi Hlt. lia.
    + exists idx. split; [exact Hidx |]. apply Hnext. right. reflexivity.
Qed.

(** X11.  [find_thec64_nav] leaves in [thec64_nav_idx] the lowest slot
    number below [num_controllers], other than the selected one, whose
    controller is a THEC64 stick, and -1 when there is none; it changes
    nothing else. *)
Theorem find_thec64_nav_lowest (app : App) :
  num_controllers app <= Z.of_nat (length (controllers app)) ->
  exists idx,
    find_thec64_nav app = Some (set_thec64_nav_idx idx app)
    /\ ((idx = -1
         /\ forall i c, Z.of_nat i < num_controllers app ->
              Z.of_nat i <> sel_ctrl app ->
              controllers app !! i = Some c -> is_thec64_joystick c = false)
        \/ (0 <= idx < num_controllers app /\ idx <> sel_ctrl app
            /\ (exists c, controllers app !! Z.to_nat idx = Some c
                          /\ is_thec64_joystick c = true)
            /\ forall i c, Z.of_nat i < idx -> Z.of_nat i <> sel_ctrl app ->
                 controllers app !! i = Some c ->
                 is_thec64_joystick c = false)).
Proof.
  intros Hn.
  assert (Hlen : (0 + Z.to_nat (num_controllers app)
                  <= length (controllers app))%nat) by lia.
  destruct (find_loop_lowest (controllers app) (sel_ctrl app)
              (Z.to_nat (num_controllers app)) 0 Hlen)
    as (idx & Hidx & Hcases).
  exists idx. unfold find_thec64_nav. rewrite Hidx. split; [reflexivity |].
  destruct Hcases as [[-> Hnone] | (Hr & Hne & Hc & Hlow)].
  - left. split; [reflexivity |]. intros i c Hi. apply Hnone. lia.
  - right. split; [lia |]. split; [exact Hne |]. split; [exact Hc |].
    intros i c Hi. apply Hlow; lia.
Qed.

Lemma find_thec64_nav_lowest_witness :
  num_controllers stick_app <= Z.of_nat (length (controllers stick_app))
  /\ exists idx,
       find_thec64_nav stick_app = Some (set_thec64_nav_idx idx stick_app)
       /\ (idx = -1 \/ (0 <= idx < num_controllers stick_app
                        /\ idx <> sel_ctrl stick_app)).
Proof.
  assert (Hn : num_controllers stick_app
               <= Z.of_nat (length (controllers stick_app)))
    by (vm_compute; discriminate).
  split; [exact Hn |].
  destruct (find_thec64_nav_lowest stick_app Hn) as (idx & Hidx & Hcases).
  exists idx. split; [exact Hidx |].
  destruct Hcases as [[-> _] | (Hr & Hne & _)]; [left | right]; auto.
Defined.

(** With the sample pad selected in slot 0, a second sample pad in slot 1
    and the stick in slot 2, the stick is found. *)
Example find_thec64_nav_stick :
  thec64_nav_idx <$> find_thec64_nav stick_app = Some 2.
Proof. vm_compute. reflexivity. Qed.

(** ** Controller selection *)

Lemma detect_loop_spec (pads : list (list input_event)) (n : nat) :
  forall k : nat,
    match detect_loop pads (seq k n) with
    | Some i =>
        (k <= i < k + n)%nat
        /\ first_press (default [] (pads !! i)) <> None
        /\ forall j, (k <= j < i)%nat ->
                     first_press (default [] (pads !! j)) = None
    | None =>
        forall j, (k <= j < k + n)%nat ->
                  first_press (default [] (pads !! j)) = None
    end.
Proof.
  induction n as [| n IH]; intros k; cbn [seq detect_loop].
  - intros j Hj. lia.
  - destruct (first_press (default [] (pads !! k))) as [code |] eqn:Hk.
    + split; [lia |]. split; [rewrite Hk; discriminate |]. intros j Hj. lia.
    + specialize (IH (S k)).
      destruct (detect_loop pads (seq (S k) n)) as [i |].
      * destruct IH as (Hi & Hp & Hlow). split; [lia |]. split; [exact Hp |].
        intros j Hj. destruct (Nat.eq_dec j k) as [-> | Hne]; [exact Hk |].
        apply Hlow. lia.
      * intros j Hj. destruct (Nat.eq_dec j k) as [-> | Hne]; [exact Hk |].
        apply IH. lia.
Qed.

(** X12.  [update_detect] first rescans the registry when more than
    [RESCAN_MS] have passed since the last scan.  With no key press
    pending on a registered slot it changes nothing else.  Otherwise it
    selects the lowest slot with a key press pending and starts the
    wizard at the first entry, with a THEJOYSTICK other than the selected
    controller; registry and entries stay as they are. *)
Theorem update_detect_selects (dir : option (list dirent)) (now : Z)
        (pads : list (list input_event)) (app : App) (last_scan : Z) :
  length (controllers app) = Z.to_nat MAX_CONTROLLERS ->
  0 <= num_controllers app <= MAX_CONTROLLERS ->
  let rescan := RESCAN_MS <? elapsed now last_scan in
  let app1 := if rescan then scan_controllers dir app else app in
  let last1 := if rescan then now else last_scan in
  let pressed := fun i => first_press (default [] (pads !! i)) <> None in
  ((forall i, Z.of_nat i < num_controllers app1 -> ~ pressed i) ->
   update_detect dir now pads app last_scan = Some (app1, last1))
  /\ (forall i, Z.of_nat i < num_controllers app1 -> pressed i ->
        (forall j, (j < i)%nat -> ~ pressed j) ->
        exists app',
          update_detect dir now pads app last_scan = Some (app', last1)
          /\ state app' = STATE_MAPPING /\ sel_ctrl app' = Z.of_nat i
          /\ cur_map app' = 0 /\ redo_single app' = -1
          /\ controllers app' = controllers app1
          /\ num_controllers app' = num_controllers app1
          /\ mappings app' = mappings app
          /\ thec64_nav_idx app' <> sel_ctrl app').
Proof.
  intros Hlen Hnum. cbv zeta. unfold update_detect. cbv zeta.
  set (app1 := if RESCAN_MS <? elapsed now last_scan
               then scan_controllers dir app else app).
  set (last1 := if RESCAN_MS <? elapsed now last_scan then now else last_scan).
  assert (H1 : length (controllers app1) = Z.to_nat MAX_CONTROLLERS
               /\ 0 <= num_controllers app1 <= MAX_CONTROLLERS).
  { unfold app1. destruct (RESCAN_MS <? elapsed now last_scan); [| auto].
    destruct (scan_controllers_slots dir app Hlen) as (L & N & _). auto. }
  assert (Hm1 : mappings app1 = mappings app).
  { unfold app1. destruct (RESCAN_MS <? elapsed now last_scan); [| reflexivity].
    destruct dir; reflexivity. }
  clearbody app1 last1. destruct H1 as [Hlen1 Hnum1].
  pose proof (detect_loop_spec pads (Z.to_nat (num_controllers app1)) 0)
    as Hspec.
  split.
  - intros Hquiet.
    destruct (detect_loop pads (seq 0 (Z.to_nat (num_controllers app1))))
      as [i |]; [| reflexivity].
    destruct Hspec as (Hi & Hp & _). exfalso. apply (Hquiet i); [lia | exact Hp].
  - intros i Hi Hp Hlow.
    destruct (detect_loop pads (seq 0 (Z.to_nat (num_controllers app1))))
      as [i' |].
    2:{ exfalso. apply Hp. apply Hspec. lia. }
    destruct Hspec as (Hi' & Hp' & Hlow').
    assert (i' = i) as ->.
    { destruct (Nat.lt_total i' i) as [Hlt | [Heq | Hgt]]; [| exact Heq |].
      - exfalso. apply (Hlow i' Hlt). exact Hp'.
      - exfalso. apply Hp. apply Hlow'. lia. }
    unfold find_thec64_nav. app_fields.
    destruct (find_loop_range (controllers app1) (Z.of_nat i)
                (Z.to_nat (num_controllers app1))
                (seq 0 (Z.to_nat (num_controllers app1)))) as (idx & Hidx & Hr).
    { intros j Hj. apply in_seq in Hj. unfold MAX_CONTROLLERS in *. lia. }
    rewrite Hidx. cbn [mbind option_bind].
    eexists. split; [reflexivity |]. app_fields.
    repeat (split; [reflexivity |]). split; [exact Hm1 |].
    destruct Hr as [-> | [_ Hne]]; [lia | exact Hne].
Qed.

Lemma update_detect_selects_witness :
  length (controllers sample_app) = Z.to_nat MAX_CONTROLLERS
  /\ 0 <= num_controllers sample_app <= MAX_CONTROLLERS
  /\ exists app',
       update_detect None 0 [[mk_event EV_KEY 288 0; press 288]] sample_app 0
       = Some (app', 0)
       /\ state app' = STATE_MAPPING /\ sel_ctrl app' = 0.
Proof.
  assert (Hlen : length (controllers sample_app) = Z.to_nat MAX_CONTROLLERS)
    by reflexivity.
  assert (Hnum : 0 <= num_controllers sample_app <= MAX_CONTROLLERS)
    by (vm_compute; split; discriminate).
  refine (conj Hlen (conj Hnum _)).
  destruct (update_detect_selects None 0 [[mk_event EV_KEY 288 0; press 288]]
              sample_app 0 Hlen Hnum) as [_ Hsel].
  destruct (Hsel 0%nat) as (app' & Hu & Hs & Hc & _).
  - vm_compute. reflexivity.
  - vm_compute. discriminate.
  - intros j Hj. lia.
  - exists app'. auto.
Defined.

(** ** Directory browser *)

(** X13.  A cursor move in a listing that is not empty and whose scroll
    position is not negative leaves the cursor on an entry and inside
    the window of 18 rows that starts at the scroll position; path,
    entries and count stay.  In an empty listing the move leaves the
    cursor at -1. *)
Theorem browse_move_window (dy : Z) (b : DirBrowser) :
  dy <> 0 ->
  let b' := browse_move dy b in
  (b_path b' = b_path b /\ b_entries b' = b_entries b
   /\ b_count b' = b_count b)
  /\ (0 < b_count b -> 0 <= b_scroll b ->
      0 <= b_selected b' < b_count b
      /\ 0 <= b_scroll b' <= b_selected b'
      /\ b_selected b' < b_scroll b' + 18)
  /\ (b_count b = 0 -> b_selected b' = -1).
Proof.
  intros Hdy. cbv zeta. unfold browse_move.
  destruct (Z.eqb_spec dy 0) as [| _]; [contradiction |].
  cbv zeta. cbn [b_path b_entries b_count b_selected b_scroll].
  split; [auto |].
  set (s0 := b_selected b + dy).
  set (s1 := if s0 <? 0 then 0 else s0).
  set (s2 := if b_count b <=? s1 then b_count b - 1 else s1).
  set (c1 := if s2 <? b_scroll b then s2 else b_scroll b).
  assert (H1 : 0 <= s1) by (unfold s1; destruct (Z.ltb_spec s0 0); lia).
  split.
  - intros Hpos Hscroll.
    assert (H2 : 0 <= s2 < b_count b)
      by (unfold s2; destruct (Z.leb_spec (b_count b) s1); lia).
    assert (H3 : 0 <= c1 <= s2)
      by (unfold c1; destruct (Z.ltb_spec s2 (b_scroll b)); lia).
    destruct (Z.leb_spec (c1 + 18) s2); lia.
  - intros Hzero. unfold s2. rewrite Hzero.
    destruct (Z.leb_spec 0 s1); lia.
Qed.

Lemma browse_move_window_witness :
  1 <> 0
  /\ 0 <= b_selected (browse_move 1 (browser_load usb_world "/mnt"))
     < b_count (browser_load usb_world "/mnt").
Proof.
  assert (H : 1 <> 0) by discriminate. split; [exact H |].
  destruct (browse_move_window 1 (browser_load usb_world "/mnt") H)
    as (_ & Hwin & _).
  apply Hwin; vm_compute; [reflexivity | discriminate].
Defined.

Lemma last_slash_app (dir name : string) :
  last_slash name = None ->
  last_slash (dir ++ "/" ++ name) = Some (String.length dir).
Proof.
  intros Hname. induction dir as [| c dir IH].
  - change (EmptyString ++ "/" ++ name)%string with (String "/" name).
    cbn [last_slash]. rewrite Hname. reflexivity.
  - change (String c dir ++ "/" ++ name)%string
      with (String c (dir ++ "/" ++ name)).
    cbn [last_slash]. rewrite IH. reflexivity.
Qed.

Lemma take_str_app (a b : string) : take_str (String.length a) (a ++ b) = a.
Proof.
  induction a as [| c a IH]; [destruct b; reflexivity |].
  change (String c (take_str (String.length a) (a ++ b)) = String c a).
  f_equal. exact IH.
Qed.

(** X14.  Going up undoes entering a directory: for a directory name
    without a slash, the parent of the path [update_browse] builds on
    entering it from [path] is [path] again, both under the root and
    elsewhere, provided path and name are short enough not to be cut. *)
Theorem parent_of_entered (path name : string) :
  last_slash name = None ->
  path <> EmptyString ->
  (String.length path <= 250)%nat -> (String.length name <= 250)%nat ->
  parent_path
    (take_str (MAX_PATH_LEN - 1)
       (if (path =? "/")%string then "/" ++ take_str 250 name
        else take_str 250 path ++ "/" ++ take_str 250 name))
  = path.
Proof.
  intros Hname Hpath Hlp Hln.
  rewrite (take_str_all 250 name Hln), (take_str_all 250 path Hlp).
  destruct (String.eqb_spec path "/") as [-> | Hroot].
  - rewrite take_str_all
      by (rewrite str_length_app; unfold MAX_PATH_LEN; cbn [String.length]; lia).
    unfold parent_path.
    change ("/" ++ name)%string with (EmptyString ++ "/" ++ name)%string.
    rewrite (last_slash_app EmptyString name Hname). reflexivity.
  - rewrite take_str_all
      by (rewrite !str_length_app; unfold MAX_PATH_LEN;
          cbn [String.length]; lia).
    unfold parent_path. rewrite (last_slash_app path name Hname).
    destruct path as [| c path]; [contradiction |].
    cbn [String.length]. apply (take_str_app (String c path)).
Qed.

Lemma parent_of_entered_witness :
  parent_path
    (take_str (MAX_PATH_LEN - 1)
       (if ("/mnt" =? "/")%string then "/" ++ take_str 250 "usb"
        else take_str 250 "/mnt" ++ "/" ++ take_str 250 "usb"))
  = "/mnt".
Proof.
  apply (parent_of_entered "/mnt" "usb");
    [reflexivity | discriminate | cbn; lia | cbn; lia].
Defined.

Lemma load_loop_spec (w : World) (path : string) (names : list string) :
  forall entries : list DirEntry,
    exists added,
      load_loop w path names entries = (entries ++ added)%list
      /\ Forall (fun e => e_is_dir e = 1) added
      /\ Z.of_nat (length (entries ++ added))
         <= Z.max MAX_DIR_ENTRIES (Z.of_nat (length entries)).
Proof.
  induction names as [| nm rest IH]; intros entries; cbn [load_loop].
  - exists []. rewrite app_nil_r. split; [reflexivity |].
    split; [constructor | lia].
  - destruct (Z.leb_spec MAX_DIR_ENTRIES (Z.of_nat (length entries))).
    { exists []. rewrite app_nil_r. split; [reflexivity |].
      split; [constructor | lia]. }
    destruct (starts_with_dot nm); [apply IH |].
    cbv zeta.
    destruct (negb (w_is_dir w (take_str (MAX_PATH_LEN - 1)
                                   (path ++ "/" ++ nm)))); [apply IH |].
    destruct (IH (entries
                  ++ [mk_dir_entry (take_str (MAX_NAME_LEN - 1) nm) 1])%list)
      as (added & Heq & Hdirs & Hlen).
    exists (mk_dir_entry (take_str (MAX_NAME_LEN - 1) nm) 1 :: added).
    rewrite Heq, <- app_assoc. split; [reflexivity |].
    split; [constructor; [reflexivity | exact Hdirs] |].
    rewrite <- app_assoc in Hlen. cbn [app] in Hlen.
    rewrite length_app in Hlen |- *. cbn [length] in Hlen |- *.
    rewrite length_app in Hlen. cbn [length] in Hlen.
    unfold MAX_DIR_ENTRIES in *. lia.
Qed.

(** X15.  The listing [browser_load] leaves: the cursor and the scroll
    position at 0; at most [MAX_DIR_ENTRIES] entries, as many as
    [count] says; away from the root, [..] first; the export row, the
    only entry that is not a directory, last if present; just [..] (or
    nothing, at the root) and no export row when the directory does not
    open; and the export row at the end whenever the directory opens and
    the listing is not full. *)
Theorem browser_load_listing (w : World) (path : string) :
  sorts w ->
  let b := browser_load w path in
  (b_path b = take_str (MAX_PATH_LEN - 1) path
   /\ b_selected b = 0 /\ b_scroll b = 0)
  /\ (b_count b = Z.of_nat (length (b_entries b))
      /\ b_count b <= MAX_DIR_ENTRIES)
  /\ (b_path b <> "/" -> b_entries b !! 0%nat = Some (mk_dir_entry ".." 1))
  /\ (forall i e, b_entries b !! i = Some e -> e_is_dir e = 0 ->
        e = export_entry /\ Z.of_nat i = b_count b - 1)
  /\ (w_readdir w path = None ->
      Forall (fun e => e = mk_dir_entry ".." 1) (b_entries b))
  /\ (w_readdir w path <> None ->
      last (b_entries b) = Some export_entry
      \/ b_count b = MAX_DIR_ENTRIES).
Proof.
  intros Hsort. cbv zeta. unfold browser_load. cbv zeta.
  set (bpath := take_str (MAX_PATH_LEN - 1) path).
  set (base := if (bpath =? "/")%string then [] else [mk_dir_entry ".." 1]).
  assert (Hbase : Forall (fun e => e_is_dir e = 1) base
                  /\ (length base <= 1)%nat
                  /\ (bpath <> "/" -> base = [mk_dir_entry ".." 1])
                  /\ Forall (fun e => e = mk_dir_entry ".." 1) base).
  { unfold base. destruct (String.eqb_spec bpath "/").
    - split; [constructor |]. split; [cbn; lia |].
      split; [congruence | constructor].
    - split; [repeat constructor |]. split; [cbn; lia |].
      split; [reflexivity | repeat constructor]. }
  clearbody base. destruct Hbase as (Bdir & Blen & Bfirst & Bonly).
  destruct (w_readdir w path) as [names |];
    cbn [b_path b_entries b_count b_selected b_scroll].
  2:{ split; [auto |]. split; [unfold MAX_DIR_ENTRIES; lia |].
      split; [intros Hne; rewrite (Bfirst Hne); reflexivity |].
      split.
      - intros i e He Hz. rewrite Forall_lookup in Bdir.
        rewrite (Bdir i e He) in Hz. discriminate.
      - split; [intros _; exact Bonly | congruence]. }
  destruct (load_loop_spec w path names base) as (added & -> & Adir & Alen).
  set (entries := (base ++ added)%list) in *.
  assert (Edir : Forall (fun e => e_is_dir e = 1) entries)
    by (apply Forall_app; auto).
  set (start := match entries with
                | e :: _ => if (e_name e =? "..")%string then 1%nat else 0%nat
                | [] => 0%nat
                end).
  set (sorted := if (1 <? length entries - start)%nat
                 then (take start entries
                       ++ w_qsort w (drop start entries))%list
                 else entries).
  assert (Hperm : Permutation sorted entries).
  { unfold sorted. destruct (1 <? length entries - start)%nat; [| reflexivity].
    rewrite (Hsort (drop start entries)), take_drop. reflexivity. }
  assert (Hfirst : bpath <> "/" -> sorted !! 0%nat = Some (mk_dir_entry ".." 1)).
  { intros Hne. unfold sorted, start, entries. rewrite (Bfirst Hne).
    cbn [app e_name]. change (".." =? "..")%string with true. cbn iota.
    match goal with
    | |- context [if ?b then _ else _] => destruct b
    end; reflexivity. }
  assert (Sdir : Forall (fun e => e_is_dir e = 1) sorted)
    by (rewrite Hperm; exact Edir).
  assert (Slen : length sorted = length entries)
    by (apply Permutation_length; exact Hperm).
  clearbody sorted.
  assert (Elen : Z.of_nat (length entries) <= 256).
  { unfold MAX_DIR_ENTRIES in Alen. lia. }
  split; [auto |].
  destruct (Z.ltb_spec (Z.of_nat (length sorted)) MAX_DIR_ENTRIES) as [Hroom | Hfull].
  - split.
    { split; [reflexivity |]. rewrite length_app. cbn [length].
      unfold MAX_DIR_ENTRIES in *. lia. }
    split.
    { intros Hne. rewrite lookup_app_l; [apply Hfirst; exact Hne |].
      specialize (Hfirst Hne). apply lookup_lt_Some in Hfirst. exact Hfirst. }
    split.
    { intros i e He Hz. apply lookup_app_Some in He as [He | [Hi He]].
      - rewrite Forall_lookup in Sdir. rewrite (Sdir i e He) in Hz.
        discriminate.
      - apply list_lookup_singleton_Some in He as [Hi0 <-].
        split; [reflexivity |]. rewrite length_app. cbn [length]. lia. }
    split; [discriminate |]. intros _. left. apply last_snoc.
  - split.
    { split; [reflexivity |]. unfold MAX_DIR_ENTRIES in *. lia. }
    split; [exact Hfirst |].
    split.
    { intros i e He Hz. rewrite Forall_lookup in Sdir.
      rewrite (Sdir i e He) in Hz. discriminate. }
    split; [discriminate |]. intros _. right.
    unfold MAX_DIR_ENTRIES in *. lia.
Qed.

Lemma browser_load_listing_witness :
  sorts usb_world
  /\ b_count (browser_load usb_world "/mnt") <= MAX_DIR_ENTRIES
  /\ b_entries (browser_load usb_world "/mnt") !! 0%nat
     = Some (mk_dir_entry ".." 1).
Proof.
  assert (Hs : sorts usb_world) by (intros l; reflexivity).
  split; [exact Hs |].
  destruct (browser_load_listing usb_world "/mnt" Hs)
    as (_ & [_ Hc] & Hf & _).
  split; [exact Hc |]. apply Hf. vm_compute. discriminate.
Defined.

(** ** Keyboards *)





(** ** Duplicate assignments *)

Lemma same_binding_spec (mi mj : MappingEntry) :
  same_binding mi mj = true
  <-> mapped_type mj = mapped_type mi
      /\ mapped_index mj = mapped_index mi
      /\ (mapped_type mi = MAP_HAT -> hat_mask mj = hat_mask mi).
Proof.
  unfold same_binding.
  destruct (Z.eqb_spec (mapped_index mj) (mapped_index mi)) as [Hi | Hi],
           (Z.eqb_spec (hat_mask mj) (hat_mask mi)) as [Hk | Hk],
           (mapped_type mj), (mapped_type mi); cbn;
    split; try discriminate; try tauto; try (intros (H & _); discriminate);
    try (intros (_ & _ & H); specialize (H eq_refl); contradiction);
    intros; repeat split; auto; discriminate.
Qed.

Lemma dup_inner_spec (ms : list MappingEntry) (mi : MappingEntry)
      (js : list nat) :
  (forall j, In j js -> (j < length ms)%nat) ->
  exists b, dup_inner ms mi js = Some b
            /\ (b = true <->
                exists j mj, In j js /\ ms !! j = Some mj
                             /\ same_binding mi mj = true).
Proof.
  induction js as [| j rest IH]; intros Hin.
  - exists false. split; [reflexivity |]. split; [discriminate |].
    intros (j & mj & [] & _).
  - destruct IH as (b & Hb & Hiff).
    { intros k Hk. apply Hin. right. exact Hk. }
    destruct (lookup_lt_is_Some_2 ms j (Hin j (or_introl eq_refl))) as [mj Hmj].
    cbn [dup_inner]. rewrite Hmj. cbn [mbind option_bind].
    destruct (same_binding mi mj) eqn:Hs.
    + exists true. split; [reflexivity |]. split; [| reflexivity].
      intros _. exists j, mj. split; [left; reflexivity | auto].
    + exists b. split; [exact Hb |]. rewrite Hiff. split.
      * intros (k & mk & Hk & Hrest). exists k, mk. split; [right |]; auto.
      * intros (k & mk & [<- | Hk] & Hmk & Hsame).
        -- rewrite Hmj in Hmk. injection Hmk as <-. congruence.
        -- exists k, mk. auto.
Qed.

Lemma dup_outer_spec (ms : list MappingEntry) (indices : list nat) :
  length ms = Z.to_nat NUM_MAPPINGS ->
  (forall i, In i indices -> (i < length ms)%nat) ->
  exists b, dup_outer ms indices = Some b
            /\ (b = true <->
                exists i j mi mj,
                  In i indices /\ (i < j)%nat
                  /\ ms !! i = Some mi /\ ms !! j = Some mj
                  /\ mapped_type mi <> MAP_NONE
                  /\ same_binding mi mj = true).
Proof.
  intros Hlen. induction indices as [| i rest IH]; intros Hin.
  - exists false. split; [reflexivity |]. split; [discriminate |].
    intros (i & j & mi & mj & [] & _).
  - destruct IH as (b & Hb & Hiff).
    { intros k Hk. apply Hin. right. exact Hk. }
    destruct (lookup_lt_is_Some_2 ms i (Hin i (or_introl eq_refl))) as [mi Hmi].
    cbn [dup_outer]. rewrite Hmi. cbn [mbind option_bind].
    assert (Hrest :
      (forall j mj, (i < j)%nat -> ms !! j = Some mj ->
                    mapped_type mi <> MAP_NONE -> same_binding mi mj = false) ->
      exists b0, dup_outer ms rest = Some b0
        /\ (b0 = true <->
            exists i0 j mi0 mj,
              In i0 (i :: rest) /\ (i0 < j)%nat
              /\ ms !! i0 = Some mi0 /\ ms !! j = Some mj
              /\ mapped_type mi0 <> MAP_NONE
              /\ same_binding mi0 mj = true)).
    { intros Hno. exists b. split; [exact Hb |]. rewrite Hiff. split.
      - intros (i0 & j & mi0 & mj & Hi0 & Hrest).
        exists i0, j, mi0, mj. split; [right; exact Hi0 | exact Hrest].
      - intros (i0 & j & mi0 & mj & [<- | Hi0] & Hlt & Hm0 & Hmj & Hb0 & Hs).
        + rewrite Hmi in Hm0. injection Hm0 as <-.
          rewrite (Hno j mj Hlt Hmj Hb0) in Hs. discriminate.
        + exists i0, j, mi0, mj. auto 10. }
    destruct (map_type_eqb (mapped_type mi) MAP_NONE) eqn:Hnone.
    { apply Hrest. intros j mj _ _ Hb0.
      destruct (mapped_type mi); try discriminate. contradiction. }
    destruct (dup_inner_spec ms mi (seq (S i) (Z.to_nat NUM_MAPPINGS - S i)))
      as (found & Hf & Hfiff).
    { intros j Hj. apply in_seq in Hj. lia. }
    rewrite Hf. cbn [mbind option_bind]. destruct found.
    + exists true. split; [reflexivity |]. split; [| reflexivity]. intros _.
      destruct (proj1 Hfiff eq_refl) as (j & mj & Hj & Hmj & Hs).
      apply in_seq in Hj. exists i, j, mi, mj.
      split; [left; reflexivity |]. split; [lia |].
      split; [exact Hmi |]. split; [exact Hmj |]. split; [| exact Hs].
      intros E. rewrite E in Hnone. discriminate.
    + apply Hrest. intros j mj Hlt Hmj _.
      destruct (same_binding mi mj) eqn:Hs; [| reflexivity].
      assert (Ht : false = true); [| discriminate Ht].
      apply Hfiff. exists j, mj. split; [| auto].
      apply in_seq. apply lookup_lt_Some in Hmj. lia.
Qed.

(** X17.  The duplicate flag of the review screen is set exactly when
    two of the ten entries, the first of them bound, have the same kind
    and the same index, and for hats the same direction mask. *)
Theorem has_dupes_iff (ms : list MappingEntry) :
  length ms = Z.to_nat NUM_MAPPINGS ->
  exists b,
    has_dupes ms = Some b
    /\ (b = true <->
        exists i j mi mj,
          (i < j)%nat /\ ms !! i = Some mi /\ ms !! j = Some mj
          /\ mapped_type mi <> MAP_NONE
          /\ mapped_type mj = mapped_type mi
          /\ mapped_index mj = mapped_index mi
          /\ (mapped_type mi = MAP_HAT -> hat_mask mj = hat_mask mi)).
Proof.
  intros Hlen.
  destruct (dup_outer_spec ms (seq 0 (Z.to_nat NUM_MAPPINGS)) Hlen)
    as (b & Hb & Hiff).
  { intros i Hi. apply in_seq in Hi. lia. }
  exists b. split; [exact Hb |]. rewrite Hiff. split.
  - intros (i & j & mi & mj & _ & Hlt & Hmi & Hmj & Hbound & Hs).
    apply same_binding_spec in Hs. exists i, j, mi, mj. tauto.
  - intros (i & j & mi & mj & Hlt & Hmi & Hmj & Hbound & Hrest).
    exists i, j, mi, mj. split.
    { apply in_seq. apply lookup_lt_Some in Hmi. lia. }
    split; [exact Hlt |]. split; [exact Hmi |]. split; [exact Hmj |].
    split; [exact Hbound |]. apply same_binding_spec. exact Hrest.
Qed.

Lemma has_dupes_iff_witness :
  length sample_mappings = Z.to_nat NUM_MAPPINGS
  /\ exists b,
       has_dupes sample_mappings = Some b
       /\ (b = true <->
           exists i j mi mj,
             (i < j)%nat /\ sample_mappings !! i = Some mi
             /\ sample_mappings !! j = Some mj
             /\ mapped_type mi <> MAP_NONE
             /\ mapped_type mj = mapped_type mi
             /\ mapped_index mj = mapped_index mi
             /\ (mapped_type mi = MAP_HAT -> hat_mask mj = hat_mask mi)).
Proof.
  split; [reflexivity |]. exact (has_dupes_iff sample_mappings eq_refl).
Defined.

(** The sample bindings are free of duplicates; binding a second entry
    to button 0 sets the flag. *)
Example has_dupes_samples :
  has_dupes sample_mappings = Some false
  /\ has_dupes (<[3%nat := set_binding MAP_BUTTON 0 sample_lefty]>
                 sample_mappings) = Some true.
Proof. split; vm_compute; reflexivity. Qed.

(** ** The line determines the bindings *)

Lemma str_cons (c : ascii) (s : string) :
  (String c EmptyString ++ s)%string = String c s.
Proof. reflexivity. Qed.

Lemma str_app_inv_head (a x y : string) :
  (a ++ x = a ++ y)%string -> x = y.
Proof.
  induction a as [| c a IH]; intros H; [exact H |].
  change (String c (a ++ x) = String c (a ++ y)) in H.
  injection H as H. apply IH, H.
Qed.

Lemma no_comma_app (a b : string) :
  no_comma (a ++ b) = no_comma a && no_comma b.
Proof.
  unfold no_comma. induction a as [| c a IH]; [reflexivity |].
  change (String c a ++ b)%string with (String c (a ++ b)).
  cbn [string_forall]. rewrite IH, andb_assoc. reflexivity.
Qed.

(** Text without commas, followed by a comma: the comma tells where it
    ends. *)
Lemma comma_split (a a' r r' : string) :
  no_comma a = true -> no_comma a' = true ->
  (a ++ "," ++ r = a' ++ "," ++ r')%string -> a = a' /\ r = r'.
Proof.
  unfold no_comma. revert a'.
  induction a as [| c a IH]; intros [| c' a'] Ha Ha' H.
  - change (String "," r = String "," r') in H. injection H as ->. auto.
  - change (String "," r = String c' (a' ++ "," ++ r')) in H.
    injection H as <- _. cbn in Ha'. discriminate.
  - change (String c (a ++ "," ++ r) = String "," r') in H.
    injection H as -> _. cbn in Ha. discriminate.
  - change (String c (a ++ "," ++ r) = String c' (a' ++ "," ++ r')) in H.
    injection H as <- H. cbn [string_forall] in Ha, Ha'.
    apply andb_prop in Ha as [_ Ha]. apply andb_prop in Ha' as [_ Ha'].
    destruct (IH a' Ha Ha' H) as [-> ->]. auto.
Qed.

Lemma digit_char_no_comma (d : Z) :
  0 <= d < 10 -> negb (Ascii.eqb (digit_char d) ",") = true.
Proof.
  intros Hd.
  assert (Hcases : d = 0 \/ d = 1 \/ d = 2 \/ d = 3 \/ d = 4 \/ d = 5
                   \/ d = 6 \/ d = 7 \/ d = 8 \/ d = 9) by lia.
  repeat (destruct Hcases as [-> | Hcases]; [reflexivity |]).
  subst d. reflexivity.
Qed.

Lemma fmt_digits_no_comma (fuel : nat) :
  forall (n : Z) (acc : string),
    0 <= n -> no_comma acc = true -> no_comma (fmt_digits fuel n acc) = true.
Proof.
  induction fuel as [| fuel IH]; intros n acc Hn Hacc; [exact Hacc |].
  cbn [fmt_digits]. cbv zeta.
  assert (Hacc' : no_comma (String (digit_char (n mod 10)) acc) = true).
  { unfold no_comma. cbn [string_forall].
    rewrite digit_char_no_comma by (apply Z.mod_pos_bound; lia). exact Hacc. }
  destruct (n / 10 =? 0); [exact Hacc' |].
  apply IH; [apply Z.div_pos; lia | exact Hacc'].
Qed.

Lemma fmt_d_no_comma (z : Z) : 0 <= z -> no_comma (fmt_d z) = true.
Proof.
  intros Hz. unfold fmt_d. destruct (Z.ltb_spec z 0); [lia |].
  apply fmt_digits_no_comma; [exact Hz | reflexivity].
Qed.

Lemma binding_code_no_comma (m : MappingEntry) :
  int_binding m -> no_comma (binding_code m) = true.
Proof.
  unfold int_binding, binding_code. destruct (mapped_type m); intros H.
  - reflexivity.
  - rewrite no_comma_app, fmt_d_no_comma by lia. reflexivity.
  - rewrite no_comma_app, fmt_d_no_comma by lia. reflexivity.
  - destruct H as [Hi Hk].
    assert (0 <= hat_mask m) by (cbn in Hk; lia).
    rewrite !no_comma_app, !fmt_d_no_comma by lia. reflexivity.
Qed.

Lemma fmt_d_inj (z z' : Z) :
  0 <= z <= 2147483647 -> 0 <= z' <= 2147483647 ->
  fmt_d z = fmt_d z' -> z = z'.
Proof.
  intros Hz Hz' H. rewrite <- (fmt_d_nonneg z Hz), <- (fmt_d_nonneg z' Hz'), H.
  reflexivity.
Qed.

(** The binding code tells kind, index and mask. *)
Lemma binding_code_inj (m m' : MappingEntry) :
  int_binding m -> int_binding m' ->
  binding_code m = binding_code m' -> binding_eq m m'.
Proof.
  unfold int_binding, binding_code, binding_eq.
  destruct m as [l g a p t i k], m' as [l' g' a' p' t' i' k'].
  cbn [mapped_type mapped_index hat_mask].
  destruct t, t'; intros Hm Hm' H; rewrite ?str_cons in H;
    try discriminate H;
    try (injection H as H; apply fmt_d_inj in H; [| lia | lia]);
    try (split; [reflexivity |]; split; [intros _; assumption | discriminate]).
  - split; [reflexivity |]. split; [intros []; reflexivity | discriminate].
  - destruct Hm as [Hi Hk], Hm' as [Hi' Hk'].
    assert (Ci : i = 0 \/ i = 1 \/ i = 2 \/ i = 3) by lia.
    assert (Ci' : i' = 0 \/ i' = 1 \/ i' = 2 \/ i' = 3) by lia.
    cbn [In] in Hk, Hk'.
    destruct Ci as [-> | [-> | [-> | ->]]],
             Ci' as [-> | [-> | [-> | ->]]],
             Hk as [<- | [<- | [<- | [<- | []]]]],
             Hk' as [<- | [<- | [<- | [<- | []]]]];
      vm_compute in H; first [discriminate H | auto].
Qed.

Lemma channel_fields_inj (tail : string) (ms : list MappingEntry) :
  forall ms' : list MappingEntry,
    map gcdb_name ms = map gcdb_name ms' ->
    Forall int_binding ms -> Forall int_binding ms' ->
    (channel_fields ms ++ tail = channel_fields ms' ++ tail)%string ->
    Forall2 binding_eq ms ms'.
Proof.
  induction ms as [| m ms IH]; intros [| m' ms'] Hnames Hint Hint' H;
    try discriminate Hnames; [constructor |].
  injection Hnames as Hn Hnames.
  apply Forall_cons in Hint as [Hm Hint].
  apply Forall_cons in Hint' as [Hm' Hint'].
  cbn [channel_fields] in H. rewrite !str_app_assoc, Hn in H.
  apply str_app_inv_head in H. apply (str_app_inv_head ":") in H.
  apply comma_split in H as [Hcode Hrest];
    [| apply binding_code_no_comma; assumption
     | apply binding_code_no_comma; assumption].
  constructor; [apply binding_code_inj; assumption |].
  apply IH; assumption.
Qed.

(** X18.  The mapping line determines the bindings: two sessions on the
    same controller whose serialized lines are equal have, entry by
    entry, the same kind of binding, the same index and, for hats, the
    same mask. *)
Theorem line_determines_bindings (app app' : App) (c : Controller) :
  arr_get (controllers app) (sel_ctrl app) = Some c ->
  arr_get (controllers app') (sel_ctrl app') = Some c ->
  (String.length (c_guid c) <= 32)%nat ->
  (String.length (c_name c) <= 255)%nat ->
  map gcdb_name (mappings app) = channel_names ->
  map gcdb_name (mappings app') = channel_names ->
  Forall int_binding (mappings app) -> Forall int_binding (mappings app') ->
  build_mapping_string app MAPPING_STR_SIZE
  = build_mapping_string app' MAPPING_STR_SIZE ->
  Forall2 binding_eq (mappings app) (mappings app').
Proof.
  intros Hc Hc' Hguid Hname Hn Hn' Hint Hint' H.
  rewrite (build_mapping_string_value app c Hc Hguid Hname Hn) in H.
  rewrite (build_mapping_string_value app' c Hc' Hguid Hname Hn') in H.
  injection H as H. unfold mapping_line in H.
  apply str_app_inv_head in H. apply (str_app_inv_head ",") in H.
  apply str_app_inv_head in H. apply (str_app_inv_head ",") in H.
  apply (channel_fields_inj "platform:Linux,"); [congruence | assumption ..].
Qed.

Lemma line_determines_bindings_witness :
  Forall2 binding_eq (mappings sample_app)
    (mappings (set_review_sel 5 sample_app)).
Proof.
  assert (Hint : Forall int_binding sample_mappings).
  { unfold sample_mappings, int_binding.
    cbn [zip_with init_mappings set_binding set_hat_binding
         mapped_type mapped_index hat_mask].
    repeat constructor; cbn; auto; lia. }
  apply (line_determines_bindings sample_app (set_review_sel 5 sample_app)
           sample_controller).
  - vm_compute. reflexivity.
  - vm_compute. reflexivity.
  - apply Nat.leb_le. vm_compute. reflexivity.
  - apply Nat.leb_le. vm_compute. reflexivity.
  - vm_compute. reflexivity.
  - vm_compute. reflexivity.
  - exact Hint.
  - exact Hint.
  - vm_compute. reflexivity.
Defined.

(** ** What the browser and the review screen leave alone *)





Section ReviewOutcome.

Variables (app a : App).

Hypothesis Hsame :
  controllers a = controllers app
  /\ num_controllers a = num_controllers app
  /\ mapping_str a = mapping_str app
  /\ mappings a = mappings app
  /\ sel_ctrl a = sel_ctrl app
  /\ save_path a = save_path app
  /\ thec64_nav_idx a = thec64_nav_idx app
  /\ cur_map a = cur_map app
  /\ redo_single a = redo_single app
  /\ state a = state app.








End ReviewOutcome.



(** ** The wizard binds the entries in order *)

Lemma wizard_entry_update (ms0 es : list MappingEntry) (j : nat)
      (m e : MappingEntry) :
  (j < length es)%nat -> ms0 !! j = Some m -> es !! j = Some e ->
  (take j es ++ drop j ms0)%list !! j = Some m
  /\ <[j := e]> (take j es ++ drop j ms0)%list
     = (take (S j) es ++ drop (S j) ms0)%list.
Proof.
  intros Hj Hm He.
  assert (Hlen : length (take j es) = j) by (rewrite length_take; lia).
  split.
  - rewrite lookup_app_r by lia. rewrite Hlen, Nat.sub_diag, lookup_drop.
    rewrite Nat.add_0_r. exact Hm.
  - rewrite insert_app_r_alt by lia. rewrite Hlen, Nat.sub_diag.
    rewrite (drop_S _ _ _ Hm). cbn [insert list_insert].
    rewrite (take_S_r _ _ _ He), <- app_assoc. reflexivity.
Qed.

Lemma wizard_steps (w : World) (c : Controller)
      (queues : list (list input_event)) (ms0 es : list MappingEntry) :
  (String.length (c_guid c) <= 32)%nat ->
  (String.length (c_name c) <= 255)%nat ->
  length queues = 10%nat -> length es = 10%nat -> length ms0 = 10%nat ->
  (forall k q m e,
     queues !! k = Some q -> ms0 !! k = Some m -> es !! k = Some e ->
     exists rest, poll_mapping_input c q m = Some (rest, e, true)) ->
  forall (n j : nat) (app : App) (last : Z),
    (j + S n = 10)%nat ->
    state app = STATE_MAPPING -> cur_map app = Z.of_nat j ->
    redo_single app = -1 ->
    arr_get (controllers app) (sel_ctrl app) = Some c ->
    map gcdb_name (mappings app) = channel_names ->
    mappings app = (take j es ++ drop j ms0)%list ->
    exists s',
      run_frames w (mk_session app last) (map pad_frame (drop j queues))
      = Some (s', w)
      /\ state (s_app s') = STATE_REVIEW
      /\ mappings (s_app s') = es
      /\ review_sel (s_app s') = 0
      /\ mapping_str (s_app s') = mapping_line c es.
Proof.
  intros Hguid Hname Hq Hes Hms0 Hcap.
  induction n as [| n IH]; intros j app last Hj Hstate Hcur Hredo Hc Hnames Hms.
  - (* the tenth capture *)
    destruct (lookup_lt_is_Some_2 queues j ltac:(lia)) as [q Hqj].
    destruct (lookup_lt_is_Some_2 ms0 j ltac:(lia)) as [m Hm].
    destruct (lookup_lt_is_Some_2 es j ltac:(lia)) as [e He].
    destruct (Hcap j q m e Hqj Hm He) as [rest Hpoll].
    destruct (wizard_entry_update ms0 es j m e ltac:(lia) Hm He)
      as [Hlook Hins].
    destruct (poll_keeps_labels _ _ _ _ _ _ Hpoll) as (_ & Hgn & _).
    rewrite (drop_S _ _ _ Hqj). rewrite drop_ge by lia.
    cbn [map run_frames s_app]. rewrite Hstate.
    unfold update. cbv zeta. cbn [s_app s_last_scan]. rewrite Hstate.
    change (f_queue (pad_frame q)) with q.
    unfold update_mapping. rewrite Hc. cbn [mbind option_bind].
    unfold arr_get at 1. rewrite Hcur.
    destruct (Z.ltb_spec (Z.of_nat j) 0) as [| _]; [lia |].
    rewrite Nat2Z.id, Hms, Hlook. cbn [mbind option_bind].
    rewrite Hpoll. cbn [mbind option_bind]. cbv zeta. app_fields.
    rewrite Hredo. change (0 <=? -1) with false. cbn iota.
    rewrite Hcur.
    destruct (Z.leb_spec NUM_MAPPINGS (Z.of_nat j + 1)) as [_ |];
      [| unfold NUM_MAPPINGS in *; lia].
    assert (Hfull : (take (S j) es ++ drop (S j) ms0)%list = es).
    { rewrite take_ge by lia. rewrite drop_ge by lia. apply app_nil_r. }
    unfold arr_set. rewrite Nat2Z.id, Hins, Hfull.
    assert (Hnames' : map gcdb_name es = channel_names).
    { rewrite <- Hnames, Hms.
      rewrite <- (names_insert (take j es ++ drop j ms0) j m e Hlook Hgn).
      rewrite Hins, Hfull. reflexivity. }
    rewrite (build_mapping_string_value _ c); app_fields;
      [| exact Hc | exact Hguid | exact Hname | exact Hnames'].
    cbn [mbind option_bind s_app s_last_scan].
    unfold render. app_fields.
    rewrite (build_mapping_string_value _ c); app_fields;
      [| exact Hc | exact Hguid | exact Hname | exact Hnames'].
    cbn [mbind option_bind].
    eexists. split; [reflexivity |]. cbn [s_app]. app_fields. auto.
  - (* an earlier capture *)
    destruct (lookup_lt_is_Some_2 queues j ltac:(lia)) as [q Hqj].
    destruct (lookup_lt_is_Some_2 ms0 j ltac:(lia)) as [m Hm].
    destruct (lookup_lt_is_Some_2 es j ltac:(lia)) as [e He].
    destruct (Hcap j q m e Hqj Hm He) as [rest Hpoll].
    destruct (wizard_entry_update ms0 es j m e ltac:(lia) Hm He)
      as [Hlook Hins].
    destruct (poll_keeps_labels _ _ _ _ _ _ Hpoll) as (_ & Hgn & _).
    rewrite (drop_S _ _ _ Hqj).
    cbn [map run_frames s_app]. rewrite Hstate.
    unfold update. cbv zeta. cbn [s_app s_last_scan]. rewrite Hstate.
    change (f_queue (pad_frame q)) with q.
    unfold update_mapping. rewrite Hc. cbn [mbind option_bind].
    unfold arr_get at 1. rewrite Hcur.
    destruct (Z.ltb_spec (Z.of_nat j) 0) as [| _]; [lia |].
    rewrite Nat2Z.id, Hms, Hlook. cbn [mbind option_bind].
    rewrite Hpoll. cbn [mbind option_bind]. cbv zeta. app_fields.
    rewrite Hredo. change (0 <=? -1) with false. cbn iota.
    rewrite Hcur.
    destruct (Z.leb_spec NUM_MAPPINGS (Z.of_nat j + 1)) as [|_];
      [unfold NUM_MAPPINGS in *; lia |].
    cbn [mbind option_bind s_app s_last_scan].
    unfold render. app_fields. rewrite Hstate. cbn [mbind option_bind].
    apply (IH (S j)); app_fields.
    + lia.
    + exact Hstate.
    + lia.
    + exact Hredo.
    + exact Hc.
    + unfold arr_set. rewrite Nat2Z.id.
      rewrite (names_insert (take j es ++ drop j ms0) j m e Hlook Hgn).
      rewrite <- Hms. exact Hnames.
    + unfold arr_set. rewrite Nat2Z.id. exact Hins.
Qed.

(** X21.  The wizard binds the entries in order: from the first entry,
    ten passes of the main loop that each bring a capturing input leave
    entry [k] bound by the input of pass [k], and end on the review
    screen with the cursor on the first row and the line of these
    bindings in [mapping_str]. *)
Theorem wizard_binds_in_order (w : World) (s : Session) (c : Controller)
        (queues : list (list input_event)) (es : list MappingEntry) :
  state (s_app s) = STATE_MAPPING ->
  cur_map (s_app s) = 0 -> redo_single (s_app s) = -1 ->
  arr_get (controllers (s_app s)) (sel_ctrl (s_app s)) = Some c ->
  (String.length (c_guid c) <= 32)%nat ->
  (String.length (c_name c) <= 255)%nat ->
  map gcdb_name (mappings (s_app s)) = channel_names ->
  length queues = 10%nat -> length es = 10%nat ->
  (forall k q m e,
     queues !! k = Some q -> mappings (s_app s) !! k = Some m ->
     es !! k = Some e ->
     exists rest, poll_mapping_input c q m = Some (rest, e, true)) ->
  exists s',
    run_frames w s (map pad_frame queues) = Some (s', w)
    /\ state (s_app s') = STATE_REVIEW
    /\ mappings (s_app s') = es
    /\ review_sel (s_app s') = 0
    /\ mapping_str (s_app s') = mapping_line c es.
Proof.
  intros Hstate Hcur Hredo Hc Hguid Hname Hnames Hq Hes Hcap.
  destruct s as [app last]. cbn [s_app] in *.
  apply (wizard_steps w c queues (mappings app) es Hguid Hname Hq Hes
           (names_length _ Hnames) Hcap 9 0 app last);
    auto; lia.
Qed.

Lemma wizard_binds_in_order_witness :
  exists s',
    run_frames open_world (mk_session wizard_app 0)
      (map pad_frame sample_queues)
    = Some (s', open_world)
    /\ state (s_app s') = STATE_REVIEW
    /\ mappings (s_app s') = sample_mappings
    /\ review_sel (s_app s') = 0
    /\ mapping_str (s_app s') = mapping_line sample_controller sample_mappings.
Proof.
  apply (wizard_binds_in_order open_world (mk_session wizard_app 0)
           sample_controller sample_queues sample_mappings).
  - reflexivity.
  - reflexivity.
  - reflexivity.
  - vm_compute. reflexivity.
  - apply Nat.leb_le. vm_compute. reflexivity.
  - apply Nat.leb_le. vm_compute. reflexivity.
  - reflexivity.
  - reflexivity.
  - reflexivity.
  - intros k q m e Hq Hm He.
    do 10 (destruct k as [| k];
           [vm_compute in Hq, Hm, He;
            injection Hq as <-; injection Hm as <-; injection He as <-;
            eexists; vm_compute; reflexivity |]).
    discriminate Hq.
Defined.

(** ** The identity tool and the mapper agree *)

Lemma take_str_idem (n : nat) (s : string) :
  take_str n (take_str n s) = take_str n s.
Proof.
  rewrite <- (str_app_nil_r (take_str n s)) at 1.
  rewrite take_str_app_take, str_app_nil_r. reflexivity.
Qed.

Lemma registered_path (fd : Z) (path : string) (d : Device) (id : input_id) :
  c_path (registered_controller fd path d id)
  = take_str (MAX_PATH_LEN - 1) path.
Proof. reflexivity. Qed.

(** X22.  On the same listing of [/dev/input], line [k] of the identity
    tool describes slot [k] of the mapper's registry, for every
    registered slot: the same GUID, the same path, and the same name
    unless the device does not report one (the tool then prints
    [Unknown], the mapper keeps [Unknown Controller]). *)
Theorem tool_agrees_with_registry (entries : list dirent) (app : App)
        (k : nat) (c : Controller) :
  length (controllers app) = Z.to_nat MAX_CONTROLLERS ->
  Z.of_nat k < num_controllers (scan_controllers (Some entries) app) ->
  controllers (scan_controllers (Some entries) app) !! k = Some c ->
  exists name,
    fst (gamepad_guid.main (Some entries)) !! k
    = Some (printf_line (c_guid c) name (c_path c))
    /\ (name = c_name c
        \/ (name = "Unknown" /\ c_name c = "Unknown Controller")).
Proof.
  intros Hlen Hk Hc. unfold scan_controllers in Hk, Hc.
  destruct (scan_loop_spec entries (controllers app) 0) as (S1 & _ & _ & S4);
    [unfold MAX_CONTROLLERS; lia | exact Hlen |].
  cbn zeta in S1, S4. cbn [num_controllers controllers set_registry] in Hk, Hc.
  rewrite S1, Z.add_0_l in Hk.
  destruct (lookup_lt_is_Some_2 (detected entries) k) as [g Hg]; [lia |].
  specialize (S4 k g ltac:(lia) Hg).
  change (Z.to_nat 0 + k)%nat with k in S4.
  rewrite S4 in Hc. injection Hc as <-.
  assert (Hout : fst (gamepad_guid.main (Some entries)) !! k
                 = Some (guid_line g)).
  { unfold gamepad_guid.main. rewrite main_loop_spec. cbn [fst snd List.app].
    assert (Hline : map guid_line (detected entries) !! k
                    = Some (guid_line g)).
    { change (map guid_line (detected entries))
        with (guid_line <$> detected entries).
      rewrite list_lookup_fmap, Hg. reflexivity. }
    destruct (_ =? 0); [apply lookup_app_l_Some |]; exact Hline. }
  rewrite Hout. destruct g as [[[fd path] d] id].
  destruct (detected_origin entries k fd path d id Hg)
    as (entry & _ & _ & -> & _ & _).
  destruct (registered_identity fd (device_path (d_name entry)) d id)
    as (Hguid & Hname & _).
  cbn [controller_of guid_line].
  rewrite Hguid, Hname, registered_path. unfold device_path at 2.
  rewrite take_str_idem. fold (device_path (d_name entry)).
  exists (controller_name d "Unknown"). split; [reflexivity |].
  unfold controller_name. destruct (dev_name d); auto.
Qed.

Lemma tool_agrees_with_registry_witness :
  exists name,
    fst (gamepad_guid.main (Some sample_dir)) !! 0%nat
    = Some (printf_line (c_guid sample_controller) name
              (c_path sample_controller))
    /\ (name = c_name sample_controller
        \/ (name = "Unknown"
            /\ c_name sample_controller = "Unknown Controller")).
Proof.
  apply (tool_agrees_with_registry sample_dir sample_app 0 sample_controller).
  - reflexivity.
  - vm_compute. reflexivity.
  - vm_compute. reflexivity.
Defined.

(** ** A pass without input *)

Lemma detect_loop_none (pads : list (list input_event)) (indices : list nat) :
  (forall i, first_press (default [] (pads !! i)) = None) ->
  detect_loop pads indices = None.
Proof.
  intros Hnone. induction indices as [| i rest IH]; [reflexivity |].
  cbn [detect_loop]. rewrite (Hnone i). exact IH.
Qed.

Lemma read_nav_input_idle (app : App) :
  consistent app ->
  0 <= sel_ctrl app < num_controllers app ->
  read_nav_input app [] [] = Some (mk_nav 0 0 0 0 0, false).
Proof.
  intros (Hlen & Hnum & Hslots & _ & _ & Hnav & _) Hsel.
  destruct (slot_registered _ _ _ Hlen Hnum Hslots Hsel) as (c & Hc & _).
  unfold read_nav_input. rewrite Hc. cbn [mbind option_bind nav_loop].
  unfold read_thec64_nav.
  destruct Hnav as [Hnone | [Hidx _]].
  - rewrite Hnone. reflexivity.
  - destruct (Z.ltb_spec (thec64_nav_idx app) 0) as [| _]; [lia |].
    destruct (slot_registered _ _ _ Hlen Hnum Hslots Hidx) as (t & -> & _).
    reflexivity.
Qed.

(** The first half of an idle pass: with no input pending and no rescan
    due, the update function of every screen returns at once. *)
Lemma idle_update (w : World) (s : Session) (f : Frame) :
  consistent (s_app s) ->
  f_queue f = [] -> f_nav_queue f = [] ->
  read_keyboard (f_keyboards f) = 0%nat ->
  (forall i, first_press (default [] (f_pads f !! i)) = None) ->
  elapsed (f_now f) (s_last_scan s) <= RESCAN_MS ->
  update w s f = Some (s, w).
Proof.
  intros H Hq Hnq Hkey Hpads Hscan. destruct s as [app last].
  cbn [s_app s_last_scan] in *.
  pose proof H as (Hlen & Hnum & Hslots & Hnames & _ & _ & _ & Hst).
  unfold update. cbv zeta. cbn [s_app s_last_scan].
  destruct (state app) eqn:Hstate.
  - unfold update_detect. cbv zeta.
    destruct (Z.ltb_spec RESCAN_MS (elapsed (f_now f) last)) as [| _]; [lia |].
    rewrite (detect_loop_none _ _ Hpads). reflexivity.
  - destruct Hst as (Hsel & Hcur & _).
    destruct (slot_registered _ _ _ Hlen Hnum Hslots Hsel) as (c & Hc & _).
    unfold update_mapping. rewrite Hc, Hq. cbn [mbind option_bind].
    unfold arr_get.
    destruct (Z.ltb_spec (cur_map app) 0) as [| _]; [lia |].
    destruct (lookup_lt_is_Some_2 (mappings app) (Z.to_nat (cur_map app)))
      as [m ->].
    { rewrite (names_length _ Hnames). unfold NUM_MAPPINGS in Hcur. lia. }
    reflexivity.
  - destruct Hst as (Hsel & _).
    unfold update_review. rewrite Hq, Hnq, (read_nav_input_idle app H Hsel).
    cbn [mbind option_bind]. cbv zeta. rewrite Hkey. reflexivity.
  - destruct Hst as (Hsel & _).
    unfold update_browse, browse_signals.
    rewrite Hq, Hnq, (read_nav_input_idle app H Hsel).
    cbn [mbind option_bind]. cbv zeta. rewrite Hkey. reflexivity.
  - destruct Hst.
  - reflexivity.
Qed.

Lemma sample_app_consistent : consistent sample_app.
Proof.
  unfold consistent.
  refine (conj _ (conj _ (conj _ (conj _ (conj _ (conj _ (conj _ _))))))).
  - reflexivity.
  - split; apply Z.leb_le; reflexivity.
  - intros i x Hi Hx. destruct i as [| i].
    + injection Hx as <-.
      exists 5, (device_path "event3"), sample_pad, sample_id.
      vm_compute. reflexivity.
    + change (num_controllers sample_app) with 1 in Hi. lia.
  - vm_compute. reflexivity.
  - split; [apply Z.leb_le | apply Z.ltb_lt]; reflexivity.
  - left. reflexivity.
  - reflexivity.
  - change (state sample_app) with STATE_REVIEW. cbv iota.
    refine (conj (conj _ _) _);
      [apply Z.leb_le | apply Z.ltb_lt |]; reflexivity.
Qed.

(** X23.  A pass of the main loop, update then render, that finds no
    input pending (nothing on the selected controller and on
    THEJOYSTICK, no key press on a keyboard or on a registered slot) and
    no rescan due writes no file and leaves every field of the session
    as it is, [mapping_str] apart: on the review screen [render_review]
    rebuilds it to the line of the bindings, which have not changed; on
    every other screen the session is exactly as before.  (The blink
    phase and the frame buffer are not part of the session modelled
    here.) *)
Theorem idle_pass_changes_nothing (w : World) (s : Session) (f : Frame) :
  consistent (s_app s) ->
  f_queue f = [] -> f_nav_queue f = [] ->
  read_keyboard (f_keyboards f) = 0%nat ->
  (forall i, first_press (default [] (f_pads f !! i)) = None) ->
  elapsed (f_now f) (s_last_scan s) <= RESCAN_MS ->
  exists app',
    run_frames w s [f] = Some (mk_session app' (s_last_scan s), w)
    /\ (state app' = state (s_app s)
        /\ controllers app' = controllers (s_app s)
        /\ num_controllers app' = num_controllers (s_app s)
        /\ sel_ctrl app' = sel_ctrl (s_app s)
        /\ mappings app' = mappings (s_app s)
        /\ cur_map app' = cur_map (s_app s)
        /\ redo_single app' = redo_single (s_app s)
        /\ browser app' = browser (s_app s)
        /\ review_sel app' = review_sel (s_app s)
        /\ save_path app' = save_path (s_app s)
        /\ thec64_nav_idx app' = thec64_nav_idx (s_app s))
    /\ (state (s_app s) <> STATE_REVIEW -> app' = s_app s)
    /\ (state (s_app s) = STATE_REVIEW ->
        exists c,
          arr_get (controllers (s_app s)) (sel_ctrl (s_app s)) = Some c
          /\ mapping_str app' = mapping_line c (mappings (s_app s))).
Proof.
  intros H Hq Hnq Hkey Hpads Hscan.
  pose proof (idle_update w s f H Hq Hnq Hkey Hpads Hscan) as Hup.
  destruct s as [app last]. cbn [s_app s_last_scan] in *.
  pose proof H as (Hlen & Hnum & Hslots & Hnames & _ & _ & _ & Hst).
  cbn [run_frames s_app].
  destruct (state app) eqn:Hstate.
  3:{ (* review: the line is rebuilt *)
    rewrite Hup. cbn [mbind option_bind s_app s_last_scan].
    destruct Hst as (Hsel & _).
    destruct (slot_registered _ _ _ Hlen Hnum Hslots Hsel) as (c & Hc & Hreg).
    destruct (registered_facts c Hreg) as (_ & _ & _ & _ & Hguid & Hname).
    unfold render. rewrite Hstate.
    rewrite (build_mapping_string_value app c Hc Hguid Hname Hnames).
    cbn [mbind option_bind].
    exists (set_mapping_str (mapping_line c (mappings app)) app).
    split; [reflexivity |]. split; [repeat split; exact Hstate |].
    split; [intros Hne; exfalso; apply Hne; reflexivity |].
    intros _. exists c. split; [exact Hc | reflexivity]. }
  all: try (rewrite Hup; cbn [mbind option_bind s_app s_last_scan];
            unfold render; rewrite Hstate; cbn [mbind option_bind]).
  all: exists app; split; [reflexivity |];
    (split; [repeat split; exact Hstate |]);
    (split; [reflexivity | intros Hr; discriminate Hr]).
Qed.

(** On the sample session in review, whose [mapping_str] is still empty,
    an idle pass rebuilds the line and changes nothing else. *)
Lemma idle_pass_changes_nothing_witness :
  exists app',
    run_frames open_world (mk_session sample_app 0) [pad_frame []]
    = Some (mk_session app' 0, open_world)
    /\ mappings app' = mappings sample_app
    /\ review_sel app' = review_sel sample_app
    /\ mapping_str app' = mapping_line sample_controller sample_mappings.
Proof.
  destruct (idle_pass_changes_nothing open_world (mk_session sample_app 0)
              (pad_frame []))
    as (app' & Hrun & (_ & _ & _ & _ & Hm & _ & _ & _ & Hr & _) & _ & Hline).
  - exact sample_app_consistent.
  - reflexivity.
  - reflexivity.
  - reflexivity.
  - intros i. destruct i; reflexivity.
  - vm_compute. discriminate.
  - exists app'. split; [exact Hrun |]. split; [exact Hm |].
    split; [exact Hr |].
    destruct (Hline eq_refl) as (c & Hc & Hs).
    injection Hc as <-. exact Hs.
Defined.

(** ** Keyboard input *)

Lemma first_press_spec (queue : list input_event) (code : nat) :
  first_press queue = Some code
  <-> exists pre ev post,
        queue = (pre ++ ev :: post)%list
        /\ ev_type ev = EV_KEY /\ ev_value ev = 1 /\ ev_code ev = code
        /\ Forall (fun e => ~ (ev_type e = EV_KEY /\ ev_value e = 1)) pre.
Proof.
  induction queue as [| e rest IH]; cbn [first_press].
  - split; [discriminate |]. intros (pre & ev & post & H & _).
    destruct pre; discriminate H.
  - destruct (Nat.eqb_spec (ev_type e) EV_KEY) as [Ht | Ht],
             (Z.eqb_spec (ev_value e) 1) as [Hv | Hv]; cbn [andb].
    + split.
      * intros H. injection H as <-. exists [], e, rest. auto.
      * intros ([| p pre] & ev & post & H & Ht' & Hv' & Hc & Hpre).
        -- injection H as -> _. congruence.
        -- injection H as -> _. apply Forall_cons in Hpre as [Hp _].
           exfalso. apply Hp. auto.
    + rewrite IH. split.
      * intros (pre & ev & post & -> & Hrest).
        exists (e :: pre), ev, post. split; [reflexivity |].
        destruct Hrest as (A & B & C & D). repeat split; auto.
        constructor; [tauto | exact D].
      * intros ([| p pre] & ev & post & H & Ht' & Hv' & Hc & Hpre).
        -- injection H as -> _. congruence.
        -- injection H as -> ->. apply Forall_cons in Hpre as [_ Hpre].
           exists pre, ev, post. auto.
    + rewrite IH. split.
      * intros (pre & ev & post & -> & Hrest).
        exists (e :: pre), ev, post. split; [reflexivity |].
        destruct Hrest as (A & B & C & D). repeat split; auto.
        constructor; [tauto | exact D].
      * intros ([| p pre] & ev & post & H & Ht' & Hv' & Hc & Hpre).
        -- injection H as -> _. congruence.
        -- injection H as -> ->. apply Forall_cons in Hpre as [_ Hpre].
           exists pre, ev, post. auto.
    + rewrite IH. split.
      * intros (pre & ev & post & -> & Hrest).
        exists (e :: pre), ev, post. split; [reflexivity |].
        destruct Hrest as (A & B & C & D). repeat split; auto.
        constructor; [tauto | exact D].
      * intros ([| p pre] & ev & post & H & Ht' & Hv' & Hc & Hpre).
        -- injection H as -> _. congruence.
        -- injection H as -> ->. apply Forall_cons in Hpre as [_ Hpre].
           exists pre, ev, post. auto.
Qed.

(** X24.  [read_keyboard] returns the code of the first key press of
    the first keyboard, in registration order, that has one pending
    (the events before the press on that keyboard are not presses), and
    0 when no keyboard has a key press pending. *)
Theorem read_keyboard_first (keyboards : list (list input_event)) :
  ((forall queue, In queue keyboards -> first_press queue = None) ->
   read_keyboard keyboards = 0%nat)
  /\ (forall i queue code,
        keyboards !! i = Some queue ->
        (forall j qj, (j < i)%nat -> keyboards !! j = Some qj ->
                      first_press qj = None) ->
        (exists pre ev post,
           queue = (pre ++ ev :: post)%list
           /\ ev_type ev = EV_KEY /\ ev_value ev = 1 /\ ev_code ev = code
           /\ Forall (fun e => ~ (ev_type e = EV_KEY /\ ev_value e = 1)) pre) ->
        read_keyboard keyboards = code).
Proof.
  split.
  - induction keyboards as [| q rest IH]; intros Hnone; [reflexivity |].
    cbn [read_keyboard]. rewrite (Hnone q (or_introl eq_refl)).
    apply IH. intros q' Hq'. apply Hnone. right. exact Hq'.
  - induction keyboards as [| q rest IH]; intros i queue code Hi Hlow Hpress;
      [discriminate |].
    cbn [read_keyboard]. destruct i as [| i].
    + injection Hi as ->. apply first_press_spec in Hpress.
      rewrite Hpress. reflexivity.
    + rewrite (Hlow 0%nat q ltac:(lia) eq_refl).
      apply (IH i queue code Hi); [| exact Hpress].
      intros j qj Hj Hqj. apply (Hlow (S j) qj); [lia | exact Hqj].
Qed.

(** ** What was captured navigates *)

Lemma nav_loop_app (c : Controller) (ms : list MappingEntry)
      (a b : list input_event) :
  forall nav,
    nav_loop c ms (a ++ b) nav
    = (nav1 ← nav_loop c ms a nav; nav_loop c ms b nav1).
Proof.
  induction a as [| ev a IH]; intros nav; [reflexivity |].
  cbn [List.app nav_loop].
  destruct ((ev_type ev =? EV_KEY)%nat && (ev_value ev =? 1)).
  - destruct (btn_map c !! ev_code ev) as [idx |]; [| reflexivity].
    cbn [mbind option_bind]. destruct (idx <? 0); [apply IH |].
    destruct (ms !! 0%nat); [| reflexivity]. cbn [mbind option_bind].
    destruct (ms !! 4%nat); [| reflexivity]. cbn [mbind option_bind].
    destruct (ms !! 5%nat); [| reflexivity]. cbn [mbind option_bind].
    destruct (ms !! 7%nat); [| reflexivity]. cbn [mbind option_bind].
    apply IH.
  - destruct (ev_type ev =? EV_ABS)%nat; [| apply IH].
    destruct (ms !! 9%nat) as [m9 |]; [| reflexivity].
    cbn [mbind option_bind].
    destruct (nav_direction c m9 ev (n_dy nav)); [| reflexivity].
    cbn [mbind option_bind].
    destruct (ms !! 8%nat) as [m8 |]; [| reflexivity].
    cbn [mbind option_bind].
    destruct (nav_direction c m8 ev (n_dx nav)); [| reflexivity].
    cbn [mbind option_bind]. apply IH.
Qed.

(** A direction, once taken, is not given up inside one read loop. *)
Lemma nav_direction_sticky (c : Controller) (m : MappingEntry)
      (ev : input_event) (cur r : Z) :
  nav_direction c m ev cur = Some r -> cur <> 0 -> r <> 0.
Proof.
  unfold nav_direction. intros H Hcur.
  destruct (mapped_type m).
  - cbn [mbind option_bind] in H. injection H as <-. exact Hcur.
  - cbn [mbind option_bind] in H. injection H as <-. exact Hcur.
  - destruct (abs_map c !! ev_code ev) as [a |]; [| discriminate].
    cbn [mbind option_bind] in H.
    destruct (a =? mapped_index m).
    + destruct (axis_max c !! ev_code ev); [| discriminate].
      destruct (axis_min c !! ev_code ev); [| discriminate].
      destruct (axis_initial c !! ev_code ev); [| discriminate].
      cbn [mbind option_bind] in H. cbv zeta in H.
      repeat match type of H with
             | context [if ?b then _ else _] => destruct b
             end;
        cbn [mbind option_bind] in H; injection H as <-; lia.
    + cbn [mbind option_bind] in H. injection H as <-. exact Hcur.
  - cbn [mbind option_bind] in H.
    destruct (hat_map c !! ev_code ev) as [h |]; [| discriminate].
    cbn [mbind option_bind] in H.
    repeat match type of H with
           | context [if ?b then _ else _] => destruct b
           end;
      injection H as <-; lia.
Qed.

Lemma nav_loop_sticky (c : Controller) (ms : list MappingEntry)
      (queue : list input_event) :
  forall nav nav',
    nav_loop c ms queue nav = Some nav' ->
    (n_btn_a nav = 1 -> n_btn_a nav' = 1)
    /\ (n_btn_b nav = 1 -> n_btn_b nav' = 1)
    /\ (n_btn_start nav = 1 -> n_btn_start nav' = 1)
    /\ (n_dy nav <> 0 -> n_dy nav' <> 0)
    /\ (n_dx nav <> 0 -> n_dx nav' <> 0).
Proof.
  induction queue as [| ev q IH]; intros nav nav' H.
  - injection H as <-. auto.
  - cbn [nav_loop] in H.
    destruct ((ev_type ev =? EV_KEY)%nat && (ev_value ev =? 1)).
    + destruct (btn_map c !! ev_code ev) as [idx |]; [| discriminate].
      cbn [mbind option_bind] in H.
      destruct (idx <? 0); [apply IH; exact H |].
      destruct (ms !! 0%nat) as [m0 |]; [| discriminate].
      destruct (ms !! 4%nat) as [m4 |]; [| discriminate].
      destruct (ms !! 5%nat) as [m5 |]; [| discriminate].
      destruct (ms !! 7%nat) as [m7 |]; [| discriminate].
      cbn [mbind option_bind] in H. cbv zeta in H.
      destruct (IH _ _ H) as (A & B & S & Dy & Dx).
      cbn [n_btn_a n_btn_b n_btn_start n_dy n_dx] in A, B, S, Dy, Dx.
      refine (conj _ (conj _ (conj _ (conj Dy Dx)))).
      * intros E. apply A.
        destruct (bound_to_button m0 idx || bound_to_button m4 idx); auto.
      * intros E. apply B. destruct (bound_to_button m5 idx); auto.
      * intros E. apply S. destruct (bound_to_button m7 idx); auto.
    + destruct (ev_type ev =? EV_ABS)%nat; [| apply IH; exact H].
      destruct (ms !! 9%nat) as [m9 |]; [| discriminate].
      cbn [mbind option_bind] in H.
      destruct (nav_direction c m9 ev (n_dy nav)) as [dy |] eqn:Hdy;
        [| discriminate].
      cbn [mbind option_bind] in H.
      destruct (ms !! 8%nat) as [m8 |]; [| discriminate].
      cbn [mbind option_bind] in H.
      destruct (nav_direction c m8 ev (n_dx nav)) as [dx |] eqn:Hdx;
        [| discriminate].
      cbn [mbind option_bind] in H.
      destruct (IH _ _ H) as (A & B & S & Dy & Dx).
      cbn [n_btn_a n_btn_b n_btn_start n_dy n_dx] in A, B, S, Dy, Dx.
      refine (conj A (conj B (conj S (conj _ _)))).
      * intros E. apply Dy. exact (nav_direction_sticky _ _ _ _ _ Hdy E).
      * intros E. apply Dx. exact (nav_direction_sticky _ _ _ _ _ Hdx E).
Qed.

(** The capture loop stops at an event that captures by itself. *)
Lemma poll_capture_origin (c : Controller) (queue : list input_event) :
  forall (m m' : MappingEntry) (rest : list input_event),
    poll_mapping_input c queue m = Some (rest, m', true) ->
    exists pre ev,
      queue = (pre ++ ev :: rest)%list
      /\ poll_mapping_input c [ev] m = Some ([], m', true).
Proof.
  induction queue as [| ev q IH]; intros m m' rest H; [discriminate |].
  assert (Hskip : poll_mapping_input c q m = Some (rest, m', true) ->
                  exists pre ev0,
                    ev :: q = (pre ++ ev0 :: rest)%list
                    /\ poll_mapping_input c [ev0] m = Some ([], m', true)).
  { intros Hq. destruct (IH _ _ _ Hq) as (pre & ev0 & -> & Hev0).
    exists (ev :: pre), ev0. split; [reflexivity | exact Hev0]. }
  assert (Hnow : q = rest ->
                 poll_mapping_input c [ev] m = Some ([], m', true) ->
                 exists pre ev0,
                   ev :: q = (pre ++ ev0 :: rest)%list
                   /\ poll_mapping_input c [ev0] m = Some ([], m', true)).
  { intros -> Hev. exists [], ev. auto. }
  cbn [poll_mapping_input] in H, Hnow.
  destruct ((ev_type ev =? EV_KEY)%nat && (ev_value ev =? 1)).
  { destruct (btn_map c !! ev_code ev) as [idx |]; [| discriminate].
    cbn [mbind option_bind] in H, Hnow.
    destruct (0 <=? idx); [| apply Hskip; exact H].
    injection H as <- <-. apply Hnow; reflexivity. }
  destruct (ev_type ev =? EV_ABS)%nat; [| apply Hskip; exact H].
  destruct ((ABS_HAT0X <=? ev_code ev)%nat && (ev_code ev <=? ABS_HAT3Y)%nat
            && negb (ev_value ev =? 0)).
  { injection H as <- <-. apply Hnow; reflexivity. }
  destruct (abs_map c !! ev_code ev) as [aidx |]; [| discriminate].
  cbn [mbind option_bind] in H, Hnow.
  destruct (0 <=? aidx); [| apply Hskip; exact H].
  destruct (axis_max c !! ev_code ev); [| discriminate].
  destruct (axis_min c !! ev_code ev); [| discriminate].
  destruct (axis_initial c !! ev_code ev); [| discriminate].
  cbn [mbind option_bind] in H, Hnow. cbv zeta in H, Hnow.
  match type of H with
  | (if ?b then _ else _) = _ => destruct b; [| apply Hskip; exact H]
  end.
  injection H as <- <-. apply Hnow; reflexivity.
Qed.

Lemma thec64_loop_sticky (queue : list input_event) :
  forall st,
    let r := thec64_loop queue st in
    (n_btn_a (fst st) = 1 -> n_btn_a (fst r) = 1)
    /\ (n_btn_b (fst st) = 1 -> n_btn_b (fst r) = 1)
    /\ (n_btn_start (fst st) = 1 -> n_btn_start (fst r) = 1)
    /\ (n_dy (fst st) <> 0 -> n_dy (fst r) <> 0)
    /\ (n_dx (fst st) <> 0 -> n_dx (fst r) <> 0).
Proof.
  induction queue as [| ev q IH]; intros st; cbn zeta; [cbn; auto |].
  cbn [thec64_loop]. cbv zeta.
  repeat match goal with
         | |- context [if ?b then _ else _] => destruct b
         end;
    cbn [fst];
    match goal with
    | |- context [thec64_loop q ?s] =>
        destruct (IH s) as (A & B & S & Dy & Dx);
        cbn [fst n_btn_a n_btn_b n_btn_start n_dy n_dx] in A, B, S, Dy, Dx;
        cbv zeta in A, B, S, Dy, Dx
    end;
    refine (conj _ (conj _ (conj _ (conj _ _)))); intros E;
    first [apply A | apply B | apply S | apply Dy | apply Dx];
    first [exact E | reflexivity | lia].
Qed.

Lemma raises_sticky (k : nat) (m : MappingEntry) (nav nav' : Nav) :
  (n_btn_a nav = 1 -> n_btn_a nav' = 1)
  /\ (n_btn_b nav = 1 -> n_btn_b nav' = 1)
  /\ (n_btn_start nav = 1 -> n_btn_start nav' = 1)
  /\ (n_dy nav <> 0 -> n_dy nav' <> 0)
  /\ (n_dx nav <> 0 -> n_dx nav' <> 0) ->
  raises k m nav -> raises k m nav'.
Proof.
  intros (A & B & S & Dy & Dx). unfold raises.
  destruct (mapped_type m); [auto | | |].
  - intros (Ha & Hb & Hs). auto.
  - intros (Hy & Hx). auto.
  - intros (Hy & Hx). auto.
Qed.

(** The event that captures a binding raises the signal of its entry. *)
Lemma capture_event_raises (c : Controller) (ms : list MappingEntry)
      (ev : input_event) (m m' : MappingEntry) (k : nat) (nav nav1 : Nav) :
  poll_mapping_input c [ev] m = Some ([], m', true) ->
  hat_known c ev = true ->
  ms !! k = Some m' ->
  nav_loop c ms [ev] nav = Some nav1 ->
  raises k m' nav1.
Proof.
  intros Hp Hhat Hk Hn. cbn [poll_mapping_input nav_loop] in Hp, Hn.
  destruct ((ev_type ev =? EV_KEY)%nat && (ev_value ev =? 1)).
  { destruct (btn_map c !! ev_code ev) as [idx |]; [| discriminate].
    cbn [mbind option_bind] in Hp, Hn.
    destruct (Z.leb_spec 0 idx) as [Hidx |]; [| discriminate].
    destruct (Z.ltb_spec idx 0) as [| _]; [lia |].
    injection Hp as <-.
    destruct (ms !! 0%nat) as [m0 |] eqn:H0; [| discriminate].
    destruct (ms !! 4%nat) as [m4 |] eqn:H4; [| discriminate].
    destruct (ms !! 5%nat) as [m5 |] eqn:H5; [| discriminate].
    destruct (ms !! 7%nat) as [m7 |] eqn:H7; [| discriminate].
    cbn [mbind option_bind] in Hn. cbv zeta in Hn. injection Hn as <-.
    unfold raises. cbn [set_binding mapped_type n_btn_a n_btn_b n_btn_start].
    assert (Hb : bound_to_button (set_binding MAP_BUTTON idx m) idx = true).
    { unfold bound_to_button. cbn [set_binding mapped_type mapped_index].
      apply Z.eqb_refl. }
    refine (conj _ (conj _ _)).
    - intros [-> | ->].
      + rewrite Hk in H0. injection H0 as <-. rewrite Hb. reflexivity.
      + rewrite Hk in H4. injection H4 as <-. rewrite Hb, orb_true_r.
        reflexivity.
    - intros ->. rewrite Hk in H5. injection H5 as <-. rewrite Hb.
      reflexivity.
    - intros ->. rewrite Hk in H7. injection H7 as <-. rewrite Hb.
      reflexivity. }
  destruct (ev_type ev =? EV_ABS)%nat eqn:Eabs; [| discriminate].
  destruct (ms !! 9%nat) as [m9 |] eqn:H9; [| discriminate].
  cbn [mbind option_bind] in Hn.
  destruct (nav_direction c m9 ev (n_dy nav)) as [dy |] eqn:Hdy;
    [| discriminate].
  cbn [mbind option_bind] in Hn.
  destruct (ms !! 8%nat) as [m8 |] eqn:H8; [| discriminate].
  cbn [mbind option_bind] in Hn.
  destruct (nav_direction c m8 ev (n_dx nav)) as [dx |] eqn:Hdx;
    [| discriminate].
  cbn [mbind option_bind] in Hn. injection Hn as <-.
  assert (Hdir : forall cur r,
             nav_direction c m' ev cur = Some r ->
             mapped_type m' <> MAP_NONE /\ mapped_type m' <> MAP_BUTTON
             /\ r <> 0).
  { intros cur r Hr. unfold nav_direction in Hr.
    unfold hat_known in Hhat. rewrite Eabs in Hhat.
    fold (is_hat_code (ev_code ev)) in Hp.
    destruct (is_hat_code (ev_code ev) && negb (ev_value ev =? 0)) eqn:Ehat.
    - injection Hp as <-. apply andb_prop in Ehat as [Eh Ev].
      rewrite Eh in Hhat. cbn [andb negb orb] in Hhat.
      cbn [set_hat_binding mapped_type mapped_index] in Hr |- *.
      cbn [mbind option_bind] in Hr.
      destruct (hat_map c !! ev_code ev) as [h |]; [| discriminate].
      cbn [mbind option_bind] in Hr. apply Z.eqb_eq in Hhat. subst h.
      fold (hat_of_code (ev_code ev)) in Hr. rewrite Z.eqb_refl in Hr.
      apply negb_true_iff, Z.eqb_neq in Ev.
      refine (conj _ (conj _ _)); [discriminate | discriminate |].
      destruct (Z.ltb_spec (ev_value ev) 0) as [|];
        [injection Hr as <-; lia |].
      destruct (Z.ltb_spec 0 (ev_value ev)) as [|];
        [injection Hr as <-; lia | lia].
    - destruct (abs_map c !! ev_code ev) as [aidx |]; [| discriminate].
      cbn [mbind option_bind] in Hp.
      destruct (0 <=? aidx); [| discriminate].
      destruct (axis_max c !! ev_code ev) as [amax |]; [| discriminate].
      destruct (axis_min c !! ev_code ev) as [amin |]; [| discriminate].
      destruct (axis_initial c !! ev_code ev) as [ainit |]; [| discriminate].
      cbn [mbind option_bind] in Hp. cbv zeta in Hp.
      match type of Hp with
      | (if ?b then _ else _) = _ => destruct b eqn:Eth; [| discriminate]
      end.
      injection Hp as <-.
      cbn [set_binding mapped_type mapped_index] in Hr |- *.
      cbn [mbind option_bind] in Hr. rewrite Z.eqb_refl in Hr.
      cbv zeta in Hr.
      refine (conj _ (conj _ _)); [discriminate | discriminate |].
      apply orb_prop in Eth.
      match type of Hr with
      | context [if ?b then _ else _] => destruct b eqn:E1
      end; [cbn [mbind option_bind] in Hr; injection Hr as <-; lia |].
      destruct Eth as [Eth | Eth]; [| rewrite Eth in E1; discriminate].
      rewrite Eth in Hr. cbn [mbind option_bind] in Hr.
      injection Hr as <-. lia. }
  unfold raises. cbn [n_dy n_dx].
  destruct (mapped_type m') eqn:Ety.
  - exact I.
  - (* a button binding does not come from an axis event *)
    exfalso. fold (is_hat_code (ev_code ev)) in Hp.
    destruct (is_hat_code (ev_code ev) && negb (ev_value ev =? 0));
      [injection Hp as <-; discriminate Ety |].
    destruct (abs_map c !! ev_code ev) as [aidx |]; [| discriminate].
    cbn [mbind option_bind] in Hp.
    destruct (0 <=? aidx); [| discriminate].
    destruct (axis_max c !! ev_code ev); [| discriminate].
    destruct (axis_min c !! ev_code ev); [| discriminate].
    destruct (axis_initial c !! ev_code ev); [| discriminate].
    cbn [mbind option_bind] in Hp. cbv zeta in Hp.
    match type of Hp with
    | (if ?b then _ else _) = _ => destruct b; [| discriminate]
    end.
    injection Hp as <-. discriminate Ety.
  - split; intros ->.
    + rewrite Hk in H9. injection H9 as <-. apply (Hdir _ _ Hdy).
    + rewrite Hk in H8. injection H8 as <-. apply (Hdir _ _ Hdx).
  - split; intros ->.
    + rewrite Hk in H9. injection H9 as <-. apply (Hdir _ _ Hdy).
    + rewrite Hk in H8. injection H8 as <-. apply (Hdir _ _ Hdx).
Qed.

(** X25.  On the review and browser screens the selected pad navigates
    with what the wizard bound: when a batch of events (codes inside the
    tables, hat codes known to the pad) is one from which the capture loop
    takes the binding held by entry [k], [read_nav_input] on the same
    batch returns, and its outputs carry the signal of that entry:
    confirm for a button on entry 0 or 4, back for one on entry 5, start
    for one on entry 7, a vertical step for an axis or a hat on entry 9
    and a horizontal one on entry 8.  Later events of the batch and those
    of THEJOYSTICK do not take the signal back. *)
Theorem captured_input_navigates (app : App)
        (queue nav_queue rest : list input_event) (c : Controller)
        (entry entry' : MappingEntry) (k : nat) :
  consistent app ->
  state app = STATE_REVIEW \/ state app = STATE_BROWSE ->
  Forall (fun ev => event_in_tables ev = true) queue ->
  Forall (fun ev => hat_known c ev = true) queue ->
  arr_get (controllers app) (sel_ctrl app) = Some c ->
  poll_mapping_input c queue entry = Some (rest, entry', true) ->
  mappings app !! k = Some entry' ->
  exists nav got,
    read_nav_input app queue nav_queue = Some (nav, got)
    /\ raises k entry' nav.
Proof.
  intros (Hlen & Hnum & Hslots & Hnames & _ & Hnav & _ & Hst) Hstate
         HF Hhat Hc Hp Hk.
  assert (Hsel : 0 <= sel_ctrl app < num_controllers app).
  { destruct Hstate as [E | E]; rewrite E in Hst; apply Hst. }
  destruct (read_nav_input_total app queue nav_queue Hlen Hnum Hslots Hnames
              Hnav Hsel HF) as (nav & got & Hr).
  exists nav, got. split; [exact Hr |].
  unfold read_nav_input in Hr. rewrite Hc in Hr. cbn [mbind option_bind] in Hr.
  destruct (nav_loop c (mappings app) queue (mk_nav 0 0 0 0 0))
    as [nav0 |] eqn:Hloop; [| discriminate].
  cbn [mbind option_bind] in Hr.
  assert (H0 : raises k entry' nav0).
  { destruct (poll_capture_origin c queue entry entry' rest Hp)
      as (pre & ev & Hq & Hev).
    rewrite Hq in Hloop, Hhat.
    rewrite nav_loop_app in Hloop.
    destruct (nav_loop c (mappings app) pre (mk_nav 0 0 0 0 0))
      as [nav1 |]; [| discriminate].
    cbn [mbind option_bind] in Hloop.
    change (ev :: rest) with ([ev] ++ rest)%list in Hloop.
    rewrite nav_loop_app in Hloop.
    destruct (nav_loop c (mappings app) [ev] nav1) as [nav2 |] eqn:H2;
      [| discriminate].
    cbn [mbind option_bind] in Hloop.
    apply Forall_app in Hhat as [_ Hhat].
    apply Forall_cons in Hhat as [Hhev _].
    apply (raises_sticky k entry' nav2 nav0
             (nav_loop_sticky c (mappings app) rest nav2 nav0 Hloop)).
    exact (capture_event_raises c (mappings app) ev entry entry' k nav1 nav2
             Hev Hhev Hk H2). }
  unfold read_thec64_nav in Hr.
  destruct (thec64_nav_idx app <? 0).
  - cbn [mbind option_bind] in Hr. injection Hr as <- _. exact H0.
  - destruct (arr_get (controllers app) (thec64_nav_idx app));
      [| discriminate].
    cbn [mbind option_bind] in Hr.
    pose proof (thec64_loop_sticky nav_queue (nav0, false)) as Hs.
    cbv zeta in Hs. cbn [fst] in Hs.
    destruct (thec64_loop nav_queue (nav0, false)) as [nav' got'].
    cbn [mbind option_bind fst] in Hr, Hs. injection Hr as <- _.
    exact (raises_sticky k entry' nav0 nav' Hs H0).
Qed.

Lemma captured_input_navigates_witness :
  exists nav got,
    read_nav_input sample_app [mk_event EV_ABS ABS_Y 0; press 289] []
    = Some (nav, got)
    /\ raises 9 (set_binding MAP_AXIS 1
                   (default (mk_entry EmptyString EmptyString 0
                               EmptyString MAP_NONE 0 0)
                      (init_mappings !! 9%nat))) nav.
Proof.
  apply (captured_input_navigates sample_app
           [mk_event EV_ABS ABS_Y 0; press 289] [] [press 289]
           sample_controller
           (default (mk_entry EmptyString EmptyString 0
                       EmptyString MAP_NONE 0 0)
              (init_mappings !! 9%nat))).
  - unfold consistent.
    refine (conj _ (conj _ (conj _ (conj _ (conj _ (conj _ (conj _ _))))))).
    + reflexivity.
    + split; apply Z.leb_le; reflexivity.
    + intros i x Hi Hx. destruct i as [| i].
      * injection Hx as <-.
        exists 5, (device_path "event3"), sample_pad, sample_id.
        vm_compute. reflexivity.
      * change (num_controllers sample_app) with 1 in Hi. lia.
    + vm_compute. reflexivity.
    + split; [apply Z.leb_le | apply Z.ltb_lt]; reflexivity.
    + left. reflexivity.
    + reflexivity.
    + change (state sample_app) with STATE_REVIEW. cbv iota.
      refine (conj (conj _ _) _);
        [apply Z.leb_le | apply Z.ltb_lt |]; reflexivity.
  - left. reflexivity.
  - repeat constructor.
  - repeat constructor.
  - reflexivity.
  - vm_compute. reflexivity.
  - vm_compute. reflexivity.
Defined.
